(** * Omnifood / grain-route: the allocation engine

    A shallow embedding of
      - [Server/src/utils/freshness.js]              (freshness model),
      - [Server/src/services/simulationService.js]   (transfer application,
        baseline allocator [allocateRegular], scored allocator [allocateML]),
      - [Server/src/controllers/shipment.controller.js] (batch allocation and
        splitting of [createShipment]).

    Conventions of the embedding.
      - A JavaScript number that is finite is a rational [Q] and arithmetic is
        exact; where the source produces [Infinity] or [NaN] on data of the
        model (a missing field, a division by zero) the value is a [jsnum].
        The doubles of the source round: a stored number can differ from
        the rational in its last bit.  Where a decision of the source would
        depend on that bit (a freshness of exactly 0.005 rounded to two
        decimals, a sum of decimal quantities compared with a requested
        quantity) the statement is made with slack, or for whole numbers,
        on which the arithmetic of the source is exact.
      - A [Date] is its [getTime()] value, an integer number of milliseconds.
      - An optional document field is an [option]; [None] is a field absent
        from the lean document ([undefined]).
      - Identifiers (ObjectId, after [toString()]) are strings.
      - [Array.prototype.sort] is the stable insertion sort [js_sort].  On
        a comparator that is a consistent ordering of the elements every
        engine returns this list; on any other comparator the order is the
        engine's own and [js_sort] gives one of the possible results.
      - A function of the source that can throw on data of the model
        returns an [option] ([None] for the exception) or a sum with the
        error.
      - [Math.exp] and [haversineDistanceKm] are not rational functions: they
        are parameters of the sections that use them. *)

From Stdlib Require Import ZArith QArith Qround Qabs.
From Stdlib Require Import List String DecimalString Bool Lia Lqa.
From Stdlib Require Import Permutation Sorted.
Import ListNotations.

Local Open Scope Z_scope.
Local Open Scope Q_scope.

(* ------------------------------------------------------------------ *)
(** ** JavaScript numbers *)

(** A number that need not be finite: the results of divisions by zero and
    of arithmetic on [Infinity] are written out. *)
Inductive jsnum : Type :=
| Fin (q : Q)
| PosInf
| NegInf
| NaN.

(** [x > 0] on a JavaScript number. *)
Definition js_gt0 (x : jsnum) : bool :=
  match x with
  | Fin q => negb (Qle_bool q 0)
  | PosInf => true
  | NegInf => false
  | NaN => false
  end.

(** [Number.isFinite]. *)
Definition js_isFinite (x : jsnum) : bool :=
  match x with Fin _ => true | _ => false end.

Definition Qltb (a b : Q) : bool := negb (Qle_bool b a).

(** [Math.min] and [Math.max] on finite numbers. *)
Definition Qmin_b (a b : Q) : Q := if Qle_bool a b then a else b.
Definition Qmax_b (a b : Q) : Q := if Qle_bool a b then b else a.

(** Arithmetic on numbers that need not be finite (the sign of a zero is
    not tracked: a zero divisor counts as [+0]). *)
Definition js_neg (x : jsnum) : jsnum :=
  match x with
  | Fin a => Fin (- a)
  | PosInf => NegInf
  | NegInf => PosInf
  | NaN => NaN
  end.

Definition js_add (x y : jsnum) : jsnum :=
  match x, y with
  | NaN, _ | _, NaN => NaN
  | Fin a, Fin b => Fin (a + b)
  | PosInf, NegInf | NegInf, PosInf => NaN
  | PosInf, _ | _, PosInf => PosInf
  | NegInf, _ | _, NegInf => NegInf
  end.

(** An infinity scaled by a finite factor. *)
Definition js_scale_inf (inf : jsnum) (a : Q) : jsnum :=
  if Qeq_bool a 0 then NaN
  else if Qle_bool 0 a then inf else js_neg inf.

Definition js_mul (x y : jsnum) : jsnum :=
  match x, y with
  | NaN, _ | _, NaN => NaN
  | Fin a, Fin b => Fin (a * b)
  | Fin a, inf | inf, Fin a => js_scale_inf inf a
  | PosInf, PosInf | NegInf, NegInf => PosInf
  | PosInf, NegInf | NegInf, PosInf => NegInf
  end.

Definition js_div (x y : jsnum) : jsnum :=
  match x, y with
  | NaN, _ | _, NaN => NaN
  | Fin a, Fin b =>
      if Qeq_bool b 0 then
        if Qeq_bool a 0 then NaN
        else if Qle_bool 0 a then PosInf else NegInf
      else Fin (a / b)
  | Fin _, _ => Fin 0
  | inf, Fin b => if Qle_bool 0 b then inf else js_neg inf
  | _, _ => NaN
  end.

(** [x > y], [x >= y] and [x < y]; false when an operand is [NaN]. *)
Definition js_gt (x y : jsnum) : bool :=
  match x, y with
  | Fin a, Fin b => Qltb b a
  | Fin _, NegInf => true
  | PosInf, Fin _ => true
  | PosInf, NegInf => true
  | _, _ => false
  end.

Definition js_lt (x y : jsnum) : bool := js_gt y x.

Definition js_ge (x y : jsnum) : bool :=
  match x, y with
  | Fin a, Fin b => Qle_bool b a
  | Fin _, NegInf => true
  | PosInf, Fin _ => true
  | PosInf, PosInf => true
  | PosInf, NegInf => true
  | NegInf, NegInf => true
  | _, _ => false
  end.

(** [Math.min(1, x)] *)
Definition js_min1 (x : jsnum) : jsnum :=
  match x with
  | NaN => NaN
  | Fin a => Fin (Qmin_b 1 a)
  | PosInf => Fin 1
  | NegInf => NegInf
  end.


(** [Math.round]: the nearest integer, halves rounded towards +infinity. *)
Definition js_round (x : Q) : Z := Qfloor (x + (1 # 2)).

(** [Math.round(x * 100) / 100], on the exact value of [x]: the source
    rounds the double nearest to it, which at a value that ends in 5 in the
    third decimal can fall on the other side. *)
Definition round2 (x : Q) : Q := inject_Z (js_round (x * 100)) / 100.

(** [Math.round(x * 1000) / 1000]. *)
Definition round3 (x : Q) : Q := inject_Z (js_round (x * 1000)) / 1000.

(** [Math.floor] and the truncation [new Date(ms)] applies to its argument. *)
Definition js_floor (x : Q) : Z := Qfloor x.
Definition js_trunc (x : Q) : Z :=
  if Qle_bool 0 x then Qfloor x else Qceiling x.

(** [Array.prototype.sort(cmp)] is stable.  [le a b = true] stands for
    [cmp(a, b) <= 0] (a [NaN] result counts as [0]): [a] may stay before [b].
    The head is inserted into the sorted tail in front of the first element
    it may precede, so that equal elements keep their order.  When [cmp] is
    a consistent ordering of the elements (total and transitive on them)
    this is the one list a stable sort can return.  When it is not, the
    language leaves the order to the engine: the result is still a
    permutation of the input, and that alone is used of it. *)
Section Sort.
Context {A : Type} (le : A -> A -> bool).

Fixpoint js_insert (x : A) (l : list A) : list A :=
  match l with
  | [] => [x]
  | y :: l' => if le x y then x :: y :: l' else y :: js_insert x l'
  end.

Fixpoint js_sort (l : list A) : list A :=
  match l with
  | [] => []
  | x :: l' => js_insert x (js_sort l')
  end.
End Sort.

(* ------------------------------------------------------------------ *)
(** ** Data model *)

Definition Id := string.
Definition Time := Z.
Bind Scope Z_scope with Time.
Bind Scope string_scope with Id.

Inductive BatchStatus : Type := stored | in_transit | delivered | spoiled.

Definition BatchStatus_eqb (a b : BatchStatus) : bool :=
  match a, b with
  | stored, stored | in_transit, in_transit
  | delivered, delivered | spoiled, spoiled => true
  | _, _ => false
  end.

(** The text of a history note; the template strings of the source keep
    their arguments. *)
Inductive Note : Type :=
| NoteText (s : string)
| NoteSplitFrom (parent : Id)
| NoteReducedBy (kg : Q) (child : Id)
| NoteShipment (shipment : Id).

Record HistoryEntry : Type := mkHistoryEntry {
  h_time : Time;
  h_action : string;
  h_from : Id;
  h_to : Id;
  h_note : Note
}.

Record Batch : Type := mkBatch {
  _id : Id;
  parentBatchId : option Id;
  foodType : string;
  quantity_kg : Q;
  original_quantity_kg : Q;
  originNode : Id;
  currentNode : Id;
  status : BatchStatus;
  shelf_life_hours : option Q;
  manufacture_date : option Time;
  expiry_iso : option Time;
  createdAt : option Time;
  initial_temp_c : option Q;
  freshnessPct : option Q;
  history : list HistoryEntry;
  metadata : string
}.

Definition set_quantity_kg (b : Batch) (q : Q) : Batch :=
  mkBatch (_id b) (parentBatchId b) (foodType b) q (original_quantity_kg b)
          (originNode b) (currentNode b) (status b) (shelf_life_hours b)
          (manufacture_date b) (expiry_iso b) (createdAt b) (initial_temp_c b)
          (freshnessPct b) (history b) (metadata b).

Definition set_currentNode (b : Batch) (n : Id) : Batch :=
  mkBatch (_id b) (parentBatchId b) (foodType b) (quantity_kg b)
          (original_quantity_kg b) (originNode b) n (status b)
          (shelf_life_hours b) (manufacture_date b) (expiry_iso b)
          (createdAt b) (initial_temp_c b) (freshnessPct b) (history b)
          (metadata b).

Definition set_id (b : Batch) (i : Id) : Batch :=
  mkBatch i (parentBatchId b) (foodType b) (quantity_kg b)
          (original_quantity_kg b) (originNode b) (currentNode b) (status b)
          (shelf_life_hours b) (manufacture_date b) (expiry_iso b)
          (createdAt b) (initial_temp_c b) (freshnessPct b) (history b)
          (metadata b).

Definition set_history (b : Batch) (h : list HistoryEntry) : Batch :=
  mkBatch (_id b) (parentBatchId b) (foodType b) (quantity_kg b)
          (original_quantity_kg b) (originNode b) (currentNode b) (status b)
          (shelf_life_hours b) (manufacture_date b) (expiry_iso b)
          (createdAt b) (initial_temp_c b) (freshnessPct b) h (metadata b).

(* ------------------------------------------------------------------ *)
(** ** utils/freshness.js *)

(** The default value of the [avgTemp] parameter. *)
Definition defaultAvgTemp : Q := 25.

(** [1 + Math.max(0, (avgTemp - 20) / 10) * 0.5] *)
Definition tempFactor (avgTemp : Q) : Q :=
  1 + Qmax_b 0 ((avgTemp - 20) / 10) * (1 # 2).

(** [(currentDate - manufactureDate) / (1000 * 60 * 60)] *)
Definition elapsedHours (manufactureDate currentDate : Time) : Q :=
  inject_Z (currentDate - manufactureDate) / 3600000.

Definition calculateFreshnessPct (batch : Batch) (currentDate : Time)
           (avgTemp : Q) : Q :=
  match manufacture_date batch with
  | None => 100
  | Some manufactureDate =>
      match shelf_life_hours batch with
      | None => 100
      | Some life =>
          if Qle_bool life 0 then 100
          else
            let freshnessPct :=
              Qmax_b 0 (100 - (elapsedHours manufactureDate currentDate / life)
                              * 100 * tempFactor avgTemp) in
            round2 freshnessPct
      end
  end.

Definition isSpoiled (batch : Batch) (currentDate : Time) (avgTemp : Q) : bool :=
  Qle_bool (calculateFreshnessPct batch currentDate avgTemp) 0.

(** Without a manufacture date [new Date(undefined)] is an invalid date and
    without a shelf life [undefined / tempFactor] is [NaN]: [Math.max(0, NaN)]
    is [NaN].  (A field stored as [null] would count as 0 in this arithmetic;
    either way the result is not [Infinity], and the allocators only reach
    this function through [safeRemainingShelfLifeHours], which tests both
    fields first.) *)
Definition remainingShelfLifeHours (batch : Batch) (currentDate : Time)
           (avgTemp : Q) : jsnum :=
  let freshness := calculateFreshnessPct batch currentDate avgTemp in
  if Qle_bool freshness 0 then Fin 0
  else
    match manufacture_date batch, shelf_life_hours batch with
    | Some manufactureDate, Some life =>
        let totalLifeWithTemp := life / tempFactor avgTemp in
        Fin (Qmax_b 0 (totalLifeWithTemp
                       - elapsedHours manufactureDate currentDate))
    | _, _ => NaN
    end.

(** The wrapper of simulationService.js; [remainingShelfLifeHours] is called
    with its default temperature. *)
Definition safeRemainingShelfLifeHours (batch : Batch) (currentDate : Time)
  : jsnum :=
  let hasLife :=
    match shelf_life_hours batch with
    | Some life => negb (Qle_bool life 0)
    | None => false
    end in
  let hasManufacture :=
    match manufacture_date batch with Some _ => true | None => false end in
  if negb hasLife || negb hasManufacture then PosInf
  else
    let hours := remainingShelfLifeHours batch currentDate defaultAvgTemp in
    if js_isFinite hours then hours else PosInf.

(** The formulas in the words of the specification (section 4.1). *)
Definition clamp (lo hi x : Q) : Q := Qmax_b lo (Qmin_b hi x).

Definition spec_freshnessPct (shelfLifeHours elapsed avgTempC : Q) : Q :=
  round2 (clamp 0 100
            (100 - (elapsed / shelfLifeHours) * 100 * tempFactor avgTempC)).

Definition has_perishability (b : Batch) : bool :=
  match manufacture_date b, shelf_life_hours b with
  | Some _, Some life => negb (Qle_bool life 0)
  | _, _ => false
  end.

Definition spec_remainingShelfLifeHours (b : Batch) (atTime : Time)
           (avgTempC : Q) : jsnum :=
  match manufacture_date b, shelf_life_hours b with
  | Some m, Some life =>
      if Qle_bool life 0 then PosInf
      else Fin (Qmax_b 0 (life / tempFactor avgTempC - elapsedHours m atTime))
  | _, _ => PosInf
  end.

Definition jsnum_eq (x y : jsnum) : Prop :=
  match x, y with
  | Fin a, Fin b => a == b
  | PosInf, PosInf => True
  | NegInf, NegInf => True
  | NaN, NaN => True
  | _, _ => False
  end.

(* ------------------------------------------------------------------ *)
(** ** simulationService.js: applying warehouse transfers *)

(** A suggestion of the external planner.  [source_mongoId] is
    [suggestion?.source?.mongoId?.toString?.() ?? null]. *)
Record TransferSuggestion : Type := mkTransferSuggestion {
  ts_type : option string;
  source_mongoId : option Id;
  target_mongoId : option Id;
  suggested_quantity_kg : option Q;
  ts_distance_km : option Q
}.

Record AppliedTransfer : Type := mkAppliedTransfer {
  at_type : string;
  sourceWarehouseId : Id;
  targetWarehouseId : Id;
  at_suggested_quantity_kg : Q;
  applied_quantity_kg : Q;
  at_distance_km : option Q
}.

Definition coercePositiveNumber (value : option Q) : option Q :=
  match value with
  | Some n => if Qltb 0 n then Some n else None
  | None => None
  end.

(** Truthiness of an identifier string: the empty string is falsy. *)
Definition truthy_id (i : option Id) : option Id :=
  match i with
  | Some s => if String.eqb s "" then None else Some s
  | None => None
  end.

Definition string_of_nat (n : nat) : string :=
  NilZero.string_of_uint (Nat.to_uint n).

(** The elements of an array with their positions: a reference to an object
    of [working] is its index. *)
Definition indexed {A : Type} (l : list A) : list (nat * A) :=
  combine (seq 0 (List.length l)) l.

(** [l[i] = x] (nothing happens out of range, which no caller reaches). *)
Fixpoint update_at {A : Type} (l : list A) (i : nat) (x : A) : list A :=
  match l, i with
  | [], _ => []
  | _ :: l', O => x :: l'
  | y :: l', S i' => y :: update_at l' i' x
  end.

(** The comparator of [takeFromSource]: closer to expiry first, then larger
    lots first. *)
Definition transfer_cmp_le (when : Time) (a b : nat * Batch) : bool :=
  let aLife := safeRemainingShelfLifeHours (snd a) when in
  let bLife := safeRemainingShelfLifeHours (snd b) when in
  let byQuantity := Qle_bool (quantity_kg (snd b)) (quantity_kg (snd a)) in
  match aLife, bLife with
  | Fin x, Fin y => if Qeq_bool x y then byQuantity else Qle_bool x y
  | Fin _, PosInf => true
  | PosInf, Fin _ => false
  | PosInf, PosInf => byQuantity
  | _, _ => true
  end.

Fixpoint takeLoop (candidates : list (nat * Batch)) (remaining : Q)
  : list (nat * Q) :=
  match candidates with
  | [] => []
  | (i, batch) :: rest =>
      if Qle_bool remaining 0 then []
      else
        let available := quantity_kg batch in
        if Qle_bool available 0 then takeLoop rest remaining
        else
          let takeQty := Qmin_b available remaining in
          (i, takeQty) :: takeLoop rest (remaining - takeQty)
  end.

Definition takeFromSource (working : list Batch) (currentDate : Time)
           (sourceId : Id) (qtyNeeded : Q) : list (nat * Q) :=
  if Qle_bool qtyNeeded 0 then []
  else
    let candidates :=
      js_sort (transfer_cmp_le currentDate)
        (filter (fun ib : nat * Batch =>
                   let b := snd ib in
                   BatchStatus_eqb (status b) stored
                   && negb (String.eqb (currentNode b) "")
                   && String.eqb (currentNode b) sourceId
                   && Qltb 0 (quantity_kg b))
                (indexed working)) in
    takeLoop candidates qtyNeeded.

(** [1e-9] *)
Definition split_epsilon : Q := 1 # 1000000000.

(** The child pushed by a split: [{...batch, _id, currentNode, quantity_kg}]
    where [batch] already holds the reduced quantity. *)
Definition transferChild (batch : Batch) (splitSeq : nat) (targetId : Id)
           (takeQty : Q) : Batch :=
  set_quantity_kg
    (set_currentNode
       (set_id batch (_id batch ++ "-xfer-" ++ string_of_nat splitSeq)%string)
       targetId)
    takeQty.

(** One iteration of [for (const { batch, takeQty } of picked)]. *)
Definition applyPick (targetId : Id) (st : list Batch * nat) (p : nat * Q)
  : list Batch * nat :=
  let '(working, splitSeq) := st in
  let '(i, takeQty) := p in
  match nth_error working i with
  | None => st
  | Some batch =>
      let available := quantity_kg batch in
      if Qle_bool takeQty 0 || Qle_bool available 0 then st
      else if Qle_bool (available - split_epsilon) takeQty then
        (update_at working i (set_currentNode batch targetId), splitSeq)
      else
        let batch' := set_quantity_kg batch (available - takeQty) in
        let splitSeq' := S splitSeq in
        (update_at working i batch'
           ++ [transferChild batch' splitSeq' targetId takeQty],
         splitSeq')
  end.

Definition Qsum (l : list Q) : Q := fold_left Qplus l 0.

(** One iteration of [for (const suggestion of transfers)]. *)
Definition applySuggestion (currentDate : Time)
           (st : list Batch * nat * list AppliedTransfer)
           (suggestion : TransferSuggestion)
  : list Batch * nat * list AppliedTransfer :=
  let '(working, splitSeq, appliedTransfers) := st in
  match truthy_id (source_mongoId suggestion),
        truthy_id (target_mongoId suggestion),
        coercePositiveNumber (suggested_quantity_kg suggestion) with
  | Some sourceId, Some targetId, Some suggestedQty =>
      if String.eqb sourceId targetId then st
      else
        let picked := takeFromSource working currentDate sourceId suggestedQty in
        let totalTaken := Qsum (map snd picked) in
        if Qle_bool totalTaken 0 then st
        else
          let '(working', splitSeq') :=
            fold_left (applyPick targetId) picked (working, splitSeq) in
          (working', splitSeq',
           appliedTransfers ++
             [mkAppliedTransfer
                (match ts_type suggestion with
                 | Some t => if String.eqb t "" then "warehouse_to_warehouse"
                             else t
                 | None => "warehouse_to_warehouse"
                 end)
                sourceId targetId suggestedQty (round2 totalTaken)
                (ts_distance_km suggestion)])
  | _, _, _ => st
  end.

(** [transfers] is [None] when the planner's answer holds no array. *)
Definition applyWarehouseTransfersToBatches (batches : list Batch)
           (transfers : option (list TransferSuggestion)) (currentDate : Time)
  : list Batch * list AppliedTransfer :=
  match transfers with
  | None | Some [] => (batches, [])
  | Some suggestions =>
      let '(working, _, appliedTransfers) :=
        fold_left (applySuggestion currentDate) suggestions (batches, O, []) in
      (working, appliedTransfers)
  end.

(* ------------------------------------------------------------------ *)
(** ** shipment.controller.js: batch allocation of [createShipment] *)

Inductive ApiMessage : Type :=
| MsgInvalidItem
| MsgInsufficientInventory (food : string) (requested available : Q).

Inductive ApiError : Type := mkApiError (statusCode : Z) (message : ApiMessage).

(** An item of the request body; [si_quantity_kg] is [None] when
    [typeof quantity_kg !== "number"]. *)
Record ShipmentItem : Type := mkShipmentItem {
  si_foodType : string;
  si_quantity_kg : option Q
}.

Record AllocatedBatch : Type := mkAllocatedBatch {
  ab_batchId : Id;
  ab_quantity : Q;
  isSplit : bool;
  ab_parentBatchId : option Id
}.

(** The state of the allocation loops: the collection of batch documents,
    [allocatedBatches], [allBatchIds] and the number of documents created. *)
Record ShipmentState : Type := mkShipmentState {
  store : list Batch;
  allocatedBatches : list AllocatedBatch;
  allBatchIds : list Id;
  created : nat
}.

(** [sort({ manufacture_date: 1 })]: ascending, documents without the field
    first; ties keep the order of the collection. *)
Definition manufacture_le (a b : Batch) : bool :=
  match manufacture_date a, manufacture_date b with
  | None, _ => true
  | Some _, None => false
  | Some x, Some y => (x <=? y)%Z
  end.

(** [Batch.find({ currentNode, foodType, status: "stored",
    quantity_kg: { $gt: 0 } }).sort({ manufacture_date: 1 })] *)
Definition findAvailableBatches (docs : list Batch) (fromNodeId : Id)
           (food : string) : list Batch :=
  js_sort manufacture_le
    (filter (fun b => String.eqb (currentNode b) fromNodeId
                      && String.eqb (foodType b) food
                      && BatchStatus_eqb (status b) stored
                      && Qltb 0 (quantity_kg b))
            docs).

(** [batch.save()]: the document with this [_id] is replaced. *)
Definition saveBatch (docs : list Batch) (batch : Batch) : list Batch :=
  map (fun b => if String.eqb (_id b) (_id batch) then batch else b) docs.

Section CreateShipment.
(** The identifier MongoDB gives to the n-th created document, and the
    value of [new Date()]. *)
Variable newObjectId : nat -> Id.
Variable now : Time.

(** The document made by [Batch.create] for a split of [remainingQty]. *)
Definition shipmentChild (batch : Batch) (childId : Id) (remainingQty : Q)
  : Batch :=
  mkBatch childId (Some (_id batch)) (foodType batch) remainingQty
          (original_quantity_kg batch) (originNode batch)
          (currentNode batch) stored (shelf_life_hours batch)
          (manufacture_date batch) (expiry_iso batch) (Some now)
          (initial_temp_c batch) (freshnessPct batch)
          (history batch ++
             [mkHistoryEntry now "split" (currentNode batch)
                             (currentNode batch)
                             (NoteSplitFrom (_id batch))])
          (metadata batch).

(** The parent after [batch.quantity_kg -= remainingQty] and the push on
    its history. *)
Definition shipmentParent (batch : Batch) (childId : Id) (remainingQty : Q)
  : Batch :=
  set_history
    (set_quantity_kg batch (quantity_kg batch - remainingQty))
    (history batch ++
       [mkHistoryEntry now "split" (currentNode batch) (currentNode batch)
                       (NoteReducedBy remainingQty childId)]).

(** [for (const batch of availableBatches)].  The subtractions are exact:
    they are those of the source on whole numbers of kilograms. *)
Fixpoint shipmentLoop (availableBatches : list Batch) (st : ShipmentState)
         (remainingQty : Q) : ShipmentState * Q :=
  match availableBatches with
  | [] => (st, remainingQty)
  | batch :: rest =>
      if Qle_bool remainingQty 0 then (st, remainingQty)
      else if Qle_bool remainingQty (quantity_kg batch) then
        if Qeq_bool (quantity_kg batch) remainingQty then
          shipmentLoop rest
            (mkShipmentState
               (store st)
               (allocatedBatches st ++
                  [mkAllocatedBatch (_id batch) remainingQty false None])
               (allBatchIds st ++ [_id batch])
               (created st))
            0
        else
          let childId := newObjectId (created st) in
          let child := shipmentChild batch childId remainingQty in
          let parent := shipmentParent batch childId remainingQty in
          shipmentLoop rest
            (mkShipmentState
               (saveBatch (store st ++ [child]) parent)
               (allocatedBatches st ++
                  [mkAllocatedBatch childId remainingQty true
                                    (Some (_id batch))])
               (allBatchIds st ++ [childId])
               (S (created st)))
            0
      else
        shipmentLoop rest
          (mkShipmentState
             (store st)
             (allocatedBatches st ++
                [mkAllocatedBatch (_id batch) (quantity_kg batch) false None])
             (allBatchIds st ++ [_id batch])
             (created st))
          (remainingQty - quantity_kg batch)
  end.

(** One iteration of [for (const item of items)]. *)
Definition allocateShipmentItem (fromNodeId : Id) (st : ShipmentState)
           (item : ShipmentItem) : ApiError + ShipmentState :=
  match si_quantity_kg item with
  | None => inl (mkApiError 400 MsgInvalidItem)
  | Some quantity =>
      if String.eqb (si_foodType item) "" || Qle_bool quantity 0 then
        inl (mkApiError 400 MsgInvalidItem)
      else
        let availableBatches :=
          findAvailableBatches (store st) fromNodeId (si_foodType item) in
        let '(st', remainingQty) :=
          shipmentLoop availableBatches st quantity in
        if Qltb 0 remainingQty then
          inl (mkApiError 400
                 (MsgInsufficientInventory (si_foodType item) quantity
                                           (quantity - remainingQty)))
        else inr st'
  end.

(** The allocation phase of [createShipment]: the first error aborts. *)
Fixpoint allocateShipmentItems (fromNodeId : Id) (st : ShipmentState)
         (items : list ShipmentItem) : ApiError + ShipmentState :=
  match items with
  | [] => inr st
  | item :: rest =>
      match allocateShipmentItem fromNodeId st item with
      | inl e => inl e
      | inr st' => allocateShipmentItems fromNodeId st' rest
      end
  end.
End CreateShipment.

(* ------------------------------------------------------------------ *)
(** ** simulationService.js: nodes, requests and allocations *)

(** [location.coordinates] is [[lon, lat]]. *)
Record Coordinates : Type := mkCoordinates { lat : Q; lon : Q }.

Record Node : Type := mkNode {
  node_id : Id;
  node_name : string;
  node_type : string;
  node_state : option string;
  node_district : option string;
  node_regionId : option string;
  capacity_kg : option Q;
  location : Coordinates
}.

(** A document of the NGO collection. *)
Record NgoOrg : Type := mkNgoOrg { org_id : Id; org_name : string }.

Record RequestItem : Type := mkRequestItem {
  item_foodType : string;
  required_kg : Q
}.

Record Request : Type := mkRequest {
  requestID : Id;
  requesterNode : Id;
  items : list RequestItem;
  req_dispatchTime : option Time;
  createdOn : option Time
}.

Record UsedBatch : Type := mkUsedBatch {
  batchId : Id;
  quantity : Q;
  freshness : Q
}.

Inductive Strategy : Type := regular | ml.

Record Allocation : Type := mkAllocation {
  requestId : Id;
  a_foodType : string;
  a_required_kg : Q;
  allocated_kg : Q;
  warehouse : Id;
  warehouseName : string;
  distance_km : Q;
  batches : list UsedBatch;
  strategy : Strategy;
  dispatchTime : Time
}.

(** [Array.prototype.findIndex]; [None] is [-1]. *)
Fixpoint findIndex {A : Type} (p : A -> bool) (l : list A) : option nat :=
  match l with
  | [] => None
  | x :: l' =>
      if p x then Some O
      else match findIndex p l' with
           | Some i => Some (S i)
           | None => None
           end
  end.

Fixpoint remove_at {A : Type} (i : nat) (l : list A) : list A :=
  match l, i with
  | [], _ => []
  | _ :: l', O => l'
  | x :: l', S i' => x :: remove_at i' l'
  end.

(** [l.splice(idx, 1)]; at [-1] the last element is removed. *)
Definition splice1 {A : Type} (l : list A) (idx : option nat) : list A :=
  match idx with
  | Some i => remove_at i l
  | None => removelast l
  end.

(** The greedy loop shared by the two allocators
    ([for (const batch of availableBatches)]).  [None] is the [TypeError] of
    [unusedBatches[-1].quantity_kg]. *)
Fixpoint consumeBatches (freshnessOf : Batch -> Q) (candidates : list Batch)
         (unusedBatches : list Batch) (remaining : Q)
         (usedBatches : list UsedBatch)
  : option (list Batch * Q * list UsedBatch) :=
  match candidates with
  | [] => Some (unusedBatches, remaining, usedBatches)
  | batch :: rest =>
      if Qle_bool remaining 0 then Some (unusedBatches, remaining, usedBatches)
      else
        let allocatedQty := Qmin_b (quantity_kg batch) remaining in
        let usedBatches' :=
          usedBatches
            ++ [mkUsedBatch (_id batch) allocatedQty (freshnessOf batch)] in
        let remaining' := remaining - allocatedQty in
        let idx :=
          findIndex (fun b => String.eqb (_id b) (_id batch)) unusedBatches in
        if Qle_bool (quantity_kg batch) allocatedQty then
          consumeBatches freshnessOf rest (splice1 unusedBatches idx)
                         remaining' usedBatches'
        else
          match idx with
          | None => None
          | Some i =>
              match nth_error unusedBatches i with
              | None => None
              | Some b =>
                  consumeBatches freshnessOf rest
                    (update_at unusedBatches i
                       (set_quantity_kg b (quantity_kg b - allocatedQty)))
                    remaining' usedBatches'
              end
          end
  end.

(** A loop whose body may throw. *)
Fixpoint foldM {S A : Type} (f : S -> A -> option S) (l : list A) (s : S)
  : option S :=
  match l with
  | [] => Some s
  | x :: l' =>
      match f s x with
      | Some s' => foldM f l' s'
      | None => None
      end
  end.

(** [request.dispatchTime ?? request.createdOn ?? new Date()] *)
Definition requestDispatchTime (now : Time) (request : Request) : Time :=
  match req_dispatchTime request with
  | Some t => t
  | None => match createdOn request with
            | Some t => t
            | None => now
            end
  end.

(** The clamp to the window [[dispatchTimeFloor, dispatchTimeCeil]]. *)
Definition clampDispatchTime (dispatchTimeFloor dispatchTimeCeil : option Time)
           (t : Time) : Time :=
  let t1 := match dispatchTimeFloor with
            | Some f => if (t <? f)%Z then f else t
            | None => t
            end in
  match dispatchTimeCeil with
  | Some c => if (c <? t1)%Z then c else t1
  | None => t1
  end.

(** [b.manufacture_date || b.createdAt || null] *)
Definition availabilityTime (b : Batch) : option Time :=
  match manufacture_date b with
  | Some m => Some m
  | None => createdAt b
  end.

Definition availableBy (b : Batch) (dispatch : Time) : bool :=
  match availabilityTime b with
  | Some availMs => (availMs <=? dispatch)%Z
  | None => true
  end.

(** [distanceKm / 40 + Math.floor(distanceKm / 40 / 4) * 0.5] *)
Definition estimateTravelHours (distanceKm : Q) : Q :=
  let avgSpeedKmh := 40 in
  let baseHours := distanceKm / avgSpeedKmh in
  let breaks := inject_Z (js_floor (baseHours / 4)) * (1 # 2) in
  baseHours + breaks.

(** [new Date(dispatchTime.getTime() + travelHours * 3600 * 1000)] *)
Definition deliveryTimeOf (dispatch : Time) (travelHours : Q) : Time :=
  js_trunc (inject_Z dispatch + travelHours * 3600 * 1000).

(* ------------------------------------------------------------------ *)
(** ** simulationService.js: [allocateRegular] *)

(** The predicate of [unusedBatches.some(...)]. *)
Definition eligibleAtDispatch (foodType0 : string) (warehouseId : Id)
           (dispatch : Time) (b : Batch) : bool :=
  if negb (String.eqb (foodType b) foodType0) then false
  else if negb (BatchStatus_eqb (status b) stored) then false
  else if negb (String.eqb (currentNode b) warehouseId) then false
  else if negb (availableBy b dispatch) then false
  else
    let remainingHours := safeRemainingShelfLifeHours b dispatch in
    if negb (js_gt0 remainingHours) then false
    else
      let freshnessAtDispatch :=
        calculateFreshnessPct b dispatch defaultAvgTemp in
      Qltb 0 freshnessAtDispatch.

Definition hasEligible (unusedBatches : list Batch) (foodType0 : string)
           (dispatch : Time) (w : Node) : bool :=
  existsb (eligibleAtDispatch foodType0 (node_id w) dispatch) unusedBatches.

(** [manufacture_date ?? createdAt ?? 0], the tie-break of the baseline. *)
Definition tieBreakTime (b : Batch) : Time :=
  match manufacture_date b with
  | Some m => m
  | None => match createdAt b with
            | Some c => c
            | None => 0%Z
            end
  end.

(** The comparator of the baseline on [{batch, remainingHours, ...}]. *)
Definition regular_cmp_le (a b : Batch * jsnum * Q) : bool :=
  let '(batchA, ra, _) := a in
  let '(batchB, rb, _) := b in
  let byTime := (tieBreakTime batchA <=? tieBreakTime batchB)%Z in
  match ra, rb with
  | Fin x, Fin y => if negb (Qeq_bool x y) then Qle_bool x y else byTime
  | _, _ => byTime
  end.

(** The chain [filter . map . filter . sort . map] that builds
    [availableBatches].  The comparator is a consistent ordering when all
    the candidates are perishable (or none is).  On candidates of both
    kinds it is not transitive: a lot without shelf life is compared by
    manufacture time with every lot, two perishable lots by remaining shelf
    life; the order then depends on the engine, and the statements on the
    order of consumption are made for perishable candidates only. *)
Definition regularAvailableBatches (unusedBatches : list Batch)
           (foodType0 : string) (warehouseId : Id) (dispatch : Time)
  : list Batch :=
  map (fun x : Batch * jsnum * Q => fst (fst x))
    (js_sort regular_cmp_le
       (filter (fun x : Batch * jsnum * Q =>
                  let '(_, remainingHours, freshnessAtDispatch) := x in
                  js_gt0 remainingHours && Qltb 0 freshnessAtDispatch)
          (map (fun b => (b, safeRemainingShelfLifeHours b dispatch,
                          calculateFreshnessPct b dispatch defaultAvgTemp))
             (filter (fun b => String.eqb (foodType b) foodType0
                               && String.eqb (currentNode b) warehouseId
                               && BatchStatus_eqb (status b) stored
                               && availableBy b dispatch)
                unusedBatches)))).

(** [batch.freshnessPct || 100] *)
Definition storedFreshnessOr100 (b : Batch) : Q :=
  match freshnessPct b with
  | Some f => if Qeq_bool f 0 then 100 else f
  | None => 100
  end.

Section AllocateRegular.
(** [haversineDistanceKm] of utils/geoHelpers.js, the documents returned by
    [NGO.find().lean()] and the value of [new Date()]. *)
Variable haversineDistanceKm : Coordinates -> Coordinates -> Q.
Variable ngoOrgs : list NgoOrg.
Variable now : Time.

(** [warehouses.map(...).sort((a, b) => a.distance - b.distance)] *)
Definition warehousesByDistanceFrom (ngoNode : Node) (warehouses : list Node)
  : list (Node * Q) :=
  js_sort (fun a b : Node * Q => Qle_bool (snd a) (snd b))
    (map (fun w => (w, haversineDistanceKm (location ngoNode) (location w)))
         warehouses).

(** The body of [for (const item of request.items)]. *)
Definition allocateRegularItem (request : Request) (dispatch : Time)
           (warehousesByDistance : list (Node * Q))
           (st : list Batch * list Allocation) (item : RequestItem)
  : option (list Batch * list Allocation) :=
  let '(unusedBatches, allocations) := st in
  match find (fun wd : Node * Q =>
                hasEligible unusedBatches (item_foodType item) dispatch
                            (fst wd))
             warehousesByDistance with
  | None => Some st
  | Some (sourceWarehouse, sourceDistanceKm) =>
      let availableBatches :=
        regularAvailableBatches unusedBatches (item_foodType item)
                                (node_id sourceWarehouse) dispatch in
      match consumeBatches storedFreshnessOr100 availableBatches
                           unusedBatches (required_kg item) [] with
      | None => None
      | Some (unusedBatches', remaining, usedBatches) =>
          let allocatedKg := required_kg item - remaining in
          if Qltb 0 allocatedKg then
            Some (unusedBatches',
                  allocations ++
                    [mkAllocation (requestID request) (item_foodType item)
                                  (required_kg item) allocatedKg
                                  (node_id sourceWarehouse)
                                  (node_name sourceWarehouse)
                                  sourceDistanceKm usedBatches regular
                                  dispatch])
          else Some (unusedBatches', allocations)
      end
  end.

(** The body of [for (const request of requests)]. *)
Definition allocateRegularRequest
           (dispatchTimeFloor dispatchTimeCeil : option Time)
           (warehouses ngos : list Node)
           (st : list Batch * list Allocation) (request : Request)
  : option (list Batch * list Allocation) :=
  let dispatch :=
    clampDispatchTime dispatchTimeFloor dispatchTimeCeil
                      (requestDispatchTime now request) in
  match find (fun org => String.eqb (org_id org) (requesterNode request))
             ngoOrgs with
  | None => Some st
  | Some ngoOrg =>
      match find (fun n => String.eqb (node_name n) (org_name ngoOrg))
                 ngos with
      | None => Some st
      | Some ngoNode =>
          let warehousesByDistance :=
            warehousesByDistanceFrom ngoNode warehouses in
          match warehousesByDistance with
          | [] => Some st
          | _ :: _ =>
              foldM (allocateRegularItem request dispatch
                                         warehousesByDistance)
                    (items request) st
          end
      end
  end.

(** [allocateRegular(requests, batches, warehouses, ngos, options)];
    [None] when an exception escapes. *)
Definition allocateRegular (requests : list Request) (batches : list Batch)
           (warehouses ngos : list Node)
           (dispatchTimeFloor dispatchTimeCeil : option Time)
  : option (list Allocation) :=
  match foldM (allocateRegularRequest dispatchTimeFloor dispatchTimeCeil
                                      warehouses ngos)
              requests (batches, []) with
  | Some (_, allocations) => Some allocations
  | None => None
  end.
End AllocateRegular.

(* ------------------------------------------------------------------ *)
(** ** simulationService.js: [allocateML], configuration and trace *)

(** [options] of [allocateML].  A boolean field is [true] when the source
    finds the value [true] ([=== true]). *)
Record Options : Type := mkOptions {
  simulationOnly : bool;
  referenceDate : option Time;
  dispatchTimeFloor : option Time;
  dispatchTimeCeil : option Time;
  enableTransferPlanner : bool;
  transferPlannerMaxPairs : option Q;
  transferPlannerMinTransferKg : option Q;
  transferPlannerOverstockRatio : option Q;
  transferPlannerUnderstockRatio : option Q;
  transferPlannerTargetRatio : option Q;
  transferPlannerCronHours : option Q
}.

(** The variables of [process.env] the allocator reads, as numbers;
    [ML_ENABLE_TRANSFER_PLANNER] is [true] when the variable is ["1"]. *)
Record Env : Type := mkEnv {
  ML_MIN_DELIVERED_FRESHNESS_PCT : option Q;
  ML_RELAXED_MIN_DELIVERED_FRESHNESS_PCT : option Q;
  ML_MAX_DISTANCE_KM : option Q;
  ML_DISTANCE_DECAY_KM : option Q;
  ML_HARD_MAX_DISTANCE_KM : option Q;
  ML_TOP_K_WAREHOUSES : option Q;
  ML_ENABLE_TRANSFER_PLANNER : bool;
  ML_TRANSFER_MAX_PAIRS : option Q;
  ML_TRANSFER_MIN_TRANSFER_KG : option Q;
  ML_TRANSFER_OVERSTOCK_RATIO : option Q;
  ML_TRANSFER_UNDERSTOCK_RATIO : option Q;
  ML_TRANSFER_TARGET_RATIO : option Q;
  ML_TRANSFER_CRON_HOURS : option Q;
  ML_TRANSFER_CRON_MAX_RUNS : option Q;
  ML_MIN_INCAP_FULFILLMENT_RATIO : option Q
}.

(** [a ?? b] *)
Definition coalesce {A : Type} (a : option A) (b : A) : A :=
  match a with Some x => x | None => b end.

Record PlannerTuning : Type := mkPlannerTuning {
  maxPairs : Q;
  minTransferKg : Q;
  overstockRatio : Q;
  understockRatio : Q;
  targetRatio : Q
}.

Definition plannerTuningOf (options : Options) (env : Env) : PlannerTuning :=
  mkPlannerTuning
    (coalesce (transferPlannerMaxPairs options)
              (coalesce (ML_TRANSFER_MAX_PAIRS env) 5))
    (coalesce (transferPlannerMinTransferKg options)
              (coalesce (ML_TRANSFER_MIN_TRANSFER_KG env) 200))
    (coalesce (transferPlannerOverstockRatio options)
              (coalesce (ML_TRANSFER_OVERSTOCK_RATIO env) (8 # 10)))
    (coalesce (transferPlannerUnderstockRatio options)
              (coalesce (ML_TRANSFER_UNDERSTOCK_RATIO env) (4 # 10)))
    (coalesce (transferPlannerTargetRatio options)
              (coalesce (ML_TRANSFER_TARGET_RATIO env) (6 # 10))).

(** [transferPlannerDebug.imbalance] *)
Record Imbalance : Type := mkImbalance {
  im_overstockRatio : Q;
  im_understockRatio : Q;
  im_targetRatio : Q;
  im_minTransferKg : Q;
  im_warehouses : nat;
  overCount : nat;
  underCount : nat;
  maxUtil : option Q;
  minUtil : option Q;
  utilP50 : option Q;
  utilP90 : option Q;
  utilP95 : option Q
}.

(** The [reason] of a planner run. *)
Inductive PlannerReason : Type :=
| OneShot
| CronInit (hours : Q)
| CronTick (hours : Q).

(** What the [catch] of [runTransferPlannerOnce] keeps of an error. *)
Record PlannerError : Type := mkPlannerError {
  pe_message : string;
  pe_status : option Z
}.

(** An entry of [transferPlannerDebug.timeline] (the wall-clock field
    [elapsedMs] is left out). *)
Record TimelineEntry : Type := mkTimelineEntry {
  tl_at : option Time;
  tl_reason : PlannerReason;
  skipped : bool;
  attempted : bool;
  suggestedCount : option nat;
  appliedCount : option nat;
  appliedKg : option Q;
  tl_error : option PlannerError;
  tl_imbalance : option Imbalance
}.

Record TransferPlannerDebug : Type := mkTransferPlannerDebug {
  dbg_enabled : bool;
  dbg_simulationOnly : bool;
  cronHours : option Q;
  attemptedRuns : nat;
  runs : nat;
  skippedRuns : nat;
  errorRuns : nat;
  lastError : option PlannerError;
  suggestedTransfers : nat;
  appliedTransfers : nat;
  lastApplied : list AppliedTransfer;
  lastSuggestedCount : nat;
  imbalance : option Imbalance;
  timeline : list TimelineEntry
}.

(** The outcome of a call to an external service: an exception (failure or
    timeout) or the response. *)
Inductive CallOutcome (A : Type) : Type :=
| Failed (err : PlannerError)
| Returned (response : A).
Arguments Failed {A} err.
Arguments Returned {A} response.

(** *** [shouldRunTransferPlanner] *)

Definition defaultWarehouseCapacityKg : Q := 10000.

(** The keys of [new Set(ids)], in insertion order. *)
Fixpoint dedupIds (seen ids : list Id) : list Id :=
  match ids with
  | [] => []
  | i :: rest =>
      if existsb (String.eqb i) seen then dedupIds seen rest
      else i :: dedupIds (i :: seen) rest
  end.

(** [new Map(entries).get(key)]: the last entry of a key wins. *)
Definition mapGet {V : Type} (entries : list (string * V)) (key : string)
  : option V :=
  match find (fun e => String.eqb (fst e) key) (rev entries) with
  | Some e => Some (snd e)
  | None => None
  end.

(** The capacity entered for a warehouse in [capacityById]. *)
Definition capacityOf (w : Node) : Q :=
  match capacity_kg w with
  | Some capRaw => if Qltb 0 capRaw then capRaw
                   else defaultWarehouseCapacityKg
  | None => defaultWarehouseCapacityKg
  end.

(** [inventoryById.get(id) || 0]: the stored, positive quantities held at
    the node. *)
Definition inventoryOf (unusedBatches : list Batch) (id : Id) : Q :=
  fold_left
    (fun acc b =>
       if BatchStatus_eqb (status b) stored
          && String.eqb (currentNode b) id
          && Qltb 0 (quantity_kg b)
       then acc + quantity_kg b else acc)
    unusedBatches 0.

(** The utilization of the warehouse with this identifier. *)
Definition utilizationOf (warehouses : list Node) (unusedBatches : list Batch)
           (id : Id) : Q :=
  let inv := inventoryOf unusedBatches id in
  let cap :=
    match mapGet (map (fun w => (node_id w, capacityOf w)) warehouses) id with
    | Some c => if Qeq_bool c 0 then defaultWarehouseCapacityKg else c
    | None => defaultWarehouseCapacityKg
    end in
  if Qltb 0 cap then inv / cap else 0.

Definition percentile (sorted : list Q) (p : Q) : option Q :=
  match sorted with
  | [] => None
  | _ :: _ =>
      let clamped := Qmin_b 1 (Qmax_b 0 p) in
      let idx :=
        js_floor (clamped * inject_Z (Z.of_nat (List.length sorted) - 1)) in
      match nth_error sorted (Z.to_nat idx) with
      | Some v => Some (round3 v)
      | None => None
      end
  end.

Definition Qlist_max (l : list Q) : option Q :=
  match l with
  | [] => None
  | x :: l' => Some (fold_left Qmax_b l' x)
  end.

Definition Qlist_min (l : list Q) : option Q :=
  match l with
  | [] => None
  | x :: l' => Some (fold_left Qmin_b l' x)
  end.

(** The value returned and the statistics stored in
    [transferPlannerDebug.imbalance]. *)
Definition shouldRunTransferPlanner (plannerTuning : PlannerTuning)
           (warehouses : list Node) (unusedBatches : list Batch)
  : bool * Imbalance :=
  let whIdSet := dedupIds [] (map node_id warehouses) in
  let utils := map (utilizationOf warehouses unusedBatches) whIdSet in
  let overCount :=
    List.length (filter (fun util => Qle_bool (overstockRatio plannerTuning)
                                              util) utils) in
  let underCount :=
    List.length (filter (fun util => Qle_bool util
                                       (understockRatio plannerTuning))
                        utils) in
  let sorted := js_sort Qle_bool utils in
  let stats :=
    mkImbalance (overstockRatio plannerTuning)
                (understockRatio plannerTuning) (targetRatio plannerTuning)
                (minTransferKg plannerTuning) (List.length whIdSet)
                overCount underCount
                (option_map round3 (Qlist_max utils))
                (option_map round3 (Qlist_min utils))
                (percentile sorted (5 # 10)) (percentile sorted (9 # 10))
                (percentile sorted (95 # 100)) in
  (negb (Nat.eqb overCount 0 || Nat.eqb underCount 0), stats).

(** *** The transfer planner inside [allocateML] *)

(** What the planner service is sent: the tuning, the warehouses and the
    current snapshot (the attempt counter tells successive calls apart). *)
Record PlannerRequest : Type := mkPlannerRequest {
  pr_attempt : nat;
  pr_tuning : PlannerTuning;
  pr_nodes : list Node;
  pr_batches : list Batch
}.

(** The mutable variables of a run of [allocateML]. *)
Record MLState : Type := mkMLState {
  ml_unusedBatches : list Batch;
  ml_allocations : list Allocation;
  ml_debug : TransferPlannerDebug;
  cronRuns : nat;
  nextCronRunAt : option Time
}.

Definition set_unused (st : MLState) (l : list Batch) : MLState :=
  mkMLState l (ml_allocations st) (ml_debug st) (cronRuns st)
            (nextCronRunAt st).

Definition set_debug (st : MLState) (d : TransferPlannerDebug) : MLState :=
  mkMLState (ml_unusedBatches st) (ml_allocations st) d (cronRuns st)
            (nextCronRunAt st).

Definition set_cron (st : MLState) (n : nat) (next : option Time) : MLState :=
  mkMLState (ml_unusedBatches st) (ml_allocations st) (ml_debug st) n next.

Definition set_imbalance (d : TransferPlannerDebug) (i : Imbalance)
  : TransferPlannerDebug :=
  mkTransferPlannerDebug (dbg_enabled d) (dbg_simulationOnly d) (cronHours d)
    (attemptedRuns d) (runs d) (skippedRuns d) (errorRuns d) (lastError d)
    (suggestedTransfers d) (appliedTransfers d) (lastApplied d)
    (lastSuggestedCount d) (Some i) (timeline d).

Section TransferPlanner.
(** The external planner ([POST /transfers/plan]): its answer carries
    [data.warehouse_to_warehouse], [None] when that is no array. *)
Variable planTransfers :
  PlannerRequest -> CallOutcome (option (list TransferSuggestion)).
Variable plannerTuning : PlannerTuning.
Variable warehouses : list Node.
Variable options : Options.
(** The value of [new Date()]. *)
Variable now : Time.

(** [runTransferPlannerOnce({ reason, now })]; the argument [now] of the
    source is [runAt]. *)
Definition runTransferPlannerOnce (reason : PlannerReason)
           (runAt : option Time) (st : MLState) : MLState :=
  let d := ml_debug st in
  let attempted' := S (attemptedRuns d) in
  match planTransfers (mkPlannerRequest attempted' plannerTuning warehouses
                                        (ml_unusedBatches st)) with
  | Returned transfers =>
      let count :=
        match transfers with
        | Some l => List.length l
        | None => O
        end in
      let currentDate :=
        match runAt with
        | Some t => t
        | None => coalesce (referenceDate options) now
        end in
      let '(batches', applied) :=
        applyWarehouseTransfersToBatches (ml_unusedBatches st) transfers
                                         currentDate in
      set_debug
        (set_unused st batches')
        (mkTransferPlannerDebug
           (dbg_enabled d) (dbg_simulationOnly d) (cronHours d)
           attempted' (S (runs d)) (skippedRuns d) (errorRuns d)
           (lastError d) (suggestedTransfers d + count)
           (appliedTransfers d + List.length applied) applied count
           (imbalance d)
           (timeline d ++
              [mkTimelineEntry runAt reason false true (Some count)
                 (Some (List.length applied))
                 (Some (round2 (Qsum (map applied_quantity_kg applied))))
                 None None]))
  | Failed err =>
      set_debug st
        (mkTransferPlannerDebug
           (dbg_enabled d) (dbg_simulationOnly d) (cronHours d)
           attempted' (runs d) (skippedRuns d) (S (errorRuns d))
           (Some err) (suggestedTransfers d) (appliedTransfers d)
           (lastApplied d) (lastSuggestedCount d) (imbalance d)
           (timeline d ++
              [mkTimelineEntry runAt reason false true (Some O) (Some O)
                 (Some 0) (Some err) None]))
  end.

(** [if (shouldRunTransferPlanner()) { await runTransferPlannerOnce(...) }
    else { skippedRuns += 1; timeline.push({ skipped: true, ... }) }] *)
Definition transferPlannerStep (reason : PlannerReason)
           (runAt skipAt : option Time) (st : MLState) : MLState :=
  let '(run, stats) :=
    shouldRunTransferPlanner plannerTuning warehouses
                             (ml_unusedBatches st) in
  let st1 := set_debug st (set_imbalance (ml_debug st) stats) in
  if run then runTransferPlannerOnce reason runAt st1
  else
    let d := ml_debug st1 in
    set_debug st1
      (mkTransferPlannerDebug
         (dbg_enabled d) (dbg_simulationOnly d) (cronHours d)
         (attemptedRuns d) (runs d) (S (skippedRuns d)) (errorRuns d)
         (lastError d) (suggestedTransfers d) (appliedTransfers d)
         (lastApplied d) (lastSuggestedCount d) (imbalance d)
         (timeline d ++
            [mkTimelineEntry skipAt reason true false None None None None
                             (imbalance d)])).

(** The [while] loop of the cron schedule; [budget] is the number of runs
    left before [maxCronRuns], so that [cronRuns < maxCronRuns] is
    [budget <> 0]. *)
Fixpoint cronTicks (budget : nat) (hours : Q) (dispatch : Time)
         (st : MLState) : MLState :=
  match budget, nextCronRunAt st with
  | S budget', Some next =>
      let intervalMs := hours * 3600 * 1000 in
      if Qle_bool (inject_Z next + intervalMs) (inject_Z dispatch) then
        let next' := js_trunc (inject_Z next + intervalMs) in
        let st1 := set_cron st (S (cronRuns st)) (Some next') in
        cronTicks budget' hours dispatch
          (transferPlannerStep (CronTick hours) (Some next') (Some next')
                               st1)
      else st
  | _, _ => st
  end.

(** The runs left before [maxCronRuns]. *)
Definition cronBudget (maxCronRuns : Q) (st : MLState) : nat :=
  Z.to_nat (Qceiling maxCronRuns - Z.of_nat (cronRuns st)).

(** The block [if (useTransferPlannerCron) { ... }] of the request loop. *)
Definition cronSchedule (maxCronRuns hours : Q) (dispatch : Time)
           (st : MLState) : MLState :=
  let st1 :=
    match nextCronRunAt st with
    | Some _ => st
    | None =>
        let anchor :=
          match referenceDate options with
          | Some r => r
          | None => coalesce (dispatchTimeFloor options) dispatch
          end in
        let st0 := set_cron st (cronRuns st) (Some anchor) in
        match cronBudget maxCronRuns st0 with
        | O => st0
        | S _ =>
            transferPlannerStep (CronInit hours) (Some anchor) (Some anchor)
              (set_cron st0 (S (cronRuns st0)) (Some anchor))
        end
    end in
  cronTicks (cronBudget maxCronRuns st1) hours dispatch st1.
End TransferPlanner.

(** *** Scoring a warehouse *)

(** A result of the demand-signal service. *)
Record MlResult : Type := mkMlResult {
  r_state : option string;
  r_district : option string;
  anomaly_score : option Q;
  is_anomaly : bool
}.

Record RegionalSignal : Type := mkRegionalSignal {
  anomalyScore : Q;
  isAnomaly : bool
}.

(** [s || fallback] on an optional string. *)
Definition strOr (s : option string) (fallback : string) : string :=
  match s with
  | Some x => if String.eqb x "" then fallback else x
  | None => fallback
  end.

Definition regionKeyOf (state district : string) : string :=
  (state ++ "-" ++ district)%string.

(** The entries of [regionalSignals]. *)
Definition regionalSignalsOf (results : list MlResult)
  : list (string * RegionalSignal) :=
  map (fun r => (regionKeyOf (strOr (r_state r) "Unknown")
                             (strOr (r_district r) "Unknown"),
                 mkRegionalSignal (coalesce (anomaly_score r) 0)
                                  (is_anomaly r)))
      (filter (fun r => negb (String.eqb (strOr (r_state r) "") "")
                        || negb (String.eqb (strOr (r_district r) "") ""))
              results).

(** [signal?.isAnomaly ? 1.1 : 1.0] for a demand node. *)
Definition urgencyBoostOf (regionalSignals : list (string * RegionalSignal))
           (ngoNode : Node) : Q :=
  let regionKey :=
    regionKeyOf (strOr (node_state ngoNode)
                       (strOr (node_regionId ngoNode) "Unknown"))
                (strOr (node_district ngoNode) "Unknown") in
  match mapGet regionalSignals regionKey with
  | Some signal => if isAnomaly signal then 11 # 10 else 1
  | None => 1
  end.

(** [{ batch, remainingHours, freshnessAtDelivery }] *)
Definition Candidate : Type := (Batch * jsnum * Q)%type.

Definition cand_batch (x : Candidate) : Batch := fst (fst x).
Definition cand_freshnessAtDelivery (x : Candidate) : Q := snd x.

(** [b.freshnessAtDelivery - a.freshnessAtDelivery ||
     a.remainingHours - b.remainingHours], kept when [<= 0] or [NaN]. *)
Definition ml_cmp_le (a b : Candidate) : bool :=
  let '(_, ra, fa) := a in
  let '(_, rb, fb) := b in
  if negb (Qeq_bool fb fa) then Qle_bool fb fa
  else negb (js_gt (js_add ra (js_neg rb)) (Fin 0)).

(** The batches of one warehouse that may be delivered unspoiled. *)
Definition mlCandidateBatches (unusedBatches : list Batch) (food : string)
           (warehouseId : Id) (dispatch deliveryTime : Time)
  : list Candidate :=
  filter (fun x : Candidate =>
            let '(_, remainingHours, freshnessAtDelivery) := x in
            js_gt0 remainingHours && Qltb 0 freshnessAtDelivery)
    (map (fun b => (b, safeRemainingShelfLifeHours b dispatch,
                    calculateFreshnessPct b deliveryTime defaultAvgTemp))
       (filter (fun b => String.eqb (foodType b) food
                         && negb (String.eqb (currentNode b) "")
                         && String.eqb (currentNode b) warehouseId
                         && BatchStatus_eqb (status b) stored
                         && availableBy b dispatch)
          unusedBatches)).

(** The first non-empty tier with [usingRelaxed] and [usingFallback]. *)
Definition chooseTier (preferredMin relaxedMin : Q)
           (candidateBatches : list Candidate)
  : list Candidate * bool * bool :=
  let tier p := js_sort ml_cmp_le (filter p candidateBatches) in
  let strictEligible :=
    tier (fun x => Qle_bool preferredMin (cand_freshnessAtDelivery x)) in
  let relaxedEligible :=
    tier (fun x => Qle_bool relaxedMin (cand_freshnessAtDelivery x)) in
  let fallbackEligible :=
    tier (fun x => Qltb 0 (cand_freshnessAtDelivery x)) in
  match strictEligible, relaxedEligible, fallbackEligible with
  | _ :: _, _, _ => (strictEligible, false, false)
  | [], _ :: _, _ => (relaxedEligible, true, false)
  | [], [], _ :: _ => (fallbackEligible, true, true)
  | [], [], [] => ([], false, false)
  end.

(** The loop that accumulates [weightedDeliveredFreshness] and
    [weightedExpiryPressure]. *)
Fixpoint weightedLoop (required : Q) (l : list Candidate) (cumulativeQty : Q)
         (weightedFreshness weightedPressure : jsnum) : jsnum * jsnum :=
  match l with
  | [] => (weightedFreshness, weightedPressure)
  | (batch, remainingHours, freshnessAtDelivery) :: rest =>
      let usableQty :=
        Qmin_b (quantity_kg batch) (required - cumulativeQty) in
      let share := js_div (Fin usableQty) (Fin required) in
      let weightedFreshness' :=
        js_add weightedFreshness (js_mul (Fin freshnessAtDelivery) share) in
      let expiryPressure :=
        js_div (Fin 1) (js_add (Fin 1) (js_div remainingHours (Fin 24))) in
      let weightedPressure' :=
        js_add weightedPressure (js_mul expiryPressure share) in
      let cumulativeQty' := cumulativeQty + usableQty in
      if Qle_bool required cumulativeQty' then
        (weightedFreshness', weightedPressure')
      else weightedLoop required rest cumulativeQty' weightedFreshness'
                        weightedPressure'
  end.

(** The running best of [evaluateCandidates]. *)
Record Best : Type := mkBest {
  bestScore : jsnum;
  bestWarehouse : option Node;
  bestBatches : list Candidate;
  bestFulfillment : jsnum
}.

Definition noBest : Best := mkBest NegInf None [] (Fin 0).

(** *** [allocateML] *)

Section AllocateML.
(** [haversineDistanceKm] of utils/geoHelpers.js, [Math.exp] on finite
    arguments, the documents returned by [NGO.find().lean()], the value
    of [new Date()], and the two external services: the demand-signal
    call ([POST /predict], answering [data.results], [None] when that is
    no array) and the transfer planner. *)
Variable haversineDistanceKm : Coordinates -> Coordinates -> Q.
Variable exp : Q -> Q.
Variable ngoOrgs : list NgoOrg.
Variable now : Time.
Variable predict :
  list Node -> list Request -> list Batch ->
  CallOutcome (option (list MlResult)).
Variable planTransfers :
  PlannerRequest -> CallOutcome (option (list TransferSuggestion)).

Variable options : Options.
Variable env : Env.

Definition preferredMinDeliveredFreshnessPct : Q :=
  coalesce (ML_MIN_DELIVERED_FRESHNESS_PCT env) 55.
Definition relaxedMinDeliveredFreshnessPct : Q :=
  coalesce (ML_RELAXED_MIN_DELIVERED_FRESHNESS_PCT env) 25.
Definition maxPreferredDistanceKm : Q := coalesce (ML_MAX_DISTANCE_KM env) 250.
Definition distanceDecayKm : Q := coalesce (ML_DISTANCE_DECAY_KM env) 70.
Definition hardMaxDistanceKm : Q :=
  coalesce (ML_HARD_MAX_DISTANCE_KM env) 450.
Definition topKWarehouses : Q := coalesce (ML_TOP_K_WAREHOUSES env) 12.
Definition maxCronRuns : Q := coalesce (ML_TRANSFER_CRON_MAX_RUNS env) 250.
Definition minInCapFulfillment : Q :=
  coalesce (ML_MIN_INCAP_FULFILLMENT_RATIO env) (6 # 10).

(** [Math.exp] *)
Definition js_exp (x : jsnum) : jsnum :=
  match x with
  | Fin a => Fin (exp a)
  | PosInf => PosInf
  | NegInf => Fin 0
  | NaN => NaN
  end.

(** The delivery time for a warehouse at this distance. *)
Definition deliveryTimeAt (dispatch : Time) (distance : Q) : Time :=
  deliveryTimeOf dispatch (estimateTravelHours distance).

(** The body of the loop of [evaluateCandidates]: one warehouse. *)
Definition evaluateCandidate (unusedBatches : list Batch)
           (item : RequestItem) (dispatch : Time) (urgencyBoost : Q)
           (best : Best * Best) (wd : Node * Q) : Best * Best :=
  let '(bestOverall, bestInCap) := best in
  let '(warehouse0, distance) := wd in
  let deliveryTime := deliveryTimeAt dispatch distance in
  let candidateBatches :=
    mlCandidateBatches unusedBatches (item_foodType item)
                       (node_id warehouse0) dispatch deliveryTime in
  let '(availableBatches, usingRelaxed, usingFallback) :=
    chooseTier preferredMinDeliveredFreshnessPct
               relaxedMinDeliveredFreshnessPct candidateBatches in
  match availableBatches with
  | [] => best
  | _ :: _ =>
      let totalAvailable :=
        fold_left (fun sum x => sum + quantity_kg (cand_batch x))
                  availableBatches 0 in
      let '(weightedDeliveredFreshness, weightedExpiryPressure) :=
        weightedLoop (required_kg item) availableBatches 0 (Fin 0) (Fin 0) in
      let fulfillmentRatio :=
        js_min1 (js_div (Fin totalAvailable) (Fin (required_kg item))) in
      let distanceScore :=
        js_exp (js_div (Fin (- distance)) (Fin distanceDecayKm)) in
      let score0 :=
        js_mul
          (js_add
             (js_add
                (js_add
                   (js_mul distanceScore (Fin (1 # 10)))
                   (js_mul (js_div weightedDeliveredFreshness (Fin 100))
                           (Fin (45 # 100))))
                (js_mul weightedExpiryPressure (Fin (5 # 100))))
             (js_mul fulfillmentRatio (Fin (4 # 10))))
          (Fin urgencyBoost) in
      let score :=
        if usingFallback then js_mul score0 (Fin (95 # 100))
        else if usingRelaxed then js_mul score0 (Fin (98 # 100))
        else score0 in
      let found :=
        mkBest score (Some warehouse0) availableBatches fulfillmentRatio in
      let bestOverall' :=
        if js_gt score (bestScore bestOverall) then found
        else bestOverall in
      let bestInCap' :=
        if Qle_bool distance maxPreferredDistanceKm
           && js_gt score (bestScore bestInCap)
        then found else bestInCap in
      (bestOverall', bestInCap')
  end.

Definition evaluateCandidates (unusedBatches : list Batch)
           (item : RequestItem) (dispatch : Time) (urgencyBoost : Q)
           (warehouseCandidates : list (Node * Q)) (best : Best * Best)
  : Best * Best :=
  fold_left (evaluateCandidate unusedBatches item dispatch urgencyBoost)
            warehouseCandidates best.

(** The warehouses within the hard cap, nearest first. *)
Definition allWarehouseCandidatesOf (ngoNode : Node)
           (warehouses : list Node) : list (Node * Q) :=
  js_sort (fun a b : Node * Q => Qle_bool (snd a) (snd b))
    (filter (fun x : Node * Q =>
               Qle_bool 0 (snd x) && Qle_bool (snd x) hardMaxDistanceKm)
       (map (fun w => (w, haversineDistanceKm (location ngoNode)
                                              (location w)))
            warehouses)).

(** The winner of the evaluation of an item, if any. *)
Definition selectBest (unusedBatches : list Batch) (item : RequestItem)
           (dispatch : Time) (urgencyBoost : Q) (ngoNode : Node)
           (warehouses : list Node) : Best :=
  let allWarehouseCandidates :=
    allWarehouseCandidatesOf ngoNode warehouses in
  let primaryCandidates :=
    firstn (Z.to_nat (js_trunc (Qmax_b 1 topKWarehouses)))
           allWarehouseCandidates in
  let evaluate :=
    evaluateCandidates unusedBatches item dispatch urgencyBoost in
  let best1 := evaluate primaryCandidates (noBest, noBest) in
  let best2 :=
    if Nat.ltb (List.length primaryCandidates)
               (List.length allWarehouseCandidates)
       && (match bestWarehouse (fst best1) with
           | None => true
           | Some _ => false
           end
           || js_lt (bestFulfillment (fst best1)) (Fin (95 # 100)))
    then evaluate allWarehouseCandidates best1
    else best1 in
  let '(bestOverall, bestInCap) := best2 in
  let useInCap :=
    match bestWarehouse bestInCap with
    | Some _ =>
        js_isFinite (bestFulfillment bestInCap)
        && js_ge (bestFulfillment bestInCap) (Fin minInCapFulfillment)
    | None => false
    end in
  if useInCap then bestInCap else bestOverall.

(** The body of [for (const item of request.items)]. *)
Definition allocateMLItem (request : Request) (dispatch : Time)
           (urgencyBoost : Q) (ngoNode : Node) (warehouses : list Node)
           (st : MLState) (item : RequestItem) : option MLState :=
  let best :=
    selectBest (ml_unusedBatches st) item dispatch urgencyBoost ngoNode
               warehouses in
  match bestWarehouse best with
  | None => Some st
  | Some bestWarehouse0 =>
      match consumeBatches
              (fun b => calculateFreshnessPct b dispatch defaultAvgTemp)
              (map cand_batch (bestBatches best)) (ml_unusedBatches st)
              (required_kg item) [] with
      | None => None
      | Some (unusedBatches', remaining, usedBatches) =>
          let distance :=
            haversineDistanceKm (location ngoNode)
                                (location bestWarehouse0) in
          Some (mkMLState unusedBatches'
                  (ml_allocations st ++
                     [mkAllocation (requestID request) (item_foodType item)
                        (required_kg item) (required_kg item - remaining)
                        (node_id bestWarehouse0) (node_name bestWarehouse0)
                        distance usedBatches ml dispatch])
                  (ml_debug st) (cronRuns st) (nextCronRunAt st))
      end
  end.

Definition plannerTuning : PlannerTuning := plannerTuningOf options env.

(** [transferPlannerCronHours] *)
Definition transferPlannerCronHoursOf : option Q :=
  match transferPlannerCronHours options with
  | Some n => if Qltb 0 n then Some n else None
  | None =>
      match ML_TRANSFER_CRON_HOURS env with
      | Some n => if Qltb 0 n then Some n else None
      | None => None
      end
  end.

Definition canUseTransferPlanner : bool :=
  (enableTransferPlanner options || ML_ENABLE_TRANSFER_PLANNER env)
  && (negb (simulationOnly options) || simulationOnly options).

Definition useTransferPlannerCron : bool :=
  canUseTransferPlanner
  && match transferPlannerCronHoursOf with Some _ => true | None => false end.

(** The dispatch time of a request. *)
Definition mlDispatchTime (request : Request) : Time :=
  let t0 := requestDispatchTime now request in
  let t1 :=
    match referenceDate options, dispatchTimeFloor options,
          dispatchTimeCeil options with
    | Some r, None, None => r
    | _, _, _ => t0
    end in
  clampDispatchTime (dispatchTimeFloor options) (dispatchTimeCeil options) t1.

(** The body of [for (const request of requestsToProcess)]. *)
Definition allocateMLRequest
           (regionalSignals : list (string * RegionalSignal))
           (warehouses ngos : list Node) (st : MLState) (request : Request)
  : option MLState :=
  match find (fun org => String.eqb (org_id org) (requesterNode request))
             ngoOrgs with
  | None => Some st
  | Some ngoOrg =>
      match find (fun n => String.eqb (node_name n) (org_name ngoOrg))
                 ngos with
      | None => Some st
      | Some ngoNode =>
          let dispatch := mlDispatchTime request in
          let st1 :=
            match useTransferPlannerCron, transferPlannerCronHoursOf with
            | true, Some hours =>
                cronSchedule planTransfers plannerTuning warehouses options
                             now maxCronRuns hours dispatch st
            | _, _ => st
            end in
          let urgencyBoost := urgencyBoostOf regionalSignals ngoNode in
          foldM (allocateMLItem request dispatch urgencyBoost ngoNode
                                warehouses)
                (items request) st1
      end
  end.

(** The sort key of the cron order: [dispatchTime ?? createdOn ?? 0]. *)
Definition requestSortTime (r : Request) : Time :=
  match req_dispatchTime r with
  | Some t => t
  | None => coalesce (createdOn r) 0%Z
  end.

(** [allocateML(requests, batches, warehouses, ngos, options)]: the
    allocations and the trace left in [options._transferPlannerDebug];
    [None] when an exception escapes. *)
Definition allocateML (requests : list Request) (batches : list Batch)
           (warehouses ngos : list Node)
  : option (list Allocation * TransferPlannerDebug) :=
  let regionalSignals :=
    match predict (warehouses ++ ngos) requests batches with
    | Returned (Some results) => regionalSignalsOf results
    | Returned None => []
    | Failed _ => []
    end in
  let debug0 :=
    mkTransferPlannerDebug canUseTransferPlanner (simulationOnly options)
      transferPlannerCronHoursOf O O O O None O O [] O None [] in
  let st0 := mkMLState batches [] debug0 O None in
  let st1 :=
    if canUseTransferPlanner && negb useTransferPlannerCron then
      transferPlannerStep planTransfers plannerTuning warehouses options now
                          OneShot None (referenceDate options) st0
    else st0 in
  let requestsToProcess :=
    if useTransferPlannerCron then
      js_sort (fun a b => (requestSortTime a <=? requestSortTime b)%Z)
              requests
    else requests in
  match foldM (allocateMLRequest regionalSignals warehouses ngos)
              requestsToProcess st1 with
  | Some st => Some (ml_allocations st, ml_debug st)
  | None => None
  end.
End AllocateML.

(* ------------------------------------------------------------------ *)
(** ** simulation controller: the filter on the baseline's allocations *)

(** [new Map(batches.map((b) => [b._id.toString(), b]))]. *)
Definition batchesById (batches : list Batch) : list (string * Batch) :=
  map (fun b => (_id b, b)) batches.

(** The body of [for (const used of alloc?.batches || [])] in
    [filterExpiredForRegular]: [true] when the entry reaches
    [keptBatches.push(used)]. *)
Definition keptForRegular (byId : list (string * Batch)) (dispatch : Time)
           (used : UsedBatch) : bool :=
  if Qle_bool (quantity used) 0 then false
  else match mapGet byId (batchId used) with
       | None => false
       | Some batch =>
           Qltb 0 (calculateFreshnessPct batch dispatch defaultAvgTemp)
       end.

(** [filterExpiredForRegular]: the test is on the freshness at the dispatch
    time of the allocation. *)
Definition filterExpiredForRegular (byId : list (string * Batch))
           (allocations : list Allocation) : list Allocation :=
  map (fun alloc =>
         let keptBatches :=
           filter (keptForRegular byId (dispatchTime alloc)) (batches alloc) in
         mkAllocation (requestId alloc) (a_foodType alloc)
                      (a_required_kg alloc)
                      (round2 (Qsum (map quantity keptBatches)))
                      (warehouse alloc) (warehouseName alloc)
                      (distance_km alloc) keptBatches (strategy alloc)
                      (dispatchTime alloc))
      allocations.

(** [regularAllocationsFiltered]; [allowSpoiledRegular] is
    [process.env.REGULAR_ALLOW_SPOILED === "1"], the only switch of the
    repository that lets spoiled lots through. *)
Definition regularAllocationsFiltered (allowSpoiledRegular : bool)
           (byId : list (string * Batch)) (regularAllocations : list Allocation)
  : list Allocation :=
  if allowSpoiledRegular then regularAllocations
  else filterExpiredForRegular byId regularAllocations.

(* ------------------------------------------------------------------ *)
(** ** Notions used by the statements *)

(** The mass held by a collection of batches. *)
Definition total_kg (l : list Batch) : Q :=
  fold_right (fun b acc => quantity_kg b + acc) 0 l.

(** The perishability attributes of a batch. *)
Definition same_perishability (a b : Batch) : Prop :=
  foodType a = foodType b
  /\ manufacture_date a = manufacture_date b
  /\ shelf_life_hours a = shelf_life_hours b
  /\ initial_temp_c a = initial_temp_c b.

(** [sum of batches[].quantity] of an allocation. *)
Definition sum_quantity (l : list UsedBatch) : Q :=
  fold_right (fun u acc => quantity u + acc) 0 l.

(** A batch of a later snapshot that is a batch of an earlier one with a
    quantity that has not grown. *)
Definition reduced_from (l : list Batch) (b' : Batch) : Prop :=
  exists b q, In b l /\ b' = set_quantity_kg b q /\ q <= quantity_kg b.

(** The number of batches of a snapshot that carry an identifier. *)
Definition count_id (i : Id) (l : list Batch) : nat :=
  List.length (filter (fun b => String.eqb (_id b) i) l).

(** An allocation record of the baseline read against the snapshot
    [batches0] the allocator was given: it is positive, within the required
    quantity, equal to the sum of its entries, and each entry refers to a
    stored batch of the chosen warehouse that holds at least the entry's
    quantity and is unspoiled when dispatched. *)
Definition regular_allocation_ok (batches0 : list Batch) (a : Allocation)
  : Prop :=
  strategy a = regular
  /\ 0 < allocated_kg a
  /\ allocated_kg a <= a_required_kg a
  /\ allocated_kg a == sum_quantity (batches a)
  /\ Forall (fun u =>
               exists b0,
                 In b0 batches0
                 /\ _id b0 = batchId u
                 /\ foodType b0 = a_foodType a
                 /\ currentNode b0 = warehouse a
                 /\ status b0 = stored
                 /\ quantity u <= quantity_kg b0
                 /\ 0 < calculateFreshnessPct b0 (dispatchTime a)
                                              defaultAvgTemp)
            (batches a).




(** [b] is [b0] or comes from it by reductions, moves and transfer splits:
    its identifier extends that of [b0], its perishability data are those
    of [b0] and its quantity has not grown. *)
Definition derives (b0 b : Batch) : Prop :=
  String.prefix (_id b0) (_id b) = true
  /\ foodType b = foodType b0
  /\ manufacture_date b = manufacture_date b0
  /\ shelf_life_hours b = shelf_life_hours b0
  /\ quantity_kg b <= quantity_kg b0.

Definition descends_from (l : list Batch) (b : Batch) : Prop :=
  exists b0, In b0 l /\ derives b0 b.

(** An allocation record of the scored allocator read against the snapshot
    [batches0] the allocator was given: it is the sum of its entries, it is
    within the required quantity when that is not negative, and each entry
    refers to a descendant of a batch of the snapshot that holds at least
    the entry's quantity and is unspoiled at the delivery time (dispatch time
    plus the travel time over the distance of the record). *)
Definition ml_allocation_ok (batches0 : list Batch) (a : Allocation) : Prop :=
  strategy a = ml
  /\ allocated_kg a == sum_quantity (batches a)
  /\ (0 <= a_required_kg a -> allocated_kg a <= a_required_kg a)
  /\ Forall (fun u =>
               exists b0,
                 In b0 batches0
                 /\ String.prefix (_id b0) (batchId u) = true
                 /\ foodType b0 = a_foodType a
                 /\ quantity u <= quantity_kg b0
                 /\ 0 < calculateFreshnessPct b0
                          (deliveryTimeOf (dispatchTime a)
                             (estimateTravelHours (distance_km a)))
                          defaultAvgTemp)
            (batches a).

(** What a step of the transfer planner may change of the state: it keeps
    the allocations and leaves descendants of the batches it found. *)
Definition rebalanced (st st' : MLState) : Prop :=
  ml_allocations st' = ml_allocations st
  /\ Forall (descends_from (ml_unusedBatches st)) (ml_unusedBatches st').

(** The invariant of a run of the scored allocator on [batches0]. *)
Definition ml_invariant (batches0 : list Batch) (st : MLState) : Prop :=
  Forall (descends_from batches0) (ml_unusedBatches st)
  /\ Forall (ml_allocation_ok batches0) (ml_allocations st).

(** What is known of a running best: its batches are batches of the
    snapshot, of the requested food type, stored at the best warehouse and
    unspoiled on delivery there. *)
Definition best_ok (haversineDistanceKm : Coordinates -> Coordinates -> Q)
           (ngoNode : Node) (unused : list Batch) (item : RequestItem)
           (dispatch : Time) (best : Best) : Prop :=
  forall w,
    bestWarehouse best = Some w ->
    exists q,
      Permutation (map cand_batch (bestBatches best)) (filter q unused)
      /\ forall b,
          q b = true ->
          foodType b = item_foodType item
          /\ currentNode b = node_id w
          /\ status b = stored
          /\ 0 < calculateFreshnessPct b
                   (deliveryTimeOf dispatch
                      (estimateTravelHours
                         (haversineDistanceKm (location ngoNode)
                                              (location w))))
                   defaultAvgTemp.

(* ------------------------------------------------------------------ *)
(** ** Example data *)

Definition hour_ms : Time := 3600000.

(** A stored batch with the given perishability data. *)
Definition mk_batch (id : Id) (food : string) (node : Id) (kg : Q)
           (manufactured : option Time) (life : option Q) : Batch :=
  mkBatch id None food kg kg node node stored life manufactured None None
          (Some 25) (Some 100) [] ""%string.

(** Scenario 1: manufactured at T0 = 0 with a shelf life of 48 hours. *)
Definition scenario1_batch : Batch :=
  mk_batch "b1"%string "rice"%string "wA"%string 100 (Some 0%Z) (Some 48).

(** A lot without a shelf life (non-perishable). *)
Definition nonperishable_batch : Batch :=
  mk_batch "b0"%string "salt"%string "wA"%string 100 (Some 0%Z) None.

(** Scenario 4: 100 kg at warehouse A and a suggestion to move 30 kg to B. *)
Definition scenario4_suggestion : TransferSuggestion :=
  mkTransferSuggestion None (Some "wA"%string) (Some "wB"%string) (Some 30)
                       None.

Definition objectId (n : nat) : Id := ("oid" ++ string_of_nat n)%string.

(** A rational stand-in for the great-circle distance in the examples:
    111 km per degree along both axes. *)
Definition gridDistanceKm (a b : Coordinates) : Q :=
  (Qabs (lat a - lat b) + Qabs (lon a - lon b)) * 111.

Definition mk_warehouse (id : Id) (latitude : Q) (capacity : option Q) : Node :=
  mkNode id id "warehouse" (Some "MH"%string) (Some "Pune"%string) None
         capacity (mkCoordinates latitude 0).

Definition ngo_node : Node :=
  mkNode "n1" "Helping Hands" "ngo" (Some "MH"%string) (Some "Pune"%string)
         None None (mkCoordinates 0 0).

Definition ngo_orgs : list NgoOrg := [mkNgoOrg "org1" "Helping Hands"].

(** Scenario 2: 100 kg of rice requested; warehouse A (11.1 km) holds 60 kg,
    warehouse B (111 km) holds 100 kg; dispatch one day after manufacture. *)
Definition warehouseA : Node := mk_warehouse "wA" (1 # 10) (Some 1000).
Definition warehouseB : Node := mk_warehouse "wB" 1 (Some 1000).

Definition scenario2_batches : list Batch :=
  [mk_batch "bA" "rice" "wA" 60 (Some 0%Z) (Some 48);
   mk_batch "bB" "rice" "wB" 100 (Some 0%Z) (Some 48)].

Definition scenario2_request : Request :=
  mkRequest "r1" "org1" [mkRequestItem "rice" 100] (Some (24 * hour_ms)%Z)
            None.



(** A rational stand-in for [Math.exp] in the examples: the reciprocal of
    the second-order expansion of [exp (- x)], positive everywhere. *)
Definition exampleExp (x : Q) : Q := 1 / (1 - x + x * x / 2).

Definition serviceDown : PlannerError :=
  mkPlannerError "timeout of 8000ms exceeded" None.

(** Services that fail, and services that answer with nothing to do. *)
Definition predictDown (_ : list Node) (_ : list Request) (_ : list Batch)
  : CallOutcome (option (list MlResult)) := Failed serviceDown.

Definition predictQuiet (_ : list Node) (_ : list Request) (_ : list Batch)
  : CallOutcome (option (list MlResult)) := Returned (Some []).

Definition plannerDown (_ : PlannerRequest)
  : CallOutcome (option (list TransferSuggestion)) := Failed serviceDown.

Definition plannerQuiet (_ : PlannerRequest)
  : CallOutcome (option (list TransferSuggestion)) := Returned (Some []).

Definition defaultEnv : Env :=
  mkEnv None None None None None None false None None None None None None
        None None.

Definition noOptions : Options :=
  mkOptions false None None None false None None None None None None.

(** The options of the simulation controller without the cron schedule. *)
Definition oneShotOptions : Options :=
  mkOptions true None None None true None None None None None None.

(** A warehouse whose only lot of rice is empty. *)
Definition empty_lot_batches : list Batch :=
  [mk_batch "bZ" "rice" "wA" 0 (Some 0%Z) (Some 48)].

(** A lot that is fresh when dispatched 30 hours after manufacture from a
    warehouse 444 km away and spoiled when it arrives 12.1 hours later. *)
Definition warehouseFar : Node := mk_warehouse "wF" 4 (Some 1000).

Definition late_batches : list Batch :=
  [mk_batch "bL" "rice" "wF" 100 (Some 0%Z) (Some 48)].

Definition late_request : Request :=
  mkRequest "r3" "org1" [mkRequestItem "rice" 50] (Some (30 * hour_ms)%Z)
            None.

(** Scenario 3: two warehouses of capacity 1000 kg, at 90% and 20%, and
    both at 50%. *)
Definition imbalanced_batches : list Batch :=
  [mk_batch "b90" "rice" "wA" 900 (Some 0%Z) (Some 48);
   mk_batch "b20" "rice" "wB" 200 (Some 0%Z) (Some 48)].

Definition balanced_batches : list Batch :=
  [mk_batch "b50a" "rice" "wA" 500 (Some 0%Z) (Some 48);
   mk_batch "b50b" "rice" "wB" 500 (Some 0%Z) (Some 48)].

Definition emptyTrace : TransferPlannerDebug :=
  mkTransferPlannerDebug true true None O O O O None O O [] O None [].

Definition initialState (batches : list Batch) : MLState :=
  mkMLState batches [] emptyTrace O None.

(* ------------------------------------------------------------------ *)
(** ** utils/geoHelpers.js: [extractCoordinates] *)

(** A GeoJSON value [{ type, coordinates }]. *)
Record GeoPoint : Type := mkGeoPoint {
  geo_type : string;
  geo_coordinates : list Q
}.

(** The fields of a record [extractCoordinates] looks at; [None] is
    [undefined]. *)
Record GeoRecord : Type := mkGeoRecord {
  rec_lat : option Q;
  rec_lon : option Q;
  rec_latitude : option Q;
  rec_longitude : option Q;
  rec_location : option GeoPoint;
  rec_centroid : option GeoPoint
}.

(** [p && p.type === "Point" && Array.isArray(p.coordinates) &&
    p.coordinates.length === 2], then [{ lat: coordinates[1],
    lon: coordinates[0] }]. *)
Definition pointCoordinates (p : option GeoPoint) : option Coordinates :=
  match p with
  | Some g =>
      if String.eqb (geo_type g) "Point" then
        match geo_coordinates g with
        | [x; y] => Some (mkCoordinates y x)
        | _ => None
        end
      else None
  | None => None
  end.

(** [None] is [throw new Error("Unable to extract coordinates from
    record")]. *)
Definition extractCoordinates (record : GeoRecord) : option Coordinates :=
  match rec_lat record, rec_lon record with
  | Some la, Some lo => Some (mkCoordinates la lo)
  | _, _ =>
      match rec_latitude record, rec_longitude record with
      | Some la, Some lo => Some (mkCoordinates la lo)
      | _, _ =>
          match pointCoordinates (rec_location record) with
          | Some c => Some c
          | None => pointCoordinates (rec_centroid record)
          end
      end
  end.

(** A node document as [extractCoordinates] sees it: the schema stores the
    position as the GeoJSON point [location], [[lon, lat]]. *)
Definition geoRecordOfNode (n : Node) : GeoRecord :=
  mkGeoRecord None None None None
    (Some (mkGeoPoint "Point" [lon (location n); lat (location n)])) None.

(* ------------------------------------------------------------------ *)
(** ** shipment.controller.js: [createShipment] and [markShipmentArrived] *)

Inductive ShipmentStatus : Type :=
| ship_pending | ship_in_transit | ship_arrived | ship_delayed
| ship_cancelled.

Definition ShipmentStatus_eqb (a b : ShipmentStatus) : bool :=
  match a, b with
  | ship_pending, ship_pending | ship_in_transit, ship_in_transit
  | ship_arrived, ship_arrived | ship_delayed, ship_delayed
  | ship_cancelled, ship_cancelled => true
  | _, _ => false
  end.

(** A number field of a JSON body as Mongoose casts it: absent
    ([undefined] or [null]), a number, or a value that is no number, which
    makes the cast and with it [Shipment.create] fail. *)
Inductive NumberField : Type :=
| FieldAbsent
| FieldNumber (q : Q)
| FieldNotNumber.

(** The body of a 2xx answer of the transport service
    ([GET /api/transport/time]), which the handler takes as it comes:
    [NoBody] is [null] or [undefined]; [body_eta] is the value of
    [new Date(transportData.eta_iso)], [None] when that is no date (the
    field is missing or cannot be parsed). *)
Inductive TransportBody : Type :=
| NoBody
| Body (body_distance_km body_travel_time_minutes : NumberField)
       (body_eta : option Time).

(** [transportData] when the shipment document can be made of it. *)
Record TransportData : Type := mkTransportData {
  td_distance_km : option Q;
  td_travel_time_minutes : option Q;
  td_eta_iso : Time
}.

Definition castNumber (f : NumberField) : option (option Q) :=
  match f with
  | FieldAbsent => Some None
  | FieldNumber q => Some (Some q)
  | FieldNotNumber => None
  end.

(** What lines 228-232 make of the body of the answer.  [None] is the
    exception that ends in the 500 of the outer [catch]: the [TypeError] of
    [transportData.eta_iso] on a missing body, or the validation error of
    [Shipment.create] on an invalid date or on a value that is no number. *)
Definition readTransportBody (body : TransportBody) : option TransportData :=
  match body with
  | NoBody => None
  | Body distance travel eta =>
      match eta, castNumber distance, castNumber travel with
      | Some e, Some d, Some t => Some (mkTransportData d t e)
      | _, _, _ => None
      end
  end.

(** A document of the shipment collection; [meta_allocatedBatches] and
    [meta_items] are [metadata.allocatedBatches] and [metadata.items]. *)
Record Shipment : Type := mkShipment {
  ship_id : Id;
  shipmentId : string;
  batchIds : list Id;
  fromNode : Id;
  toNode : Id;
  start_iso : Time;
  eta_iso : Time;
  arrived_iso : option Time;
  ship_status : ShipmentStatus;
  vehicleId : option string;
  travel_time_minutes : option Q;
  ship_distance_km : option Q;
  meta_allocatedBatches : list AllocatedBatch;
  meta_items : list ShipmentItem
}.

Inductive EventPayload : Type :=
| ShipmentCreatedPayload (shipment : string) (fromNodeId toNodeId : Id)
                         (batchCount : nat) (distanceKm : option Q)
                         (eta : Time)
| ShipmentArrivedPayload (shipment : string) (fromNodeId toNodeId : Id)
                         (batchCount : nat) (plannedEta actualArrival : Time)
                         (delayMinutes : Z).

Record Event : Type := mkEvent {
  ev_time : Time;
  ev_type : string;
  ev_location : Coordinates;
  ev_payload : EventPayload
}.

(** The collections the two handlers read and write. *)
Record Db : Type := mkDb {
  db_nodes : list Node;
  db_batches : list Batch;
  db_shipments : list Shipment;
  db_events : list Event
}.

(** The error a handler ends with: the status code and the message; the
    errors of the allocation phase keep their own message. *)
Inductive HttpMessage : Type :=
| Msg (text : string)
| MsgItem (m : ApiMessage).

Inductive HttpError : Type := mkHttpError (code : Z) (message : HttpMessage).

(** [req.body] of [POST /api/shipments]; [body_items] is [None] when
    [items] is missing or no array. *)
Record ShipmentBody : Type := mkShipmentBody {
  body_fromNodeId : option Id;
  body_toNodeId : option Id;
  body_items : option (list ShipmentItem);
  body_startTime : option Time;
  body_vehicleId : option string
}.

Definition set_status (b : Batch) (s : BatchStatus) : Batch :=
  mkBatch (_id b) (parentBatchId b) (foodType b) (quantity_kg b)
          (original_quantity_kg b) (originNode b) (currentNode b) s
          (shelf_life_hours b) (manufacture_date b) (expiry_iso b)
          (createdAt b) (initial_temp_c b) (freshnessPct b) (history b)
          (metadata b).

(** [Node.findById(id)] *)
Definition findNodeById (nodes : list Node) (id : Id) : option Node :=
  find (fun n => String.eqb (node_id n) id) nodes.

Section ShipmentController.
(** The identifier MongoDB gives to the n-th document created by a request,
    the value of [new Date()], the transport service of Backend-C and the
    identifier [SHP-<clock>-<random>] drawn for the shipment. *)
Variable newObjectId : nat -> Id.
Variable now : Time.
Variable transportTime :
  Coordinates -> Coordinates -> Time -> CallOutcome TransportBody.
Variable newShipmentId : string.

(** [Batch.findByIdAndUpdate(batchId, { status: "in_transit",
    $push: { history: ... } })] *)
Definition shipBatch (fromNodeId toNodeId : Id) (docs : list Batch)
           (id : Id) : list Batch :=
  map (fun b =>
         if String.eqb (_id b) id then
           set_history (set_status b in_transit)
             (history b ++
                [mkHistoryEntry now "shipped" fromNodeId toNodeId
                   (NoteText ("Shipment " ++ newShipmentId ++ " created"))])
         else b)
      docs.

(** The fallback of the [catch] around the transport call: 100 km at one
    minute per kilometre. *)
Definition fallbackTransport (startDate : Time) : TransportData :=
  let distance := 100 in
  let travelMinutes := distance * 1 in
  mkTransportData (Some distance) (Some travelMinutes)
                  (startDate + 100 * 60 * 1000)%Z.

(** [transportData] after the [try] around the call: the body of the
    answer, unchecked, or the fallback when the call failed. *)
Definition transportDataOf (outcome : CallOutcome TransportBody)
           (startDate : Time) : option TransportData :=
  match outcome with
  | Returned body => readTransportBody body
  | Failed _ => Some (fallbackTransport startDate)
  end.

(** [createShipment]: the error thrown, or the collections after the
    transaction was committed with the body of the 201 response (the
    shipment, [allocatedBatches] and [transport]).  An error aborts the
    transaction: the collections stay as they were. *)
Definition createShipment (db : Db) (body : ShipmentBody)
  : HttpError + (Db * Shipment * list AllocatedBatch * TransportData) :=
  match truthy_id (body_fromNodeId body), truthy_id (body_toNodeId body),
        body_items body with
  | Some fromNodeId, Some toNodeId, Some items =>
      match items with
      | [] => inl (mkHttpError 400 (Msg "Items array cannot be empty"))
      | _ :: _ =>
          match findNodeById (db_nodes db) fromNodeId with
          | None =>
              inl (mkHttpError 404
                     (Msg ("Source node " ++ fromNodeId ++ " not found")))
          | Some fromDoc =>
              match findNodeById (db_nodes db) toNodeId with
              | None =>
                  inl (mkHttpError 404
                         (Msg ("Destination node " ++ toNodeId
                               ++ " not found")))
              | Some toDoc =>
                  let startDate := coalesce (body_startTime body) now in
                  match allocateShipmentItems
                          newObjectId now fromNodeId
                          (mkShipmentState (db_batches db) [] [] O) items with
                  | inl (mkApiError code m) =>
                      inl (mkHttpError code (MsgItem m))
                  | inr st =>
                      match extractCoordinates (geoRecordOfNode fromDoc),
                            extractCoordinates (geoRecordOfNode toDoc) with
                      | Some fromCoords, Some toCoords =>
                          match transportDataOf
                                  (transportTime fromCoords toCoords
                                                 startDate)
                                  startDate with
                          | None =>
                              inl (mkHttpError 500
                                     (Msg "Failed to create shipment"))
                          | Some transportData =>
                              let shipment :=
                                mkShipment (newObjectId (created st))
                                  newShipmentId (allBatchIds st) fromNodeId
                                  toNodeId startDate
                                  (td_eta_iso transportData)
                                  None ship_in_transit
                                  (match body_vehicleId body with
                                   | Some v => if String.eqb v "" then None
                                               else Some v
                                   | None => None
                                   end)
                                  (td_travel_time_minutes transportData)
                                  (td_distance_km transportData)
                                  (allocatedBatches st) items in
                              let batches' :=
                                fold_left (shipBatch fromNodeId toNodeId)
                                          (allBatchIds st) (store st) in
                              let event :=
                                mkEvent startDate "shipment_created"
                                  (location fromDoc)
                                  (ShipmentCreatedPayload newShipmentId
                                     (node_id fromDoc) (node_id toDoc)
                                     (List.length (allBatchIds st))
                                     (td_distance_km transportData)
                                     (td_eta_iso transportData)) in
                              inr (mkDb (db_nodes db) batches'
                                        (db_shipments db ++ [shipment])
                                        (db_events db ++ [event]),
                                   shipment, allocatedBatches st,
                                   transportData)
                          end
                      | _, _ =>
                          inl (mkHttpError 500
                                 (Msg "Failed to create shipment"))
                      end
                  end
              end
          end
      end
  | _, _, _ =>
      inl (mkHttpError 400
             (Msg "Missing required fields: fromNodeId, toNodeId, items"))
  end.

(** [Batch.findByIdAndUpdate(batchId, { currentNode: shipment.toNode._id,
    status: "delivered", $push: { history: ... } })] *)
Definition deliverBatch (shipment : Shipment) (arrivedDate : Time)
           (docs : list Batch) (id : Id) : list Batch :=
  map (fun b =>
         if String.eqb (_id b) id then
           set_history
             (set_status (set_currentNode b (toNode shipment)) delivered)
             (history b ++
                [mkHistoryEntry arrivedDate "arrived" (fromNode shipment)
                   (toNode shipment)
                   (NoteText ("Shipment " ++ shipmentId shipment
                              ++ " arrived"))])
         else b)
      docs.

(** The shipment after [shipment.status = "arrived"; shipment.arrived_iso =
    arrivedDate]. *)
Definition arrivedShipment (shipment : Shipment) (arrivedDate : Time)
  : Shipment :=
  mkShipment (ship_id shipment) (shipmentId shipment) (batchIds shipment)
             (fromNode shipment) (toNode shipment) (start_iso shipment)
             (eta_iso shipment) (Some arrivedDate) ship_arrived
             (vehicleId shipment) (travel_time_minutes shipment)
             (ship_distance_km shipment) (meta_allocatedBatches shipment)
             (meta_items shipment).

(** [Math.round((arrivedDate - new Date(shipment.eta_iso)) / (1000 * 60))] *)
Definition delayMinutesOf (shipment : Shipment) (arrivedDate : Time) : Z :=
  js_round (inject_Z (arrivedDate - eta_iso shipment) / 60000).

(** [markShipmentArrived] for [PATCH /api/shipments/:id/arrive].  The two
    nodes are populated: a reference to a node that does not exist is
    [null], and reading a field of it ends in the 500 of the [catch]. *)
Definition markShipmentArrived (db : Db) (id : Id)
           (arrivedTime : option Time) : HttpError + (Db * Shipment) :=
  match find (fun s => String.eqb (ship_id s) id) (db_shipments db) with
  | None => inl (mkHttpError 404 (Msg "Shipment not found"))
  | Some shipment =>
      if ShipmentStatus_eqb (ship_status shipment) ship_arrived then
        inl (mkHttpError 400 (Msg "Shipment already marked as arrived"))
      else
        let arrivedDate := coalesce arrivedTime now in
        match findNodeById (db_nodes db) (fromNode shipment),
              findNodeById (db_nodes db) (toNode shipment) with
        | Some fromDoc, Some toDoc =>
            let shipment' := arrivedShipment shipment arrivedDate in
            let shipments' :=
              map (fun s => if String.eqb (ship_id s) id then shipment'
                            else s)
                  (db_shipments db) in
            let batches' :=
              fold_left (deliverBatch shipment' arrivedDate)
                        (batchIds shipment) (db_batches db) in
            let event :=
              mkEvent arrivedDate "shipment_arrived" (location toDoc)
                (ShipmentArrivedPayload (shipmentId shipment)
                   (node_id fromDoc) (node_id toDoc)
                   (List.length (batchIds shipment)) (eta_iso shipment)
                   arrivedDate (delayMinutesOf shipment arrivedDate)) in
            inr (mkDb (db_nodes db) batches' shipments'
                      (db_events db ++ [event]),
                 shipment')
        | _, _ =>
            inl (mkHttpError 500 (Msg "Failed to mark shipment as arrived"))
        end
  end.
End ShipmentController.

(* ------------------------------------------------------------------ *)
(** ** simulation controller: dispatch times of [simulateAllocations] *)

(** [clampMs], with [lo] and [hi] the two ends of the simulation window;
    [None] is a value that is not finite. *)
Definition clampMs (lo hi : Time) (ms : option Time) : Time :=
  match ms with
  | None => lo
  | Some ms => Z.min (Z.max ms lo) hi
  end.

(** [latestDispatchCeilMs]; [headroomHoursRaw] is
    [Number(process.env.SIM_DISPATCH_HEADROOM_HOURS ?? 0)]. *)
Definition latestDispatchCeilMs (lo hi : Time) (headroomHoursRaw : jsnum) : Q :=
  let headroomHours :=
    match headroomHoursRaw with
    | Fin raw => if Qltb 0 raw then Qmin_b raw 48 else 0
    | _ => 0
    end in
  let headroomMs := headroomHours * 3600 * 1000 in
  Qmax_b (inject_Z lo) (inject_Z hi - headroomMs).

(** [dispatchMode === "createdon"] or not: every other value of the query
    parameter spreads the dispatch times. *)
Inductive DispatchMode : Type := createdon | spread.

Definition set_req_dispatchTime (r : Request) (t : Time) : Request :=
  mkRequest (requestID r) (requesterNode r) (items r) (Some t) (createdOn r).

(** [requestsForAllocation]: the copies of the requests with the dispatch
    time the allocators plan with. *)
Definition requestsForAllocation (dispatchMode : DispatchMode) (lo hi : Time)
           (headroomHoursRaw : jsnum) (requests : list Request)
  : list Request :=
  let ceil := latestDispatchCeilMs lo hi headroomHoursRaw in
  map (fun r =>
         match dispatchMode with
         | createdon =>
             let ms := clampMs lo hi (createdOn r) in
             set_req_dispatchTime r (js_trunc (Qmin_b (inject_Z ms) ceil))
         | spread => set_req_dispatchTime r (js_trunc ceil)
         end)
      requests.

Definition set_dispatchTime (a : Allocation) (t : Time) : Allocation :=
  mkAllocation (requestId a) (a_foodType a) (a_required_kg a) (allocated_kg a)
               (warehouse a) (warehouseName a) (distance_km a) (batches a)
               (strategy a) t.

(** The body of [nonZero.forEach((alloc, idx) => ...)]: the scheduled time,
    moved after the availability of the lots of the record, then clamped to
    the window. *)
Definition spreadDispatch (lo hi : Time) (byId : list (string * Batch))
           (span denom : Z) (idx : nat) (alloc : Allocation) : Allocation :=
  let scheduledMs0 :=
    (lo + js_round (inject_Z (span * Z.of_nat idx) / inject_Z denom))%Z in
  let minDispatchMs :=
    fold_left (fun minDispatchMs used =>
                 match mapGet byId (batchId used) with
                 | None => minDispatchMs
                 | Some b =>
                     match availabilityTime b with
                     | Some availMs => Z.max minDispatchMs availMs
                     | None => minDispatchMs
                     end
                 end)
              (batches alloc) scheduledMs0 in
  set_dispatchTime alloc (clampMs lo hi (Some minDispatchMs)).

(** The records with a positive quantity are rescheduled in place, in their
    order; [idx] counts them. *)
Fixpoint spreadLoop (lo hi : Time) (byId : list (string * Batch))
         (span denom : Z) (idx : nat) (allocations : list Allocation)
  : list Allocation :=
  match allocations with
  | [] => []
  | alloc :: rest =>
      if Qltb 0 (allocated_kg alloc)
      then spreadDispatch lo hi byId span denom idx alloc
             :: spreadLoop lo hi byId span denom (S idx) rest
      else alloc :: spreadLoop lo hi byId span denom idx rest
  end.

(** [spreadAllocationsAcrossWindow], applied when the dispatch mode is not
    ["createdon"]. *)
Definition spreadAllocationsAcrossWindow (lo hi : Time)
           (byId : list (string * Batch)) (allocations : list Allocation)
  : list Allocation :=
  let span := Z.max 0 (hi - lo) in
  let nonZero := filter (fun a => Qltb 0 (allocated_kg a)) allocations in
  let denom := Z.max 1 (Z.of_nat (List.length nonZero) - 1) in
  spreadLoop lo hi byId span denom 0 allocations.

(* ------------------------------------------------------------------ *)
(** ** simulation controller: [calcMetrics] *)

Record Metrics : Type := mkMetrics {
  totalRequests : nat;
  fulfilledRequests : nat;
  totalRequired : Q;
  totalAllocated : Q;
  fulfillmentRate : Q;
  totalDistanceKm : Q;
  avgDistance : Q;
  avgFreshness : Q;
  deliveredAvgFreshness : Q;
  deliveredKg : Q;
  deliveredSpoiledKg : Q;
  deliveredAtRiskKg : Q
}.

(** The four accumulators of the delivery loop. *)
Record Delivered : Type := mkDelivered {
  acc_deliveredKg : Q;
  acc_deliveredFreshnessWeighted : Q;
  acc_deliveredSpoiledKg : Q;
  acc_deliveredAtRiskKg : Q
}.

(** [batch ? calculateFreshnessPct(batch, deliveryTime, avgTempC)
          : Number(used.freshness) || 100] *)
Definition freshnessAtDeliveryOf (byId : list (string * Batch)) (avgTempC : Q)
           (deliveryTime : Time) (used : UsedBatch) : Q :=
  match mapGet byId (batchId used) with
  | Some batch => calculateFreshnessPct batch deliveryTime avgTempC
  | None => if Qeq_bool (freshness used) 0 then 100 else freshness used
  end.

(** The body of [for (const used of alloc.batches || [])]. *)
Definition deliverUsed (byId : list (string * Batch)) (avgTempC : Q)
           (deliveryTime : Time) (acc : Delivered) (used : UsedBatch)
  : Delivered :=
  let qty := quantity used in
  if Qle_bool qty 0 then acc
  else
    let freshnessAtDelivery :=
      freshnessAtDeliveryOf byId avgTempC deliveryTime used in
    mkDelivered
      (acc_deliveredKg acc + qty)
      (acc_deliveredFreshnessWeighted acc + freshnessAtDelivery * qty)
      (if Qle_bool freshnessAtDelivery 0
       then acc_deliveredSpoiledKg acc + qty
       else acc_deliveredSpoiledKg acc)
      (if Qle_bool freshnessAtDelivery 0 then acc_deliveredAtRiskKg acc
       else if Qltb freshnessAtDelivery 20
            then acc_deliveredAtRiskKg acc + qty
            else acc_deliveredAtRiskKg acc).

(** The body of [for (const alloc of allocations)].  The records of the
    allocators all carry a dispatch time, and no caller passes
    [avgSpeedKmh]: the travel time is the one of [estimateTravelHours] at
    40 km/h. *)
Definition deliverAllocation (byId : list (string * Batch)) (avgTempC : Q)
           (acc : Delivered) (alloc : Allocation) : Delivered :=
  let travelHours := estimateTravelHours (distance_km alloc) in
  let deliveryTime := deliveryTimeOf (dispatchTime alloc) travelHours in
  fold_left (deliverUsed byId avgTempC deliveryTime) (batches alloc) acc.

(** The number of request ids with a positive allocated total. *)
Definition fulfilledRequestsOf (allocations : list Allocation) : nat :=
  let uniqueRequestIds := dedupIds [] (map requestId allocations) in
  List.length
    (filter (fun reqId =>
               let reqAllocations :=
                 filter (fun a => String.eqb (requestId a) reqId) allocations in
               Qltb 0 (Qsum (map allocated_kg reqAllocations)))
            uniqueRequestIds).

Definition avgFreshnessOf (allocations : list Allocation) : Q :=
  fold_left (fun sum a =>
               match batches a with
               | [] => sum
               | _ :: _ =>
                   sum + Qsum (map freshness (batches a))
                         / inject_Z (Z.of_nat (List.length (batches a)))
               end)
            allocations 0
  / inject_Z (Z.of_nat (List.length allocations)).

(** [calcMetrics(allocations, requests, { batchesById, avgTempC })]. *)
Definition calcMetrics (allocations : list Allocation)
           (requests : list Request) (byId : list (string * Batch))
           (avgTempC : Q) : Metrics :=
  match allocations with
  | [] => mkMetrics 0 0 0 0 0 0 0 0 0 0 0 0
  | _ :: _ =>
      let totalRequired := Qsum (map a_required_kg allocations) in
      let totalAllocated := Qsum (map allocated_kg allocations) in
      let fulfillmentRate :=
        if Qltb 0 totalRequired then totalAllocated / totalRequired * 100
        else 0 in
      let totalDistanceKm := Qsum (map distance_km allocations) in
      let avgDistance :=
        totalDistanceKm / inject_Z (Z.of_nat (List.length allocations)) in
      let d := fold_left (deliverAllocation byId avgTempC) allocations
                         (mkDelivered 0 0 0 0) in
      let deliveredAvgFreshness :=
        if Qltb 0 (acc_deliveredKg d)
        then acc_deliveredFreshnessWeighted d / acc_deliveredKg d
        else 0 in
      mkMetrics (List.length requests)
                (fulfilledRequestsOf allocations)
                (round2 totalRequired)
                (round2 totalAllocated)
                (round2 fulfillmentRate)
                (round2 totalDistanceKm)
                (round2 avgDistance)
                (round2 (avgFreshnessOf allocations))
                (round2 deliveredAvgFreshness)
                (round2 (acc_deliveredKg d))
                (round2 (acc_deliveredSpoiledKg d))
                (round2 (acc_deliveredAtRiskKg d))
  end.

(* ------------------------------------------------------------------ *)
(** ** history controller: the shipments of [getHistoryDay] *)

(** An entry of [shipmentsFormatted]. *)
Record ShipmentFrame : Type := mkShipmentFrame {
  sf_id : Id;
  sf_shipmentId : string;
  sf_fromNodeId : Id;
  sf_toNodeId : Id;
  sf_startTime : Time;
  sf_etaTime : Time;
  sf_arrivedTime : option Time;
  sf_status : ShipmentStatus;
  sf_from : Coordinates;
  sf_to : Coordinates;
  sf_foodItem : string;
  sf_value : Q
}.

(** "Determine status at target date". *)
Definition statusAtDate (dayEnd : Time) (shipment : Shipment)
  : ShipmentStatus :=
  if match arrived_iso shipment with
     | Some arrived => (arrived <=? dayEnd)%Z
     | None => false
     end
  then ship_arrived
  else if (start_iso shipment <=? dayEnd)%Z
          && match arrived_iso shipment with
             | Some arrived => (dayEnd <? arrived)%Z
             | None => true
             end
       then ship_in_transit
       else ship_status shipment.

(** The body of [shipments.map((shipment) => ...)]; the two nodes are
    populated from the node collection, and [None] is the exception of
    [extractCoordinates] (also on a node that no longer exists). *)
Definition formatShipment (nodes : list Node) (dayEnd : Time)
           (shipment : Shipment) : option ShipmentFrame :=
  match findNodeById nodes (fromNode shipment),
        findNodeById nodes (toNode shipment) with
  | Some fromNode, Some toNode =>
      match extractCoordinates (geoRecordOfNode fromNode),
            extractCoordinates (geoRecordOfNode toNode) with
      | Some fromCoords, Some toCoords =>
          Some (mkShipmentFrame
                  (ship_id shipment) (shipmentId shipment)
                  (node_id fromNode) (node_id toNode)
                  (start_iso shipment) (eta_iso shipment)
                  (arrived_iso shipment) (statusAtDate dayEnd shipment)
                  fromCoords toCoords
                  match meta_items shipment with
                  | item :: _ =>
                      if String.eqb (si_foodType item) "" then "food"%string
                      else si_foodType item
                  | [] => "food"%string
                  end
                  (Qsum (map (fun item => match si_quantity_kg item with
                                          | Some q => q
                                          | None => 0
                                          end)
                             (meta_items shipment))))
      | _, _ => None
      end
  | _, _ => None
  end.

Fixpoint formatShipments (nodes : list Node) (dayEnd : Time)
         (shipments : list Shipment) : option (list ShipmentFrame) :=
  match shipments with
  | [] => Some []
  | shipment :: rest =>
      match formatShipment nodes dayEnd shipment with
      | None => None
      | Some frame =>
          match formatShipments nodes dayEnd rest with
          | None => None
          | Some frames => Some (frame :: frames)
          end
      end
  end.

(** [Shipment.find({ start_iso: { $lte: dayEnd } })]. *)
Definition shipmentsStartedBy (db : Db) (dayEnd : Time) : list Shipment :=
  filter (fun s => (start_iso s <=? dayEnd)%Z) (db_shipments db).

(** The entries of [kpis] that are computed from the shipments. *)
Record ShipmentKpis : Type := mkShipmentKpis {
  avg_delivery_time_minutes : Z;
  total_shipments : nat;
  active_shipments : nat
}.

Definition arrivedBy (dayEnd : Time) (s : Shipment) : bool :=
  match arrived_iso s with
  | Some arrived => (arrived <=? dayEnd)%Z
  | None => false
  end.

Definition shipmentKpis (dayEnd : Time) (shipments : list Shipment)
           (shipmentsFormatted : list ShipmentFrame) : ShipmentKpis :=
  let arrivedShipments := filter (arrivedBy dayEnd) shipments in
  let avgDeliveryMinutes :=
    match arrivedShipments with
    | [] => 0
    | _ :: _ =>
        Qsum (map (fun s =>
                     match arrived_iso s with
                     | Some arrived =>
                         inject_Z (arrived - start_iso s) / (1000 * 60)
                     | None => 0
                     end)
                  arrivedShipments)
        / inject_Z (Z.of_nat (List.length arrivedShipments))
    end in
  mkShipmentKpis
    (js_round avgDeliveryMinutes)
    (List.length shipments)
    (List.length
       (filter (fun s => ShipmentStatus_eqb (sf_status s) ship_in_transit)
               shipmentsFormatted)).

(** The shipments and their indicators in the frame of a day; [None] is a
    request that fails. *)
Definition historyShipments (db : Db) (dayEnd : Time)
  : option (list ShipmentFrame * ShipmentKpis) :=
  let shipments := shipmentsStartedBy db dayEnd in
  match formatShipments (db_nodes db) dayEnd shipments with
  | None => None
  | Some shipmentsFormatted =>
      Some (shipmentsFormatted,
            shipmentKpis dayEnd shipments shipmentsFormatted)
  end.

(* ------------------------------------------------------------------ *)
(** ** utils/snapshotBuilder.js: the inventory of [buildMLSnapshot] *)

(** A JavaScript object used as a map from strings: [o[k]] and [o[k] = v];
    the keys are kept in the order of their first assignment, which is the
    order of [Object.values]. *)
Definition objGet {V : Type} (o : list (string * V)) (k : string) : option V :=
  match find (fun e => String.eqb (fst e) k) o with
  | Some e => Some (snd e)
  | None => None
  end.

Fixpoint objSet {V : Type} (o : list (string * V)) (k : string) (v : V)
  : list (string * V) :=
  match o with
  | [] => [(k, v)]
  | e :: rest =>
      if String.eqb (fst e) k then (k, v) :: rest
      else e :: objSet rest k v
  end.

(** An entry of [inventoryByRegion]; [food_types] is a [Set]. *)
Record RegionInventory : Type := mkRegionInventory {
  ri_state : option string;
  ri_district : option string;
  ri_stored_kg : Q;
  ri_batch_count : nat;
  ri_food_types : list string
}.

(** An entry of [inventorySnapshot]. *)
Record RegionSnapshot : Type := mkRegionSnapshot {
  rs_state : option string;
  rs_district : option string;
  rs_stored_kg : Q;
  rs_batch_count : nat;
  unique_food_types : nat
}.

(** A value inside a template literal; [None] is [undefined]. *)
Definition templateOf (s : option string) : string :=
  match s with
  | Some x => x
  | None => "undefined"
  end.

(** [Set.prototype.add] *)
Definition setAdd (s : list string) (x : string) : list string :=
  if existsb (String.eqb x) s then s else s ++ [x].

(** The lots that count: stored or in transit. *)
Definition inInventory (batch : Batch) : bool :=
  BatchStatus_eqb (status batch) stored
  || BatchStatus_eqb (status batch) in_transit.

(** The body of [for (const batch of batches)]. *)
Definition addToRegion (nodes : list Node)
           (inventoryByRegion : list (string * RegionInventory))
           (batch : Batch) : list (string * RegionInventory) :=
  if inInventory batch then
    match findNodeById nodes (currentNode batch) with
    | Some node =>
        let regionKey :=
          (templateOf (node_state node) ++ "-"
           ++ templateOf (node_district node))%string in
        let entry :=
          match objGet inventoryByRegion regionKey with
          | Some e => e
          | None =>
              mkRegionInventory (node_state node) (node_district node) 0 0 []
          end in
        objSet inventoryByRegion regionKey
               (mkRegionInventory
                  (ri_state entry) (ri_district entry)
                  (ri_stored_kg entry + quantity_kg batch)
                  (S (ri_batch_count entry))
                  (if String.eqb (foodType batch) "" then ri_food_types entry
                   else setAdd (ri_food_types entry) (foodType batch)))
    | None => inventoryByRegion
    end
  else inventoryByRegion.

Definition inventoryByRegionOf (nodes : list Node) (batches : list Batch)
  : list (string * RegionInventory) :=
  fold_left (addToRegion nodes) batches [].

(** [inventorySnapshot] for the nodes and the batches the queries return. *)
Definition inventorySnapshot (nodes : list Node) (batches : list Batch)
  : list RegionSnapshot :=
  map (fun e =>
         let inv := snd e in
         mkRegionSnapshot (ri_state inv) (ri_district inv) (ri_stored_kg inv)
                          (ri_batch_count inv)
                          (List.length (ri_food_types inv)))
      (inventoryByRegionOf nodes batches).

(* ------------------------------------------------------------------ *)
(** ** suggest.controller.js: the ranking of [getSuggestionsForBatch] *)

(** An entry of [mlResponse.data.results]; [None] is [undefined]. *)
Record Prediction : Type := mkPrediction {
  cluster_id : option Z;
  pred_state : option string;
  pred_district : option string;
  predicted_demand_kg : option Q;
  pred_anomaly_score : option Q;
  pred_is_anomaly : option Z
}.

Record Suggestion : Type := mkSuggestion {
  sg_regionId : string;
  sg_district : option string;
  sg_state : option string;
  sg_predicted_demand_kg : Q;
  sg_confidence : Q;
  sg_score : Z;
  sg_reason : string
}.

(** [pred.anomaly_score || 0] *)
Definition anomalyOf (p : Prediction) : Q := coalesce (pred_anomaly_score p) 0.

(** [(a, b) => (b.anomaly_score || 0) - (a.anomaly_score || 0)] is not
    positive. *)
Definition anomaly_cmp_le (a b : Prediction) : bool :=
  Qle_bool (anomalyOf b - anomalyOf a) 0.

(** [predictions.filter(...).sort(...).slice(0, 5)] *)
Definition topPredictions (predictions : list Prediction) : list Prediction :=
  firstn 5
    (js_sort anomaly_cmp_le
       (filter (fun p => match cluster_id p with
                         | Some _ => true
                         | None => false
                         end)
               predictions)).

(** The body of [.map((pred, index) => ...)]. *)
Definition suggestionOf (index : nat) (pred : Prediction) : Suggestion :=
  mkSuggestion
    (templateOf (pred_state pred) ++ "-" ++ templateOf (pred_district pred))
    (pred_district pred)
    (pred_state pred)
    (coalesce (predicted_demand_kg pred) 0)
    (Qabs (anomalyOf pred))
    (100 - Z.of_nat index * 15)
    match pred_is_anomaly pred with
    | Some 1%Z => "High anomaly score - potential surge demand"
    | _ => "Normal demand pattern"
    end.

(** The [allocations] of the response. *)
Definition suggestedAllocations (predictions : list Prediction)
  : list Suggestion :=
  map (fun ip => suggestionOf (fst ip) (snd ip))
      (indexed (topPredictions predictions)).

(* ------------------------------------------------------------------ *)
(** ** history controller: the batches and the spoilage of [getHistoryDay] *)

Definition set_freshnessPct (b : Batch) (f : option Q) : Batch :=
  mkBatch (_id b) (parentBatchId b) (foodType b) (quantity_kg b)
          (original_quantity_kg b) (originNode b) (currentNode b) (status b)
          (shelf_life_hours b) (manufacture_date b) (expiry_iso b)
          (createdAt b) (initial_temp_c b) f (history b) (metadata b).

(** [Batch.find({ createdAt: { $lte: dayEnd } })]. *)
Definition batchesCreatedBy (db : Db) (dayEnd : Time) : list Batch :=
  filter (fun b => match createdAt b with
                   | Some t => (t <=? dayEnd)%Z
                   | None => false
                   end)
         (db_batches db).

(** [batch.shelf_life_hours && batch.manufacture_date]: a number that is
    not zero and a date. *)
Definition hasFreshnessData (batch : Batch) : bool :=
  match shelf_life_hours batch, manufacture_date batch with
  | Some life, Some _ => negb (Qeq_bool life 0)
  | _, _ => false
  end.

(** The body of [batches.map((batch) => ...)], as far as the batch goes:
    the freshness at the end of the day replaces the stored one. *)
Definition withFreshnessAt (dayEnd : Time) (batch : Batch) : Batch :=
  if hasFreshnessData batch
  then set_freshnessPct batch (Some (calculateFreshnessPct batch dayEnd 25))
  else batch.

Definition batchesWithFreshness (db : Db) (dayEnd : Time) : list Batch :=
  map (withFreshnessAt dayEnd) (batchesCreatedBy db dayEnd).

(** [b.status === "spoiled" ||
     (b.freshnessPct !== undefined && b.freshnessPct <= 0)] *)
Definition spoiledInFrame (b : Batch) : bool :=
  BatchStatus_eqb (status b) spoiled
  || match freshnessPct b with
     | Some f => Qle_bool f 0
     | None => false
     end.

Record SpoilageKpis : Type := mkSpoilageKpis {
  spoiled_kg : Q;
  spoiled_batch_count : nat
}.

(** The entries [spoiled_kg] and [spoiled_batch_count] of [kpis]. *)
Definition spoilageKpis (db : Db) (dayEnd : Time) : SpoilageKpis :=
  let spoiledBatches := filter spoiledInFrame (batchesWithFreshness db dayEnd) in
  mkSpoilageKpis (Qsum (map quantity_kg spoiledBatches))
                 (List.length spoiledBatches).

(* ------------------------------------------------------------------ *)
(** ** Further notions used by the statements *)

(** What is known of a transfer that was applied. *)
Definition applied_ok (suggestions : list TransferSuggestion)
           (a : AppliedTransfer) : Prop :=
  sourceWarehouseId a <> targetWarehouseId a
  /\ 0 < at_suggested_quantity_kg a
  /\ 0 <= applied_quantity_kg a
  /\ applied_quantity_kg a <= round2 (at_suggested_quantity_kg a)
  /\ exists s,
      In s suggestions
      /\ source_mongoId s = Some (sourceWarehouseId a)
      /\ target_mongoId s = Some (targetWarehouseId a)
      /\ suggested_quantity_kg s = Some (at_suggested_quantity_kg a).

(** The quantity listed by the entries of [allocatedBatches]. *)
Definition shipped_kg (l : list AllocatedBatch) : Q :=
  fold_right (fun a acc => ab_quantity a + acc) 0 l.

(** The quantity requested by the line items of a shipment. *)
Definition requested_kg (items : list ShipmentItem) : Q :=
  fold_right (fun item acc => coalesce (si_quantity_kg item) 0 + acc) 0 items.

(** The quantity held by the batches of a collection that carry an
    identifier. *)
Definition stock_of (i : Id) (l : list Batch) : Q :=
  fold_right (fun b acc =>
                (if String.eqb (_id b) i then quantity_kg b else 0) + acc)
             0 l.

(** The quantity the entries of an allocation take from the batch with an
    identifier, and the same over a list of allocations. *)
Definition used_of (i : Id) (l : list UsedBatch) : Q :=
  fold_right (fun u acc =>
                (if String.eqb (batchId u) i then quantity u else 0) + acc)
             0 l.

Definition allocated_from (i : Id) (allocations : list Allocation) : Q :=
  fold_right (fun a acc => used_of i (batches a) + acc) 0 allocations.

(** The sum of [allocated_kg] over a list of allocations. *)
Definition allocated_total (allocations : list Allocation) : Q :=
  fold_right (fun a acc => allocated_kg a + acc) 0 allocations.

(** The account kept by a run of the baseline on [batches0]: identifiers
    stay unique, quantities stay non-negative, and what was allocated from
    a batch together with what is left of it never exceeds what the
    snapshot held. *)
Definition account_ok (batches0 : list Batch)
           (st : list Batch * list Allocation) : Prop :=
  NoDup (map _id (fst st))
  /\ Forall (fun b => 0 <= quantity_kg b) (fst st)
  /\ (forall i, allocated_from i (snd st) + stock_of i (fst st)
                <= stock_of i batches0)
  /\ allocated_total (snd st) + total_kg (fst st) <= total_kg batches0.

(** The line items of a list of requests, each with its request, in the
    order in which a run treats them. *)
Definition lineItems (requests : list Request)
  : list (Request * RequestItem) :=
  flat_map (fun r => map (pair r) (items r)) requests.

(** The records read off a list of slots: a slot is empty or holds one
    record. *)
Definition recordsOf (slots : list (option Allocation)) : list Allocation :=
  flat_map (fun s => match s with Some a => [a] | None => [] end) slots.

(** What a slot holds for its line item. *)
Definition slot_ok {X : Type} (R : X -> Allocation -> Prop) (x : X)
           (slot : option Allocation) : Prop :=
  match slot with
  | Some a => R x a
  | None => True
  end.

(** The records of a run set against its line items: there is one slot for
    every line item, a filled slot holds a record that [R] relates to the
    line item, and the records are those of the filled slots, in order. *)
Definition one_record_per_item
           (R : Request * RequestItem -> Allocation -> Prop)
           (todo : list (Request * RequestItem))
           (allocations : list Allocation) : Prop :=
  exists slots,
    Forall2 (slot_ok R) todo slots /\ allocations = recordsOf slots.

(** [Number.isSafeInteger]: a whole number below 2^53 in magnitude.  On
    such numbers the additions and subtractions of the source are exact as
    long as their results are of this kind too. *)
Definition safe_integer (q : Q) : Prop :=
  exists z : Z, q == inject_Z z /\ (Z.abs z < 2 ^ 53)%Z.

(** An allocation record answers the line item [item] of [request] and
    carries [dispatch] as its dispatch time. *)
Definition answers (request : Request) (item : RequestItem) (dispatch : Time)
           (a : Allocation) : Prop :=
  requestId a = requestID request
  /\ a_foodType a = item_foodType item
  /\ a_required_kg a = required_kg item
  /\ dispatchTime a = dispatch.

(** A time lies in the window given by an optional floor and an optional
    ceiling (a floor above the ceiling gives way to the ceiling). *)
Definition in_window (floor ceil : option Time) (t : Time) : Prop :=
  (forall c, ceil = Some c -> (t <= c)%Z)
  /\ (forall f, floor = Some f -> (forall c, ceil = Some c -> (f <= c)%Z) ->
                (f <= t)%Z).

(** The counters of a planner trace agree: every attempt ended as a
    completed run or as an error, and every attempt and every skipped run
    left one entry in the timeline. *)
Definition trace_ok (d : TransferPlannerDebug) : Prop :=
  attemptedRuns d = (runs d + errorRuns d)%nat
  /\ List.length (timeline d) = (attemptedRuns d + skippedRuns d)%nat.

(** The number of times the imbalance was looked at. *)
Definition plannerSteps (d : TransferPlannerDebug) : nat :=
  (attemptedRuns d + skippedRuns d)%nat.

(** What the delivery loop keeps: the spoiled and the endangered quantities
    are parts of the delivered quantity. *)
Definition delivered_ok (d : Delivered) : Prop :=
  0 <= acc_deliveredSpoiledKg d
  /\ 0 <= acc_deliveredAtRiskKg d
  /\ acc_deliveredSpoiledKg d + acc_deliveredAtRiskKg d <= acc_deliveredKg d.

(** The lots the inventory of a snapshot counts: stored or in transit, at
    a node of the snapshot. *)
Definition counted (nodes : list Node) (batch : Batch) : bool :=
  inInventory batch
  && match findNodeById nodes (currentNode batch) with
     | Some _ => true
     | None => false
     end.

(** What the loop over the batches keeps, for every entry of
    [inventoryByRegion]. *)
Definition region_entry_ok (e : string * RegionInventory) : Prop :=
  fst e = (templateOf (ri_state (snd e)) ++ "-"
           ++ templateOf (ri_district (snd e)))%string
  /\ (1 <= ri_batch_count (snd e))%nat
  /\ (List.length (ri_food_types (snd e)) <= ri_batch_count (snd e))%nat.

(** A batch of the collection is listed as spoiled in the frame of a day. *)
Definition spoiledAt (dayEnd : Time) (b : Batch) : bool :=
  match createdAt b with
  | Some t => (t <=? dayEnd)%Z
  | None => false
  end
  && spoiledInFrame (withFreshnessAt dayEnd b).

(* ------------------------------------------------------------------ *)
(** ** Further example data *)

(** Two warehouses, the 100 kg of rice of scenario 1 at warehouse A, and a
    request to ship 30 kg of it to warehouse B. *)
Definition shipping_db : Db :=
  mkDb [warehouseA; warehouseB] [scenario1_batch] [] [].

Definition shipping_body : ShipmentBody :=
  mkShipmentBody (Some "wA"%string) (Some "wB"%string)
                 (Some [mkShipmentItem "rice" (Some 30)]) (Some 0%Z) None.

(** A transport service that is down. *)
Definition transportDown (_ _ : Coordinates) (_ : Time)
  : CallOutcome TransportBody := Failed serviceDown.

(** The options of the simulation controller with a planner run every six
    hours, and a planner that suggests to move 300 kg from A to B. *)
Definition cronOptions : Options :=
  mkOptions true None None None true None None None None None (Some 6).

Definition plannerMoves (_ : PlannerRequest)
  : CallOutcome (option (list TransferSuggestion)) :=
  Returned (Some [mkTransferSuggestion None (Some "wA"%string)
                    (Some "wB"%string) (Some 300) None]).

(** A simulation window of seven days and three requests: one created
    inside the window, one before it and one without a creation date. *)
Definition window_lo : Time := 0.
Definition window_hi : Time := 7 * 24 * hour_ms - 1.

Definition window_requests : list Request :=
  [mkRequest "r4" "org1" [mkRequestItem "rice" 50] None (Some (30 * hour_ms)%Z);
   mkRequest "r5" "org1" [mkRequestItem "rice" 20] None (Some (- 5 * hour_ms)%Z);
   mkRequest "r6" "org1" [mkRequestItem "rice" 10] None None].

(** Three records of a play-back: 60 kg and 40 kg of the lots of
    scenario 2, and a record that allocates nothing. *)
Definition playback_allocations : list Allocation :=
  [mkAllocation "r1" "rice" 100 60 "wA" "wA" (111 # 10)
                [mkUsedBatch "bA" 60 50] regular (24 * hour_ms)%Z;
   mkAllocation "r2" "rice" 50 0 "wB" "wB" 111 [] regular (24 * hour_ms)%Z;
   mkAllocation "r3" "rice" 40 40 "wB" "wB" 111
                [mkUsedBatch "bB" 40 50] regular (24 * hour_ms)%Z].

(** Two shipments from warehouse A to warehouse B: one that arrived after
    three hours, and a cancelled one that never arrived. *)
Definition history_db : Db :=
  mkDb [warehouseA; warehouseB] []
       [mkShipment "s1" "SHP-1" ["b1"%string] "wA" "wB" 0 (2 * hour_ms)
                   (Some (3 * hour_ms)%Z) ship_arrived None (Some 120)
                   (Some 100) []
                   [mkShipmentItem "rice" (Some 30)];
        mkShipment "s2" "SHP-2" ["b2"%string] "wA" "wB" hour_ms (3 * hour_ms)
                   None ship_cancelled None (Some 120) (Some 100) []
                   [mkShipmentItem "rice" (Some 10)]]
       [].

(** A lot created at T0 with a shelf life of 48 hours, and a lot without a
    shelf life. *)
Definition spoilage_db : Db :=
  mkDb [warehouseA]
       [mkBatch "b1" None "rice" 100 100 "wA" "wA" stored (Some 48)
                (Some 0%Z) None (Some 0%Z) (Some 25) (Some 100) [] "";
        mkBatch "b0" None "salt" 50 50 "wA" "wA" stored None
                (Some 0%Z) None (Some 0%Z) (Some 25) (Some 100) [] ""]
       [] [].




(* THEOREMS *)

(* ================================================================== *)
(** * Properties *)

(** ** Arithmetic helpers *)

(** [lra] knows no division: divisions by numerals become products. *)
Ltac qconst :=
  unfold Qdiv in *;
  repeat match goal with
         | |- context [Qinv (?n # ?d)] =>
             let v := eval cbv in (Qinv (n # d)) in
             change (Qinv (n # d)) with v
         | H : context [Qinv (?n # ?d)] |- _ =>
             let v := eval cbv in (Qinv (n # d)) in
             change (Qinv (n # d)) with v in H
         end.

Ltac qlra := qconst; lra.

Lemma Qle_bool_false (a b : Q) : Qle_bool a b = false <-> b < a.
Proof.
  split; intro H.
  - apply Qnot_le_lt. intro Hle. apply Qle_bool_iff in Hle. congruence.
  - destruct (Qle_bool a b) eqn:E; [|reflexivity].
    apply Qle_bool_iff in E. exfalso. apply (Qlt_not_le _ _ H E).
Qed.

Lemma Qmax_b_cases (a b : Q) :
  (a <= b /\ Qmax_b a b = b) \/ (b < a /\ Qmax_b a b = a).
Proof.
  unfold Qmax_b. destruct (Qle_bool a b) eqn:E.
  - left. split; [apply Qle_bool_iff; exact E | reflexivity].
  - right. split; [apply Qle_bool_false; exact E | reflexivity].
Qed.

Lemma Qmin_b_cases (a b : Q) :
  (a <= b /\ Qmin_b a b = a) \/ (b < a /\ Qmin_b a b = b).
Proof.
  unfold Qmin_b. destruct (Qle_bool a b) eqn:E.
  - left. split; [apply Qle_bool_iff; exact E | reflexivity].
  - right. split; [apply Qle_bool_false; exact E | reflexivity].
Qed.

Lemma Qmax_b_comp (a a' b b' : Q) :
  a == a' -> b == b' -> Qmax_b a b == Qmax_b a' b'.
Proof.
  intros Ha Hb.
  destruct (Qmax_b_cases a b) as [[H1 ->]|[H1 ->]];
    destruct (Qmax_b_cases a' b') as [[H2 ->]|[H2 ->]]; lra.
Qed.

Lemma round2_comp (x y : Q) : x == y -> round2 x == round2 y.
Proof.
  intro H. unfold round2, js_round.
  assert (E : Qfloor (x * 100 + (1 # 2)) = Qfloor (y * 100 + (1 # 2))).
  { apply Qfloor_comp. rewrite H. reflexivity. }
  rewrite E. reflexivity.
Qed.

Lemma js_round_pos_iff (x : Q) : (0 < js_round x)%Z <-> (1 # 2) <= x.
Proof.
  unfold js_round. split; intro H.
  - assert (H1 : (1 <= Qfloor (x + (1 # 2)))%Z) by lia.
    assert (H2 := Qfloor_le (x + (1 # 2))).
    assert (H3 : inject_Z 1 <= inject_Z (Qfloor (x + (1 # 2)))).
    { rewrite <- Zle_Qle. exact H1. }
    change (inject_Z 1) with 1 in H3. lra.
  - assert (H1 : (Qfloor 1 <= Qfloor (x + (1 # 2)))%Z).
    { apply Qfloor_resp_le. lra. }
    change (Qfloor 1) with 1%Z in H1. lia.
Qed.

Lemma round2_pos_iff (x : Q) : 0 < round2 x <-> (1 # 200) <= x.
Proof.
  unfold round2. split; intro H.
  - assert (H1 : (0 < js_round (x * 100))%Z).
    { apply Z.lt_nge. intro Hle.
      assert (H2 : inject_Z (js_round (x * 100)) <= inject_Z 0).
      { rewrite <- Zle_Qle. exact Hle. }
      change (inject_Z 0) with 0 in H2.
      revert H H2. generalize (inject_Z (js_round (x * 100))). intros q H H2.
      qlra. }
    apply js_round_pos_iff in H1. lra.
  - assert (H1 : (0 < js_round (x * 100))%Z).
    { apply js_round_pos_iff. lra. }
    assert (H2 : inject_Z 0 < inject_Z (js_round (x * 100))).
    { rewrite <- Zlt_Qlt. exact H1. }
    change (inject_Z 0) with 0 in H2.
    revert H2. generalize (inject_Z (js_round (x * 100))). intros q Hq.
    qlra.
Qed.

Lemma tempFactor_ge_1 (t : Q) : 1 <= tempFactor t.
Proof.
  unfold tempFactor.
  destruct (Qmax_b_cases 0 ((t - 20) / 10)) as [[H ->]|[H ->]]; qlra.
Qed.

(* ------------------------------------------------------------------ *)
(** ** Freshness model *)

Lemma elapsedHours_nonneg (m t : Time) : (m <= t)%Z -> 0 <= elapsedHours m t.
Proof.
  intro H. unfold elapsedHours.
  assert (H1 : inject_Z 0 <= inject_Z (t - m)) by (rewrite <- Zle_Qle; lia).
  change (inject_Z 0) with 0 in H1.
  revert H1. generalize (inject_Z (t - m)). intros q Hq. qlra.
Qed.

(** The freshness of a perishable batch, unrounded. *)
Lemma calculateFreshnessPct_perishable (b : Batch) (m : Time) (life : Q)
      (t : Time) (temp : Q) :
  manufacture_date b = Some m -> shelf_life_hours b = Some life -> 0 < life ->
  calculateFreshnessPct b t temp =
  round2 (Qmax_b 0 (100 - elapsedHours m t / life * 100 * tempFactor temp)).
Proof.
  intros Hm Hl Hpos. unfold calculateFreshnessPct. rewrite Hm, Hl.
  assert (E : Qle_bool life 0 = false) by (apply Qle_bool_false; exact Hpos).
  rewrite E. reflexivity.
Qed.

(** C3 (violated by the code): the docstring of [calculateFreshnessPct]
    promises a percentage between 0 and 100 and the claim the formula
    clamped on both sides; the code applies [Math.max(0, ...)] only.  A day
    before its manufacture date the batch of scenario 1 (48 hours of shelf
    life, 25 degrees) gets 162.5 where the clamped formula gives 100.  At
    the example of the claim, 24 hours after manufacture, the code yields
    37.5. *)
Theorem calculateFreshnessPct_misses_upper_clamp :
  calculateFreshnessPct scenario1_batch (- 24 * hour_ms) 25 == 325 # 2
  /\ spec_freshnessPct 48 (elapsedHours 0 (- 24 * hour_ms)) 25 == 100
  /\ ~ (calculateFreshnessPct scenario1_batch (- 24 * hour_ms) 25
        == spec_freshnessPct 48 (elapsedHours 0 (- 24 * hour_ms)) 25)
  /\ calculateFreshnessPct scenario1_batch (24 * hour_ms) 25 == 75 # 2.
Proof.
  split; [|split; [|split]].
  - vm_compute. reflexivity.
  - vm_compute. reflexivity.
  - intro H. vm_compute in H. discriminate H.
  - vm_compute. reflexivity.
Qed.

(** C4 (violated by the code): the freshness is not bounded by 100 when the
    evaluation time precedes the manufacture date; the batch of scenario 1
    yields 162.5 a day before its manufacture. *)
Theorem calculateFreshnessPct_above_100 :
  calculateFreshnessPct scenario1_batch (- 24 * hour_ms) 25 == 325 # 2
  /\ ~ (calculateFreshnessPct scenario1_batch (- 24 * hour_ms) 25 <= 100).
Proof.
  split.
  - vm_compute. reflexivity.
  - intro H. vm_compute in H. apply H. reflexivity.
Qed.

(** *** Remaining shelf life *)

Lemma decay_factor (e life tf : Q) :
  0 < life -> 1 <= tf ->
  100 - e / life * 100 * tf == (100 * tf / life) * (life / tf - e).
Proof.
  intros Hl Ht. field. split; intro H; rewrite H in *; lra.
Qed.

Lemma Qdiv_pos (a b : Q) : 0 < a -> 0 < b -> 0 < a / b.
Proof. intros Ha Hb. apply Qlt_shift_div_l; lra. Qed.

Lemma spoiled_margin (e life tf : Q) :
  0 < life -> 1 <= tf ->
  100 - e / life * 100 * tf < 1 # 200 ->
  life / tf - e < life / (20000 * tf).
Proof.
  intros Hl Ht H. rewrite (decay_factor e life tf Hl Ht) in H.
  set (r := life / tf - e) in *.
  assert (Hk : 0 < 100 * tf / life) by (apply Qdiv_pos; lra).
  assert (E : life / (20000 * tf) == (1 # 200) / (100 * tf / life)).
  { field. repeat split; intro H0; rewrite H0 in *; lra. }
  rewrite E. apply Qlt_shift_div_l; [exact Hk|]. rewrite Qmult_comm. exact H.
Qed.

Lemma half_margin (life tf : Q) :
  0 < life -> 1 <= tf -> life / (20000 * tf) < life / (10000 * tf).
Proof.
  intros Hl Ht.
  assert (E : life / (10000 * tf) == 2 * (life / (20000 * tf))).
  { field. intro H0. rewrite H0 in Ht. lra. }
  assert (Hp : 0 < life / (20000 * tf)) by (apply Qdiv_pos; lra).
  lra.
Qed.

Lemma unspoiled_margin (e life tf : Q) :
  0 < life -> 1 <= tf ->
  1 # 200 <= 100 - e / life * 100 * tf ->
  0 < life / tf - e.
Proof.
  intros Hl Ht H. rewrite (decay_factor e life tf Hl Ht) in H.
  set (r := life / tf - e) in *.
  assert (Hk : 0 < 100 * tf / life) by (apply Qdiv_pos; lra).
  destruct (Qlt_le_dec 0 r) as [Hr|Hr]; [exact Hr|].
  exfalso.
  assert (H1 : (100 * tf / life) * r <= 0).
  { rewrite <- (Qmult_0_r (100 * tf / life)). apply Qmult_le_l; assumption. }
  lra.
Qed.

Lemma has_perishability_true (b : Batch) :
  has_perishability b = true <->
  exists m life, manufacture_date b = Some m /\ shelf_life_hours b = Some life
                 /\ 0 < life.
Proof.
  unfold has_perishability. split.
  - destruct (manufacture_date b) as [m|]; [|discriminate].
    destruct (shelf_life_hours b) as [life|]; [|discriminate].
    intro H. exists m, life. repeat split.
    apply Qle_bool_false. destruct (Qle_bool life 0); [discriminate|reflexivity].
  - intros (m & life & -> & -> & H).
    apply Qle_bool_false in H. rewrite H. reflexivity.
Qed.

(** The unrounded freshness decides spoilage at the threshold 0.005. *)
Lemma isSpoiled_perishable (b : Batch) (m : Time) (life : Q) (t : Time)
      (temp : Q) :
  manufacture_date b = Some m -> shelf_life_hours b = Some life -> 0 < life ->
  (isSpoiled b t temp = true <->
   100 - elapsedHours m t / life * 100 * tempFactor temp < 1 # 200).
Proof.
  intros Hm Hl Hpos. unfold isSpoiled.
  rewrite (calculateFreshnessPct_perishable b m life t temp Hm Hl Hpos).
  set (raw := 100 - elapsedHours m t / life * 100 * tempFactor temp).
  rewrite Qle_bool_iff. split; intro H.
  - apply Qnot_le_lt. intro Hle.
    assert (H1 : 0 < round2 (Qmax_b 0 raw)).
    { apply round2_pos_iff.
      destruct (Qmax_b_cases 0 raw) as [[H2 ->]|[H2 ->]]; lra. }
    lra.
  - apply Qnot_lt_le. intro Hlt. apply round2_pos_iff in Hlt.
    destruct (Qmax_b_cases 0 raw) as [[H2 E]|[H2 E]]; rewrite E in Hlt; lra.
Qed.

Lemma safeRemainingShelfLifeHours_nonperishable (b : Batch) (t : Time) :
  has_perishability b = false -> safeRemainingShelfLifeHours b t = PosInf.
Proof.
  intro H. unfold safeRemainingShelfLifeHours.
  unfold has_perishability in H.
  destruct (manufacture_date b) as [m|]; simpl.
  - destruct (shelf_life_hours b) as [life|]; simpl; [|reflexivity].
    rewrite H. reflexivity.
  - rewrite orb_true_r. reflexivity.
Qed.

Lemma safeRemainingShelfLifeHours_perishable (b : Batch) (t : Time) :
  has_perishability b = true ->
  safeRemainingShelfLifeHours b t = remainingShelfLifeHours b t defaultAvgTemp
  /\ js_isFinite (safeRemainingShelfLifeHours b t) = true.
Proof.
  intro H. apply has_perishability_true in H.
  destruct H as (m & life & Hm & Hl & Hpos).
  assert (E : safeRemainingShelfLifeHours b t
              = remainingShelfLifeHours b t defaultAvgTemp).
  { unfold safeRemainingShelfLifeHours. rewrite Hm, Hl.
    apply Qle_bool_false in Hpos. rewrite Hpos. simpl.
    unfold remainingShelfLifeHours. rewrite Hm, Hl.
    destruct (Qle_bool (calculateFreshnessPct b t defaultAvgTemp) 0);
      reflexivity. }
  split; [exact E|]. rewrite E.
  unfold remainingShelfLifeHours. rewrite Hm, Hl.
  destruct (Qle_bool (calculateFreshnessPct b t defaultAvgTemp) 0);
    reflexivity.
Qed.

(** C5 (as amended): with perishability data, [remainingShelfLifeHours] is 0
    when the batch is spoiled (rounded freshness <= 0) and otherwise
    [shelfLife / tempFactor - elapsed] floored at 0; the two differ by less
    than [shelfLife / (10000 * tempFactor)] hours, the time in which the
    freshness falls by 0.01.  Positive infinity is
    returned by the allocators' wrapper [safeRemainingShelfLifeHours] when
    the manufacture date or a positive shelf life is missing; otherwise the
    wrapper returns [remainingShelfLifeHours] at 25 degrees, a finite value. *)
Theorem remainingShelfLifeHours_amended :
  (forall (b : Batch) (m : Time) (life : Q) (t : Time) (temp : Q),
      manufacture_date b = Some m -> shelf_life_hours b = Some life ->
      0 < life ->
      jsnum_eq (remainingShelfLifeHours b t temp)
               (if isSpoiled b t temp then Fin 0
                else spec_remainingShelfLifeHours b t temp)
      /\ (isSpoiled b t temp = true ->
          life / tempFactor temp - elapsedHours m t
          < life / (10000 * tempFactor temp))
      /\ (isSpoiled b t temp = false ->
          0 < life / tempFactor temp - elapsedHours m t))
  /\ (forall (b : Batch) (t : Time),
         has_perishability b = false ->
         safeRemainingShelfLifeHours b t = PosInf)
  /\ (forall (b : Batch) (t : Time),
         has_perishability b = true ->
         safeRemainingShelfLifeHours b t
         = remainingShelfLifeHours b t defaultAvgTemp
         /\ js_isFinite (safeRemainingShelfLifeHours b t) = true).
Proof.
  split; [|split].
  - intros b m life t temp Hm Hl Hpos.
    assert (Hsp := isSpoiled_perishable b m life t temp Hm Hl Hpos).
    assert (Htf := tempFactor_ge_1 temp).
    split; [|split].
    + unfold remainingShelfLifeHours, spec_remainingShelfLifeHours.
      fold (isSpoiled b t temp). rewrite Hm, Hl.
      destruct (isSpoiled b t temp); simpl; [reflexivity|].
      apply Qle_bool_false in Hpos. rewrite Hpos. simpl. reflexivity.
    + intro H. apply Hsp in H.
      apply Qlt_trans with (life / (20000 * tempFactor temp));
        [apply spoiled_margin; assumption|].
      apply half_margin; assumption.
    + intro H. apply unspoiled_margin; try assumption.
      apply Qnot_lt_le. intro Hlt. apply Hsp in Hlt. congruence.
  - apply safeRemainingShelfLifeHours_nonperishable.
  - apply safeRemainingShelfLifeHours_perishable.
Qed.

Lemma remainingShelfLifeHours_amended_witness :
  jsnum_eq (remainingShelfLifeHours scenario1_batch (24 * hour_ms) 25)
           (if isSpoiled scenario1_batch (24 * hour_ms) 25 then Fin 0
            else spec_remainingShelfLifeHours scenario1_batch
                                              (24 * hour_ms) 25)
  /\ isSpoiled scenario1_batch 138236400 25 = true
  /\ 48 / tempFactor 25 - elapsedHours 0 138236400
     < 48 / (10000 * tempFactor 25)
  /\ isSpoiled scenario1_batch (24 * hour_ms) 25 = false
  /\ 0 < 48 / tempFactor 25 - elapsedHours 0 (24 * hour_ms)
  /\ safeRemainingShelfLifeHours nonperishable_batch 0 = PosInf
  /\ safeRemainingShelfLifeHours scenario1_batch 0
     = remainingShelfLifeHours scenario1_batch 0 defaultAvgTemp.
Proof.
  destruct remainingShelfLifeHours_amended as (H1 & H2 & H3).
  assert (Hs : isSpoiled scenario1_batch 138236400 25 = true)
    by (vm_compute; reflexivity).
  assert (Hf : isSpoiled scenario1_batch (24 * hour_ms) 25 = false)
    by (vm_compute; reflexivity).
  destruct (H1 scenario1_batch 0%Z 48 138236400%Z 25 eq_refl eq_refl eq_refl)
    as (_ & K2 & _).
  destruct (H1 scenario1_batch 0%Z 48 (24 * hour_ms)%Z 25
               eq_refl eq_refl eq_refl) as (K1 & _ & K3).
  split; [exact K1|]. split; [exact Hs|]. split; [exact (K2 Hs)|].
  split; [exact Hf|]. split; [exact (K3 Hf)|].
  split.
  - apply (H2 nonperishable_batch 0%Z). reflexivity.
  - apply (H3 scenario1_batch 0%Z). reflexivity.
Defined.

(** C5 fails as stated: 38.399 hours after manufacture the batch of
    scenario 1 has 0.001 hours left by the formula but its freshness rounds
    to 0, so that 0 is returned; and [remainingShelfLifeHours] itself does
    not return positive infinity for a batch without a shelf life. *)
Lemma remainingShelfLifeHours_counterexample :
  ~ jsnum_eq (remainingShelfLifeHours scenario1_batch 138236400 25)
             (spec_remainingShelfLifeHours scenario1_batch 138236400 25)
  /\ ~ jsnum_eq (remainingShelfLifeHours nonperishable_batch (24 * hour_ms) 25)
                (spec_remainingShelfLifeHours nonperishable_batch
                                              (24 * hour_ms) 25).
Proof.
  split; intro H; vm_compute in H; try discriminate H; exact H.
Qed.

(* ------------------------------------------------------------------ *)
(** ** Batch splitting *)

Lemma total_kg_app (l1 l2 : list Batch) :
  total_kg (l1 ++ l2) == total_kg l1 + total_kg l2.
Proof.
  induction l1 as [|b l1 IH]; simpl.
  - lra.
  - rewrite IH. lra.
Qed.

Lemma total_kg_update_at (l : list Batch) (i : nat) (b b' : Batch) :
  nth_error l i = Some b ->
  total_kg (update_at l i b') == total_kg l - quantity_kg b + quantity_kg b'.
Proof.
  revert i. induction l as [|x l IH]; intros [|i] H; simpl in *;
    try discriminate.
  - injection H as ->. lra.
  - rewrite (IH i H). lra.
Qed.

(** What [applyPick] does when it splits. *)
Lemma applyPick_split (targetId : Id) (working : list Batch) (splitSeq i : nat)
      (k : Q) (batch : Batch) :
  nth_error working i = Some batch ->
  0 < k -> k < quantity_kg batch - split_epsilon ->
  applyPick targetId (working, splitSeq) (i, k)
  = (update_at working i (set_quantity_kg batch (quantity_kg batch - k))
       ++ [transferChild (set_quantity_kg batch (quantity_kg batch - k))
                         (S splitSeq) targetId k],
     S splitSeq).
Proof.
  intros Hn Hk Hlt. unfold applyPick. rewrite Hn.
  assert (E1 : Qle_bool k 0 = false) by (apply Qle_bool_false; exact Hk).
  assert (E2 : Qle_bool (quantity_kg batch) 0 = false).
  { apply Qle_bool_false. unfold split_epsilon in Hlt. lra. }
  assert (E3 : Qle_bool (quantity_kg batch - split_epsilon) k = false).
  { apply Qle_bool_false. exact Hlt. }
  rewrite E1, E2, E3. reflexivity.
Qed.

Lemma applyPick_total (targetId : Id) (st : list Batch * nat) (p : nat * Q) :
  total_kg (fst (applyPick targetId st p)) == total_kg (fst st).
Proof.
  destruct st as [working splitSeq]. destruct p as [i takeQty].
  unfold applyPick.
  destruct (nth_error working i) as [batch|] eqn:Hn; [|reflexivity].
  destruct (Qle_bool takeQty 0 || Qle_bool (quantity_kg batch) 0);
    [reflexivity|].
  destruct (Qle_bool (quantity_kg batch - split_epsilon) takeQty); simpl.
  - rewrite (total_kg_update_at _ _ _ _ Hn). simpl. lra.
  - rewrite total_kg_app, (total_kg_update_at _ _ _ _ Hn). simpl. lra.
Qed.

Lemma applyPicks_total (targetId : Id) (picked : list (nat * Q))
      (st : list Batch * nat) :
  total_kg (fst (fold_left (applyPick targetId) picked st))
  == total_kg (fst st).
Proof.
  revert st. induction picked as [|p picked IH]; intro st; simpl.
  - reflexivity.
  - rewrite IH. apply applyPick_total.
Qed.

Lemma applySuggestion_total (currentDate : Time)
      (st : list Batch * nat * list AppliedTransfer) (s : TransferSuggestion) :
  total_kg (fst (fst (applySuggestion currentDate st s)))
  == total_kg (fst (fst st)).
Proof.
  destruct st as [[working splitSeq] applied]. unfold applySuggestion.
  destruct (truthy_id (source_mongoId s)) as [sourceId|]; [|reflexivity].
  destruct (truthy_id (target_mongoId s)) as [targetId|]; [|reflexivity].
  destruct (coercePositiveNumber (suggested_quantity_kg s)) as [qty|];
    [|reflexivity].
  destruct (String.eqb sourceId targetId); [reflexivity|].
  destruct (Qle_bool _ 0); [reflexivity|].
  assert (H := applyPicks_total targetId
                 (takeFromSource working currentDate sourceId qty)
                 (working, splitSeq)).
  destruct (fold_left _ _ _) as [working' splitSeq']. exact H.
Qed.

Lemma applyWarehouseTransfersToBatches_total (batches : list Batch)
      (transfers : option (list TransferSuggestion)) (currentDate : Time) :
  total_kg (fst (applyWarehouseTransfersToBatches batches transfers currentDate))
  == total_kg batches.
Proof.
  unfold applyWarehouseTransfersToBatches.
  destruct transfers as [[|s l]|]; try reflexivity.
  assert (H : forall l st,
             total_kg (fst (fst (fold_left (applySuggestion currentDate) l st)))
             == total_kg (fst (fst st))).
  { clear. intro l. induction l as [|x l IH]; intro st; simpl.
    - reflexivity.
    - rewrite IH. apply applySuggestion_total. }
  specialize (H (s :: l) (batches, O, [])).
  destruct (fold_left _ _ _) as [[working n] applied]. exact H.
Qed.

(** What the shipment loop does when it splits. *)
Lemma shipmentLoop_split (newObjectId : nat -> Id) (now : Time)
      (batch : Batch) (rest : list Batch) (st : ShipmentState) (k : Q) :
  0 < k -> k < quantity_kg batch ->
  shipmentLoop newObjectId now (batch :: rest) st k
  = (mkShipmentState
       (saveBatch
          (store st
             ++ [shipmentChild now batch (newObjectId (created st)) k])
          (shipmentParent now batch (newObjectId (created st)) k))
       (allocatedBatches st
          ++ [mkAllocatedBatch (newObjectId (created st)) k true
                               (Some (_id batch))])
       (allBatchIds st ++ [newObjectId (created st)])
       (S (created st)),
     0).
Proof.
  intros Hk Hlt. simpl.
  assert (E1 : Qle_bool k 0 = false) by (apply Qle_bool_false; exact Hk).
  assert (E2 : Qle_bool k (quantity_kg batch) = true).
  { apply Qle_bool_iff. lra. }
  assert (E3 : Qeq_bool (quantity_kg batch) k = false).
  { destruct (Qeq_bool (quantity_kg batch) k) eqn:E; [|reflexivity].
    apply Qeq_bool_iff in E. lra. }
  rewrite E1, E2, E3.
  destruct rest as [|b' rest]; reflexivity.
Qed.

(** [batch.save()] on a collection without duplicate identifiers replaces
    the one document that has the identifier of [batch]. *)
Lemma saveBatch_other (docs : list Batch) (batch : Batch) :
  ~ In (_id batch) (map _id docs) -> saveBatch docs batch = docs.
Proof.
  induction docs as [|d docs IH]; intro H; simpl in *.
  - reflexivity.
  - destruct (String.eqb_spec (_id d) (_id batch)) as [E|E].
    + exfalso. apply H. left. exact E.
    + f_equal. apply IH. intro Hin. apply H. right. exact Hin.
Qed.

Lemma saveBatch_update_at (docs : list Batch) (i : nat) (old batch : Batch) :
  nth_error docs i = Some old -> NoDup (map _id docs) ->
  _id batch = _id old ->
  saveBatch docs batch = update_at docs i batch.
Proof.
  revert i. induction docs as [|d docs IH]; intros [|i] Hn Hnd Hid;
    simpl in *; try discriminate.
  - injection Hn as ->. rewrite Hid, String.eqb_refl. f_equal.
    apply NoDup_cons_iff in Hnd. destruct Hnd as [Hnotin _].
    fold (saveBatch docs batch). apply saveBatch_other.
    rewrite Hid. exact Hnotin.
  - apply NoDup_cons_iff in Hnd. destruct Hnd as [Hnotin Hnd].
    destruct (String.eqb_spec (_id d) (_id batch)) as [E|E].
    + exfalso. apply Hnotin. rewrite E, Hid.
      apply in_map. apply (nth_error_In _ _ Hn).
    + f_equal. fold (saveBatch docs batch). apply (IH i Hn Hnd Hid).
Qed.

Lemma saveBatch_app (docs1 docs2 : list Batch) (batch : Batch) :
  saveBatch (docs1 ++ docs2) batch
  = saveBatch docs1 batch ++ saveBatch docs2 batch.
Proof. unfold saveBatch. apply map_app. Qed.

(** The collection after a split of the shipment loop: the parent stands
    where the batch stood and the child is the new last document. *)
Lemma shipmentLoop_split_store (newObjectId : nat -> Id) (now : Time)
      (batch : Batch) (rest : list Batch) (st : ShipmentState) (k : Q)
      (i : nat) :
  nth_error (store st) i = Some batch ->
  NoDup (map _id (store st)) ->
  ~ In (newObjectId (created st)) (map _id (store st)) ->
  0 < k -> k < quantity_kg batch ->
  store (fst (shipmentLoop newObjectId now (batch :: rest) st k))
  = update_at (store st) i
              (shipmentParent now batch (newObjectId (created st)) k)
    ++ [shipmentChild now batch (newObjectId (created st)) k].
Proof.
  intros Hn Hnd Hfresh Hk Hlt.
  rewrite (shipmentLoop_split newObjectId now batch rest st k Hk Hlt).
  cbn [fst store]. rewrite saveBatch_app. f_equal.
  - apply (saveBatch_update_at _ i batch); [exact Hn | exact Hnd | reflexivity].
  - apply saveBatch_other. simpl. intros [E|[]]. apply Hfresh.
    rewrite E. apply in_map. apply (nth_error_In _ _ Hn).
Qed.

(** C2: every split of a batch of quantity [Q] from which [k < Q] is taken,
    by the transfer application or by the creation of a shipment, leaves
    exactly [Q - k] in the parent and gives exactly [k] to the child, whose
    food type, manufacture date, shelf life and initial temperature are the
    parent's.  In both places the collection afterwards is the collection
    before with the parent in the place of the batch and the child added, so
    that its total mass is unchanged (for the shipment: in a collection
    without duplicate identifiers, the child getting a new identifier); the
    transfer application as a whole conserves the mass of the snapshot; and
    in scenario 4 a 100 kg batch with a suggestion of 30 kg becomes a
    retained batch of 70 kg and a child of 30 kg. *)
Theorem batch_split_conserves_mass :
  (forall (targetId : Id) (working : list Batch) (splitSeq i : nat) (k : Q)
          (batch : Batch),
      nth_error working i = Some batch ->
      0 < k -> k < quantity_kg batch - split_epsilon ->
      exists parent child,
        fst (applyPick targetId (working, splitSeq) (i, k))
        = update_at working i parent ++ [child]
        /\ quantity_kg parent == quantity_kg batch - k
        /\ quantity_kg child == k
        /\ quantity_kg parent + quantity_kg child == quantity_kg batch
        /\ same_perishability child batch
        /\ same_perishability parent batch
        /\ _id parent = _id batch
        /\ currentNode parent = currentNode batch
        /\ currentNode child = targetId)
  /\ (forall (batches : list Batch) (transfers : option (list TransferSuggestion))
             (currentDate : Time),
         total_kg (fst (applyWarehouseTransfersToBatches batches transfers
                                                         currentDate))
         == total_kg batches)
  /\ (forall (newObjectId : nat -> Id) (now : Time) (batch : Batch)
             (rest : list Batch) (st : ShipmentState) (k : Q) (i : nat),
         nth_error (store st) i = Some batch ->
         NoDup (map _id (store st)) ->
         ~ In (newObjectId (created st)) (map _id (store st)) ->
         0 < k -> k < quantity_kg batch ->
         exists parent child,
           store (fst (shipmentLoop newObjectId now (batch :: rest) st k))
           = update_at (store st) i parent ++ [child]
           /\ quantity_kg parent == quantity_kg batch - k
           /\ quantity_kg child == k
           /\ quantity_kg parent + quantity_kg child == quantity_kg batch
           /\ same_perishability child batch
           /\ same_perishability parent batch
           /\ _id parent = _id batch
           /\ _id child = newObjectId (created st)
           /\ parentBatchId child = Some (_id batch)
           /\ currentNode parent = currentNode batch
           /\ currentNode child = currentNode batch
           /\ total_kg
                (store (fst (shipmentLoop newObjectId now (batch :: rest)
                                          st k)))
              == total_kg (store st))
  /\ (exists parent child,
         fst (applyWarehouseTransfersToBatches [scenario1_batch]
                (Some [scenario4_suggestion]) 0)
         = [parent; child]
         /\ quantity_kg parent == 70
         /\ quantity_kg child == 30
         /\ same_perishability child scenario1_batch
         /\ _id parent = _id scenario1_batch
         /\ currentNode parent = "wA"%string
         /\ currentNode child = "wB"%string).
Proof.
  split; [|split; [|split]].
  - intros targetId working splitSeq i k batch Hn Hk Hlt.
    rewrite (applyPick_split targetId working splitSeq i k batch Hn Hk Hlt).
    eexists. eexists. split; [reflexivity|]. simpl.
    repeat split; try reflexivity. lra.
  - apply applyWarehouseTransfersToBatches_total.
  - intros newObjectId now batch rest st k i Hn Hnd Hfresh Hk Hlt.
    rewrite (shipmentLoop_split_store newObjectId now batch rest st k i
               Hn Hnd Hfresh Hk Hlt).
    eexists. eexists. split; [reflexivity|].
    rewrite total_kg_app, (total_kg_update_at _ _ _ _ Hn). simpl.
    repeat split; try reflexivity; lra.
  - eexists. eexists. split; [vm_compute; reflexivity|].
    repeat split; vm_compute; reflexivity.
Qed.

Lemma batch_split_conserves_mass_witness :
  (exists parent child,
      fst (applyPick "wB" ([scenario1_batch], O) (O, 30))
      = update_at [scenario1_batch] O parent ++ [child]
      /\ quantity_kg parent + quantity_kg child
         == quantity_kg scenario1_batch)
  /\ (exists parent child,
         store (fst (shipmentLoop objectId 0 [scenario1_batch]
                       (mkShipmentState [scenario1_batch] [] [] O) 30))
         = [parent; child]
         /\ quantity_kg parent == 70
         /\ quantity_kg child == 30
         /\ total_kg
              (store (fst (shipmentLoop objectId 0 [scenario1_batch]
                             (mkShipmentState [scenario1_batch] [] [] O) 30)))
            == 100).
Proof.
  destruct batch_split_conserves_mass as (H1 & _ & H3 & _).
  split.
  - destruct (H1 "wB"%string [scenario1_batch] O O 30 scenario1_batch)
      as (parent & child & E & _ & _ & Hsum & _);
      [reflexivity | reflexivity | reflexivity |].
    exists parent, child. split; assumption.
  - destruct (H3 objectId 0%Z scenario1_batch []
                 (mkShipmentState [scenario1_batch] [] [] O) 30 O)
      as (parent & child & E & Hp & Hc & _ & _ & _ & _ & _ & _ & _ & _ & Ht).
    + reflexivity.
    + repeat constructor. simpl. intros [].
    + vm_compute. intros [E|[]]. discriminate E.
    + reflexivity.
    + reflexivity.
    + exists parent, child. split; [exact E|]. split; [exact Hp|].
      split; [exact Hc|]. exact Ht.
Defined.

(* ------------------------------------------------------------------ *)
(** ** Sorting *)

Section SortFacts.
Context {A : Type} (le : A -> A -> bool).

Lemma js_insert_perm (x : A) (l : list A) :
  Permutation (js_insert le x l) (x :: l).
Proof.
  induction l as [|y l IH]; simpl.
  - apply Permutation_refl.
  - destruct (le x y).
    + apply Permutation_refl.
    + eapply Permutation_trans; [apply perm_skip, IH | apply perm_swap].
Qed.

Lemma js_sort_perm (l : list A) : Permutation (js_sort le l) l.
Proof.
  induction l as [|x l IH]; simpl.
  - apply Permutation_refl.
  - eapply Permutation_trans; [apply js_insert_perm | apply perm_skip, IH].
Qed.

Lemma js_sort_In (l : list A) (x : A) : In x (js_sort le l) <-> In x l.
Proof.
  split; apply Permutation_in;
    [apply js_sort_perm | apply Permutation_sym, js_sort_perm].
Qed.

(** On elements where the comparator is a total preorder, the result is
    sorted. *)
Variable P : A -> Prop.
Hypothesis le_total : forall a b, P a -> P b -> le a b = true \/ le b a = true.
Hypothesis le_trans :
  forall a b c, P a -> P b -> P c ->
                le a b = true -> le b c = true -> le a c = true.

Lemma js_insert_sorted (x : A) (l : list A) :
  P x -> Forall P l ->
  StronglySorted (fun a b => le a b = true) l ->
  StronglySorted (fun a b => le a b = true) (js_insert le x l).
Proof.
  intros Px Pl Hs. induction Hs as [|y l Hs IH Hy]; simpl.
  - constructor; constructor.
  - inversion Pl as [|? ? Py Pl']; subst.
    destruct (le x y) eqn:E.
    + constructor; [constructor; assumption|].
      constructor; [exact E|].
      rewrite Forall_forall in *. intros z Hz.
      apply (le_trans x y z); auto.
    + constructor; [apply IH; assumption|].
      rewrite Forall_forall in *. intros z Hz.
      apply (Permutation_in _ (js_insert_perm x l)) in Hz.
      destruct Hz as [<-|Hz]; [|auto].
      destruct (le_total x y Px Py) as [H|H]; [congruence|exact H].
Qed.

Lemma js_sort_sorted (l : list A) :
  Forall P l -> StronglySorted (fun a b => le a b = true) (js_sort le l).
Proof.
  induction l as [|x l IH]; intro Pl; simpl.
  - constructor.
  - inversion Pl as [|? ? Px Pl']; subst.
    apply js_insert_sorted; auto.
    rewrite Forall_forall in *. intros y Hy. apply Pl'.
    apply js_sort_In. exact Hy.
Qed.
End SortFacts.


(* ------------------------------------------------------------------ *)
(** ** The greedy consumption loop *)

Lemma set_quantity_kg_same (b : Batch) : set_quantity_kg b (quantity_kg b) = b.
Proof. destruct b; reflexivity. Qed.

Lemma reduced_from_self (l : list Batch) (b : Batch) :
  In b l -> reduced_from l b.
Proof.
  intro H. exists b, (quantity_kg b). split; [exact H|].
  split; [symmetry; apply set_quantity_kg_same | lra].
Qed.

Lemma In_remove_at {A : Type} (i : nat) (l : list A) (x : A) :
  In x (remove_at i l) -> In x l.
Proof.
  revert i. induction l as [|y l IH]; intros [|i]; simpl; auto.
  intros [<-|H]; eauto.
Qed.

Lemma In_removelast {A : Type} (l : list A) (x : A) :
  In x (removelast l) -> In x l.
Proof.
  induction l as [|y l IH]; simpl; auto.
  destruct l as [|z l]; [intros []|].
  intros [<-|H]; auto.
Qed.

Lemma In_splice1 {A : Type} (l : list A) (idx : option nat) (x : A) :
  In x (splice1 l idx) -> In x l.
Proof.
  destruct idx; simpl; [apply In_remove_at | apply In_removelast].
Qed.

Lemma In_update_at {A : Type} (l : list A) (i : nat) (x y : A) :
  In y (update_at l i x) -> y = x \/ In y l.
Proof.
  revert i. induction l as [|z l IH]; intros [|i]; simpl; auto.
  - intros [<-|H]; auto.
  - intros [<-|H]; auto. destruct (IH i H); auto.
Qed.

Lemma reduced_from_trans (l1 l2 : list Batch) (b : Batch) :
  Forall (reduced_from l1) l2 -> reduced_from l2 b -> reduced_from l1 b.
Proof.
  intros H (b2 & q & Hin & -> & Hq).
  rewrite Forall_forall in H.
  destruct (H b2 Hin) as (b1 & q1 & Hin1 & -> & Hq1).
  exists b1, q. split; [exact Hin1|].
  split; [destruct b1; reflexivity | simpl in Hq; lra].
Qed.

Lemma Qmin_b_le_l (a b : Q) : Qmin_b a b <= a.
Proof. destruct (Qmin_b_cases a b) as [[H ->]|[H ->]]; lra. Qed.

Lemma Qmin_b_le_r (a b : Q) : Qmin_b a b <= b.
Proof. destruct (Qmin_b_cases a b) as [[H ->]|[H ->]]; lra. Qed.

(** What a run of the loop that returns has done: it appended entries for
    a prefix of the candidates, none larger than its batch, and lowered
    [remaining] by their sum, never below 0. *)
Lemma consumeBatches_spec (f : Batch -> Q) (candidates : list Batch) :
  forall (unusedBatches : list Batch) (remaining : Q) (used : list UsedBatch)
         (unusedBatches' : list Batch) (remaining' : Q)
         (used' : list UsedBatch),
    consumeBatches f candidates unusedBatches remaining used
    = Some (unusedBatches', remaining', used') ->
    exists new,
      used' = used ++ new
      /\ remaining' == remaining - sum_quantity new
      /\ (0 <= remaining -> 0 <= remaining')
      /\ (remaining <= 0 -> new = [])
      /\ Forall2 (fun u b => batchId u = _id b /\ freshness u = f b
                             /\ quantity u <= quantity_kg b)
                 new (firstn (List.length new) candidates)
      /\ Forall (reduced_from unusedBatches) unusedBatches'.
Proof.
  induction candidates as [|batch rest IH];
    intros unused remaining used unused' remaining' used' H; simpl in H.
  - injection H as <- <- <-. exists []. rewrite app_nil_r. simpl.
    repeat split; try lra; try constructor.
    rewrite Forall_forall. intros b Hb. apply reduced_from_self, Hb.
  - destruct (Qle_bool remaining 0) eqn:Erem.
    + injection H as <- <- <-. exists []. rewrite app_nil_r. simpl.
      repeat split; try lra; try constructor.
      rewrite Forall_forall. intros b Hb. apply reduced_from_self, Hb.
    + apply Qle_bool_false in Erem.
      set (allocatedQty := Qmin_b (quantity_kg batch) remaining) in *.
      assert (Hq1 : allocatedQty <= quantity_kg batch) by apply Qmin_b_le_l.
      assert (Hq2 : allocatedQty <= remaining) by apply Qmin_b_le_r.
      set (u := mkUsedBatch (_id batch) allocatedQty (f batch)) in *.
      assert (Hstep :
                forall unused1,
                  Forall (reduced_from unused) unused1 ->
                  consumeBatches f rest unused1 (remaining - allocatedQty)
                                 (used ++ [u])
                  = Some (unused', remaining', used') ->
                  exists new,
                    used' = used ++ new
                    /\ remaining' == remaining - sum_quantity new
                    /\ (0 <= remaining -> 0 <= remaining')
                    /\ (remaining <= 0 -> new = [])
                    /\ Forall2 (fun u b => batchId u = _id b
                                           /\ freshness u = f b
                                           /\ quantity u <= quantity_kg b)
                               new (firstn (List.length new) (batch :: rest))
                    /\ Forall (reduced_from unused) unused').
      { intros unused1 Hred Hrec.
        destruct (IH _ _ _ _ _ _ Hrec)
          as (new & Hused & Hrem & Hpos & _ & Hall & Hinv).
        exists (u :: new). repeat split.
        - rewrite Hused, <- app_assoc. reflexivity.
        - simpl. rewrite Hrem. lra.
        - intros _. apply Hpos. lra.
        - intro Hle. lra.
        - simpl. constructor; [|exact Hall]. repeat split. exact Hq1.
        - rewrite Forall_forall in *. intros b Hb.
          apply (reduced_from_trans unused unused1);
            [rewrite Forall_forall; exact Hred | apply Hinv, Hb]. }
      destruct (Qle_bool (quantity_kg batch) allocatedQty) eqn:Efull.
      * refine (Hstep _ _ H).
        rewrite Forall_forall. intros b Hb.
        apply reduced_from_self, (In_splice1 _ _ _ Hb).
      * destruct (findIndex _ unused) as [i|]; [|discriminate].
        destruct (nth_error unused i) as [b0|] eqn:Hn; [|discriminate].
        refine (Hstep _ _ H).
        rewrite Forall_forall. intros b Hb.
        destruct (In_update_at _ _ _ _ Hb) as [->|Hin].
        -- exists b0, (quantity_kg b0 - allocatedQty).
           split; [apply (nth_error_In _ _ Hn)|]. split; [reflexivity|].
           apply Qle_bool_false in Efull. unfold allocatedQty in *.
           destruct (Qmin_b_cases (quantity_kg batch) remaining)
             as [[H1 E1]|[H1 E1]]; rewrite E1 in *; lra.
        -- apply reduced_from_self, Hin.
Qed.

(** *** The loop never reads [unusedBatches[-1]] *)

Lemma findIndex_Some {A : Type} (p : A -> bool) (l : list A) (i : nat) :
  findIndex p l = Some i ->
  exists x, nth_error l i = Some x /\ p x = true.
Proof.
  revert i. induction l as [|y l IH]; intros i H; simpl in H; [discriminate|].
  destruct (p y) eqn:E.
  - injection H as <-. exists y. split; [reflexivity | exact E].
  - destruct (findIndex p l) as [j|]; [|discriminate].
    injection H as <-. apply (IH j eq_refl).
Qed.

Lemma findIndex_None {A : Type} (p : A -> bool) (l : list A) :
  findIndex p l = None -> filter p l = [].
Proof.
  induction l as [|y l IH]; simpl; [reflexivity|].
  destruct (p y); [discriminate|].
  destruct (findIndex p l); [discriminate|]. auto.
Qed.

Lemma count_id_remove_found (target i : Id) (l : list Batch) (k : nat) :
  findIndex (fun b => String.eqb (_id b) target) l = Some k ->
  (count_id i (remove_at k l) + (if String.eqb target i then 1 else 0)
   = count_id i l)%nat.
Proof.
  unfold count_id. revert k.
  induction l as [|y l IH]; intros k H; simpl in H; [discriminate|].
  destruct (String.eqb (_id y) target) eqn:E.
  - injection H as <-. simpl. apply String.eqb_eq in E. rewrite E.
    destruct (String.eqb target i); simpl; lia.
  - destruct (findIndex _ l) as [j|]; [|discriminate].
    injection H as <-. simpl.
    specialize (IH j eq_refl).
    destruct (String.eqb (_id y) i); simpl; lia.
Qed.

Lemma count_id_update_at (i : Id) (l : list Batch) (k : nat) (b b' : Batch) :
  nth_error l k = Some b -> _id b' = _id b ->
  count_id i (update_at l k b') = count_id i l.
Proof.
  unfold count_id. revert k.
  induction l as [|y l IH]; intros [|k] H Hid; simpl in *; try discriminate.
  - injection H as ->. rewrite Hid.
    destruct (String.eqb (_id b) i); reflexivity.
  - destruct (String.eqb (_id y) i); simpl; rewrite (IH k H Hid); reflexivity.
Qed.

Lemma count_id_cons (i : Id) (b : Batch) (l : list Batch) :
  count_id i (b :: l)
  = ((if String.eqb (_id b) i then 1 else 0) + count_id i l)%nat.
Proof.
  unfold count_id. simpl. destruct (String.eqb (_id b) i); reflexivity.
Qed.

(** When every candidate is a batch of the snapshot, the loop returns. *)
Lemma consumeBatches_returns (f : Batch -> Q) (candidates : list Batch) :
  forall (unusedBatches : list Batch) (remaining : Q) (used : list UsedBatch),
    (forall i, (count_id i candidates <= count_id i unusedBatches)%nat) ->
    exists r, consumeBatches f candidates unusedBatches remaining used = Some r.
Proof.
  induction candidates as [|batch rest IH]; intros unused remaining used Hc;
    simpl.
  - eauto.
  - destruct (Qle_bool remaining 0); [eauto|].
    destruct (findIndex (fun b => String.eqb (_id b) (_id batch)) unused)
      as [k|] eqn:Hidx.
    + destruct (Qle_bool (quantity_kg batch) _).
      * apply IH. intro i. simpl.
        assert (H1 := count_id_remove_found (_id batch) i unused k Hidx).
        specialize (Hc i). rewrite count_id_cons in Hc.
        destruct (String.eqb (_id batch) i); lia.
      * destruct (findIndex_Some _ _ _ Hidx) as (b0 & Hn & Hb0).
        rewrite Hn. apply IH. intro i.
        rewrite (count_id_update_at i unused k b0
                   (set_quantity_kg b0 _) Hn eq_refl).
        specialize (Hc i). rewrite count_id_cons in Hc. lia.
    + exfalso. specialize (Hc (_id batch)). rewrite count_id_cons in Hc.
      rewrite String.eqb_refl in Hc.
      apply findIndex_None in Hidx. unfold count_id in Hc.
      rewrite Hidx in Hc. simpl in Hc. lia.
Qed.


(* ------------------------------------------------------------------ *)
(** ** The baseline allocator *)

Lemma filter_ext_in_perm {A : Type} (p : A -> bool) (l l' : list A) :
  Permutation l l' -> Permutation (filter p l) (filter p l').
Proof.
  induction 1 as [|x l l' H IH|x y l|l1 l2 l3 H1 IH1 H2 IH2]; simpl.
  - constructor.
  - destruct (p x); [constructor|]; assumption.
  - destruct (p x), (p y); try apply Permutation_refl. apply perm_swap.
  - eapply Permutation_trans; eassumption.
Qed.

Lemma count_id_perm (i : Id) (l l' : list Batch) :
  Permutation l l' -> count_id i l = count_id i l'.
Proof.
  intro H. unfold count_id. apply Permutation_length, filter_ext_in_perm, H.
Qed.

Lemma count_id_filter_le (i : Id) (p : Batch -> bool) (l : list Batch) :
  (count_id i (filter p l) <= count_id i l)%nat.
Proof.
  induction l as [|b l IH]; simpl; [lia|].
  destruct (p b); rewrite ?count_id_cons; lia.
Qed.

Lemma map_filter_map {A B : Type} (g : A -> B) (h : B -> A) (p : B -> bool)
      (l : list A) :
  (forall a, h (g a) = a) ->
  map h (filter p (map g l)) = filter (fun a => p (g a)) l.
Proof.
  intro Hg. induction l as [|a l IH]; simpl; [reflexivity|].
  destruct (p (g a)); simpl; rewrite ?Hg, IH; reflexivity.
Qed.

Lemma filter_filter {A : Type} (p q : A -> bool) (l : list A) :
  filter q (filter p l) = filter (fun a => p a && q a) l.
Proof.
  induction l as [|a l IH]; simpl; [reflexivity|].
  destruct (p a); simpl; [destruct (q a)|]; rewrite IH; reflexivity.
Qed.

(** The candidates of the baseline are the eligible batches of the chosen
    warehouse, reordered. *)
Lemma regularAvailableBatches_perm (unused : list Batch) (food : string)
      (warehouseId : Id) (dispatch : Time) :
  Permutation (regularAvailableBatches unused food warehouseId dispatch)
              (filter (eligibleAtDispatch food warehouseId dispatch) unused).
Proof.
  unfold regularAvailableBatches.
  eapply Permutation_trans.
  { apply Permutation_map, js_sort_perm. }
  rewrite (map_filter_map _ (fun x : Batch * jsnum * Q => fst (fst x)));
    [|reflexivity].
  rewrite filter_filter.
  erewrite filter_ext; [apply Permutation_refl|].
  intro b. unfold eligibleAtDispatch.
  destruct (String.eqb (foodType b) food); simpl; [|reflexivity].
  destruct (String.eqb (currentNode b) warehouseId); simpl;
    [|destruct (BatchStatus_eqb (status b) stored); reflexivity].
  destruct (BatchStatus_eqb (status b) stored); simpl; [|reflexivity].
  destruct (availableBy b dispatch); simpl; [|reflexivity].
  destruct (js_gt0 (safeRemainingShelfLifeHours b dispatch)); reflexivity.
Qed.

Lemma regularAvailableBatches_In (unused : list Batch) (food : string)
      (warehouseId : Id) (dispatch : Time) (b : Batch) :
  In b (regularAvailableBatches unused food warehouseId dispatch) <->
  In b unused /\ eligibleAtDispatch food warehouseId dispatch b = true.
Proof.
  rewrite <- filter_In. split; apply Permutation_in;
    [|apply Permutation_sym]; apply regularAvailableBatches_perm.
Qed.

Lemma regularAvailableBatches_count (unused : list Batch) (food : string)
      (warehouseId : Id) (dispatch : Time) (i : Id) :
  (count_id i (regularAvailableBatches unused food warehouseId dispatch)
   <= count_id i unused)%nat.
Proof.
  rewrite (count_id_perm i _ _
             (regularAvailableBatches_perm unused food warehouseId dispatch)).
  apply count_id_filter_le.
Qed.

(** What eligibility at dispatch means. *)
Lemma eligibleAtDispatch_true (food : string) (warehouseId : Id)
      (dispatch : Time) (b : Batch) :
  eligibleAtDispatch food warehouseId dispatch b = true <->
  foodType b = food /\ status b = stored /\ currentNode b = warehouseId
  /\ availableBy b dispatch = true
  /\ js_gt0 (safeRemainingShelfLifeHours b dispatch) = true
  /\ 0 < calculateFreshnessPct b dispatch defaultAvgTemp.
Proof.
  unfold eligibleAtDispatch, Qltb. split.
  - intro H.
    destruct (String.eqb (foodType b) food) eqn:E1; simpl in H;
      [|discriminate].
    destruct (BatchStatus_eqb (status b) stored) eqn:E2; simpl in H;
      [|discriminate].
    destruct (String.eqb (currentNode b) warehouseId) eqn:E3; simpl in H;
      [|discriminate].
    destruct (availableBy b dispatch) eqn:E4; simpl in H; [|discriminate].
    destruct (js_gt0 (safeRemainingShelfLifeHours b dispatch)) eqn:E5;
      simpl in H; [|discriminate].
    split; [apply String.eqb_eq, E1|].
    split; [destruct (status b); simpl in E2; congruence|].
    split; [apply String.eqb_eq, E3|].
    split; [reflexivity|]. split; [reflexivity|].
    apply Qle_bool_false.
    destruct (Qle_bool _ 0); [discriminate | reflexivity].
  - intros (H1 & H2 & H3 & H4 & H5 & H6).
    apply String.eqb_eq in H1. apply String.eqb_eq in H3.
    apply Qle_bool_false in H6.
    rewrite H1, H2, H3, H4, H5, H6. reflexivity.
Qed.

Lemma foldM_invariant {S A : Type} (f : S -> A -> option S) (Inv : S -> Prop)
      (l : list A) :
  (forall s x s', Inv s -> f s x = Some s' -> Inv s') ->
  forall s s', Inv s -> foldM f l s = Some s' -> Inv s'.
Proof.
  intro Hstep. induction l as [|x l IH]; intros s s' Hs H; simpl in H.
  - injection H as <-. exact Hs.
  - destruct (f s x) as [s1|] eqn:E; [|discriminate].
    apply (IH s1 s' (Hstep _ _ _ Hs E) H).
Qed.

Lemma foldM_returns {S A : Type} (f : S -> A -> option S) (l : list A) :
  (forall s x, exists s', f s x = Some s') ->
  forall s, exists s', foldM f l s = Some s'.
Proof.
  intro Hstep. induction l as [|x l IH]; intro s; simpl.
  - eauto.
  - destruct (Hstep s x) as (s1 & ->). apply IH.
Qed.

Lemma Forall2_firstn_In {A B : Type} (R : A -> B -> Prop) (l : list A)
      (n : nat) (l' : list B) :
  Forall2 R l (firstn n l') -> Forall (fun a => exists b, In b l' /\ R a b) l.
Proof.
  intro H. remember (firstn n l') as pre eqn:E.
  assert (Hsub : forall b, In b pre -> In b l').
  { intros b Hb. subst pre. revert Hb. clear.
    revert l'. induction n as [|n IH]; intros [|y l']; simpl; try tauto.
    intros [<-|Hb]; auto. }
  clear E. induction H as [|a b l pre Hab H IH]; constructor.
  - exists b. split; [apply Hsub; left; reflexivity | exact Hab].
  - apply IH. intros b' Hb'. apply Hsub. right. exact Hb'.
Qed.

(** The body of the item loop always returns: either it leaves the
    allocations alone, or it appends the record built from a run of the
    greedy loop on the candidates of the first warehouse with an eligible
    batch. *)
Lemma allocateRegularItem_inv (request : Request) (dispatch : Time)
      (wbd : list (Node * Q)) (unused : list Batch)
      (allocs : list Allocation) (item : RequestItem) :
  exists unused' allocs',
    allocateRegularItem request dispatch wbd (unused, allocs) item
    = Some (unused', allocs')
    /\ ((unused' = unused /\ allocs' = allocs
         /\ find (fun wd : Node * Q =>
                    hasEligible unused (item_foodType item) dispatch (fst wd))
                 wbd = None)
        \/ exists w d remaining used,
            find (fun wd : Node * Q =>
                    hasEligible unused (item_foodType item) dispatch (fst wd))
                 wbd = Some (w, d)
            /\ consumeBatches storedFreshnessOr100
                 (regularAvailableBatches unused (item_foodType item)
                                          (node_id w) dispatch)
                 unused (required_kg item) []
               = Some (unused', remaining, used)
            /\ ((required_kg item - remaining <= 0 /\ allocs' = allocs)
                \/ (0 < required_kg item - remaining
                    /\ allocs' = allocs ++
                         [mkAllocation (requestID request)
                            (item_foodType item) (required_kg item)
                            (required_kg item - remaining) (node_id w)
                            (node_name w) d used regular dispatch]))).
Proof.
  unfold allocateRegularItem.
  destruct (find _ wbd) as [[w d]|] eqn:Hfind.
  - destruct (consumeBatches_returns storedFreshnessOr100
                (regularAvailableBatches unused (item_foodType item)
                                         (node_id w) dispatch)
                unused (required_kg item) [])
      as ([[unused' remaining] used] & Hc).
    { intro i. apply regularAvailableBatches_count. }
    rewrite Hc. unfold Qltb.
    destruct (Qle_bool (required_kg item - remaining) 0) eqn:E; simpl.
    + eexists. eexists. split; [reflexivity|]. right.
      exists w, d, remaining, used.
      split; [reflexivity|]. split; [exact Hc|].
      left. split; [apply Qle_bool_iff, E | reflexivity].
    + eexists. eexists. split; [reflexivity|]. right.
      exists w, d, remaining, used.
      split; [reflexivity|]. split; [exact Hc|].
      right. split; [apply Qle_bool_false, E | reflexivity].
  - exists unused, allocs. split; [reflexivity|]. left. auto.
Qed.

Lemma Forall_reduced_trans (l0 l1 l2 : list Batch) :
  Forall (reduced_from l0) l1 -> Forall (reduced_from l1) l2 ->
  Forall (reduced_from l0) l2.
Proof.
  intros H1 H2. rewrite Forall_forall in H2 |- *. intros b Hb.
  apply (reduced_from_trans l0 l1); auto.
Qed.

Lemma allocateRegularItem_step (batches0 : list Batch) (request : Request)
      (dispatch : Time) (wbd : list (Node * Q)) (unused : list Batch)
      (allocs : list Allocation) (item : RequestItem) (unused' : list Batch)
      (allocs' : list Allocation) :
  Forall (reduced_from batches0) unused ->
  Forall (regular_allocation_ok batches0) allocs ->
  allocateRegularItem request dispatch wbd (unused, allocs) item
  = Some (unused', allocs') ->
  Forall (reduced_from batches0) unused'
  /\ Forall (regular_allocation_ok batches0) allocs'.
Proof.
  intros Hinv Hok H.
  destruct (allocateRegularItem_inv request dispatch wbd unused allocs item)
    as (u1 & a1 & E & Hcases).
  rewrite E in H. injection H as <- <-.
  destruct Hcases as [(-> & -> & _)|(w & d & remaining & used & _ & Hc & Hpush)];
    [split; assumption|].
  destruct (consumeBatches_spec _ _ _ _ _ _ _ _ Hc)
    as (new & Hused & Hrem & Hpos & Hneg & Hall & Hred).
  simpl in Hused. subst new.
  split; [apply (Forall_reduced_trans batches0 unused); assumption|].
  destruct Hpush as [(_ & ->)|(Hgt & ->)]; [assumption|].
  apply Forall_app. split; [assumption|]. constructor; [|constructor].
  unfold regular_allocation_ok. simpl.
  split; [reflexivity|]. split; [exact Hgt|].
  assert (Hreq : 0 <= required_kg item).
  { destruct (Qlt_le_dec (required_kg item) 0) as [Hlt|Hge]; [|exact Hge].
    assert (Hnil : used = []) by (apply Hneg; lra).
    subst used. simpl in Hrem. lra. }
  split; [specialize (Hpos Hreq); lra|].
  split; [lra|].
  apply Forall2_firstn_In in Hall.
  rewrite Forall_forall in Hall |- *. intros u Hu.
  destruct (Hall u Hu) as (b & Hb & Hid & _ & Hq).
  apply regularAvailableBatches_In in Hb. destruct Hb as (Hin & Helig).
  apply eligibleAtDispatch_true in Helig.
  destruct Helig as (Hf & Hs & Hn & _ & _ & Hfresh).
  rewrite Forall_forall in Hinv.
  destruct (Hinv b Hin) as (b0 & q & Hin0 & -> & Hq0).
  exists b0. simpl in *. repeat split; auto. lra.
Qed.

Lemma allocateRegularRequest_step (haversineDistanceKm : Coordinates -> Coordinates -> Q)
      (ngoOrgs : list NgoOrg) (now : Time) (batches0 : list Batch)
      (floor ceil : option Time) (warehouses ngos : list Node)
      (st st' : list Batch * list Allocation) (request : Request) :
  Forall (reduced_from batches0) (fst st)
  /\ Forall (regular_allocation_ok batches0) (snd st) ->
  allocateRegularRequest haversineDistanceKm ngoOrgs now floor ceil warehouses
                         ngos st request = Some st' ->
  Forall (reduced_from batches0) (fst st')
  /\ Forall (regular_allocation_ok batches0) (snd st').
Proof.
  intros Hinv H. unfold allocateRegularRequest in H.
  destruct (find _ ngoOrgs) as [ngoOrg|]; [|injection H as <-; exact Hinv].
  destruct (find _ ngos) as [ngoNode|]; [|injection H as <-; exact Hinv].
  destruct (warehousesByDistanceFrom _ _ _) as [|wd wbd];
    [injection H as <-; exact Hinv|].
  revert H.
  apply (foldM_invariant _
           (fun s => Forall (reduced_from batches0) (fst s)
                     /\ Forall (regular_allocation_ok batches0) (snd s)));
    [|exact Hinv].
  intros [unused allocs] item [unused' allocs'] (H1 & H2) Hstep.
  apply (allocateRegularItem_step batches0 _ _ _ _ _ _ _ _ H1 H2 Hstep).
Qed.

(** Every allocation record of the baseline is well formed against the
    snapshot the allocator was given. *)
Lemma allocateRegular_ok (haversineDistanceKm : Coordinates -> Coordinates -> Q)
      (ngoOrgs : list NgoOrg) (now : Time) (requests : list Request)
      (batches0 : list Batch) (warehouses ngos : list Node)
      (floor ceil : option Time) (allocations : list Allocation) :
  allocateRegular haversineDistanceKm ngoOrgs now requests batches0 warehouses
                  ngos floor ceil = Some allocations ->
  Forall (regular_allocation_ok batches0) allocations.
Proof.
  unfold allocateRegular. intro H.
  destruct (foldM _ requests (batches0, [])) as [[unused allocs]|] eqn:E;
    [|discriminate].
  injection H as <-.
  assert (Hinv : Forall (reduced_from batches0) (fst (unused, allocs))
                 /\ Forall (regular_allocation_ok batches0)
                           (snd (unused, allocs))).
  { revert E.
    apply (foldM_invariant _
             (fun s => Forall (reduced_from batches0) (fst s)
                       /\ Forall (regular_allocation_ok batches0) (snd s))).
    - intros st request st'.
      apply allocateRegularRequest_step.
    - simpl. split; [|constructor].
      rewrite Forall_forall. intros b Hb. apply reduced_from_self, Hb. }
  apply Hinv.
Qed.

(** The baseline always returns. *)
Lemma allocateRegular_returns (haversineDistanceKm : Coordinates -> Coordinates -> Q)
      (ngoOrgs : list NgoOrg) (now : Time) (requests : list Request)
      (batches0 : list Batch) (warehouses ngos : list Node)
      (floor ceil : option Time) :
  exists allocations,
    allocateRegular haversineDistanceKm ngoOrgs now requests batches0
                    warehouses ngos floor ceil = Some allocations.
Proof.
  unfold allocateRegular.
  destruct (foldM_returns
              (allocateRegularRequest haversineDistanceKm ngoOrgs now floor
                                      ceil warehouses ngos) requests)
    with (s := (batches0, @nil Allocation)) as ([unused allocs] & ->).
  - intros st request. unfold allocateRegularRequest.
    destruct (find _ ngoOrgs) as [ngoOrg|]; [|eauto].
    destruct (find _ ngos) as [ngoNode|]; [|eauto].
    destruct (warehousesByDistanceFrom _ _ _) as [|wd wbd]; [eauto|].
    apply foldM_returns. intros [unused allocs] item.
    destruct (allocateRegularItem_inv request
                (clampDispatchTime floor ceil (requestDispatchTime now request))
                (wd :: wbd) unused allocs item) as (u1 & a1 & E & _).
    eauto.
  - eauto.
Qed.

(** *** The order of consumption *)






Lemma StronglySorted_impl {A : Type} (R R' : A -> A -> Prop) (P : A -> Prop)
      (l : list A) :
  (forall a b, P a -> P b -> R a b -> R' a b) ->
  Forall P l -> StronglySorted R l -> StronglySorted R' l.
Proof.
  intros Himp HP Hs. induction Hs as [|x l Hs IH Hx]; constructor.
  - inversion HP; subst. apply IH. assumption.
  - inversion HP as [|? ? Px Pl]; subst.
    rewrite Forall_forall in *. intros y Hy. apply Himp; auto.
Qed.


(** *** The choice of the warehouse *)








(* ------------------------------------------------------------------ *)
(** ** Descendants of the batches of a snapshot *)

Lemma prefix_refl (s : string) : String.prefix s s = true.
Proof.
  induction s as [|c s IH]; simpl; [reflexivity|].
  destruct (Ascii.ascii_dec c c); [exact IH | congruence].
Qed.

Lemma prefix_trans (s1 s2 s3 : string) :
  String.prefix s1 s2 = true -> String.prefix s2 s3 = true ->
  String.prefix s1 s3 = true.
Proof.
  revert s2 s3. induction s1 as [|c s1 IH]; intros s2 s3 H12 H23;
    [destruct s3; reflexivity|].
  destruct s2 as [|c2 s2]; simpl in H12; [discriminate|].
  destruct (Ascii.ascii_dec c c2) as [->|]; [|discriminate].
  destruct s3 as [|c3 s3]; simpl in H23; [discriminate|].
  destruct (Ascii.ascii_dec c2 c3) as [->|]; [|discriminate].
  simpl. destruct (Ascii.ascii_dec c3 c3); [|congruence].
  apply (IH s2 s3); assumption.
Qed.

Lemma prefix_append (s t : string) : String.prefix s (s ++ t) = true.
Proof.
  induction s as [|c s IH]; simpl; [destruct t; reflexivity|].
  destruct (Ascii.ascii_dec c c); [exact IH | congruence].
Qed.

Lemma derives_refl (b : Batch) : derives b b.
Proof.
  unfold derives. repeat split; try reflexivity.
  - apply prefix_refl.
  - lra.
Qed.

Lemma derives_trans (b0 b1 b2 : Batch) :
  derives b0 b1 -> derives b1 b2 -> derives b0 b2.
Proof.
  intros (H1 & H2 & H3 & H4 & H5) (K1 & K2 & K3 & K4 & K5).
  unfold derives. repeat split; try congruence.
  - apply (prefix_trans _ _ _ H1 K1).
  - lra.
Qed.

Lemma descends_from_self (l : list Batch) (b : Batch) :
  In b l -> descends_from l b.
Proof. intro H. exists b. split; [exact H | apply derives_refl]. Qed.

Lemma descends_from_trans (l0 l1 : list Batch) (b : Batch) :
  Forall (descends_from l0) l1 -> descends_from l1 b -> descends_from l0 b.
Proof.
  intros H (b1 & Hin & Hd). rewrite Forall_forall in H.
  destruct (H b1 Hin) as (b0 & Hin0 & Hd0).
  exists b0. split; [exact Hin0 | apply (derives_trans _ _ _ Hd0 Hd)].
Qed.

Lemma Forall_descends_trans (l0 l1 l2 : list Batch) :
  Forall (descends_from l0) l1 -> Forall (descends_from l1) l2 ->
  Forall (descends_from l0) l2.
Proof.
  intros H1 H2. rewrite Forall_forall in H2 |- *. intros b Hb.
  apply (descends_from_trans l0 l1); auto.
Qed.

Lemma reduced_from_descends (l : list Batch) (b : Batch) :
  reduced_from l b -> descends_from l b.
Proof.
  intros (b0 & q & Hin & -> & Hq). exists b0. split; [exact Hin|].
  unfold derives. simpl. repeat split; try reflexivity.
  - apply prefix_refl.
  - exact Hq.
Qed.

(** The transfer application keeps every batch a descendant of a batch it
    was given. *)
Lemma applyPick_descends (targetId : Id) (st : list Batch * nat)
      (p : nat * Q) :
  Forall (descends_from (fst st)) (fst (applyPick targetId st p)).
Proof.
  destruct st as [working splitSeq]. destruct p as [i takeQty].
  assert (Hself : Forall (descends_from working) working).
  { rewrite Forall_forall. intros b Hb. apply descends_from_self, Hb. }
  unfold applyPick. simpl fst at 1.
  destruct (nth_error working i) as [batch|] eqn:Hn; [|exact Hself].
  destruct (Qle_bool takeQty 0) eqn:E1; simpl; [exact Hself|].
  destruct (Qle_bool (quantity_kg batch) 0) eqn:E2; simpl; [exact Hself|].
  apply Qle_bool_false in E1. apply Qle_bool_false in E2.
  assert (Hin : In batch working) by apply (nth_error_In _ _ Hn).
  destruct (Qle_bool (quantity_kg batch - split_epsilon) takeQty) eqn:E3;
    simpl.
  - rewrite Forall_forall. intros b Hb.
    destruct (In_update_at _ _ _ _ Hb) as [->|Hb'];
      [|apply descends_from_self, Hb'].
    exists batch. split; [exact Hin|]. unfold derives. simpl.
    repeat split; try reflexivity; [apply prefix_refl | lra].
  - apply Qle_bool_false in E3. unfold split_epsilon in E3.
    rewrite Forall_forall. intros b Hb. apply in_app_or in Hb.
    destruct Hb as [Hb|[<-|[]]].
    + destruct (In_update_at _ _ _ _ Hb) as [->|Hb'];
        [|apply descends_from_self, Hb'].
      exists batch. split; [exact Hin|]. unfold derives. simpl.
      repeat split; try reflexivity; [apply prefix_refl | lra].
    + exists batch. split; [exact Hin|]. unfold derives. simpl.
      repeat split; try reflexivity; [apply prefix_append | lra].
Qed.

Lemma applyPicks_descends (targetId : Id) (picked : list (nat * Q))
      (st : list Batch * nat) :
  Forall (descends_from (fst st))
         (fst (fold_left (applyPick targetId) picked st)).
Proof.
  revert st. induction picked as [|p picked IH]; intro st; simpl.
  - rewrite Forall_forall. intros b Hb. apply descends_from_self, Hb.
  - apply (Forall_descends_trans _ (fst (applyPick targetId st p)));
      [apply applyPick_descends | apply IH].
Qed.

Lemma applySuggestion_descends (currentDate : Time)
      (st : list Batch * nat * list AppliedTransfer) (s : TransferSuggestion) :
  Forall (descends_from (fst (fst st)))
         (fst (fst (applySuggestion currentDate st s))).
Proof.
  destruct st as [[working splitSeq] applied].
  assert (Hself : Forall (descends_from working) working).
  { rewrite Forall_forall. intros b Hb. apply descends_from_self, Hb. }
  unfold applySuggestion.
  destruct (truthy_id (source_mongoId s)) as [sourceId|]; [|exact Hself].
  destruct (truthy_id (target_mongoId s)) as [targetId|]; [|exact Hself].
  destruct (coercePositiveNumber (suggested_quantity_kg s)) as [qty|];
    [|exact Hself].
  destruct (String.eqb sourceId targetId); [exact Hself|].
  destruct (Qle_bool _ 0); [exact Hself|].
  assert (H := applyPicks_descends targetId
                 (takeFromSource working currentDate sourceId qty)
                 (working, splitSeq)).
  destruct (fold_left _ _ _) as [working' splitSeq']. exact H.
Qed.

Lemma applyWarehouseTransfersToBatches_descends (batches : list Batch)
      (transfers : option (list TransferSuggestion)) (currentDate : Time) :
  Forall (descends_from batches)
         (fst (applyWarehouseTransfersToBatches batches transfers currentDate)).
Proof.
  assert (Hself : Forall (descends_from batches) batches).
  { rewrite Forall_forall. intros b Hb. apply descends_from_self, Hb. }
  unfold applyWarehouseTransfersToBatches.
  destruct transfers as [[|s l]|]; try exact Hself.
  assert (H : forall l st,
             Forall (descends_from (fst (fst st)))
                    (fst (fst (fold_left (applySuggestion currentDate) l st)))).
  { clear. intro l. induction l as [|x l IH]; intro st; simpl.
    - rewrite Forall_forall. intros b Hb. apply descends_from_self, Hb.
    - apply (Forall_descends_trans _
               (fst (fst (applySuggestion currentDate st x))));
        [apply applySuggestion_descends | apply IH]. }
  specialize (H (s :: l) (batches, O, [])).
  destruct (fold_left _ _ _) as [[working n] applied]. exact H.
Qed.

(* ------------------------------------------------------------------ *)
(** ** The transfer planner inside the scored allocator *)

Lemma rebalanced_same (st st' : MLState) :
  ml_allocations st' = ml_allocations st ->
  ml_unusedBatches st' = ml_unusedBatches st ->
  rebalanced st st'.
Proof.
  intros H1 H2. split; [exact H1|]. rewrite H2.
  rewrite Forall_forall. intros b Hb. apply descends_from_self, Hb.
Qed.

Lemma rebalanced_trans (st1 st2 st3 : MLState) :
  rebalanced st1 st2 -> rebalanced st2 st3 -> rebalanced st1 st3.
Proof.
  intros (H1 & H2) (K1 & K2). split; [congruence|].
  apply (Forall_descends_trans _ _ _ H2 K2).
Qed.

Lemma rebalanced_invariant (batches0 : list Batch) (st st' : MLState) :
  ml_invariant batches0 st -> rebalanced st st' -> ml_invariant batches0 st'.
Proof.
  intros (H1 & H2) (K1 & K2). split.
  - apply (Forall_descends_trans _ _ _ H1 K2).
  - rewrite K1. exact H2.
Qed.

Section PlannerFacts.
Variable planTransfers :
  PlannerRequest -> CallOutcome (option (list TransferSuggestion)).
Variable tuning : PlannerTuning.
Variable warehouses : list Node.
Variable options : Options.
Variable now : Time.

Lemma runTransferPlannerOnce_rebalanced (reason : PlannerReason)
      (runAt : option Time) (st : MLState) :
  rebalanced st
    (runTransferPlannerOnce planTransfers tuning warehouses options now
                            reason runAt st).
Proof.
  unfold runTransferPlannerOnce.
  destruct (planTransfers _) as [err|transfers].
  - apply rebalanced_same; reflexivity.
  - set (t := match runAt with
              | Some t => t
              | None => coalesce (referenceDate options) now
              end).
    assert (H := applyWarehouseTransfersToBatches_descends
                   (ml_unusedBatches st) transfers t).
    destruct (applyWarehouseTransfersToBatches _ _ _) as [batches' applied].
    split; [reflexivity | exact H].
Qed.

Lemma transferPlannerStep_rebalanced (reason : PlannerReason)
      (runAt skipAt : option Time) (st : MLState) :
  rebalanced st
    (transferPlannerStep planTransfers tuning warehouses options now reason
                         runAt skipAt st).
Proof.
  unfold transferPlannerStep.
  destruct (shouldRunTransferPlanner _ _ _) as [run stats].
  destruct run.
  - apply (rebalanced_trans _
             (set_debug st (set_imbalance (ml_debug st) stats)));
      [apply rebalanced_same; reflexivity | apply runTransferPlannerOnce_rebalanced].
  - apply rebalanced_same; reflexivity.
Qed.

Lemma cronTicks_rebalanced (budget : nat) (hours : Q) (dispatch : Time) :
  forall st,
    rebalanced st
      (cronTicks planTransfers tuning warehouses options now budget hours
                 dispatch st).
Proof.
  induction budget as [|budget IH]; intro st; simpl;
    [apply rebalanced_same; reflexivity|].
  destruct (nextCronRunAt st) as [next|]; [|apply rebalanced_same; reflexivity].
  destruct (Qle_bool _ _); [|apply rebalanced_same; reflexivity].
  eapply rebalanced_trans; [|apply IH].
  eapply rebalanced_trans; [|apply transferPlannerStep_rebalanced].
  apply rebalanced_same; reflexivity.
Qed.

Lemma cronSchedule_rebalanced (maxRuns hours : Q) (dispatch : Time)
      (st : MLState) :
  rebalanced st
    (cronSchedule planTransfers tuning warehouses options now maxRuns hours
                  dispatch st).
Proof.
  unfold cronSchedule.
  eapply rebalanced_trans; [|apply cronTicks_rebalanced].
  destruct (nextCronRunAt st) as [next|]; [apply rebalanced_same; reflexivity|].
  destruct (cronBudget _ _); [apply rebalanced_same; reflexivity|].
  eapply rebalanced_trans; [|apply transferPlannerStep_rebalanced].
  apply rebalanced_same; reflexivity.
Qed.
End PlannerFacts.

(* ------------------------------------------------------------------ *)
(** ** The scored allocator *)

Lemma BatchStatus_eqb_eq (a b : BatchStatus) :
  BatchStatus_eqb a b = true <-> a = b.
Proof. destruct a, b; simpl; split; congruence. Qed.

(** A tier of the candidates of a warehouse is a selection of the batches
    of the snapshot, reordered. *)
Lemma mlCandidateBatches_tier (unused : list Batch) (food : string)
      (warehouseId : Id) (dispatch deliveryTime : Time)
      (p : Candidate -> bool) :
  exists q,
    Permutation
      (map cand_batch
         (js_sort ml_cmp_le
            (filter p (mlCandidateBatches unused food warehouseId dispatch
                                          deliveryTime))))
      (filter q unused)
    /\ forall b,
        q b = true ->
        foodType b = food /\ currentNode b = warehouseId /\ status b = stored
        /\ 0 < calculateFreshnessPct b deliveryTime defaultAvgTemp.
Proof.
  unfold mlCandidateBatches.
  eexists. split.
  - eapply Permutation_trans; [apply Permutation_map, js_sort_perm|].
    rewrite filter_filter.
    rewrite (map_filter_map _ cand_batch); [|reflexivity].
    rewrite filter_filter. apply Permutation_refl.
  - intros b H. cbv beta in H.
    apply andb_true_iff in H. destruct H as (H1 & H2).
    apply andb_true_iff in H2. destruct H2 as (H2 & _).
    apply andb_true_iff in H2. destruct H2 as (_ & Hf).
    repeat (apply andb_true_iff in H1; destruct H1 as (H1 & ?)).
    split; [apply String.eqb_eq; assumption|].
    split; [apply String.eqb_eq; assumption|].
    split; [apply BatchStatus_eqb_eq; assumption|].
    unfold Qltb in Hf. apply Qle_bool_false.
    destruct (Qle_bool _ 0); [discriminate | reflexivity].
Qed.

Lemma chooseTier_cases (preferredMin relaxedMin : Q) (cands : list Candidate) :
  fst (fst (chooseTier preferredMin relaxedMin cands)) = []
  \/ exists p,
      fst (fst (chooseTier preferredMin relaxedMin cands))
      = js_sort ml_cmp_le (filter p cands).
Proof.
  unfold chooseTier.
  destruct (js_sort ml_cmp_le
              (filter (fun x => Qle_bool preferredMin
                                         (cand_freshnessAtDelivery x)) cands))
    as [|x l] eqn:E1.
  - destruct (js_sort ml_cmp_le
                (filter (fun x => Qle_bool relaxedMin
                                           (cand_freshnessAtDelivery x)) cands))
      as [|y l'] eqn:E2.
    + destruct (js_sort ml_cmp_le
                  (filter (fun x => Qltb 0 (cand_freshnessAtDelivery x)) cands))
        as [|z l''] eqn:E3.
      * left. reflexivity.
      * right. eexists. simpl. rewrite <- E3. reflexivity.
    + right. eexists. simpl. rewrite <- E2. reflexivity.
  - right. eexists. simpl. rewrite <- E1. reflexivity.
Qed.

Section ScoredFacts.
Variable haversineDistanceKm : Coordinates -> Coordinates -> Q.
Variable exp : Q -> Q.
Variable env : Env.
Variable ngoNode : Node.
Variable unused : list Batch.
Variable item : RequestItem.
Variable dispatch : Time.
Variable urgencyBoost : Q.

Let ok := best_ok haversineDistanceKm ngoNode unused item dispatch.
Let measured (wd : Node * Q) : Prop :=
  snd wd = haversineDistanceKm (location ngoNode) (location (fst wd)).

Lemma noBest_ok : ok noBest.
Proof. intros w H. discriminate H. Qed.

Lemma evaluateCandidate_ok (best : Best * Best) (wd : Node * Q) :
  measured wd -> ok (fst best) -> ok (snd best) ->
  ok (fst (evaluateCandidate exp env unused item dispatch urgencyBoost
                             best wd))
  /\ ok (snd (evaluateCandidate exp env unused item dispatch urgencyBoost
                                best wd)).
Proof.
  destruct best as [bo bi]. destruct wd as [w d]. unfold measured. simpl.
  intros Hd Hbo Hbi. unfold evaluateCandidate.
  set (cands := mlCandidateBatches unused (item_foodType item) (node_id w)
                  dispatch (deliveryTimeAt dispatch d)).
  destruct (chooseTier_cases (preferredMinDeliveredFreshnessPct env)
                             (relaxedMinDeliveredFreshnessPct env) cands)
    as [Hnil|(p & Hp)];
    destruct (chooseTier _ _ cands) as [[available usingRelaxed] usingFallback];
    simpl in *.
  - subst available. split; assumption.
  - destruct available as [|x available']; [split; assumption|].
    destruct (weightedLoop _ _ _ _ _) as [wdf wep].
    set (found := mkBest _ (Some w) (x :: available') _).
    assert (Hfound : ok found).
    { intros w' Hw'. simpl in Hw'. injection Hw' as <-. simpl bestBatches.
      rewrite Hp. unfold cands, deliveryTimeAt. rewrite Hd.
      apply mlCandidateBatches_tier. }
    split.
    + destruct (js_gt _ (bestScore bo)); assumption.
    + destruct (Qle_bool d _ && js_gt _ (bestScore bi)); assumption.
Qed.

Lemma evaluateCandidates_ok (wds : list (Node * Q)) :
  Forall measured wds ->
  forall best,
    ok (fst best) -> ok (snd best) ->
    ok (fst (evaluateCandidates exp env unused item dispatch urgencyBoost
                                wds best))
    /\ ok (snd (evaluateCandidates exp env unused item dispatch urgencyBoost
                                   wds best)).
Proof.
  unfold evaluateCandidates.
  induction 1 as [|wd wds Hwd Hwds IH]; intros best H1 H2; simpl.
  - split; assumption.
  - destruct (evaluateCandidate_ok best wd Hwd H1 H2) as (K1 & K2).
    apply IH; assumption.
Qed.

Lemma allWarehouseCandidatesOf_measured (warehouses : list Node) :
  Forall measured
         (allWarehouseCandidatesOf haversineDistanceKm env ngoNode
                                   warehouses).
Proof.
  rewrite Forall_forall. intros wd Hwd.
  unfold allWarehouseCandidatesOf in Hwd.
  apply js_sort_In in Hwd. apply filter_In in Hwd. destruct Hwd as (Hwd & _).
  apply in_map_iff in Hwd. destruct Hwd as (w & <- & _). reflexivity.
Qed.

Lemma firstn_Forall {A : Type} (P : A -> Prop) (n : nat) (l : list A) :
  Forall P l -> Forall P (firstn n l).
Proof.
  intro H. revert n. induction H as [|x l Hx Hl IH]; intros [|n]; simpl;
    constructor; auto.
Qed.

(** The winner of an item is a warehouse with its unspoiled batches. *)
Lemma selectBest_ok (warehouses : list Node) :
  ok (selectBest haversineDistanceKm exp env unused item dispatch
                 urgencyBoost ngoNode warehouses).
Proof.
  unfold selectBest.
  set (all := allWarehouseCandidatesOf haversineDistanceKm env ngoNode
                                       warehouses).
  assert (Hall : Forall measured all)
    by apply allWarehouseCandidatesOf_measured.
  set (primary := firstn _ all).
  assert (Hprim : Forall measured primary) by (apply firstn_Forall, Hall).
  destruct (evaluateCandidates_ok primary Hprim (noBest, noBest)
                                  noBest_ok noBest_ok) as (H1 & H2).
  set (best1 := evaluateCandidates exp env unused item dispatch urgencyBoost
                                   primary (noBest, noBest)) in *.
  match goal with
  | |- context [if ?c then ?a else best1] =>
      set (best2 := if c then a else best1);
        assert (H : ok (fst best2) /\ ok (snd best2))
  end.
  { unfold best2.
    match goal with
    | |- context [if ?c then _ else _] => destruct c
    end; [|split; assumption].
    apply evaluateCandidates_ok; assumption. }
  destruct best2 as [bo bi]. simpl in H. destruct H as (Hbo & Hbi).
  match goal with
  | |- context [if ?c then bi else bo] => destruct c
  end; assumption.
Qed.
End ScoredFacts.

Lemma calculateFreshnessPct_derives (b0 b : Batch) (t : Time) (temp : Q) :
  derives b0 b ->
  calculateFreshnessPct b t temp = calculateFreshnessPct b0 t temp.
Proof.
  intros (_ & _ & Hm & Hl & _). unfold calculateFreshnessPct.
  rewrite Hm, Hl. reflexivity.
Qed.

Section ScoredItem.
Variable haversineDistanceKm : Coordinates -> Coordinates -> Q.
Variable exp : Q -> Q.
Variable env : Env.

(** The body of the item loop always returns: it leaves the state alone
    when no warehouse wins, and otherwise appends the record built from a
    run of the greedy loop on the batches of the winner. *)
Lemma allocateMLItem_inv (request : Request) (dispatch : Time)
      (urgencyBoost : Q) (ngoNode : Node) (warehouses : list Node)
      (st : MLState) (item : RequestItem) :
  let best :=
    selectBest haversineDistanceKm exp env (ml_unusedBatches st) item
               dispatch urgencyBoost ngoNode warehouses in
  exists st',
    allocateMLItem haversineDistanceKm exp env request dispatch urgencyBoost
                   ngoNode warehouses st item = Some st'
    /\ ((bestWarehouse best = None /\ st' = st)
        \/ exists w unused' remaining used,
            bestWarehouse best = Some w
            /\ consumeBatches
                 (fun b => calculateFreshnessPct b dispatch defaultAvgTemp)
                 (map cand_batch (bestBatches best)) (ml_unusedBatches st)
                 (required_kg item) []
               = Some (unused', remaining, used)
            /\ st' = mkMLState unused'
                       (ml_allocations st ++
                          [mkAllocation (requestID request)
                             (item_foodType item) (required_kg item)
                             (required_kg item - remaining) (node_id w)
                             (node_name w)
                             (haversineDistanceKm (location ngoNode)
                                                  (location w))
                             used ml dispatch])
                       (ml_debug st) (cronRuns st) (nextCronRunAt st)).
Proof.
  intro best. unfold allocateMLItem. fold best.
  assert (Hok := selectBest_ok haversineDistanceKm exp env ngoNode
                   (ml_unusedBatches st) item dispatch urgencyBoost
                   warehouses).
  fold best in Hok.
  destruct (bestWarehouse best) as [w|] eqn:Hw.
  - destruct (Hok w Hw) as (q & Hperm & _).
    destruct (consumeBatches_returns
                (fun b => calculateFreshnessPct b dispatch defaultAvgTemp)
                (map cand_batch (bestBatches best)) (ml_unusedBatches st)
                (required_kg item) [])
      as ([[unused' remaining] used] & Hc).
    { intro i. rewrite (count_id_perm i _ _ Hperm).
      apply count_id_filter_le. }
    rewrite Hc. eexists. split; [reflexivity|]. right.
    exists w, unused', remaining, used. auto.
  - exists st. split; [reflexivity|]. left. auto.
Qed.

Lemma allocateMLItem_step (batches0 : list Batch) (request : Request)
      (dispatch : Time) (urgencyBoost : Q) (ngoNode : Node)
      (warehouses : list Node) (st st' : MLState) (item : RequestItem) :
  ml_invariant batches0 st ->
  allocateMLItem haversineDistanceKm exp env request dispatch urgencyBoost
                 ngoNode warehouses st item = Some st' ->
  ml_invariant batches0 st'.
Proof.
  intros (Hinv & Hok) H.
  destruct (allocateMLItem_inv request dispatch urgencyBoost ngoNode
                               warehouses st item)
    as (st1 & E & Hcases).
  rewrite E in H. injection H as <-.
  destruct Hcases as [(_ & ->)|(w & unused' & remaining & used & Hw & Hc & ->)];
    [split; assumption|].
  destruct (consumeBatches_spec _ _ _ _ _ _ _ _ Hc)
    as (new & Hused & Hrem & Hpos & _ & Hall & Hred).
  simpl in Hused. subst new.
  split; simpl.
  - apply (Forall_descends_trans _ _ _ Hinv).
    rewrite Forall_forall in Hred |- *. intros b Hb.
    apply reduced_from_descends, Hred, Hb.
  - apply Forall_app. split; [assumption|]. constructor; [|constructor].
    unfold ml_allocation_ok. simpl.
    split; [reflexivity|]. split; [lra|].
    split; [intro Hreq; specialize (Hpos Hreq); lra|].
    destruct (selectBest_ok haversineDistanceKm exp env ngoNode
                (ml_unusedBatches st) item dispatch urgencyBoost warehouses
                w Hw) as (q & Hperm & Hq).
    apply Forall2_firstn_In in Hall.
    rewrite Forall_forall in Hall |- *. intros u Hu.
    destruct (Hall u Hu) as (b & Hb & Hid & _ & Hle).
    apply (Permutation_in _ Hperm) in Hb. apply filter_In in Hb.
    destruct Hb as (Hin & Hqb).
    destruct (Hq b Hqb) as (Hfood & _ & _ & Hfresh).
    rewrite Forall_forall in Hinv.
    destruct (Hinv b Hin) as (b0 & Hin0 & Hder).
    exists b0. split; [exact Hin0|].
    rewrite (calculateFreshnessPct_derives b0 b _ _ Hder) in Hfresh.
    destruct Hder as (Hpre & Hf & _ & _ & Hqty).
    rewrite Hid. repeat split; auto; [congruence | lra].
Qed.
End ScoredItem.

Section ScoredRun.
Variable haversineDistanceKm : Coordinates -> Coordinates -> Q.
Variable exp : Q -> Q.
Variable ngoOrgs : list NgoOrg.
Variable now : Time.
Variable predict :
  list Node -> list Request -> list Batch ->
  CallOutcome (option (list MlResult)).
Variable planTransfers :
  PlannerRequest -> CallOutcome (option (list TransferSuggestion)).
Variable options : Options.
Variable env : Env.

Lemma allocateMLRequest_step (batches0 : list Batch)
      (signals : list (string * RegionalSignal))
      (warehouses ngos : list Node) (st st' : MLState) (request : Request) :
  ml_invariant batches0 st ->
  allocateMLRequest haversineDistanceKm exp ngoOrgs now planTransfers
                    options env signals warehouses ngos st request
  = Some st' ->
  ml_invariant batches0 st'.
Proof.
  intros Hinv H. unfold allocateMLRequest in H.
  destruct (find _ ngoOrgs) as [ngoOrg|]; [|injection H as <-; exact Hinv].
  destruct (find _ ngos) as [ngoNode|]; [|injection H as <-; exact Hinv].
  revert H. apply (foldM_invariant _ (ml_invariant batches0)).
  - intros s item s' Hs. apply allocateMLItem_step. exact Hs.
  - destruct (useTransferPlannerCron options env); [|exact Hinv].
    destruct (transferPlannerCronHoursOf options env) as [hours|];
      [|exact Hinv].
    apply (rebalanced_invariant _ st); [exact Hinv|].
    apply cronSchedule_rebalanced.
Qed.

Lemma allocateMLRequest_returns (signals : list (string * RegionalSignal))
      (warehouses ngos : list Node) (st : MLState) (request : Request) :
  exists st',
    allocateMLRequest haversineDistanceKm exp ngoOrgs now planTransfers
                      options env signals warehouses ngos st request
    = Some st'.
Proof.
  unfold allocateMLRequest.
  destruct (find _ ngoOrgs) as [ngoOrg|]; [|eauto].
  destruct (find _ ngos) as [ngoNode|]; [|eauto].
  apply foldM_returns. intros s item.
  destruct (allocateMLItem_inv haversineDistanceKm exp env request
              (mlDispatchTime now options request)
              (urgencyBoostOf signals ngoNode) ngoNode warehouses s item)
    as (s' & E & _).
  eauto.
Qed.

(** Every allocation record of the scored allocator is well formed against
    the snapshot the allocator was given. *)
Lemma allocateML_ok (requests : list Request) (batches0 : list Batch)
      (warehouses ngos : list Node) (allocations : list Allocation)
      (trace : TransferPlannerDebug) :
  allocateML haversineDistanceKm exp ngoOrgs now predict planTransfers
             options env requests batches0 warehouses ngos
  = Some (allocations, trace) ->
  Forall (ml_allocation_ok batches0) allocations.
Proof.
  unfold allocateML. intro H.
  match type of H with
  | match foldM ?f ?l ?s with _ => _ end = _ =>
      destruct (foldM f l s) as [st|] eqn:E; [|discriminate];
        assert (Hinv : ml_invariant batches0 s)
  end.
  { assert (H0 : ml_invariant batches0
                   (mkMLState batches0 []
                      (mkTransferPlannerDebug
                         (canUseTransferPlanner options env)
                         (simulationOnly options)
                         (transferPlannerCronHoursOf options env)
                         O O O O None O O [] O None [])
                      O None)).
    { split; simpl; [|constructor].
      rewrite Forall_forall. intros b Hb. apply descends_from_self, Hb. }
    destruct (canUseTransferPlanner options env
              && negb (useTransferPlannerCron options env)); [|exact H0].
    apply (rebalanced_invariant _ _ _ H0).
    apply transferPlannerStep_rebalanced. }
  injection H as <- _.
  revert E. apply (foldM_invariant _ (ml_invariant batches0)); [|exact Hinv].
  intros s request s' Hs. apply allocateMLRequest_step. exact Hs.
Qed.

(** The scored allocator always returns, whatever the services answer. *)
Lemma allocateML_returns (requests : list Request) (batches0 : list Batch)
      (warehouses ngos : list Node) :
  exists allocations trace,
    allocateML haversineDistanceKm exp ngoOrgs now predict planTransfers
               options env requests batches0 warehouses ngos
    = Some (allocations, trace).
Proof.
  unfold allocateML.
  match goal with
  | |- context [foldM ?f ?l ?s0] =>
      assert (Hr : exists st, foldM f l s0 = Some st)
  end.
  { apply foldM_returns. intros s request.
    apply allocateMLRequest_returns. }
  destruct Hr as (st & ->). eauto.
Qed.
End ScoredRun.

(* ------------------------------------------------------------------ *)
(** ** Properties of the allocation records *)

(** *** The snapshot lot behind an entry *)

Lemma NoDup_id_eq (l : list Batch) (b b' : Batch) :
  NoDup (map _id l) -> In b l -> In b' l -> _id b = _id b' -> b = b'.
Proof.
  induction l as [|x l IH]; intros Hnd Hb Hb' Hid; [contradiction|].
  cbn [map] in Hnd. inversion Hnd as [|? ? Hx Hl]; subst.
  destruct Hb as [->|Hb]; destruct Hb' as [->|Hb'].
  - reflexivity.
  - exfalso. apply Hx. rewrite Hid. apply in_map, Hb'.
  - exfalso. apply Hx. rewrite <- Hid. apply in_map, Hb.
  - apply IH; assumption.
Qed.

Lemma prefix_comparable (a b s : string) :
  String.prefix a s = true -> String.prefix b s = true ->
  String.prefix a b = true \/ String.prefix b a = true.
Proof.
  revert a b. induction s as [|c s IH]; intros [|x a] [|y b] Ha Hb;
    simpl in *; auto; try discriminate.
  destruct (Ascii.ascii_dec x c) as [->|]; [|discriminate].
  destruct (Ascii.ascii_dec y c) as [->|]; [|discriminate].
  destruct (Ascii.ascii_dec c c) as [_|N]; [|contradiction].
  apply IH; assumption.
Qed.

(** In a snapshot with distinct identifiers, none the beginning of
    another, an identifier begins with the identifier of at most one lot. *)
Lemma snapshot_lot_unique (batches0 : list Batch) (b b' : Batch) (i : Id) :
  NoDup (map _id batches0) ->
  (forall x y, In x batches0 -> In y batches0 ->
               String.prefix (_id x) (_id y) = true -> _id x = _id y) ->
  In b batches0 -> In b' batches0 ->
  String.prefix (_id b) i = true -> String.prefix (_id b') i = true ->
  b = b'.
Proof.
  intros Hnd Hfree Hb Hb' Hp Hp'.
  apply (NoDup_id_eq batches0); try assumption.
  destruct (prefix_comparable _ _ _ Hp Hp') as [H|H].
  - apply Hfree; assumption.
  - symmetry. apply Hfree; assumption.
Qed.




(** C10: every allocation record of the baseline has [allocated_kg > 0] (a
    line item for which nothing can be allocated leaves no record), whereas
    the scored allocator has no such guard: when the winning warehouse holds
    a lot of quantity 0 it emits a record with [allocated_kg = 0]. *)
Theorem allocateRegular_positive_allocations :
  (forall (haversineDistanceKm : Coordinates -> Coordinates -> Q)
          (ngoOrgs : list NgoOrg) (now : Time) (requests : list Request)
          (batches0 : list Batch) (warehouses ngos : list Node)
          (floor ceil : option Time) (allocations : list Allocation)
          (a : Allocation),
      allocateRegular haversineDistanceKm ngoOrgs now requests batches0
                      warehouses ngos floor ceil = Some allocations ->
      In a allocations ->
      0 < allocated_kg a)
  /\ allocateRegular gridDistanceKm ngo_orgs 0 [scenario2_request]
                     empty_lot_batches [warehouseB; warehouseA] [ngo_node]
                     None None = Some []
  /\ (exists a,
         option_map fst
           (allocateML gridDistanceKm exampleExp ngo_orgs 0 predictDown
              plannerDown noOptions defaultEnv [scenario2_request]
              empty_lot_batches [warehouseB; warehouseA] [ngo_node])
         = Some [a]
         /\ allocated_kg a == 0
         /\ map quantity (batches a) = [0]).
Proof.
  split; [|split].
  - intros hav orgs now requests batches0 warehouses ngos floor ceil allocs a
           H Ha.
    apply allocateRegular_ok in H. rewrite Forall_forall in H.
    destruct (H a Ha) as (_ & H1 & _). exact H1.
  - vm_compute. reflexivity.
  - eexists. split; [vm_compute; reflexivity|].
    split; vm_compute; reflexivity.
Qed.

Lemma allocateRegular_positive_allocations_witness :
  exists a,
    allocateRegular gridDistanceKm ngo_orgs 0 [scenario2_request]
                    scenario2_batches [warehouseB; warehouseA] [ngo_node]
                    None None = Some [a]
    /\ 0 < allocated_kg a.
Proof.
  destruct allocateRegular_positive_allocations as (H & _).
  eexists. split; [vm_compute; reflexivity|].
  match goal with
  | |- 0 < allocated_kg ?a =>
      apply (H gridDistanceKm ngo_orgs 0%Z [scenario2_request]
               scenario2_batches [warehouseB; warehouseA] [ngo_node]
               None None [a] a);
        [vm_compute; reflexivity | left; reflexivity]
  end.
Defined.

(** X28: the scored allocator ships no lot that arrives spoiled, and the
    baseline none that is spoiled when it leaves.  Every batch entry of a
    record of the scored allocator comes from a lot of the snapshot given to
    the allocator, the lot whose identifier begins the identifier of the
    entry (one lot only when the identifiers of the snapshot are distinct
    and none is the beginning of another); that lot has the food type of the
    record and its freshness at the delivery time, the dispatch time plus
    the travel-time estimate over the distance of the record, is > 0.  Every
    batch entry of a record of the baseline names a lot of the snapshot
    (one lot only when the identifiers are distinct) of the food type of the
    record whose freshness at the dispatch time is > 0. *)
Theorem allocateML_fresh_on_delivery :
  (forall (haversineDistanceKm : Coordinates -> Coordinates -> Q)
          (exp : Q -> Q) (ngoOrgs : list NgoOrg) (now : Time)
          (predict : list Node -> list Request -> list Batch ->
                     CallOutcome (option (list MlResult)))
          (planTransfers : PlannerRequest ->
                           CallOutcome (option (list TransferSuggestion)))
          (options : Options) (env : Env) (requests : list Request)
          (batches0 : list Batch) (warehouses ngos : list Node)
          (allocations : list Allocation) (trace : TransferPlannerDebug)
          (a : Allocation) (u : UsedBatch),
      allocateML haversineDistanceKm exp ngoOrgs now predict planTransfers
                 options env requests batches0 warehouses ngos
      = Some (allocations, trace) ->
      In a allocations -> In u (batches a) ->
      exists b0,
        In b0 batches0
        /\ String.prefix (_id b0) (batchId u) = true
        /\ foodType b0 = a_foodType a
        /\ 0 < calculateFreshnessPct b0
                 (deliveryTimeOf (dispatchTime a)
                                 (estimateTravelHours (distance_km a)))
                 defaultAvgTemp
        /\ (NoDup (map _id batches0) ->
            (forall x y, In x batches0 -> In y batches0 ->
                         String.prefix (_id x) (_id y) = true ->
                         _id x = _id y) ->
            forall b1, In b1 batches0 ->
                       String.prefix (_id b1) (batchId u) = true -> b1 = b0))
  /\ (forall (haversineDistanceKm : Coordinates -> Coordinates -> Q)
             (ngoOrgs : list NgoOrg) (now : Time) (requests : list Request)
             (batches0 : list Batch) (warehouses ngos : list Node)
             (floor ceil : option Time) (allocations : list Allocation)
             (a : Allocation) (u : UsedBatch),
         allocateRegular haversineDistanceKm ngoOrgs now requests batches0
                         warehouses ngos floor ceil = Some allocations ->
         In a allocations -> In u (batches a) ->
         exists b0,
           In b0 batches0
           /\ _id b0 = batchId u
           /\ foodType b0 = a_foodType a
           /\ 0 < calculateFreshnessPct b0 (dispatchTime a) defaultAvgTemp
           /\ (NoDup (map _id batches0) ->
               forall b1, In b1 batches0 -> _id b1 = batchId u -> b1 = b0)).
Proof.
  split.
  - intros hav exp orgs now predict plan options env requests batches0
           warehouses ngos allocs trace a u H Ha Hu.
    apply allocateML_ok in H. rewrite Forall_forall in H.
    destruct (H a Ha) as (_ & _ & _ & H3).
    rewrite Forall_forall in H3.
    destruct (H3 u Hu) as (b0 & K1 & K2 & K3 & _ & K4).
    exists b0. split; [exact K1|]. split; [exact K2|]. split; [exact K3|].
    split; [exact K4|].
    intros Hnd Hfree b1 Hb1 Hp1.
    apply (snapshot_lot_unique batches0 b1 b0 (batchId u)); assumption.
  - intros hav orgs now requests batches0 warehouses ngos floor ceil allocs a
           u H Ha Hu.
    apply allocateRegular_ok in H. rewrite Forall_forall in H.
    destruct (H a Ha) as (_ & _ & _ & _ & H3).
    rewrite Forall_forall in H3.
    destruct (H3 u Hu) as (b0 & K1 & K2 & K3 & _ & _ & _ & K4).
    exists b0. split; [exact K1|]. split; [exact K2|]. split; [exact K3|].
    split; [exact K4|].
    intros Hnd b1 Hb1 Hid.
    apply (NoDup_id_eq batches0); try assumption. congruence.
Qed.

Lemma allocateML_fresh_on_delivery_witness :
  (exists a u b0,
      option_map fst
        (allocateML gridDistanceKm exampleExp ngo_orgs 0 predictDown
           plannerDown noOptions defaultEnv [scenario2_request]
           scenario2_batches [warehouseB; warehouseA] [ngo_node])
      = Some [a]
      /\ batches a = [u]
      /\ In b0 scenario2_batches
      /\ String.prefix (_id b0) (batchId u) = true
      /\ 0 < calculateFreshnessPct b0
               (deliveryTimeOf (dispatchTime a)
                               (estimateTravelHours (distance_km a)))
               defaultAvgTemp)
  /\ (exists a u b0,
         allocateRegular gridDistanceKm ngo_orgs 0 [scenario2_request]
                         scenario2_batches [warehouseB; warehouseA] [ngo_node]
                         None None = Some [a]
         /\ batches a = [u]
         /\ In b0 scenario2_batches
         /\ _id b0 = batchId u
         /\ 0 < calculateFreshnessPct b0 (dispatchTime a) defaultAvgTemp).
Proof.
  destruct allocateML_fresh_on_delivery as (HM & HR).
  split.
  - eexists. eexists.
    match goal with
    | |- exists b0, option_map fst ?run = Some [?a] /\ batches _ = [?u] /\ _ =>
        assert (E : option_map fst run = Some [a])
          by (vm_compute; reflexivity);
          assert (Eu : batches a = [u]) by (vm_compute; reflexivity)
    end.
    match type of Eu with
    | batches ?a = [?u] =>
        destruct (HM gridDistanceKm exampleExp ngo_orgs 0%Z predictDown
                     plannerDown noOptions defaultEnv [scenario2_request]
                     scenario2_batches [warehouseB; warehouseA] [ngo_node]
                     [a]
                     (mkTransferPlannerDebug false false None O O O O None
                                             O O [] O None [])
                     a u)
        as (b0 & K1 & K2 & _ & K3 & _);
          [vm_compute; reflexivity | left; reflexivity | left; reflexivity |]
    end.
    exists b0. auto.
  - eexists. eexists.
    match goal with
    | |- exists b0, ?run = Some [?a] /\ batches _ = [?u] /\ _ =>
        assert (E : run = Some [a]) by (vm_compute; reflexivity);
          assert (Eu : batches a = [u]) by (vm_compute; reflexivity)
    end.
    match type of Eu with
    | batches ?a = [?u] =>
        destruct (HR gridDistanceKm ngo_orgs 0%Z [scenario2_request]
                     scenario2_batches [warehouseB; warehouseA] [ngo_node]
                     None None [a] a u)
        as (b0 & K1 & K2 & _ & K3 & _);
          [vm_compute; reflexivity | left; reflexivity | left; reflexivity |]
    end.
    exists b0. auto.
Defined.

(** C1 (violated by the code): the baseline allocates a lot that is spoiled
    when it arrives, with no override involved.  Dispatched 30 hours after
    manufacture over 444 km (12.1 hours of travel), a lot with a shelf life
    of 48 hours is allocated by [allocateRegular] although its freshness at
    the delivery time is 0: the allocator tests the freshness at the dispatch
    time only.  The filter of the simulation controller, announced as
    keeping the baseline from shipping batches that would arrive expired,
    lets the record through with [REGULAR_ALLOW_SPOILED] unset: it tests the
    freshness at dispatch too.  On the same input the scored allocator,
    which tests the freshness at the delivery time, allocates nothing. *)
Theorem allocateRegular_spoiled_on_delivery :
  exists a u b0,
    allocateRegular gridDistanceKm ngo_orgs 0 [late_request] late_batches
                    [warehouseFar] [ngo_node] None None = Some [a]
    /\ In u (batches a)
    /\ In b0 late_batches
    /\ _id b0 = batchId u
    /\ estimateTravelHours (distance_km a) == 121 # 10
    /\ 0 < calculateFreshnessPct b0 (dispatchTime a) defaultAvgTemp
    /\ calculateFreshnessPct b0
         (deliveryTimeOf (dispatchTime a)
                         (estimateTravelHours (distance_km a)))
         defaultAvgTemp <= 0
    /\ map batches
           (regularAllocationsFiltered false (batchesById late_batches) [a])
       = [[u]]
    /\ option_map fst
         (allocateML gridDistanceKm exampleExp ngo_orgs 0 predictDown
            plannerDown noOptions defaultEnv [late_request] late_batches
            [warehouseFar] [ngo_node])
       = Some [].
Proof.
  eexists. eexists. eexists.
  split; [vm_compute; reflexivity|].
  split; [left; reflexivity|].
  split; [left; reflexivity|].
  split; [reflexivity|].
  split; [vm_compute; reflexivity|].
  split; [vm_compute; reflexivity|].
  split; [vm_compute; discriminate|].
  split; vm_compute; reflexivity.
Qed.

(* ------------------------------------------------------------------ *)
(** ** The imbalance check *)

Lemma dedupIds_In (ids seen : list Id) (i : Id) :
  In i (dedupIds seen ids) <-> In i ids /\ ~ In i seen.
Proof.
  revert seen. induction ids as [|j ids IH]; intro seen; simpl.
  - tauto.
  - destruct (existsb (String.eqb j) seen) eqn:E.
    + apply existsb_exists in E. destruct E as (k & Hk & Hjk).
      apply String.eqb_eq in Hjk. subst k.
      rewrite IH. split.
      * intros (H1 & H2). auto.
      * intros ([<-|H1] & H2); [contradiction | auto].
    + assert (Hj : ~ In j seen).
      { intro Hin. assert (Ht : existsb (String.eqb j) seen = true).
        { apply existsb_exists. exists j. split; [exact Hin|].
          apply String.eqb_refl. }
        congruence. }
      simpl. rewrite IH. simpl. split.
      * intros [<-|(H1 & H2)]; [auto|]. split; [auto|]. intro H. apply H2.
        right. exact H.
      * intros ([<-|H1] & H2); [auto|].
        destruct (string_dec j i) as [->|Hne]; [auto|].
        right. split; [exact H1|]. intros [H|H]; [contradiction | auto].
Qed.

Lemma length_filter_map_pos {A B : Type} (p : B -> bool) (f : A -> B)
      (l : list A) :
  Nat.eqb (List.length (filter p (map f l))) 0 = false
  <-> exists x, In x l /\ p (f x) = true.
Proof.
  induction l as [|a l IH]; simpl.
  - split; [discriminate | intros (x & [] & _)].
  - destruct (p (f a)) eqn:E; simpl.
    + split; [|reflexivity]. intros _. exists a. auto.
    + rewrite IH. split.
      * intros (x & Hx & Hp). exists x. auto.
      * intros (x & [<-|Hx] & Hp); [congruence|]. exists x. auto.
Qed.

(** The planner is worth running exactly when a warehouse is at or above
    the overstock ratio and a warehouse is at or below the understock
    ratio. *)
Lemma shouldRunTransferPlanner_true (tuning : PlannerTuning)
      (warehouses : list Node) (unused : list Batch) :
  fst (shouldRunTransferPlanner tuning warehouses unused) = true
  <-> (exists w, In w warehouses
                 /\ overstockRatio tuning
                    <= utilizationOf warehouses unused (node_id w))
      /\ (exists w, In w warehouses
                    /\ utilizationOf warehouses unused (node_id w)
                       <= understockRatio tuning).
Proof.
  unfold shouldRunTransferPlanner. simpl fst.
  rewrite negb_true_iff, orb_false_iff, !length_filter_map_pos.
  assert (Hids : forall i, In i (dedupIds [] (map node_id warehouses))
                           <-> exists w, In w warehouses /\ node_id w = i).
  { intro i. rewrite dedupIds_In, in_map_iff. simpl. split.
    - intros ((w & Hw & Hin) & _). eauto.
    - intros (w & Hin & Hw). split; [eauto | tauto]. }
  split.
  - intros ((i & Hi & Ho) & (j & Hj & Hu)).
    apply Hids in Hi. destruct Hi as (w & Hw & <-).
    apply Hids in Hj. destruct Hj as (w' & Hw' & <-).
    apply Qle_bool_iff in Ho. apply Qle_bool_iff in Hu.
    split; [exists w | exists w']; split; assumption.
  - intros ((w & Hw & Ho) & (w' & Hw' & Hu)). split.
    + exists (node_id w). split; [apply Hids; eauto | apply Qle_bool_iff, Ho].
    + exists (node_id w'). split; [apply Hids; eauto | apply Qle_bool_iff, Hu].
Qed.

Lemma capacityOf_pos (w : Node) : 0 < capacityOf w.
Proof.
  unfold capacityOf, defaultWarehouseCapacityKg, Qltb.
  destruct (capacity_kg w) as [c|]; [|reflexivity].
  destruct (Qle_bool c 0) eqn:E; simpl; [reflexivity|].
  apply Qle_bool_false, E.
Qed.

Lemma mapGet_In {V : Type} (entries : list (string * V)) (key : string)
      (v : V) :
  mapGet entries key = Some v -> In (key, v) entries.
Proof.
  unfold mapGet. destruct (find _ (rev entries)) as [[k v']|] eqn:E;
    [|discriminate].
  intro H. injection H as <-. apply find_some in E. destruct E as (Hin & Hk).
  apply String.eqb_eq in Hk. simpl in Hk. subst k.
  apply in_rev. exact Hin.
Qed.

Lemma mapGet_Some {V : Type} (entries : list (string * V)) (key : string)
      (v : V) :
  In (key, v) entries -> exists v', mapGet entries key = Some v'.
Proof.
  intro H. unfold mapGet.
  destruct (find _ (rev entries)) as [e|] eqn:E; [eauto|].
  exfalso. apply in_rev in H.
  assert (K := find_none _ _ E _ H). simpl in K.
  rewrite String.eqb_refl in K. discriminate.
Qed.

(** The utilization of a warehouse is its stored stock over the capacity
    entered for its identifier. *)
Lemma utilizationOf_warehouse (warehouses : list Node) (unused : list Batch)
      (w : Node) :
  In w warehouses ->
  exists w',
    In w' warehouses /\ node_id w' = node_id w
    /\ utilizationOf warehouses unused (node_id w)
       = inventoryOf unused (node_id w) / capacityOf w'.
Proof.
  intro Hw. unfold utilizationOf.
  destruct (mapGet_Some (map (fun w => (node_id w, capacityOf w)) warehouses)
                        (node_id w) (capacityOf w)) as (c & Hc).
  { apply in_map_iff. exists w. auto. }
  rewrite Hc. apply mapGet_In in Hc. apply in_map_iff in Hc.
  destruct Hc as (w' & E & Hw'). injection E as Hid <-.
  exists w'. split; [exact Hw'|]. split; [exact Hid|].
  assert (Hpos := capacityOf_pos w').
  assert (E0 : Qeq_bool (capacityOf w') 0 = false).
  { destruct (Qeq_bool (capacityOf w') 0) eqn:E0; [|reflexivity].
    apply Qeq_bool_iff in E0. lra. }
  rewrite E0. unfold Qltb.
  apply Qle_bool_false in Hpos. rewrite Hpos. reflexivity.
Qed.

Section PlannerStepFacts.
Variable planTransfers :
  PlannerRequest -> CallOutcome (option (list TransferSuggestion)).
Variable tuning : PlannerTuning.
Variable warehouses : list Node.
Variable options : Options.
Variable now : Time.

Lemma runTransferPlannerOnce_attempt (reason : PlannerReason)
      (runAt : option Time) (st : MLState) :
  let st' := runTransferPlannerOnce planTransfers tuning warehouses options
                                    now reason runAt st in
  attemptedRuns (ml_debug st') = S (attemptedRuns (ml_debug st))
  /\ skippedRuns (ml_debug st') = skippedRuns (ml_debug st)
  /\ exists entry,
      timeline (ml_debug st') = timeline (ml_debug st) ++ [entry]
      /\ attempted entry = true /\ skipped entry = false
      /\ tl_reason entry = reason.
Proof.
  unfold runTransferPlannerOnce.
  destruct (planTransfers _) as [err|transfers].
  - simpl. repeat split. eexists. repeat split.
  - destruct (applyWarehouseTransfersToBatches _ _ _) as [batches' applied].
    simpl. repeat split. eexists. repeat split.
Qed.

(** A step of the planner attempts a run when the imbalance check passes
    and otherwise records a skipped run with the imbalance statistics. *)
Lemma transferPlannerStep_cases (reason : PlannerReason)
      (runAt skipAt : option Time) (st : MLState) :
  let st' := transferPlannerStep planTransfers tuning warehouses options now
                                 reason runAt skipAt st in
  let decision := shouldRunTransferPlanner tuning warehouses
                                           (ml_unusedBatches st) in
  (fst decision = true ->
   attemptedRuns (ml_debug st') = S (attemptedRuns (ml_debug st))
   /\ skippedRuns (ml_debug st') = skippedRuns (ml_debug st)
   /\ exists entry,
       timeline (ml_debug st') = timeline (ml_debug st) ++ [entry]
       /\ attempted entry = true /\ skipped entry = false)
  /\ (fst decision = false ->
      attemptedRuns (ml_debug st') = attemptedRuns (ml_debug st)
      /\ skippedRuns (ml_debug st') = S (skippedRuns (ml_debug st))
      /\ ml_unusedBatches st' = ml_unusedBatches st
      /\ timeline (ml_debug st')
         = timeline (ml_debug st)
             ++ [mkTimelineEntry skipAt reason true false None None None
                                 None (Some (snd decision))]).
Proof.
  intros st' decision. unfold st', transferPlannerStep. fold decision.
  destruct decision as [run stats]. simpl fst. simpl snd.
  split; intro Hrun; subst run.
  - destruct (runTransferPlannerOnce_attempt reason runAt
                (set_debug st (set_imbalance (ml_debug st) stats)))
      as (H1 & H2 & entry & H3 & H4 & H5 & _).
    simpl in H1, H2, H3.
    split; [exact H1|]. split; [exact H2|]. exists entry. auto.
  - simpl. auto.
Qed.
End PlannerStepFacts.

(** C8: the transfer planner attempts a run only when at least one
    warehouse has a utilization (stored kg over capacity kg, the capacity
    being 10,000 kg when missing or not positive) at or above the overstock
    ratio (default 0.8) and at least one at or below the understock ratio
    (default 0.4); otherwise the run is skipped and a skipped trace entry
    with the imbalance statistics is recorded.  In scenario 3 warehouses at
    90% and 20% give one attempted run, warehouses both at 50% give one
    skipped run. *)
Theorem transfer_planner_runs_on_imbalance :
  (forall (tuning : PlannerTuning) (warehouses : list Node)
          (unused : list Batch),
      fst (shouldRunTransferPlanner tuning warehouses unused) = true
      <-> (exists w, In w warehouses
                     /\ overstockRatio tuning
                        <= utilizationOf warehouses unused (node_id w))
          /\ (exists w, In w warehouses
                        /\ utilizationOf warehouses unused (node_id w)
                           <= understockRatio tuning))
  /\ (forall (warehouses : list Node) (unused : list Batch) (w : Node),
         In w warehouses ->
         exists w',
           In w' warehouses /\ node_id w' = node_id w
           /\ utilizationOf warehouses unused (node_id w)
              = inventoryOf unused (node_id w) / capacityOf w')
  /\ (forall w : Node,
         match capacity_kg w with
         | Some c => if Qltb 0 c then capacityOf w = c
                     else capacityOf w = 10000
         | None => capacityOf w = 10000
         end)
  /\ (forall (options : Options) (env : Env),
         transferPlannerOverstockRatio options = None ->
         ML_TRANSFER_OVERSTOCK_RATIO env = None ->
         transferPlannerUnderstockRatio options = None ->
         ML_TRANSFER_UNDERSTOCK_RATIO env = None ->
         overstockRatio (plannerTuningOf options env) = 8 # 10
         /\ understockRatio (plannerTuningOf options env) = 4 # 10)
  /\ (forall (planTransfers : PlannerRequest ->
                              CallOutcome (option (list TransferSuggestion)))
             (tuning : PlannerTuning) (warehouses : list Node)
             (options : Options) (now : Time) (reason : PlannerReason)
             (runAt skipAt : option Time) (st : MLState),
         let st' := transferPlannerStep planTransfers tuning warehouses
                                        options now reason runAt skipAt st in
         let decision := shouldRunTransferPlanner tuning warehouses
                                                  (ml_unusedBatches st) in
         (attemptedRuns (ml_debug st') <> attemptedRuns (ml_debug st) ->
          fst decision = true)
         /\ (fst decision = true ->
             attemptedRuns (ml_debug st') = S (attemptedRuns (ml_debug st)))
         /\ (fst decision = false ->
             skippedRuns (ml_debug st') = S (skippedRuns (ml_debug st))
             /\ ml_unusedBatches st' = ml_unusedBatches st
             /\ timeline (ml_debug st')
                = timeline (ml_debug st)
                    ++ [mkTimelineEntry skipAt reason true false None None
                                        None None (Some (snd decision))]))
  /\ (exists allocations trace,
         allocateML gridDistanceKm exampleExp ngo_orgs 0 predictQuiet
                    plannerQuiet oneShotOptions defaultEnv []
                    imbalanced_batches [warehouseA; warehouseB] [ngo_node]
         = Some (allocations, trace)
         /\ attemptedRuns trace = 1%nat /\ skippedRuns trace = 0%nat
         /\ map attempted (timeline trace) = [true])
  /\ (exists allocations trace stats,
         allocateML gridDistanceKm exampleExp ngo_orgs 0 predictQuiet
                    plannerQuiet oneShotOptions defaultEnv []
                    balanced_batches [warehouseA; warehouseB] [ngo_node]
         = Some (allocations, trace)
         /\ attemptedRuns trace = 0%nat /\ skippedRuns trace = 1%nat
         /\ timeline trace
            = [mkTimelineEntry None OneShot true false None None None None
                               (Some stats)]
         /\ overCount stats = 0%nat /\ underCount stats = 0%nat
         /\ maxUtil stats = Some (500 # 1000)
         /\ minUtil stats = Some (500 # 1000)).
Proof.
  split; [apply shouldRunTransferPlanner_true|].
  split; [apply utilizationOf_warehouse|].
  split.
  { intro w. unfold capacityOf, defaultWarehouseCapacityKg.
    destruct (capacity_kg w) as [c|]; [|reflexivity].
    destruct (Qltb 0 c); reflexivity. }
  split.
  { intros options env H1 H2 H3 H4. unfold plannerTuningOf. simpl.
    rewrite H1, H2, H3, H4. split; reflexivity. }
  split.
  { intros plan tuning warehouses options now reason runAt skipAt st st'
           decision.
    destruct (transferPlannerStep_cases plan tuning warehouses options now
                reason runAt skipAt st) as (Hrun & Hskip).
    fold st' decision in Hrun, Hskip.
    split; [|split].
    - intro Hne. destruct (fst decision) eqn:E; [reflexivity|].
      destruct (Hskip eq_refl) as (H & _). contradiction.
    - intro E. apply Hrun, E.
    - intro E. destruct (Hskip E) as (_ & H1 & H2 & H3). auto. }
  split.
  - eexists. eexists. split; [vm_compute; reflexivity|].
    repeat split.
  - eexists. eexists. eexists. split; [vm_compute; reflexivity|].
    repeat split.
Qed.

Lemma transfer_planner_runs_on_imbalance_witness :
  fst (shouldRunTransferPlanner (plannerTuningOf oneShotOptions defaultEnv)
                                [warehouseA; warehouseB] imbalanced_batches)
  = true
  /\ overstockRatio (plannerTuningOf oneShotOptions defaultEnv) = 8 # 10
  /\ skippedRuns
       (ml_debug
          (transferPlannerStep plannerQuiet
             (plannerTuningOf oneShotOptions defaultEnv)
             [warehouseA; warehouseB] oneShotOptions 0 OneShot None None
             (initialState balanced_batches)))
     = 1%nat
  /\ attemptedRuns
       (ml_debug
          (transferPlannerStep plannerQuiet
             (plannerTuningOf oneShotOptions defaultEnv)
             [warehouseA; warehouseB] oneShotOptions 0 OneShot None None
             (initialState imbalanced_batches)))
     = 1%nat.
Proof.
  destruct transfer_planner_runs_on_imbalance
    as (Hiff & _ & _ & Hdef & Hstep & _).
  split.
  { apply Hiff. split.
    - exists warehouseA. split; [left; reflexivity|].
      vm_compute. discriminate.
    - exists warehouseB. split; [right; left; reflexivity|].
      vm_compute. discriminate. }
  split.
  { apply (Hdef oneShotOptions defaultEnv); reflexivity. }
  split.
  - destruct (Hstep plannerQuiet (plannerTuningOf oneShotOptions defaultEnv)
                    [warehouseA; warehouseB] oneShotOptions 0%Z OneShot None
                    None (initialState balanced_batches))
      as (_ & _ & Hskip).
    destruct Hskip as (H & _); [vm_compute; reflexivity|].
    rewrite H. reflexivity.
  - destruct (Hstep plannerQuiet (plannerTuningOf oneShotOptions defaultEnv)
                    [warehouseA; warehouseB] oneShotOptions 0%Z OneShot None
                    None (initialState imbalanced_batches))
      as (_ & Hrun & _).
    rewrite Hrun; [reflexivity | vm_compute; reflexivity].
Defined.

(* ------------------------------------------------------------------ *)
(** ** Failures of the external services *)

(** C9: whatever the demand-signal service and the transfer planner answer,
    failures and timeouts included, [allocateML] returns its allocations
    and its trace; a failed demand-signal call gives the run of a call that
    reports no signal, in which every urgency boost is 1.0; a failed planner
    call changes neither the snapshot nor the allocations, applies no
    transfer and is recorded in the trace (error count, last error and a
    timeline entry carrying the error). *)
Theorem external_failures_are_not_fatal :
  (forall (haversineDistanceKm : Coordinates -> Coordinates -> Q)
          (exp : Q -> Q) (ngoOrgs : list NgoOrg) (now : Time)
          (predict : list Node -> list Request -> list Batch ->
                     CallOutcome (option (list MlResult)))
          (planTransfers : PlannerRequest ->
                           CallOutcome (option (list TransferSuggestion)))
          (options : Options) (env : Env) (requests : list Request)
          (batches : list Batch) (warehouses ngos : list Node),
      exists allocations trace,
        allocateML haversineDistanceKm exp ngoOrgs now predict planTransfers
                   options env requests batches warehouses ngos
        = Some (allocations, trace))
  /\ (forall (haversineDistanceKm : Coordinates -> Coordinates -> Q)
             (exp : Q -> Q) (ngoOrgs : list NgoOrg) (now : Time)
             (predict : list Node -> list Request -> list Batch ->
                        CallOutcome (option (list MlResult)))
             (planTransfers : PlannerRequest ->
                              CallOutcome (option (list TransferSuggestion)))
             (options : Options) (env : Env) (requests : list Request)
             (batches : list Batch) (warehouses ngos : list Node)
             (err : PlannerError),
         predict (warehouses ++ ngos) requests batches = Failed err ->
         allocateML haversineDistanceKm exp ngoOrgs now predict planTransfers
                    options env requests batches warehouses ngos
         = allocateML haversineDistanceKm exp ngoOrgs now
                      (fun _ _ _ => Returned (Some [])) planTransfers options
                      env requests batches warehouses ngos
         /\ forall ngoNode,
             urgencyBoostOf (regionalSignalsOf []) ngoNode = 1)
  /\ (forall (planTransfers : PlannerRequest ->
                              CallOutcome (option (list TransferSuggestion)))
             (tuning : PlannerTuning) (warehouses : list Node)
             (options : Options) (now : Time) (reason : PlannerReason)
             (runAt : option Time) (st : MLState) (err : PlannerError),
         planTransfers
           (mkPlannerRequest (S (attemptedRuns (ml_debug st))) tuning
                             warehouses (ml_unusedBatches st))
         = Failed err ->
         let st' := runTransferPlannerOnce planTransfers tuning warehouses
                                           options now reason runAt st in
         ml_unusedBatches st' = ml_unusedBatches st
         /\ ml_allocations st' = ml_allocations st
         /\ appliedTransfers (ml_debug st') = appliedTransfers (ml_debug st)
         /\ runs (ml_debug st') = runs (ml_debug st)
         /\ errorRuns (ml_debug st') = S (errorRuns (ml_debug st))
         /\ lastError (ml_debug st') = Some err
         /\ timeline (ml_debug st')
            = timeline (ml_debug st)
                ++ [mkTimelineEntry runAt reason false true (Some O) (Some O)
                                    (Some 0) (Some err) None])
  /\ (exists a trace,
         allocateML gridDistanceKm exampleExp ngo_orgs 0 predictDown
                    plannerDown oneShotOptions defaultEnv [scenario2_request]
                    imbalanced_batches [warehouseA; warehouseB] [ngo_node]
         = Some ([a], trace)
         /\ allocated_kg a == 100
         /\ warehouse a = "wA"%string
         /\ attemptedRuns trace = 1%nat
         /\ errorRuns trace = 1%nat
         /\ appliedTransfers trace = 0%nat
         /\ lastError trace = Some serviceDown
         /\ map tl_error (timeline trace) = [Some serviceDown]).
Proof.
  split; [|split; [|split]].
  - intros. apply allocateML_returns.
  - intros hav exp orgs now predict plan options env requests batches
           warehouses ngos err H.
    split; [|intro ngoNode; reflexivity].
    unfold allocateML. rewrite H. reflexivity.
  - intros plan tuning warehouses options now reason runAt st err H st'.
    unfold st', runTransferPlannerOnce. rewrite H. simpl.
    repeat split.
  - eexists. eexists. split; [vm_compute; reflexivity|].
    repeat split.
Qed.

Lemma external_failures_are_not_fatal_witness :
  (allocateML gridDistanceKm exampleExp ngo_orgs 0 predictDown plannerDown
              oneShotOptions defaultEnv [scenario2_request] imbalanced_batches
              [warehouseA; warehouseB] [ngo_node]
   = allocateML gridDistanceKm exampleExp ngo_orgs 0
                (fun _ _ _ => Returned (Some [])) plannerDown oneShotOptions
                defaultEnv [scenario2_request] imbalanced_batches
                [warehouseA; warehouseB] [ngo_node])
  /\ errorRuns
       (ml_debug
          (runTransferPlannerOnce plannerDown
             (plannerTuningOf oneShotOptions defaultEnv)
             [warehouseA; warehouseB] oneShotOptions 0 OneShot None
             (initialState imbalanced_batches)))
     = 1%nat
  /\ ml_unusedBatches
       (runTransferPlannerOnce plannerDown
          (plannerTuningOf oneShotOptions defaultEnv)
          [warehouseA; warehouseB] oneShotOptions 0 OneShot None
          (initialState imbalanced_batches))
     = imbalanced_batches.
Proof.
  destruct external_failures_are_not_fatal as (_ & Hsignal & Hplanner & _).
  split.
  - apply (Hsignal gridDistanceKm exampleExp ngo_orgs 0%Z predictDown
                   plannerDown oneShotOptions defaultEnv [scenario2_request]
                   imbalanced_batches [warehouseA; warehouseB] [ngo_node]
                   serviceDown).
    reflexivity.
  - destruct (Hplanner plannerDown (plannerTuningOf oneShotOptions defaultEnv)
                       [warehouseA; warehouseB] oneShotOptions 0%Z OneShot
                       None (initialState imbalanced_batches) serviceDown)
      as (H1 & _ & _ & _ & H2 & _); [reflexivity|].
    split; [rewrite H2; reflexivity | exact H1].
Defined.

(* ================================================================== *)
(** * Further properties of the code *)

(** ** Freshness over time and temperature *)

Lemma round2_mono (x y : Q) : x <= y -> round2 x <= round2 y.
Proof.
  intro H. unfold round2, js_round.
  assert (H1 : (Qfloor (x * 100 + (1 # 2)) <= Qfloor (y * 100 + (1 # 2)))%Z).
  { apply Qfloor_resp_le. lra. }
  rewrite Zle_Qle in H1. revert H1.
  generalize (inject_Z (Qfloor (x * 100 + (1 # 2)))).
  generalize (inject_Z (Qfloor (y * 100 + (1 # 2)))).
  intros p q Hpq. qlra.
Qed.

Lemma Qmax_b_mono (a b b' : Q) : b <= b' -> Qmax_b a b <= Qmax_b a b'.
Proof.
  intro H.
  destruct (Qmax_b_cases a b) as [[H1 ->]|[H1 ->]];
    destruct (Qmax_b_cases a b') as [[H2 ->]|[H2 ->]]; lra.
Qed.

Lemma elapsedHours_mono (m t1 t2 : Time) :
  (t1 <= t2)%Z -> elapsedHours m t1 <= elapsedHours m t2.
Proof.
  intro H. unfold elapsedHours.
  assert (H1 : inject_Z (t1 - m) <= inject_Z (t2 - m)).
  { rewrite <- Zle_Qle. lia. }
  revert H1. generalize (inject_Z (t1 - m)) (inject_Z (t2 - m)).
  intros p q Hpq. qlra.
Qed.

Lemma decay_mono (e1 e2 life tf : Q) :
  e1 <= e2 -> 0 < life -> 1 <= tf ->
  e1 / life * 100 * tf <= e2 / life * 100 * tf.
Proof.
  intros He Hl Ht.
  apply Qmult_le_compat_r; [|lra].
  apply Qmult_le_compat_r; [|lra].
  unfold Qdiv. apply Qmult_le_compat_r; [exact He|].
  apply Qinv_le_0_compat. lra.
Qed.

Lemma decay_mono_temp (e life tf1 tf2 : Q) :
  0 <= e -> 0 < life -> tf1 <= tf2 ->
  e / life * 100 * tf1 <= e / life * 100 * tf2.
Proof.
  intros He Hl Ht.
  rewrite !(Qmult_comm (e / life * 100)).
  apply Qmult_le_compat_r; [exact Ht|].
  assert (H1 : 0 <= e / life).
  { apply Qle_shift_div_l; [exact Hl | lra]. }
  lra.
Qed.

Lemma tempFactor_mono (t1 t2 : Q) : t1 <= t2 -> tempFactor t1 <= tempFactor t2.
Proof.
  intro H. unfold tempFactor.
  assert (H1 : Qmax_b 0 ((t1 - 20) / 10) <= Qmax_b 0 ((t2 - 20) / 10)).
  { apply Qmax_b_mono. qlra. }
  lra.
Qed.

Lemma tempFactor_cool (t : Q) : t <= 20 -> tempFactor t == 1.
Proof.
  intro H. unfold tempFactor.
  destruct (Qmax_b_cases 0 ((t - 20) / 10)) as [[H1 ->]|[H1 ->]]; qlra.
Qed.

Lemma calculateFreshnessPct_mono (b : Batch) (t1 t2 : Time) (temp : Q) :
  (t1 <= t2)%Z ->
  calculateFreshnessPct b t2 temp <= calculateFreshnessPct b t1 temp.
Proof.
  intro Ht. unfold calculateFreshnessPct.
  destruct (manufacture_date b) as [m|]; [|lra].
  destruct (shelf_life_hours b) as [life|]; [|lra].
  destruct (Qle_bool life 0) eqn:E; [lra|].
  apply Qle_bool_false in E.
  apply round2_mono. apply Qmax_b_mono.
  assert (H := decay_mono (elapsedHours m t1) (elapsedHours m t2) life
                 (tempFactor temp) (elapsedHours_mono m t1 t2 Ht) E
                 (tempFactor_ge_1 temp)).
  lra.
Qed.

(** X1: the freshness of a batch never grows as time passes, whatever the
    batch and the temperature; hence a batch that is spoiled stays spoiled,
    and a batch without a manufacture date or without a shelf life is never
    spoiled. *)
Theorem calculateFreshnessPct_nonincreasing (b : Batch) (t1 t2 : Time)
        (temp : Q) :
  (t1 <= t2)%Z ->
  calculateFreshnessPct b t2 temp <= calculateFreshnessPct b t1 temp
  /\ (isSpoiled b t1 temp = true -> isSpoiled b t2 temp = true)
  /\ (manufacture_date b = None \/ shelf_life_hours b = None ->
      isSpoiled b t1 temp = false).
Proof.
  intro Ht.
  assert (Hle := calculateFreshnessPct_mono b t1 t2 temp Ht).
  split; [exact Hle|]. split.
  - unfold isSpoiled. rewrite !Qle_bool_iff. lra.
  - intros [H|H]; unfold isSpoiled, calculateFreshnessPct; rewrite H.
    + reflexivity.
    + destruct (manufacture_date b); reflexivity.
Qed.

Lemma calculateFreshnessPct_nonincreasing_witness :
  calculateFreshnessPct scenario1_batch (24 * hour_ms) 25
  <= calculateFreshnessPct scenario1_batch 0 25.
Proof.
  apply (calculateFreshnessPct_nonincreasing scenario1_batch 0
           (24 * hour_ms) 25).
  vm_compute. discriminate.
Defined.

(** X2: the ambient temperature only accelerates spoilage.  At or below 20
    degrees it has no effect on the freshness, and from the manufacture
    date on a higher temperature never gives a higher freshness. *)
Theorem temperature_only_accelerates_spoilage (b : Batch) (t : Time)
        (temp1 temp2 : Q) :
  (temp1 <= 20 -> temp2 <= 20 ->
   calculateFreshnessPct b t temp1 == calculateFreshnessPct b t temp2)
  /\ (temp1 <= temp2 ->
      (forall m, manufacture_date b = Some m -> (m <= t)%Z) ->
      calculateFreshnessPct b t temp2 <= calculateFreshnessPct b t temp1).
Proof.
  split.
  - intros H1 H2. unfold calculateFreshnessPct.
    destruct (manufacture_date b) as [m|]; [|reflexivity].
    destruct (shelf_life_hours b) as [life|]; [|reflexivity].
    destruct (Qle_bool life 0); [reflexivity|].
    apply round2_comp. apply Qmax_b_comp; [reflexivity|].
    rewrite (tempFactor_cool temp1 H1), (tempFactor_cool temp2 H2).
    reflexivity.
  - intros Hle Hm. unfold calculateFreshnessPct.
    destruct (manufacture_date b) as [m|]; [|lra].
    destruct (shelf_life_hours b) as [life|]; [|lra].
    destruct (Qle_bool life 0) eqn:E; [lra|].
    apply Qle_bool_false in E.
    apply round2_mono. apply Qmax_b_mono.
    assert (H := decay_mono_temp (elapsedHours m t) life (tempFactor temp1)
                   (tempFactor temp2)
                   (elapsedHours_nonneg m t (Hm m eq_refl)) E
                   (tempFactor_mono temp1 temp2 Hle)).
    lra.
Qed.

Lemma temperature_only_accelerates_spoilage_witness :
  calculateFreshnessPct scenario1_batch (24 * hour_ms) 10
  == calculateFreshnessPct scenario1_batch (24 * hour_ms) 20
  /\ calculateFreshnessPct scenario1_batch (24 * hour_ms) 35
     <= calculateFreshnessPct scenario1_batch (24 * hour_ms) 25.
Proof.
  destruct (temperature_only_accelerates_spoilage scenario1_batch
              (24 * hour_ms) 10 20) as (H1 & _).
  destruct (temperature_only_accelerates_spoilage scenario1_batch
              (24 * hour_ms) 25 35) as (_ & H2).
  split.
  - apply H1; vm_compute; discriminate.
  - apply H2; [vm_compute; discriminate|].
    intros m Hm. injection Hm as <-. vm_compute. discriminate.
Defined.

(* ------------------------------------------------------------------ *)
(** ** Applying the planner's transfers *)

Lemma Forall_update_at {A : Type} (P : A -> Prop) (l : list A) (i : nat)
      (x : A) :
  Forall P l -> P x -> Forall P (update_at l i x).
Proof.
  intros Hl Hx. revert i. induction Hl as [|y l Hy Hl IH]; intros [|i]; simpl;
    constructor; auto.
Qed.

Lemma fold_left_Qplus_acc (l : list Q) (a : Q) :
  fold_left Qplus l a == a + fold_left Qplus l 0.
Proof.
  revert a. induction l as [|x l IH]; intro a; simpl.
  - lra.
  - rewrite (IH (a + x)), (IH (0 + x)). lra.
Qed.

Lemma Qsum_cons (x : Q) (l : list Q) : Qsum (x :: l) == x + Qsum l.
Proof.
  unfold Qsum. simpl. rewrite fold_left_Qplus_acc. lra.
Qed.

Lemma applyPick_positive (targetId : Id) (st : list Batch * nat)
      (p : nat * Q) :
  Forall (fun b => 0 < quantity_kg b) (fst st) ->
  Forall (fun b => 0 < quantity_kg b) (fst (applyPick targetId st p)).
Proof.
  destruct st as [working splitSeq]. destruct p as [i takeQty]. simpl.
  intro H. unfold applyPick.
  destruct (nth_error working i) as [batch|] eqn:Hn; [|exact H].
  destruct (Qle_bool takeQty 0) eqn:E1; [exact H|].
  destruct (Qle_bool (quantity_kg batch) 0) eqn:E2; [exact H|]. simpl.
  apply Qle_bool_false in E1. apply Qle_bool_false in E2.
  destruct (Qle_bool (quantity_kg batch - split_epsilon) takeQty) eqn:E3;
    simpl.
  - apply Forall_update_at; [exact H | exact E2].
  - apply Qle_bool_false in E3. unfold split_epsilon in E3.
    apply Forall_app. split.
    + apply Forall_update_at; [exact H | simpl; lra].
    + constructor; [simpl; exact E1 | constructor].
Qed.

Lemma applySuggestion_positive (currentDate : Time)
      (st : list Batch * nat * list AppliedTransfer) (s : TransferSuggestion) :
  Forall (fun b => 0 < quantity_kg b) (fst (fst st)) ->
  Forall (fun b => 0 < quantity_kg b)
         (fst (fst (applySuggestion currentDate st s))).
Proof.
  destruct st as [[working splitSeq] applied]. simpl. intro H.
  unfold applySuggestion.
  destruct (truthy_id (source_mongoId s)) as [sourceId|]; [|exact H].
  destruct (truthy_id (target_mongoId s)) as [targetId|]; [|exact H].
  destruct (coercePositiveNumber (suggested_quantity_kg s)) as [qty|];
    [|exact H].
  destruct (String.eqb sourceId targetId); [exact H|].
  destruct (Qle_bool _ 0); [exact H|].
  assert (K : forall picked st0,
             Forall (fun b => 0 < quantity_kg b) (fst st0) ->
             Forall (fun b => 0 < quantity_kg b)
                    (fst (fold_left (applyPick targetId) picked st0))).
  { clear. intro picked. induction picked as [|p picked IH]; intros st0 H0;
      simpl; [exact H0|].
    apply IH. apply applyPick_positive. exact H0. }
  specialize (K (takeFromSource working currentDate sourceId qty)
                (working, splitSeq) H).
  destruct (fold_left _ _ _) as [working' splitSeq']. exact K.
Qed.

(** X3: applying transfer suggestions never leaves an empty or negative
    lot: if every batch of the snapshot holds a positive quantity, so does
    every batch afterwards, the retained parts and the children of the
    splits included. *)
Theorem transfers_keep_quantities_positive (batches : list Batch)
        (transfers : option (list TransferSuggestion)) (currentDate : Time) :
  Forall (fun b => 0 < quantity_kg b) batches ->
  Forall (fun b => 0 < quantity_kg b)
         (fst (applyWarehouseTransfersToBatches batches transfers
                                                currentDate)).
Proof.
  intro H. unfold applyWarehouseTransfersToBatches.
  destruct transfers as [[|s l]|]; try exact H.
  assert (K : forall l st,
             Forall (fun b => 0 < quantity_kg b) (fst (fst st)) ->
             Forall (fun b => 0 < quantity_kg b)
                    (fst (fst (fold_left (applySuggestion currentDate) l st)))).
  { clear. intro l. induction l as [|x l IH]; intros st H0; simpl;
      [exact H0|].
    apply IH. apply applySuggestion_positive. exact H0. }
  specialize (K (s :: l) (batches, O, []) H).
  destruct (fold_left _ _ _) as [[working n] applied]. exact K.
Qed.

Lemma transfers_keep_quantities_positive_witness :
  Forall (fun b => 0 < quantity_kg b)
         (fst (applyWarehouseTransfersToBatches [scenario1_batch]
                 (Some [scenario4_suggestion]) 0)).
Proof.
  apply (transfers_keep_quantities_positive [scenario1_batch]
           (Some [scenario4_suggestion]) 0%Z).
  constructor; [reflexivity | constructor].
Defined.

Lemma takeLoop_sum (candidates : list (nat * Batch)) (remaining : Q) :
  0 <= Qsum (map snd (takeLoop candidates remaining))
  /\ (0 <= remaining ->
      Qsum (map snd (takeLoop candidates remaining)) <= remaining).
Proof.
  revert remaining.
  induction candidates as [|[i batch] rest IH]; intro remaining; simpl.
  - unfold Qsum. simpl. split; [lra | intro; assumption].
  - destruct (Qle_bool remaining 0) eqn:E1.
    + unfold Qsum. simpl. split; [lra | intro; assumption].
    + apply Qle_bool_false in E1.
      destruct (Qle_bool (quantity_kg batch) 0) eqn:E2; [apply IH|].
      apply Qle_bool_false in E2. simpl. rewrite Qsum_cons.
      destruct (IH (remaining - Qmin_b (quantity_kg batch) remaining))
        as [H1 H2].
      assert (H3 := Qmin_b_le_r (quantity_kg batch) remaining).
      destruct (Qmin_b_cases (quantity_kg batch) remaining)
        as [[H4 E]|[H4 E]]; rewrite E in *; split; try lra;
        intros _; assert (H5 := H2 ltac:(lra)); lra.
Qed.

Lemma truthy_id_Some (i : option Id) (s : Id) :
  truthy_id i = Some s -> i = Some s.
Proof.
  destruct i as [x|]; simpl; [|discriminate].
  destruct (String.eqb x ""); [discriminate|]. congruence.
Qed.

Lemma coercePositiveNumber_Some (v : option Q) (n : Q) :
  coercePositiveNumber v = Some n -> v = Some n /\ 0 < n.
Proof.
  destruct v as [x|]; simpl; [|discriminate].
  unfold Qltb. destruct (Qle_bool x 0) eqn:E; simpl; [discriminate|].
  intro H. injection H as <-. split; [reflexivity|].
  apply Qle_bool_false. exact E.
Qed.

Lemma round2_zero : round2 0 == 0.
Proof. vm_compute. reflexivity. Qed.

Lemma applySuggestion_applied (currentDate : Time)
      (all : list TransferSuggestion)
      (st : list Batch * nat * list AppliedTransfer) (s : TransferSuggestion) :
  In s all ->
  Forall (applied_ok all) (snd st) ->
  Forall (applied_ok all) (snd (applySuggestion currentDate st s))
  /\ (List.length (snd (applySuggestion currentDate st s))
      <= S (List.length (snd st)))%nat.
Proof.
  destruct st as [[working splitSeq] applied]. simpl. intros Hs H.
  unfold applySuggestion.
  destruct (truthy_id (source_mongoId s)) as [sourceId|] eqn:E1;
    [|split; [exact H | simpl; lia]].
  destruct (truthy_id (target_mongoId s)) as [targetId|] eqn:E2;
    [|split; [exact H | simpl; lia]].
  destruct (coercePositiveNumber (suggested_quantity_kg s)) as [qty|] eqn:E3;
    [|split; [exact H | simpl; lia]].
  destruct (String.eqb sourceId targetId) eqn:E4;
    [split; [exact H | simpl; lia]|].
  destruct (Qle_bool _ 0) eqn:E5; [split; [exact H | simpl; lia]|].
  destruct (fold_left _ _ _) as [working' splitSeq']. simpl.
  split; [|rewrite length_app; simpl; lia].
  apply Forall_app. split; [exact H|]. constructor; [|constructor].
  apply truthy_id_Some in E1. apply truthy_id_Some in E2.
  apply coercePositiveNumber_Some in E3. destruct E3 as [E3 Hq].
  apply Qle_bool_false in E5.
  destruct (takeLoop_sum
              (js_sort (transfer_cmp_le currentDate)
                 (filter (fun ib : nat * Batch =>
                            let b := snd ib in
                            BatchStatus_eqb (status b) stored
                            && negb (String.eqb (currentNode b) "")
                            && String.eqb (currentNode b) sourceId
                            && Qltb 0 (quantity_kg b))
                         (indexed working)))
              qty) as [K1 K2].
  assert (Ht : Qsum (map snd (takeFromSource working currentDate sourceId qty))
               <= qty).
  { unfold takeFromSource.
    destruct (Qle_bool qty 0) eqn:E6.
    - unfold Qsum. simpl. lra.
    - apply K2. lra. }
  unfold applied_ok. simpl.
  split.
  { intro Heq. rewrite Heq, String.eqb_refl in E4. discriminate. }
  split; [exact Hq|]. split.
  { rewrite <- round2_zero. apply round2_mono. lra. }
  split; [apply round2_mono; exact Ht|].
  exists s. auto.
Qed.

(** X4: every transfer recorded as applied comes from a suggestion with
    distinct source and target and a positive quantity, and the quantity
    recorded as moved is not negative and never exceeds the suggested
    quantity (both rounded to two decimals); no more transfers are recorded
    than were suggested. *)
Theorem applied_transfers_within_suggestions (batches : list Batch)
        (suggestions : list TransferSuggestion) (currentDate : Time) :
  Forall (applied_ok suggestions)
         (snd (applyWarehouseTransfersToBatches batches (Some suggestions)
                                                currentDate))
  /\ (List.length (snd (applyWarehouseTransfersToBatches
                          batches (Some suggestions) currentDate))
      <= List.length suggestions)%nat.
Proof.
  unfold applyWarehouseTransfersToBatches.
  destruct suggestions as [|s0 l0]; [split; [constructor | simpl; lia]|].
  set (all := s0 :: l0).
  assert (K : forall l st,
             (forall s, In s l -> In s all) ->
             Forall (applied_ok all) (snd st) ->
             Forall (applied_ok all)
                    (snd (fold_left (applySuggestion currentDate) l st))
             /\ (List.length
                   (snd (fold_left (applySuggestion currentDate) l st))
                 <= List.length (snd st) + List.length l)%nat).
  { clear. intro l. induction l as [|x l IH]; intros st Hin H0; simpl.
    - split; [exact H0 | lia].
    - destruct (applySuggestion_applied currentDate all st x
                  (Hin x (or_introl eq_refl)) H0) as [H1 H2].
      destruct (IH (applySuggestion currentDate st x)
                   (fun s Hs => Hin s (or_intror Hs)) H1) as [H3 H4].
      split; [exact H3 | lia]. }
  destruct (K all (batches, O, []) (fun s Hs => Hs) (Forall_nil _))
    as [K1 K2].
  destruct (fold_left _ _ _) as [[working n] applied]. simpl in *.
  split; [exact K1 | exact K2].
Qed.

Lemma indexed_In {A : Type} (l : list A) (j : nat) (x : A) :
  In (j, x) (indexed l) -> nth_error l j = Some x.
Proof.
  unfold indexed.
  assert (K : forall k, In (j, x) (combine (seq k (List.length l)) l) ->
                        (k <= j)%nat /\ nth_error l (j - k) = Some x).
  { induction l as [|y l IH]; intros k H; simpl in H; [contradiction|].
    destruct H as [H|H].
    - injection H as <- <-. split; [lia|].
      replace (k - k)%nat with O by lia. reflexivity.
    - destruct (IH (S k) H) as [H1 H2]. split; [lia|].
      replace (j - k)%nat with (S (j - S k)) by lia. exact H2. }
  intro H. destruct (K O H) as [_ H2].
  replace (j - 0)%nat with j in H2 by lia. exact H2.
Qed.

Lemma takeLoop_In (candidates : list (nat * Batch)) (remaining : Q)
      (j : nat) (q : Q) :
  In (j, q) (takeLoop candidates remaining) ->
  exists b, In (j, b) candidates.
Proof.
  revert remaining.
  induction candidates as [|[i batch] rest IH]; intros remaining H;
    simpl in H; [contradiction|].
  destruct (Qle_bool remaining 0); [contradiction|].
  destruct (Qle_bool (quantity_kg batch) 0).
  - destruct (IH _ H) as [b Hb]. exists b. right. exact Hb.
  - destruct H as [H|H].
    + injection H as <- _. exists batch. left. reflexivity.
    + destruct (IH _ H) as [b Hb]. exists b. right. exact Hb.
Qed.

(** The batches a pick of [takeFromSource] refers to are held at the
    source. *)
Lemma takeFromSource_at_source (working : list Batch) (currentDate : Time)
      (sourceId : Id) (qtyNeeded : Q) (j : nat) (q : Q) :
  In (j, q) (takeFromSource working currentDate sourceId qtyNeeded) ->
  exists b, nth_error working j = Some b /\ currentNode b = sourceId.
Proof.
  unfold takeFromSource. destruct (Qle_bool qtyNeeded 0); [contradiction|].
  intro H. apply takeLoop_In in H. destruct H as [b Hb].
  apply js_sort_In in Hb. apply filter_In in Hb. destruct Hb as [Hb Hp].
  exists b. split; [apply indexed_In; exact Hb|].
  simpl in Hp. apply andb_prop in Hp. destruct Hp as [Hp _].
  apply andb_prop in Hp. destruct Hp as [_ Hp].
  apply String.eqb_eq in Hp. exact Hp.
Qed.

Lemma nth_error_update_at_cases {A : Type} (l : list A) (i j : nat)
      (x y : A) :
  nth_error (update_at l i x) j = Some y ->
  y = x \/ nth_error l j = Some y.
Proof.
  revert i j. induction l as [|z l IH]; intros [|i] [|j] H; simpl in *;
    try discriminate; auto.
  - injection H as <-. left. reflexivity.
  - apply (IH i j H).
Qed.

Lemma nth_error_snoc_cases {A : Type} (l : list A) (j : nat) (c y : A) :
  nth_error (l ++ [c]) j = Some y -> y = c \/ nth_error l j = Some y.
Proof.
  revert j. induction l as [|z l IH]; intros [|j] H; simpl in *.
  - injection H as <-. left. reflexivity.
  - destruct j; discriminate.
  - right. exact H.
  - apply (IH j H).
Qed.

Lemma filter_update_at_other {A : Type} (p : A -> bool) (l : list A)
      (i : nat) (x y : A) :
  nth_error l i = Some x -> p x = false -> p y = false ->
  filter p (update_at l i y) = filter p l.
Proof.
  revert i. induction l as [|z l IH]; intros [|i] Hn Hx Hy; simpl in *;
    try discriminate.
  - injection Hn as ->. rewrite Hx, Hy. reflexivity.
  - rewrite (IH i Hn Hx Hy). reflexivity.
Qed.

Lemma eqb_neq_false (s t : string) : s <> t -> String.eqb s t = false.
Proof. intro H. apply String.eqb_neq. exact H. Qed.

(** A pick on a batch held elsewhere, towards another node, leaves the
    batches held at [id] as they are, and the batches at the picked
    positions stay elsewhere. *)
Lemma applyPick_elsewhere (targetId id : Id) (working : list Batch)
      (splitSeq i : nat) (takeQty : Q) :
  targetId <> id ->
  (forall b, nth_error working i = Some b -> currentNode b <> id) ->
  filter (fun b => String.eqb (currentNode b) id)
         (fst (applyPick targetId (working, splitSeq) (i, takeQty)))
  = filter (fun b => String.eqb (currentNode b) id) working
  /\ forall j b',
      nth_error (fst (applyPick targetId (working, splitSeq) (i, takeQty))) j
      = Some b' ->
      currentNode b' <> id \/ nth_error working j = Some b'.
Proof.
  intros Ht Hi. unfold applyPick.
  destruct (nth_error working i) as [batch|] eqn:Hn;
    [|split; [reflexivity | intros j b' H; right; exact H]].
  destruct (Qle_bool takeQty 0 || Qle_bool (quantity_kg batch) 0);
    [split; [reflexivity | intros j b' H; right; exact H]|].
  assert (Hb := Hi batch eq_refl).
  destruct (Qle_bool (quantity_kg batch - split_epsilon) takeQty); simpl.
  - split.
    + apply (filter_update_at_other _ working i batch); [exact Hn | |].
      * apply eqb_neq_false. exact Hb.
      * simpl. apply eqb_neq_false. exact Ht.
    + intros j b' H. apply nth_error_update_at_cases in H.
      destruct H as [->|H]; [left; simpl; exact Ht | right; exact H].
  - split.
    + rewrite filter_app. simpl.
      rewrite (eqb_neq_false _ _ Ht), app_nil_r.
      apply (filter_update_at_other _ working i batch); [exact Hn | |].
      * apply eqb_neq_false. exact Hb.
      * simpl. apply eqb_neq_false. exact Hb.
    + intros j b' H. apply nth_error_snoc_cases in H.
      destruct H as [->|H]; [left; simpl; exact Ht|].
      apply nth_error_update_at_cases in H.
      destruct H as [->|H]; [left; simpl; exact Hb | right; exact H].
Qed.

Lemma applyPicks_elsewhere (targetId id : Id) (picked : list (nat * Q)) :
  targetId <> id ->
  forall (working : list Batch) (splitSeq : nat),
    (forall j q b, In (j, q) picked -> nth_error working j = Some b ->
                   currentNode b <> id) ->
    filter (fun b => String.eqb (currentNode b) id)
           (fst (fold_left (applyPick targetId) picked (working, splitSeq)))
    = filter (fun b => String.eqb (currentNode b) id) working.
Proof.
  intro Ht. induction picked as [|[i takeQty] picked IH];
    intros working splitSeq Hp; cbn [fold_left]; [reflexivity|].
  destruct (applyPick_elsewhere targetId id working splitSeq i takeQty Ht
              (fun b Hb => Hp i takeQty b (or_introl eq_refl) Hb))
    as [H1 H2].
  destruct (applyPick targetId (working, splitSeq) (i, takeQty))
    as [working1 splitSeq1] eqn:E. simpl in H1, H2.
  rewrite IH; [exact H1|].
  intros j q b Hin Hn. destruct (H2 j b Hn) as [H|H]; [exact H|].
  apply (Hp j q b (or_intror Hin) H).
Qed.

Lemma applySuggestion_elsewhere (currentDate : Time) (id : Id)
      (st : list Batch * nat * list AppliedTransfer) (s : TransferSuggestion) :
  source_mongoId s <> Some id -> target_mongoId s <> Some id ->
  filter (fun b => String.eqb (currentNode b) id)
         (fst (fst (applySuggestion currentDate st s)))
  = filter (fun b => String.eqb (currentNode b) id) (fst (fst st)).
Proof.
  destruct st as [[working splitSeq] applied]. simpl. intros Hs Ht.
  unfold applySuggestion.
  destruct (truthy_id (source_mongoId s)) as [sourceId|] eqn:E1;
    [|reflexivity].
  destruct (truthy_id (target_mongoId s)) as [targetId|] eqn:E2;
    [|reflexivity].
  destruct (coercePositiveNumber (suggested_quantity_kg s)) as [qty|];
    [|reflexivity].
  destruct (String.eqb sourceId targetId); [reflexivity|].
  destruct (Qle_bool _ 0); [reflexivity|].
  apply truthy_id_Some in E1. apply truthy_id_Some in E2.
  assert (Hs' : sourceId <> id) by (intro H; apply Hs; congruence).
  assert (Ht' : targetId <> id) by (intro H; apply Ht; congruence).
  assert (K := applyPicks_elsewhere targetId id
                 (takeFromSource working currentDate sourceId qty) Ht'
                 working splitSeq).
  destruct (fold_left _ _ _) as [working' splitSeq']. simpl in *.
  apply K. intros j q b Hin Hn.
  apply takeFromSource_at_source in Hin. destruct Hin as (b0 & Hb0 & Hnode).
  rewrite Hn in Hb0. injection Hb0 as <-. rewrite Hnode. exact Hs'.
Qed.

(** X5: a transfer touches its source and its target only.  The batches
    held at a node that no suggestion names as source or target are, after
    the suggestions were applied, exactly the batches held there before,
    in the same order and with the same quantities. *)
Theorem transfers_leave_other_nodes_untouched (batches : list Batch)
        (suggestions : list TransferSuggestion) (currentDate : Time)
        (id : Id) :
  (forall s, In s suggestions ->
             source_mongoId s <> Some id /\ target_mongoId s <> Some id) ->
  filter (fun b => String.eqb (currentNode b) id)
         (fst (applyWarehouseTransfersToBatches batches (Some suggestions)
                                                currentDate))
  = filter (fun b => String.eqb (currentNode b) id) batches.
Proof.
  intro H. unfold applyWarehouseTransfersToBatches.
  destruct suggestions as [|s0 l0]; [reflexivity|].
  assert (K : forall l st,
             (forall s, In s l ->
                        source_mongoId s <> Some id
                        /\ target_mongoId s <> Some id) ->
             filter (fun b => String.eqb (currentNode b) id)
                    (fst (fst (fold_left (applySuggestion currentDate) l st)))
             = filter (fun b => String.eqb (currentNode b) id)
                      (fst (fst st))).
  { clear. intro l. induction l as [|x l IH]; intros st Hl; simpl;
      [reflexivity|].
    rewrite IH; [|intros s Hs; apply Hl; right; exact Hs].
    destruct (Hl x (or_introl eq_refl)) as [H1 H2].
    apply applySuggestion_elsewhere; assumption. }
  specialize (K (s0 :: l0) (batches, O, []) H).
  destruct (fold_left _ _ _) as [[working n] applied]. exact K.
Qed.

Lemma transfers_leave_other_nodes_untouched_witness :
  filter (fun b => String.eqb (currentNode b) "wB")
         (fst (applyWarehouseTransfersToBatches imbalanced_batches
                 (Some [mkTransferSuggestion None (Some "wA"%string)
                          (Some "wC"%string) (Some 300) None]) 0))
  = filter (fun b => String.eqb (currentNode b) "wB") imbalanced_batches.
Proof.
  apply (transfers_leave_other_nodes_untouched imbalanced_batches
           [mkTransferSuggestion None (Some "wA"%string) (Some "wC"%string)
              (Some 300) None] 0%Z "wB"%string).
  intros s [<-|[]]. split; discriminate.
Defined.

(* ------------------------------------------------------------------ *)
(** ** The allocation phase of [createShipment] *)

Lemma total_kg_nonneg (l : list Batch) :
  Forall (fun b => 0 < quantity_kg b) l -> 0 <= total_kg l.
Proof.
  induction 1 as [|b l Hb Hl IH]; simpl; lra.
Qed.

Lemma shipped_kg_app (l1 l2 : list AllocatedBatch) :
  shipped_kg (l1 ++ l2) == shipped_kg l1 + shipped_kg l2.
Proof.
  induction l1 as [|a l1 IH]; simpl; [lra | rewrite IH; lra].
Qed.

Lemma shipmentLoop_done (newObjectId : nat -> Id) (now : Time)
      (availableBatches : list Batch) (st : ShipmentState) :
  shipmentLoop newObjectId now availableBatches st 0 = (st, 0).
Proof. destruct availableBatches; reflexivity. Qed.

Lemma findAvailableBatches_positive (docs : list Batch) (fromNodeId : Id)
      (food : string) :
  Forall (fun b => 0 < quantity_kg b)
         (findAvailableBatches docs fromNodeId food).
Proof.
  apply Forall_forall. intros b Hb. unfold findAvailableBatches in Hb.
  apply js_sort_In in Hb. apply filter_In in Hb. destruct Hb as [_ Hp].
  apply andb_prop in Hp. destruct Hp as [_ Hp].
  unfold Qltb in Hp. apply Qle_bool_false.
  destruct (Qle_bool (quantity_kg b) 0); [discriminate | reflexivity].
Qed.

(** The loop over the available batches: it lists what it takes, takes
    whole batches until the last one, and stops with nothing left to find
    or with the available stock exhausted. *)
Lemma shipmentLoop_spec (newObjectId : nat -> Id) (now : Time)
      (availableBatches : list Batch) :
  Forall (fun b => 0 < quantity_kg b) availableBatches ->
  forall (st : ShipmentState) (remainingQty : Q),
    0 <= remainingQty ->
    exists new,
      allocatedBatches
        (fst (shipmentLoop newObjectId now availableBatches st remainingQty))
      = allocatedBatches st ++ new
      /\ allBatchIds
           (fst (shipmentLoop newObjectId now availableBatches st
                              remainingQty))
         = allBatchIds st ++ map ab_batchId new
      /\ Forall (fun a => 0 < ab_quantity a) new
      /\ Forall (fun a => isSplit a = false) (removelast new)
      /\ 0 <= snd (shipmentLoop newObjectId now availableBatches st
                                remainingQty)
      /\ shipped_kg new
         + snd (shipmentLoop newObjectId now availableBatches st remainingQty)
         == remainingQty
      /\ (0 < snd (shipmentLoop newObjectId now availableBatches st
                                remainingQty) ->
          shipped_kg new == total_kg availableBatches)
      /\ (snd (shipmentLoop newObjectId now availableBatches st remainingQty)
          <= 0 ->
          remainingQty <= total_kg availableBatches).
Proof.
  induction 1 as [|batch rest Hb Hrest IH]; intros st r Hr.
  - exists []. simpl. rewrite !app_nil_r.
    repeat split; try constructor; try lra; intros; lra.
  - assert (Htot := total_kg_nonneg rest Hrest).
    cbn [shipmentLoop].
    destruct (Qle_bool r 0) eqn:E1.
    + apply Qle_bool_iff in E1.
      exists []. simpl. rewrite !app_nil_r.
      repeat split; try constructor; try lra; intros; lra.
    + apply Qle_bool_false in E1.
      destruct (Qle_bool r (quantity_kg batch)) eqn:E2.
      * apply Qle_bool_iff in E2.
        destruct (Qeq_bool (quantity_kg batch) r) eqn:E3;
          rewrite shipmentLoop_done; simpl.
        -- exists [mkAllocatedBatch (_id batch) r false None]. simpl.
           repeat split; try constructor; simpl; try lra; try constructor;
             intros; lra.
        -- exists [mkAllocatedBatch (newObjectId (created st)) r true
                                    (Some (_id batch))]. simpl.
           repeat split; try constructor; simpl; try lra; try constructor;
             intros; lra.
      * apply Qle_bool_false in E2.
        set (st1 := mkShipmentState (store st)
                      (allocatedBatches st ++
                         [mkAllocatedBatch (_id batch) (quantity_kg batch)
                                           false None])
                      (allBatchIds st ++ [_id batch]) (created st)).
        destruct (IH st1 (r - quantity_kg batch) ltac:(lra))
          as (new & K1 & K2 & K3 & K4 & K5 & K6 & K7 & K8).
        exists (mkAllocatedBatch (_id batch) (quantity_kg batch) false None
                :: new).
        destruct (shipmentLoop newObjectId now rest st1
                               (r - quantity_kg batch)) as [st2 r2].
        simpl fst in *. simpl snd in *.
        rewrite K1, K2. unfold st1. simpl allocatedBatches.
        simpl allBatchIds. rewrite <- !app_assoc.
        unfold shipped_kg in *.
        change (total_kg (batch :: rest))
          with (quantity_kg batch + total_kg rest).
        cbn [fold_right ab_quantity map ab_batchId app].
        split; [reflexivity|]. split; [reflexivity|].
        split; [constructor; [simpl; exact Hb | exact K3]|].
        split.
        { destruct new as [|a new]; [constructor|].
          constructor; [reflexivity | exact K4]. }
        split; [exact K5|].
        split; [lra|].
        split; [intro H; specialize (K7 H); lra|].
        intro H. specialize (K8 H). lra.
Qed.

(** X6: when the allocation of a line item of a shipment succeeds, the
    entries it adds to [allocatedBatches] (and, by identifier, to
    [allBatchIds]) list exactly the requested quantity, each a positive
    quantity, and only the last of them can be a split: the batches before
    it are taken whole. *)
Theorem allocateShipmentItem_exact (newObjectId : nat -> Id) (now : Time)
        (fromNodeId : Id) (st st' : ShipmentState) (item : ShipmentItem) :
  allocateShipmentItem newObjectId now fromNodeId st item = inr st' ->
  exists quantity new,
    si_quantity_kg item = Some quantity
    /\ allocatedBatches st' = allocatedBatches st ++ new
    /\ allBatchIds st' = allBatchIds st ++ map ab_batchId new
    /\ shipped_kg new == quantity
    /\ Forall (fun a => 0 < ab_quantity a) new
    /\ Forall (fun a => isSplit a = false) (removelast new).
Proof.
  unfold allocateShipmentItem.
  destruct (si_quantity_kg item) as [quantity|]; [|discriminate].
  destruct (String.eqb (si_foodType item) ""); [discriminate|].
  destruct (Qle_bool quantity 0) eqn:E; [discriminate|]. simpl.
  apply Qle_bool_false in E.
  destruct (shipmentLoop_spec newObjectId now
              (findAvailableBatches (store st) fromNodeId (si_foodType item))
              (findAvailableBatches_positive _ _ _) st quantity ltac:(lra))
    as (new & K1 & K2 & K3 & K4 & K5 & K6 & _ & _).
  destruct (shipmentLoop _ _ _ _ _) as [st1 r]. simpl in *.
  unfold Qltb. destruct (Qle_bool r 0) eqn:E2; simpl; [|discriminate].
  apply Qle_bool_iff in E2.
  intro H. injection H as <-.
  exists quantity, new. repeat split; try assumption. lra.
Qed.

Lemma allocateShipmentItem_exact_witness :
  exists quantity new,
    si_quantity_kg (mkShipmentItem "rice" (Some 30)) = Some quantity
    /\ new = [mkAllocatedBatch (objectId 0) 30 true (Some "b1"%string)]
    /\ shipped_kg new == quantity.
Proof.
  destruct (allocateShipmentItem_exact objectId 0 "wA"
              (mkShipmentState [scenario1_batch] [] [] O)
              (mkShipmentState
                 (saveBatch
                    ([scenario1_batch]
                       ++ [shipmentChild 0 scenario1_batch (objectId 0) 30])
                    (shipmentParent 0 scenario1_batch (objectId 0) 30))
                 [mkAllocatedBatch (objectId 0) 30 true (Some "b1"%string)]
                 [objectId 0] 1)
              (mkShipmentItem "rice" (Some 30)) eq_refl)
    as (quantity & new & H1 & H2 & _ & H3 & _).
  exists quantity, new. simpl in H2. subst new. auto.
Defined.

Lemma total_kg_whole (l : list Batch) :
  Forall (fun b => safe_integer (quantity_kg b)) l ->
  exists z : Z, total_kg l == inject_Z z.
Proof.
  induction 1 as [|b l (zb & Hb & _) Hl (z & IH)]; simpl.
  - exists 0%Z. reflexivity.
  - exists (zb + z)%Z. rewrite Hb, IH, inject_Z_plus. reflexivity.
Qed.

(** X7: for quantities in whole kilograms (safe integers, on which the
    comparisons and subtractions of the loop are exact), a valid line item
    (a food type and a positive quantity) is allocated exactly when the
    stored stock of that food type at the source node covers the requested
    quantity; otherwise the handler answers 400 and the quantity it reports
    as available is that stock, again a whole number. *)
Theorem allocateShipmentItem_succeeds_iff (newObjectId : nat -> Id)
        (now : Time) (fromNodeId : Id) (st : ShipmentState)
        (item : ShipmentItem) (quantity : Q) :
  si_quantity_kg item = Some quantity ->
  si_foodType item <> ""%string ->
  0 < quantity ->
  safe_integer quantity ->
  Forall (fun b => safe_integer (quantity_kg b))
         (findAvailableBatches (store st) fromNodeId (si_foodType item)) ->
  let stock :=
    total_kg (findAvailableBatches (store st) fromNodeId (si_foodType item)) in
  ((exists st', allocateShipmentItem newObjectId now fromNodeId st item
                = inr st')
   <-> quantity <= stock)
  /\ (stock < quantity ->
      exists available,
        allocateShipmentItem newObjectId now fromNodeId st item
        = inl (mkApiError 400
                 (MsgInsufficientInventory (si_foodType item) quantity
                                           available))
        /\ available == stock
        /\ safe_integer available).
Proof.
  intros Hq Hf Hpos Hsafe Hwhole stock.
  assert (Hstock : stock < quantity -> safe_integer stock).
  { intro Hlt. destruct (total_kg_whole _ Hwhole) as (z & Hz).
    fold stock in Hz. exists z. split; [exact Hz|].
    assert (H0 : 0 <= stock)
      by (apply total_kg_nonneg, findAvailableBatches_positive).
    destruct Hsafe as (zq & Hzq & Hbound).
    rewrite Hz in H0, Hlt. rewrite Hzq in Hlt.
    change 0 with (inject_Z 0) in H0.
    rewrite <- Zle_Qle in H0. rewrite <- Zlt_Qlt in Hlt. lia. }
  unfold allocateShipmentItem. rewrite Hq.
  rewrite (eqb_neq_false _ _ Hf).
  assert (E : Qle_bool quantity 0 = false) by (apply Qle_bool_false; lra).
  rewrite E. simpl.
  destruct (shipmentLoop_spec newObjectId now
              (findAvailableBatches (store st) fromNodeId (si_foodType item))
              (findAvailableBatches_positive _ _ _) st quantity ltac:(lra))
    as (new & _ & _ & _ & _ & K5 & K6 & K7 & K8).
  fold stock in K7, K8.
  destruct (shipmentLoop _ _ _ _ _) as [st1 r]. simpl in *.
  unfold Qltb. destruct (Qle_bool r 0) eqn:E2; simpl.
  - apply Qle_bool_iff in E2. split.
    + split; [intros _; apply K8; exact E2 | intros _; eauto].
    + intro H. specialize (K8 E2). lra.
  - apply Qle_bool_false in E2. specialize (K7 E2). split.
    + split; [intros [st' H]; discriminate | intro H; lra].
    + intro Hlt. exists (quantity - r). split; [reflexivity|].
      assert (Ea : quantity - r == stock) by lra.
      split; [exact Ea|].
      destruct (Hstock Hlt) as (z & Hz & Hb). exists z.
      split; [rewrite Ea; exact Hz | exact Hb].
Qed.

Lemma allocateShipmentItem_succeeds_iff_witness :
  (exists st', allocateShipmentItem objectId 0 "wA"
                 (mkShipmentState [scenario1_batch] [] [] O)
                 (mkShipmentItem "rice" (Some 30)) = inr st')
  /\ exists available,
      allocateShipmentItem objectId 0 "wA"
        (mkShipmentState [scenario1_batch] [] [] O)
        (mkShipmentItem "rice" (Some 130))
      = inl (mkApiError 400
               (MsgInsufficientInventory "rice" 130 available))
      /\ available == 100
      /\ safe_integer available.
Proof.
  assert (Hs : Forall (fun b => safe_integer (quantity_kg b))
                      (findAvailableBatches [scenario1_batch] "wA" "rice")).
  { repeat constructor. exists 100%Z. split; reflexivity. }
  split.
  - apply (allocateShipmentItem_succeeds_iff objectId 0 "wA"
             (mkShipmentState [scenario1_batch] [] [] O)
             (mkShipmentItem "rice" (Some 30)) 30 eq_refl);
      [discriminate | reflexivity | exists 30%Z; split; reflexivity
       | exact Hs | vm_compute; discriminate].
  - apply (allocateShipmentItem_succeeds_iff objectId 0 "wA"
             (mkShipmentState [scenario1_batch] [] [] O)
             (mkShipmentItem "rice" (Some 130)) 130 eq_refl);
      [discriminate | reflexivity | exists 130%Z; split; reflexivity
       | exact Hs | vm_compute; reflexivity].
Defined.

(* ------------------------------------------------------------------ *)
(** ** The shipment handlers *)

Lemma allocateShipmentItem_adds (newObjectId : nat -> Id) (now : Time)
      (fromNodeId : Id) (st st' : ShipmentState) (item : ShipmentItem) :
  allocateShipmentItem newObjectId now fromNodeId st item = inr st' ->
  exists new,
    allocatedBatches st' = allocatedBatches st ++ new
    /\ allBatchIds st' = allBatchIds st ++ map ab_batchId new
    /\ shipped_kg new == coalesce (si_quantity_kg item) 0.
Proof.
  unfold allocateShipmentItem.
  destruct (si_quantity_kg item) as [quantity|]; [|discriminate].
  destruct (String.eqb (si_foodType item) ""); [discriminate|].
  destruct (Qle_bool quantity 0) eqn:E; [discriminate|]. simpl.
  apply Qle_bool_false in E.
  destruct (shipmentLoop_spec newObjectId now
              (findAvailableBatches (store st) fromNodeId (si_foodType item))
              (findAvailableBatches_positive _ _ _) st quantity ltac:(lra))
    as (new & K1 & K2 & _ & _ & K5 & K6 & _ & _).
  destruct (shipmentLoop _ _ _ _ _) as [st1 r]. simpl in *.
  unfold Qltb. destruct (Qle_bool r 0) eqn:E2; simpl; [|discriminate].
  apply Qle_bool_iff in E2.
  intro H. injection H as <-.
  exists new. repeat split; try assumption. lra.
Qed.

Lemma allocateShipmentItems_adds (newObjectId : nat -> Id) (now : Time)
      (fromNodeId : Id) (items : list ShipmentItem) :
  forall st st',
    allocateShipmentItems newObjectId now fromNodeId st items = inr st' ->
    exists new,
      allocatedBatches st' = allocatedBatches st ++ new
      /\ allBatchIds st' = allBatchIds st ++ map ab_batchId new
      /\ shipped_kg new == requested_kg items.
Proof.
  induction items as [|item items IH]; intros st st' H; simpl in H.
  - injection H as <-. exists []. rewrite !app_nil_r. simpl.
    repeat split; reflexivity.
  - destruct (allocateShipmentItem newObjectId now fromNodeId st item)
      as [e|st1] eqn:E; [discriminate|].
    destruct (allocateShipmentItem_adds _ _ _ _ _ _ E)
      as (new1 & A1 & A2 & A3).
    destruct (IH st1 st' H) as (new2 & B1 & B2 & B3).
    exists (new1 ++ new2).
    rewrite B1, B2, A1, A2, map_app, <- !app_assoc.
    split; [reflexivity|]. split; [reflexivity|].
    rewrite shipped_kg_app, A3, B3. simpl. reflexivity.
Qed.

Lemma shipBatch_id (now : Time) (sid : string) (fromNodeId toNodeId : Id)
      (docs : list Batch) (id : Id) :
  map _id (shipBatch now sid fromNodeId toNodeId docs id) = map _id docs.
Proof.
  unfold shipBatch. rewrite map_map. apply map_ext. intro b.
  destruct (String.eqb (_id b) id); reflexivity.
Qed.

Lemma shipBatches_in_transit (now : Time) (sid : string)
      (fromNodeId toNodeId : Id) (ids : list Id) :
  forall (docs : list Batch) (done : list Id),
    (forall b, In b docs -> In (_id b) done -> status b = in_transit) ->
    forall b,
      In b (fold_left (shipBatch now sid fromNodeId toNodeId) ids docs) ->
      In (_id b) (done ++ ids) -> status b = in_transit.
Proof.
  induction ids as [|i ids IH]; intros docs done Hd b Hb Hin;
    cbn [fold_left] in Hb.
  - rewrite app_nil_r in Hin. apply (Hd b Hb Hin).
  - apply (IH (shipBatch now sid fromNodeId toNodeId docs i) (done ++ [i]));
      [|exact Hb | rewrite <- app_assoc; exact Hin].
    intros b' Hb' Hin'. unfold shipBatch in Hb'. apply in_map_iff in Hb'.
    destruct Hb' as (b0 & <- & Hb0).
    destruct (String.eqb (_id b0) i) eqn:E; [reflexivity|].
    apply Hd; [exact Hb0|].
    apply in_app_or in Hin'. destruct Hin' as [H|[H|[]]]; [exact H|].
    apply String.eqb_neq in E. congruence.
Qed.

(** The handler before the transport call: the error it ends with, or the
    state of the allocation and the two nodes with their coordinates. *)
Lemma createShipment_cases
      (newObjectId : nat -> Id) (now : Time)
      (newShipmentId : string) (db : Db) (body : ShipmentBody) :
  (exists e,
      forall tt,
        createShipment newObjectId now tt newShipmentId db body = inl e)
  \/ (exists c1 c2,
         forall tt,
           (transportDataOf (tt c1 c2 (coalesce (body_startTime body) now))
                            (coalesce (body_startTime body) now) = None ->
            createShipment newObjectId now tt newShipmentId db body
            = inl (mkHttpError 500 (Msg "Failed to create shipment")))
           /\ (forall data,
                  transportDataOf
                    (tt c1 c2 (coalesce (body_startTime body) now))
                    (coalesce (body_startTime body) now) = Some data ->
                  exists db' shipment allocated,
                    createShipment newObjectId now tt newShipmentId db body
                    = inr (db', shipment, allocated, data)
                    /\ start_iso shipment
                       = coalesce (body_startTime body) now
                    /\ eta_iso shipment = td_eta_iso data
                    /\ travel_time_minutes shipment
                       = td_travel_time_minutes data
                    /\ ship_distance_km shipment = td_distance_km data)).
Proof.
  unfold createShipment.
  destruct (truthy_id (body_fromNodeId body)) as [fromNodeId|];
    [|left; eauto].
  destruct (truthy_id (body_toNodeId body)) as [toNodeId|]; [|left; eauto].
  destruct (body_items body) as [[|item items]|]; try (left; eauto; fail).
  destruct (findNodeById (db_nodes db) fromNodeId) as [fromDoc|];
    [|left; eauto].
  destruct (findNodeById (db_nodes db) toNodeId) as [toDoc|];
    [|left; eauto].
  destruct (allocateShipmentItems _ _ _ _ _) as [[code m]|st];
    [left; eauto|].
  destruct (extractCoordinates (geoRecordOfNode fromDoc)) as [c1|];
    [|left; eauto].
  destruct (extractCoordinates (geoRecordOfNode toDoc)) as [c2|];
    [|left; eauto].
  right. exists c1, c2. intro tt. split.
  - intros ->. reflexivity.
  - intros data ->. eexists. eexists. eexists.
    split; [reflexivity|]. repeat split.
Qed.

(** X8: a failure of the transport service never fails a shipment.  With
    a service that is down [createShipment] ends in an error only where it
    ends in that error whatever the service does; where it succeeds, the
    shipment is created with the fallback estimate: 100 km, 100 minutes,
    expected 100 minutes after the start time (the time of the request when
    the body gives none).  An answer of the service is taken unchecked: a
    2xx answer without a body, or without a date to read the arrival from,
    ends in a 500 where the failed call would have created the shipment,
    and an answer with a date and numbers is stored as it is. *)
Theorem createShipment_survives_transport_failure
        (newObjectId : nat -> Id) (now : Time)
        (newShipmentId : string) (err : PlannerError) (db : Db)
        (body : ShipmentBody) :
  (forall e,
      createShipment newObjectId now (fun _ _ _ => Failed err)
                     newShipmentId db body = inl e
      <-> forall transportTime,
          createShipment newObjectId now transportTime newShipmentId db body
          = inl e)
  /\ (forall db' shipment allocated transport,
         createShipment newObjectId now (fun _ _ _ => Failed err)
                        newShipmentId db body
         = inr (db', shipment, allocated, transport) ->
         start_iso shipment = coalesce (body_startTime body) now
         /\ eta_iso shipment = (start_iso shipment + 6000000)%Z
         /\ travel_time_minutes shipment = Some 100
         /\ ship_distance_km shipment = Some 100
         /\ transport = fallbackTransport (start_iso shipment)
         /\ (forall distance travel,
                createShipment newObjectId now (fun _ _ _ => Returned NoBody)
                               newShipmentId db body
                = inl (mkHttpError 500 (Msg "Failed to create shipment"))
                /\ createShipment newObjectId now
                     (fun _ _ _ => Returned (Body distance travel None))
                     newShipmentId db body
                   = inl (mkHttpError 500 (Msg "Failed to create shipment")))
         /\ (forall distance travel eta,
                exists db1 shipment1 allocated1 transport1,
                  createShipment newObjectId now
                    (fun _ _ _ =>
                       Returned (Body (FieldNumber distance)
                                      (FieldNumber travel) (Some eta)))
                    newShipmentId db body
                  = inr (db1, shipment1, allocated1, transport1)
                  /\ eta_iso shipment1 = eta
                  /\ travel_time_minutes shipment1 = Some travel
                  /\ ship_distance_km shipment1 = Some distance)).
Proof.
  destruct (createShipment_cases newObjectId now newShipmentId db body)
    as [(e0 & He0)|(c1 & c2 & Hc)].
  - split.
    + intro e. split.
      * intros H tt. rewrite (He0 (fun _ _ _ => Failed err)) in H.
        injection H as <-. apply He0.
      * intro H. apply H.
    + intros db' shipment allocated transport H.
      rewrite (He0 (fun _ _ _ => Failed err)) in H. discriminate H.
  - split.
    + intro e. split.
      * intro H. exfalso.
        destruct (Hc (fun _ _ _ => Failed err)) as [_ Hs].
        destruct (Hs _ eq_refl) as (db' & shipment & allocated & E & _).
        rewrite E in H. discriminate H.
      * intro H. apply H.
    + intros db' shipment allocated transport H.
      destruct (Hc (fun _ _ _ => Failed err)) as [_ Hs].
      destruct (Hs _ eq_refl)
        as (db1 & shipment1 & allocated1 & E & S1 & S2 & S3 & S4).
      rewrite E in H. injection H as <- <- <- <-.
      split; [exact S1|]. split; [rewrite S2, S1; reflexivity|].
      split; [rewrite S3; reflexivity|]. split; [rewrite S4; reflexivity|].
      split; [rewrite S1; reflexivity|].
      split.
      * intros distance travel. split.
        -- apply (Hc (fun _ _ _ => Returned NoBody)). reflexivity.
        -- apply (Hc (fun _ _ _ => Returned (Body distance travel None))).
           reflexivity.
      * intros distance travel eta.
        destruct (Hc (fun _ _ _ =>
                        Returned (Body (FieldNumber distance)
                                       (FieldNumber travel) (Some eta))))
          as [_ Hs2].
        destruct (Hs2 _ eq_refl)
          as (db2 & shipment2 & allocated2 & E2 & _ & T2 & T3 & T4).
        exists db2, shipment2, allocated2. eexists.
        split; [exact E2|]. split; [exact T2|]. split; [exact T3|]. exact T4.
Qed.

(** X9: when [createShipment] answers 201, the shipment is in transit and
    carries the identifiers of the allocated entries, which list exactly the
    quantity requested by the line items; every batch of the collection
    that the shipment names is in transit; and the handler added one
    shipment and one event and left the nodes alone. *)
Theorem createShipment_ships_allocated_batches
        (newObjectId : nat -> Id) (now : Time)
        (transportTime :
           Coordinates -> Coordinates -> Time -> CallOutcome TransportBody)
        (newShipmentId : string) (db db' : Db) (body : ShipmentBody)
        (shipment : Shipment) (allocated : list AllocatedBatch)
        (transport : TransportData) :
  createShipment newObjectId now transportTime newShipmentId db body
  = inr (db', shipment, allocated, transport) ->
  ship_status shipment = ship_in_transit
  /\ arrived_iso shipment = None
  /\ batchIds shipment = map ab_batchId allocated
  /\ (exists items, body_items body = Some items
                    /\ shipped_kg allocated == requested_kg items)
  /\ (forall b, In b (db_batches db') -> In (_id b) (batchIds shipment) ->
                status b = in_transit)
  /\ db_shipments db' = db_shipments db ++ [shipment]
  /\ List.length (db_events db') = S (List.length (db_events db))
  /\ db_nodes db' = db_nodes db
  /\ findNodeById (db_nodes db) (fromNode shipment) <> None
  /\ findNodeById (db_nodes db) (toNode shipment) <> None.
Proof.
  unfold createShipment.
  destruct (truthy_id (body_fromNodeId body)) as [fromNodeId|];
    [|discriminate].
  destruct (truthy_id (body_toNodeId body)) as [toNodeId|]; [|discriminate].
  destruct (body_items body) as [[|item items]|]; try discriminate.
  destruct (findNodeById (db_nodes db) fromNodeId) as [fromDoc|] eqn:Ef;
    [|discriminate].
  destruct (findNodeById (db_nodes db) toNodeId) as [toDoc|] eqn:Et;
    [|discriminate].
  destruct (allocateShipmentItems _ _ _ _ _) as [[code m]|st] eqn:Ea;
    [discriminate|].
  destruct (extractCoordinates (geoRecordOfNode fromDoc)) as [c1|];
    [|discriminate].
  destruct (extractCoordinates (geoRecordOfNode toDoc)) as [c2|];
    [|discriminate].
  destruct (transportDataOf _ _) as [transportData|]; [|discriminate].
  intro H. injection H as <- <- <- <-. simpl.
  destruct (allocateShipmentItems_adds _ _ _ _ _ _ Ea) as (new & A1 & A2 & A3).
  simpl in A1, A2.
  split; [reflexivity|]. split; [reflexivity|].
  split; [rewrite A2, A1; reflexivity|].
  split; [exists (item :: items); split; [reflexivity|]; rewrite A1; exact A3|].
  split.
  { intros b Hb Hin.
    apply (shipBatches_in_transit now newShipmentId fromNodeId toNodeId
             (allBatchIds st) (store st) []); [intros ? _ []| exact Hb |].
    simpl. exact Hin. }
  split; [reflexivity|].
  split; [rewrite length_app; simpl; lia|].
  split; [reflexivity|].
  rewrite Ef, Et. split; discriminate.
Qed.

Lemma createShipment_ships_allocated_batches_witness :
  exists db' shipment allocated transport,
    createShipment objectId 0 transportDown "SHP-1" shipping_db shipping_body
    = inr (db', shipment, allocated, transport)
    /\ ship_status shipment = ship_in_transit
    /\ batchIds shipment = [objectId 0]
    /\ forall b, In b (db_batches db') -> In (_id b) (batchIds shipment) ->
                 status b = in_transit.
Proof.
  eexists. eexists. eexists. eexists.
  match goal with
  | |- ?L = ?R /\ _ => assert (E : L = R) by (vm_compute; reflexivity)
  end.
  split; [exact E|].
  destruct (createShipment_ships_allocated_batches _ _ _ _ _ _ _ _ _ _ E)
    as (H1 & _ & H3 & _ & H5 & _).
  split; [exact H1|]. split; [reflexivity | exact H5].
Defined.

Lemma find_map_replace {A : Type} (p : A -> bool) (l : list A) (x y : A) :
  find p l = Some x -> p y = true ->
  find p (map (fun s => if p s then y else s) l) = Some y.
Proof.
  intros Hf Hy. induction l as [|z l IH]; simpl in *; [discriminate|].
  destruct (p z) eqn:E.
  - rewrite Hy. reflexivity.
  - rewrite E. apply IH. exact Hf.
Qed.

Lemma deliverBatches_spec (shipment : Shipment) (arrivedDate : Time)
      (ids : list Id) :
  forall (docs : list Batch) (done : list Id),
    (forall b, In b docs -> In (_id b) done ->
               status b = delivered /\ currentNode b = toNode shipment) ->
    forall b,
      In b (fold_left (deliverBatch shipment arrivedDate) ids docs) ->
      (In (_id b) (done ++ ids) ->
       status b = delivered /\ currentNode b = toNode shipment)
      /\ (~ In (_id b) ids -> In b docs).
Proof.
  induction ids as [|i ids IH]; intros docs done Hd b Hb;
    cbn [fold_left] in Hb.
  - split; [rewrite app_nil_r; apply Hd; exact Hb | intros _; exact Hb].
  - destruct (IH (deliverBatch shipment arrivedDate docs i) (done ++ [i]))
      with (b := b) as [H1 H2]; [|exact Hb|].
    + intros b' Hb' Hin'. unfold deliverBatch in Hb'.
      apply in_map_iff in Hb'. destruct Hb' as (b0 & <- & Hb0).
      destruct (String.eqb (_id b0) i) eqn:E; [split; reflexivity|].
      apply Hd; [exact Hb0|].
      apply in_app_or in Hin'. destruct Hin' as [H|[H|[]]]; [exact H|].
      apply String.eqb_neq in E. congruence.
    + split.
      * intro Hin. apply H1. rewrite <- app_assoc. exact Hin.
      * intro Hn.
        assert (Hb1 : In b (deliverBatch shipment arrivedDate docs i)).
        { apply H2. intro H. apply Hn. right. exact H. }
        unfold deliverBatch in Hb1. apply in_map_iff in Hb1.
        destruct Hb1 as (b0 & E0 & Hb0).
        destruct (String.eqb (_id b0) i) eqn:E.
        -- exfalso. apply Hn. left. apply String.eqb_eq in E.
           subst b. simpl. symmetry. exact E.
        -- subst b. exact Hb0.
Qed.

(** X10: when [markShipmentArrived] succeeds, the shipment is recorded as
    arrived at the given time (the time of the request when the body gives
    none), every batch of the collection that the shipment names is
    delivered and located at the destination, the other batches are the
    documents they were, and one event is added.  A shipment arrives once:
    a second request for the same shipment, whatever its arrival time, is
    answered 400. *)
Theorem markShipmentArrived_once (now now' : Time) (db db' : Db) (id : Id)
        (arrivedTime arrivedTime' : option Time) (shipment : Shipment) :
  markShipmentArrived now db id arrivedTime = inr (db', shipment) ->
  ship_status shipment = ship_arrived
  /\ arrived_iso shipment = Some (coalesce arrivedTime now)
  /\ ship_id shipment = id
  /\ (forall b, In b (db_batches db') ->
                (In (_id b) (batchIds shipment) ->
                 status b = delivered /\ currentNode b = toNode shipment)
                /\ (~ In (_id b) (batchIds shipment) ->
                    In b (db_batches db)))
  /\ List.length (db_events db') = S (List.length (db_events db))
  /\ markShipmentArrived now' db' id arrivedTime'
     = inl (mkHttpError 400 (Msg "Shipment already marked as arrived")).
Proof.
  unfold markShipmentArrived at 1.
  destruct (find (fun s => String.eqb (ship_id s) id) (db_shipments db))
    as [s0|] eqn:Ef; [|discriminate].
  destruct (ShipmentStatus_eqb (ship_status s0) ship_arrived);
    [discriminate|].
  destruct (findNodeById (db_nodes db) (fromNode s0)) as [fromDoc|];
    [|discriminate].
  destruct (findNodeById (db_nodes db) (toNode s0)) as [toDoc|];
    [|discriminate].
  intro H. injection H as <- <-. simpl.
  assert (Hid : ship_id s0 = id).
  { apply find_some in Ef. destruct Ef as [_ Ef].
    apply String.eqb_eq in Ef. exact Ef. }
  split; [reflexivity|]. split; [reflexivity|]. split; [exact Hid|].
  split.
  { intros b Hb.
    destruct (deliverBatches_spec
                (arrivedShipment s0 (coalesce arrivedTime now))
                (coalesce arrivedTime now) (batchIds s0) (db_batches db) [])
      with (b := b) as [H1 H2]; [intros ? _ [] | exact Hb |].
    split; [exact H1 | exact H2]. }
  split; [rewrite length_app; simpl; lia|].
  unfold markShipmentArrived. simpl db_shipments.
  rewrite (find_map_replace (fun s => String.eqb (ship_id s) id)
             (db_shipments db) s0
             (arrivedShipment s0 (coalesce arrivedTime now)) Ef).
  - reflexivity.
  - simpl. rewrite Hid. apply String.eqb_refl.
Qed.

Lemma createShipment_created (newObjectId : nat -> Id) (now : Time)
      (transportTime :
         Coordinates -> Coordinates -> Time -> CallOutcome TransportBody)
      (newShipmentId : string) (db db' : Db) (body : ShipmentBody)
      (shipment : Shipment) (allocated : list AllocatedBatch)
      (transport : TransportData) :
  createShipment newObjectId now transportTime newShipmentId db body
  = inr (db', shipment, allocated, transport) ->
  ship_status shipment = ship_in_transit
  /\ db_shipments db' = db_shipments db ++ [shipment]
  /\ db_nodes db' = db_nodes db
  /\ findNodeById (db_nodes db) (fromNode shipment) <> None
  /\ findNodeById (db_nodes db) (toNode shipment) <> None.
Proof.
  unfold createShipment.
  destruct (truthy_id (body_fromNodeId body)) as [fromNodeId|];
    [|discriminate].
  destruct (truthy_id (body_toNodeId body)) as [toNodeId|]; [|discriminate].
  destruct (body_items body) as [[|item items]|]; try discriminate.
  destruct (findNodeById (db_nodes db) fromNodeId) as [fromDoc|] eqn:Ef;
    [|discriminate].
  destruct (findNodeById (db_nodes db) toNodeId) as [toDoc|] eqn:Et;
    [|discriminate].
  destruct (allocateShipmentItems _ _ _ _ _) as [[code m]|st];
    [discriminate|].
  destruct (extractCoordinates (geoRecordOfNode fromDoc)) as [c1|];
    [|discriminate].
  destruct (extractCoordinates (geoRecordOfNode toDoc)) as [c2|];
    [|discriminate].
  destruct (transportDataOf _ _) as [transportData|]; [|discriminate].
  intro H. injection H as <- <- <- <-. simpl.
  rewrite Ef, Et. repeat split; discriminate.
Qed.

Lemma find_app_last {A : Type} (p : A -> bool) (l : list A) (x : A) :
  (forall y, In y l -> p y = false) -> p x = true ->
  find p (l ++ [x]) = Some x.
Proof.
  intros Hl Hx. induction l as [|z l IH]; simpl.
  - rewrite Hx. reflexivity.
  - rewrite (Hl z (or_introl eq_refl)). apply IH.
    intros y Hy. apply Hl. right. exact Hy.
Qed.

(** X11: a shipment that [createShipment] has just created, under an
    identifier no other shipment carries, can be marked as arrived: the
    request is accepted, and afterwards every batch of the collection that
    the shipment names is delivered and located at its destination. *)
Theorem created_shipment_can_arrive
        (newObjectId : nat -> Id) (now now' : Time)
        (transportTime :
           Coordinates -> Coordinates -> Time -> CallOutcome TransportBody)
        (newShipmentId : string) (db db' : Db) (body : ShipmentBody)
        (shipment : Shipment) (allocated : list AllocatedBatch)
        (transport : TransportData) (arrivedTime : option Time) :
  createShipment newObjectId now transportTime newShipmentId db body
  = inr (db', shipment, allocated, transport) ->
  (forall s, In s (db_shipments db) -> ship_id s <> ship_id shipment) ->
  exists db'' shipment',
    markShipmentArrived now' db' (ship_id shipment) arrivedTime
    = inr (db'', shipment')
    /\ shipment' = arrivedShipment shipment (coalesce arrivedTime now')
    /\ forall b, In b (db_batches db'') -> In (_id b) (batchIds shipment) ->
                 status b = delivered /\ currentNode b = toNode shipment.
Proof.
  intros Hc Hfresh.
  destruct (createShipment_created _ _ _ _ _ _ _ _ _ _ Hc)
    as (Hs & Hsh & Hn & Hf & Ht).
  unfold markShipmentArrived. rewrite Hsh, Hn.
  rewrite (find_app_last (fun s => String.eqb (ship_id s) (ship_id shipment))
             (db_shipments db) shipment).
  - rewrite Hs. simpl ShipmentStatus_eqb. cbv iota.
    destruct (findNodeById (db_nodes db) (fromNode shipment)) as [fromDoc|];
      [|contradiction].
    destruct (findNodeById (db_nodes db) (toNode shipment)) as [toDoc|];
      [|contradiction].
    eexists. eexists. split; [reflexivity|]. split; [reflexivity|].
    simpl. intros b Hb Hin.
    destruct (deliverBatches_spec
                (arrivedShipment shipment (coalesce arrivedTime now'))
                (coalesce arrivedTime now') (batchIds shipment)
                (db_batches db') [])
      with (b := b) as [H1 _]; [intros ? _ [] | exact Hb |].
    apply H1. exact Hin.
  - intros y Hy. apply eqb_neq_false. apply Hfresh. exact Hy.
  - apply String.eqb_refl.
Qed.

Lemma created_shipment_can_arrive_witness :
  exists db' shipment allocated transport db'' shipment',
    createShipment objectId 0 transportDown "SHP-1" shipping_db shipping_body
    = inr (db', shipment, allocated, transport)
    /\ markShipmentArrived 7200000 db' (ship_id shipment) None
       = inr (db'', shipment')
    /\ arrived_iso shipment' = Some 7200000%Z.
Proof.
  eexists. eexists. eexists. eexists.
  match goal with
  | |- exists db'' shipment', ?L = ?R /\ _ =>
      assert (E : L = R) by (vm_compute; reflexivity)
  end.
  destruct (created_shipment_can_arrive objectId 0 7200000 transportDown
              "SHP-1" shipping_db _ shipping_body _ _ _ None E)
    as (db'' & shipment' & H1 & H2 & _); [intros s []|].
  exists db'', shipment'. split; [exact E|]. split; [exact H1|].
  rewrite H2. reflexivity.
Defined.

Lemma markShipmentArrived_once_witness :
  exists db' shipment allocated transport db'' shipment',
    createShipment objectId 0 transportDown "SHP-1" shipping_db shipping_body
    = inr (db', shipment, allocated, transport)
    /\ markShipmentArrived 7200000 db' (objectId 1) None
       = inr (db'', shipment')
    /\ ship_status shipment' = ship_arrived
    /\ markShipmentArrived 9000000 db'' (objectId 1) (Some 8000000%Z)
       = inl (mkHttpError 400 (Msg "Shipment already marked as arrived")).
Proof.
  eexists. eexists. eexists. eexists. eexists. eexists.
  match goal with
  | |- ?L = ?R /\ _ => assert (E : L = R) by (vm_compute; reflexivity)
  end.
  split; [exact E|].
  match goal with
  | |- ?L = ?R /\ _ => assert (E2 : L = R) by (vm_compute; reflexivity)
  end.
  split; [exact E2|].
  destruct (markShipmentArrived_once 7200000 9000000 _ _ _ None
              (Some 8000000%Z) _ E2) as (H1 & _ & _ & _ & _ & H6).
  split; [exact H1 | exact H6].
Defined.

Lemma createShipment_survives_transport_failure_witness :
  exists db' shipment allocated transport,
    createShipment objectId 0 transportDown "SHP-1" shipping_db shipping_body
    = inr (db', shipment, allocated, transport)
    /\ eta_iso shipment = 6000000%Z
    /\ travel_time_minutes shipment = Some 100
    /\ createShipment objectId 0 (fun _ _ _ => Returned NoBody) "SHP-1"
                      shipping_db shipping_body
       = inl (mkHttpError 500 (Msg "Failed to create shipment")).
Proof.
  eexists. eexists. eexists. eexists.
  match goal with
  | |- ?L = ?R /\ _ => assert (E : L = R) by (vm_compute; reflexivity)
  end.
  split; [exact E|].
  destruct (createShipment_survives_transport_failure objectId 0
              "SHP-1" serviceDown shipping_db shipping_body)
    as [_ H].
  destruct (H _ _ _ _ E) as (_ & H2 & H3 & _ & _ & H6 & _).
  split; [exact H2|]. split; [exact H3|].
  apply (H6 FieldAbsent FieldAbsent).
Defined.

(* ------------------------------------------------------------------ *)
(** ** The baseline allocator never allocates a batch twice *)

Lemma findIndex_NoDup (l : list Batch) (b : Batch) :
  NoDup (map _id l) -> In b l ->
  exists k,
    findIndex (fun x => String.eqb (_id x) (_id b)) l = Some k
    /\ nth_error l k = Some b.
Proof.
  induction l as [|y l IH]; intros Hnd Hin; [contradiction|].
  simpl in Hnd. inversion Hnd as [|? ? Hy Hl]; subst.
  destruct Hin as [->|Hin].
  - exists O. simpl. rewrite String.eqb_refl. split; reflexivity.
  - destruct (IH Hl Hin) as (k & H1 & H2).
    exists (S k). simpl.
    assert (E : String.eqb (_id y) (_id b) = false).
    { apply eqb_neq_false. intro H. apply Hy. rewrite H.
      apply in_map. exact Hin. }
    rewrite E, H1. split; [reflexivity | exact H2].
Qed.

Lemma stock_of_remove_at (i : Id) (l : list Batch) (k : nat) (b : Batch) :
  nth_error l k = Some b ->
  stock_of i (remove_at k l)
  == stock_of i l - (if String.eqb (_id b) i then quantity_kg b else 0).
Proof.
  revert k. induction l as [|y l IH]; intros [|k] H; simpl in *;
    try discriminate.
  - injection H as ->. lra.
  - rewrite (IH k H). lra.
Qed.

Lemma stock_of_update_at (i : Id) (l : list Batch) (k : nat) (b b' : Batch) :
  nth_error l k = Some b ->
  stock_of i (update_at l k b')
  == stock_of i l - (if String.eqb (_id b) i then quantity_kg b else 0)
     + (if String.eqb (_id b') i then quantity_kg b' else 0).
Proof.
  revert k. induction l as [|y l IH]; intros [|k] H; simpl in *;
    try discriminate.
  - injection H as ->. lra.
  - rewrite (IH k H). lra.
Qed.

Lemma total_kg_remove_at (l : list Batch) (k : nat) (b : Batch) :
  nth_error l k = Some b ->
  total_kg (remove_at k l) == total_kg l - quantity_kg b.
Proof.
  revert k. induction l as [|y l IH]; intros [|k] H; simpl in *;
    try discriminate.
  - injection H as ->. lra.
  - rewrite (IH k H). lra.
Qed.

Lemma NoDup_map_remove_at {A B : Type} (g : A -> B) (l : list A) (k : nat) :
  NoDup (map g l) -> NoDup (map g (remove_at k l)).
Proof.
  revert k. induction l as [|y l IH]; intros [|k] H; simpl in *;
    try exact H.
  - inversion H. assumption.
  - inversion H as [|? ? Hy Hl]; subst. constructor.
    + intro Hin. apply Hy. apply in_map_iff in Hin.
      destruct Hin as (x & <- & Hx). apply in_map. apply In_remove_at in Hx.
      exact Hx.
    + apply IH. exact Hl.
Qed.

Lemma map_update_at_same {A B : Type} (g : A -> B) (l : list A) (k : nat)
      (x y : A) :
  nth_error l k = Some x -> g y = g x ->
  map g (update_at l k y) = map g l.
Proof.
  revert k. induction l as [|z l IH]; intros [|k] H Hg; simpl in *;
    try discriminate.
  - injection H as ->. rewrite Hg. reflexivity.
  - rewrite (IH k H Hg). reflexivity.
Qed.

Lemma In_remove_at_other {A : Type} (l : list A) (k : nat) (x c : A) :
  nth_error l k = Some x -> In c l -> c <> x -> In c (remove_at k l).
Proof.
  revert k. induction l as [|z l IH]; intros [|k] H Hin Hne; simpl in *;
    try discriminate.
  - injection H as ->. destruct Hin as [->|Hin]; [contradiction | exact Hin].
  - destruct Hin as [->|Hin]; [left; reflexivity|].
    right. apply (IH k H Hin Hne).
Qed.

Lemma Forall_remove_at {A : Type} (P : A -> Prop) (l : list A) (k : nat) :
  Forall P l -> Forall P (remove_at k l).
Proof.
  intro H. apply Forall_forall. intros x Hx. apply In_remove_at in Hx.
  rewrite Forall_forall in H. apply H. exact Hx.
Qed.

Lemma consumeBatches_stop (f : Batch -> Q) (candidates unused : list Batch)
      (remaining : Q) (used : list UsedBatch) :
  remaining <= 0 ->
  consumeBatches f candidates unused remaining used
  = Some (unused, remaining, used).
Proof.
  intro H. apply Qle_bool_iff in H.
  destruct candidates; simpl; [reflexivity|]. rewrite H. reflexivity.
Qed.

Lemma used_of_nonneg (i : Id) (l : list UsedBatch) :
  Forall (fun u => 0 <= quantity u) l -> 0 <= used_of i l.
Proof.
  induction 1 as [|u l Hu Hl IH]; simpl; [lra|].
  destruct (String.eqb (batchId u) i); lra.
Qed.

Lemma stock_of_nonneg (i : Id) (l : list Batch) :
  Forall (fun b => 0 <= quantity_kg b) l -> 0 <= stock_of i l.
Proof.
  induction 1 as [|b l Hb Hl IH]; simpl; [lra|].
  destruct (String.eqb (_id b) i); lra.
Qed.

Lemma total_kg_nonneg' (l : list Batch) :
  Forall (fun b => 0 <= quantity_kg b) l -> 0 <= total_kg l.
Proof.
  induction 1 as [|b l Hb Hl IH]; simpl; lra.
Qed.

(** The account of the greedy loop when identifiers are unique: what the
    new entries take from a batch is what the batch loses. *)
Lemma consumeBatches_account (f : Batch -> Q) (candidates : list Batch) :
  forall (unused : list Batch) (remaining : Q) (used : list UsedBatch)
         (unused' : list Batch) (remaining' : Q) (used' : list UsedBatch),
    NoDup (map _id unused) ->
    NoDup (map _id candidates) ->
    incl candidates unused ->
    Forall (fun b => 0 <= quantity_kg b) unused ->
    consumeBatches f candidates unused remaining used
    = Some (unused', remaining', used') ->
    NoDup (map _id unused')
    /\ Forall (fun b => 0 <= quantity_kg b) unused'
    /\ exists new,
        used' = used ++ new
        /\ Forall (fun u => 0 <= quantity u) new
        /\ remaining' == remaining - sum_quantity new
        /\ (forall i, used_of i new + stock_of i unused' == stock_of i unused)
        /\ sum_quantity new + total_kg unused' == total_kg unused.
Proof.
  induction candidates as [|batch rest IH];
    intros unused r used unused' r' used' Hnd Hndc Hincl Hpos H.
  - simpl in H. injection H as <- <- <-.
    split; [exact Hnd|]. split; [exact Hpos|].
    exists []. rewrite app_nil_r. simpl.
    repeat split; try constructor; intros; lra.
  - cbn [consumeBatches] in H.
    destruct (Qle_bool r 0) eqn:E1.
    { injection H as <- <- <-.
      split; [exact Hnd|]. split; [exact Hpos|].
      exists []. rewrite app_nil_r. simpl.
      repeat split; try constructor; intros; lra. }
    apply Qle_bool_false in E1.
    assert (Hb : In batch unused) by (apply Hincl; left; reflexivity).
    destruct (findIndex_NoDup unused batch Hnd Hb) as (k & Hk1 & Hk2).
    assert (Hq : 0 <= quantity_kg batch).
    { rewrite Forall_forall in Hpos. apply Hpos. exact Hb. }
    rewrite Hk1 in H.
    set (a := Qmin_b (quantity_kg batch) r) in *.
    assert (Ha0 : 0 <= a).
    { unfold a.
      destruct (Qmin_b_cases (quantity_kg batch) r) as [[_ ->]|[_ ->]]; lra. }
    assert (Haq : a <= quantity_kg batch) by apply Qmin_b_le_l.
    destruct (Qle_bool (quantity_kg batch) a) eqn:E2.
    + apply Qle_bool_iff in E2. simpl splice1 in H.
      inversion Hndc as [|? ? Hnotin Hndrest]; subst.
      apply IH in H.
      * destruct H as (N1 & N2 & new & U1 & U2 & U3 & U4 & U5).
        split; [exact N1|]. split; [exact N2|].
        exists (mkUsedBatch (_id batch) a (f batch) :: new).
        rewrite U1, <- app_assoc. simpl.
        split; [reflexivity|].
        split; [constructor; [simpl; exact Ha0 | exact U2]|].
        split; [rewrite U3; lra|].
        split.
        -- intro i. specialize (U4 i).
           rewrite (stock_of_remove_at i unused k batch Hk2) in U4.
           destruct (String.eqb (_id batch) i); lra.
        -- rewrite (total_kg_remove_at unused k batch Hk2) in U5. lra.
      * apply NoDup_map_remove_at. exact Hnd.
      * exact Hndrest.
      * intros c Hc.
        apply (In_remove_at_other unused k batch c Hk2).
        -- apply Hincl. right. exact Hc.
        -- intro Heq. apply Hnotin. rewrite <- Heq. apply in_map. exact Hc.
      * apply Forall_remove_at. exact Hpos.
    + apply Qle_bool_false in E2. rewrite Hk2 in H.
      assert (Har : a = r).
      { unfold a, Qmin_b in *.
        destruct (Qle_bool (quantity_kg batch) r); [lra | reflexivity]. }
      rewrite consumeBatches_stop in H by (rewrite Har; lra).
      injection H as <- <- <-.
      split.
      { rewrite (map_update_at_same _id unused k batch); [exact Hnd | exact Hk2 |].
        reflexivity. }
      split.
      { apply Forall_update_at; [exact Hpos | simpl; lra]. }
      exists [mkUsedBatch (_id batch) a (f batch)]. simpl.
      split; [reflexivity|].
      split; [constructor; [simpl; exact Ha0 | constructor]|].
      split; [lra|].
      split.
      * intro i. rewrite (stock_of_update_at i unused k batch _ Hk2). simpl.
        destruct (String.eqb (_id batch) i); lra.
      * rewrite (total_kg_update_at unused k batch _ Hk2). simpl. lra.
Qed.

Lemma allocated_from_app (i : Id) (l1 l2 : list Allocation) :
  allocated_from i (l1 ++ l2) == allocated_from i l1 + allocated_from i l2.
Proof.
  induction l1 as [|a l1 IH]; simpl; [lra | rewrite IH; lra].
Qed.

Lemma allocated_total_app (l1 l2 : list Allocation) :
  allocated_total (l1 ++ l2) == allocated_total l1 + allocated_total l2.
Proof.
  induction l1 as [|a l1 IH]; simpl; [lra | rewrite IH; lra].
Qed.

Lemma NoDup_map_filter {A B : Type} (g : A -> B) (p : A -> bool)
      (l : list A) :
  NoDup (map g l) -> NoDup (map g (filter p l)).
Proof.
  induction l as [|y l IH]; intro H; simpl in *; [constructor|].
  inversion H as [|? ? Hy Hl]; subst.
  destruct (p y); simpl; [|apply IH; exact Hl].
  constructor; [|apply IH; exact Hl].
  intro Hin. apply Hy. apply in_map_iff in Hin.
  destruct Hin as (x & <- & Hx). apply in_map. apply filter_In in Hx.
  apply Hx.
Qed.

Lemma allocateRegularItem_account (batches0 : list Batch) (request : Request)
      (dispatch : Time) (wbd : list (Node * Q))
      (st st' : list Batch * list Allocation) (item : RequestItem) :
  account_ok batches0 st ->
  allocateRegularItem request dispatch wbd st item = Some st' ->
  account_ok batches0 st'.
Proof.
  destruct st as [unused allocs]. destruct st' as [unused' allocs'].
  intros (I1 & I2 & I3 & I4) H. simpl in I1, I2, I3, I4.
  destruct (allocateRegularItem_inv request dispatch wbd unused allocs item)
    as (u1 & a1 & E & Hcases).
  rewrite E in H. injection H as <- <-.
  destruct Hcases as [(-> & -> & _)|(w & d & remaining & used & _ & Hc & Ha)].
  { repeat split; assumption. }
  apply consumeBatches_account in Hc;
    [|exact I1
     |apply (Permutation_NoDup
               (Permutation_map _id
                  (Permutation_sym
                     (regularAvailableBatches_perm unused (item_foodType item)
                                                   (node_id w) dispatch))));
      apply NoDup_map_filter; exact I1
     |intros c Hc'; apply regularAvailableBatches_In in Hc'; apply Hc'
     |exact I2].
  destruct Hc as (N1 & N2 & new & U1 & U2 & U3 & U4 & U5).
  simpl in U1. subst used.
  assert (Hnn : forall i, 0 <= used_of i new)
    by (intro i; apply used_of_nonneg; exact U2).
  assert (Hsum : 0 <= sum_quantity new).
  { clear - U2. induction U2 as [|u l Hu Hl IH]; simpl; lra. }
  destruct Ha as [(Hle & ->)|(Hlt & ->)]; unfold account_ok; simpl.
  - split; [exact N1|]. split; [exact N2|]. split.
    + intro i. specialize (I3 i). specialize (U4 i). specialize (Hnn i). lra.
    + lra.
  - split; [exact N1|]. split; [exact N2|]. split.
    + intro i. rewrite allocated_from_app. simpl.
      specialize (I3 i). specialize (U4 i). lra.
    + rewrite allocated_total_app. simpl. lra.
Qed.

Lemma allocateRegularRequest_account
      (haversineDistanceKm : Coordinates -> Coordinates -> Q)
      (ngoOrgs : list NgoOrg) (now : Time) (batches0 : list Batch)
      (floor ceil : option Time) (warehouses ngos : list Node)
      (st st' : list Batch * list Allocation) (request : Request) :
  account_ok batches0 st ->
  allocateRegularRequest haversineDistanceKm ngoOrgs now floor ceil warehouses
                         ngos st request = Some st' ->
  account_ok batches0 st'.
Proof.
  intros Hst H. unfold allocateRegularRequest in H.
  destruct (find _ ngoOrgs) as [ngoOrg|];
    [|injection H as <-; exact Hst].
  destruct (find _ ngos) as [ngoNode|];
    [|injection H as <-; exact Hst].
  destruct (warehousesByDistanceFrom _ _ _) as [|wd wbd];
    [injection H as <-; exact Hst|].
  revert H. apply (foldM_invariant _ (account_ok batches0)); [|exact Hst].
  intros s item s' Hs Hstep.
  apply (allocateRegularItem_account _ _ _ _ _ _ _ Hs Hstep).
Qed.

Lemma stock_of_unique (l : list Batch) (b : Batch) :
  NoDup (map _id l) -> In b l -> stock_of (_id b) l == quantity_kg b.
Proof.
  induction l as [|y l IH]; intros Hnd Hin; [contradiction|].
  simpl in Hnd. inversion Hnd as [|? ? Hy Hl]; subst. simpl.
  assert (Hrest : forall c, ~ In (_id c) (map _id l) -> stock_of (_id c) l == 0).
  { clear. intros c Hc. induction l as [|z l IH]; simpl; [reflexivity|].
    assert (E : String.eqb (_id z) (_id c) = false).
    { apply eqb_neq_false. intro H. apply Hc. left. exact H. }
    rewrite E, IH; [lra|]. intro H. apply Hc. right. exact H. }
  destruct Hin as [->|Hin].
  - rewrite String.eqb_refl, (Hrest b Hy). lra.
  - assert (E : String.eqb (_id y) (_id b) = false).
    { apply eqb_neq_false. intro H. apply Hy. rewrite H. apply in_map.
      exact Hin. }
    rewrite E, (IH Hl Hin). lra.
Qed.

(** X13: the baseline never allocates food twice.  On a snapshot whose
    batches have distinct identifiers and no negative quantity, the
    quantities that all the allocation records of a run take from one
    batch add up to at most the quantity of that batch, and the
    [allocated_kg] of all the records add up to at most the stock of the
    snapshot. *)
Theorem allocateRegular_never_oversells
        (haversineDistanceKm : Coordinates -> Coordinates -> Q)
        (ngoOrgs : list NgoOrg) (now : Time) (requests : list Request)
        (batches0 : list Batch) (warehouses ngos : list Node)
        (floor ceil : option Time) (allocations : list Allocation) :
  NoDup (map _id batches0) ->
  Forall (fun b => 0 <= quantity_kg b) batches0 ->
  allocateRegular haversineDistanceKm ngoOrgs now requests batches0 warehouses
                  ngos floor ceil = Some allocations ->
  (forall b0, In b0 batches0 ->
              allocated_from (_id b0) allocations <= quantity_kg b0)
  /\ allocated_total allocations <= total_kg batches0.
Proof.
  intros Hnd Hpos H. unfold allocateRegular in H.
  destruct (foldM _ requests (batches0, [])) as [[unused allocs]|] eqn:E;
    [|discriminate].
  injection H as <-.
  assert (Hinv : account_ok batches0 (unused, allocs)).
  { revert E. apply (foldM_invariant _ (account_ok batches0)).
    - intros st request st'. apply allocateRegularRequest_account.
    - unfold account_ok. simpl.
      split; [exact Hnd|]. split; [exact Hpos|].
      split; [intro i; lra | lra]. }
  destruct Hinv as (I1 & I2 & I3 & I4). simpl in *.
  split.
  - intros b0 Hb0. specialize (I3 (_id b0)).
    rewrite (stock_of_unique batches0 b0 Hnd Hb0) in I3.
    assert (H0 := stock_of_nonneg (_id b0) unused I2). lra.
  - assert (H0 := total_kg_nonneg' unused I2). lra.
Qed.

Lemma allocateRegular_never_oversells_witness :
  exists allocations,
    allocateRegular gridDistanceKm ngo_orgs 0 [scenario2_request]
                    scenario2_batches [warehouseB; warehouseA] [ngo_node]
                    None None = Some allocations
    /\ allocated_from "bA" allocations <= 60
    /\ allocated_total allocations <= total_kg scenario2_batches.
Proof.
  eexists.
  match goal with
  | |- ?L = ?R /\ _ => assert (E : L = R) by (vm_compute; reflexivity)
  end.
  split; [exact E|].
  assert (Hnd : NoDup (map _id scenario2_batches)).
  { simpl. constructor; [intros [H|[]]; discriminate|].
    constructor; [intros []|constructor]. }
  assert (Hpos : Forall (fun b => 0 <= quantity_kg b) scenario2_batches).
  { repeat constructor; simpl; discriminate. }
  destruct (allocateRegular_never_oversells _ _ _ _ _ _ _ _ _ _ Hnd Hpos E)
    as [H1 H2].
  split; [|exact H2].
  exact (H1 (mk_batch "bA" "rice" "wA" 60 (Some 0%Z) (Some 48))
            (or_introl eq_refl)).
Defined.

(* ------------------------------------------------------------------ *)
(** ** The records of a run and the dispatch window *)

Lemma foldM_invariant_in {S A : Type} (f : S -> A -> option S)
      (Inv : S -> Prop) (l : list A) :
  (forall s x s', In x l -> Inv s -> f s x = Some s' -> Inv s') ->
  forall s s', Inv s -> foldM f l s = Some s' -> Inv s'.
Proof.
  induction l as [|x l IH]; intros Hstep s s' Hs H; simpl in H.
  - injection H as <-. exact Hs.
  - destruct (f s x) as [s1|] eqn:E; [|discriminate].
    apply (IH (fun s0 y s0' Hy => Hstep s0 y s0' (or_intror Hy)) s1 s');
      [|exact H].
    apply (Hstep s x s1 (or_introl eq_refl) Hs E).
Qed.

Lemma clampDispatchTime_ceil (floor : option Time) (c t : Time) :
  (clampDispatchTime floor (Some c) t <= c)%Z.
Proof.
  unfold clampDispatchTime.
  destruct floor as [f|]; repeat match goal with
                                 | |- context [(?a <? ?b)%Z] =>
                                     destruct (Z.ltb_spec a b)
                                 end; lia.
Qed.

Lemma clampDispatchTime_floor (f : Time) (ceil : option Time) (t : Time) :
  (forall c, ceil = Some c -> (f <= c)%Z) ->
  (f <= clampDispatchTime (Some f) ceil t)%Z.
Proof.
  intro H. unfold clampDispatchTime.
  destruct ceil as [c|]; [specialize (H c eq_refl)|];
    repeat match goal with
           | |- context [(?a <? ?b)%Z] => destruct (Z.ltb_spec a b)
           end; lia.
Qed.

Lemma clampDispatchTime_in_window (floor ceil : option Time) (t : Time) :
  in_window floor ceil (clampDispatchTime floor ceil t).
Proof.
  split.
  - intros c ->. apply clampDispatchTime_ceil.
  - intros f -> H. apply clampDispatchTime_floor. exact H.
Qed.

(** *** One record per line item *)

Lemma recordsOf_app (l1 l2 : list (option Allocation)) :
  recordsOf (l1 ++ l2) = recordsOf l1 ++ recordsOf l2.
Proof. unfold recordsOf. apply flat_map_app. Qed.

Lemma empty_slots {X : Type} (R : X -> Allocation -> Prop) (l : list X) :
  Forall2 (slot_ok R) l (map (fun _ => None) l)
  /\ recordsOf (map (fun _ : X => @None Allocation) l) = [].
Proof.
  induction l as [|x l [IH1 IH2]]; simpl; split; try constructor; auto.
  exact I.
Qed.

(** A loop whose body pushes at most one record. *)
Lemma foldM_slots {S A : Type} (f : S -> A -> option S)
      (out : S -> list Allocation) (R : A -> Allocation -> Prop)
      (l : list A) :
  (forall s x s', f s x = Some s' ->
                  out s' = out s
                  \/ exists a, out s' = out s ++ [a] /\ R x a) ->
  forall s s',
    foldM f l s = Some s' ->
    exists slots,
      Forall2 (slot_ok R) l slots /\ out s' = out s ++ recordsOf slots.
Proof.
  intro Hstep. induction l as [|x l IH]; intros s s' H; simpl in H.
  - injection H as <-. exists []. split; [constructor|].
    simpl. rewrite app_nil_r. reflexivity.
  - destruct (f s x) as [s1|] eqn:E; [|discriminate].
    destruct (IH s1 s' H) as (slots & F & Eo).
    destruct (Hstep s x s1 E) as [E1|(a & E1 & Ha)].
    + exists (None :: slots). split; [constructor; [exact I | exact F]|].
      rewrite Eo, E1. reflexivity.
    + exists (Some a :: slots). split; [constructor; [exact Ha | exact F]|].
      rewrite Eo, E1, <- app_assoc. reflexivity.
Qed.

Lemma Forall2_slots_pair {A B : Type} (R : A * B -> Allocation -> Prop)
      (x : A) (l : list B) (slots : list (option Allocation)) :
  Forall2 (slot_ok (fun y => R (x, y))) l slots ->
  Forall2 (slot_ok R) (map (pair x) l) slots.
Proof.
  induction 1 as [|y sl l slots Hy H IH]; simpl; constructor.
  - destruct sl; exact Hy.
  - exact IH.
Qed.

(** A loop over requests whose body leaves one slot for every line item
    of the request. *)
Lemma foldM_blocks {S A B : Type} (f : S -> A -> option S)
      (out : S -> list Allocation) (g : A -> list B)
      (R : A * B -> Allocation -> Prop) (l : list A) :
  (forall s x s', f s x = Some s' ->
                  exists slots,
                    Forall2 (slot_ok (fun y => R (x, y))) (g x) slots
                    /\ out s' = out s ++ recordsOf slots) ->
  forall s s',
    foldM f l s = Some s' ->
    exists slots,
      Forall2 (slot_ok R) (flat_map (fun x => map (pair x) (g x)) l) slots
      /\ out s' = out s ++ recordsOf slots.
Proof.
  intro Hstep. induction l as [|x l IH]; intros s s' H; simpl in H.
  - injection H as <-. exists []. split; [constructor|].
    simpl. rewrite app_nil_r. reflexivity.
  - destruct (f s x) as [s1|] eqn:E; [|discriminate].
    destruct (IH s1 s' H) as (slots & F & Eo).
    destruct (Hstep s x s1 E) as (slots1 & F1 & E1).
    exists (slots1 ++ slots). split.
    + simpl. apply Forall2_app; [apply Forall2_slots_pair; exact F1|exact F].
    + rewrite Eo, E1, recordsOf_app, <- app_assoc. reflexivity.
Qed.

(** X14: every allocation record of the baseline answers a line item of a
    request of the input: it carries the identifier of the request, the
    food type and the required quantity of the item, and as dispatch time
    the dispatch time of the request ([dispatchTime], else [createdOn], else
    the current time) clamped to the dispatch window, which therefore
    contains it.  No line item gets more than one record: set against the
    line items of the requests, in their order, the records are the records
    of the line items that got one, each answering its own line item. *)
Theorem allocateRegular_records
        (haversineDistanceKm : Coordinates -> Coordinates -> Q)
        (ngoOrgs : list NgoOrg) (now : Time) (requests : list Request)
        (batches0 : list Batch) (warehouses ngos : list Node)
        (floor ceil : option Time) (allocations : list Allocation) :
  allocateRegular haversineDistanceKm ngoOrgs now requests batches0 warehouses
                  ngos floor ceil = Some allocations ->
  Forall (fun a =>
            exists request item,
              In request requests /\ In item (items request)
              /\ answers request item
                   (clampDispatchTime floor ceil
                                      (requestDispatchTime now request)) a
              /\ in_window floor ceil (dispatchTime a))
         allocations
  /\ one_record_per_item
       (fun p a =>
          answers (fst p) (snd p)
                  (clampDispatchTime floor ceil
                                     (requestDispatchTime now (fst p))) a
          /\ in_window floor ceil (dispatchTime a))
       (lineItems requests) allocations.
Proof.
  intro H. unfold allocateRegular in H.
  destruct (foldM _ requests (batches0, [])) as [[unused allocs]|] eqn:E;
    [|discriminate].
  injection H as <-.
  set (P := fun a : Allocation =>
              exists request item,
                In request requests /\ In item (items request)
                /\ answers request item
                     (clampDispatchTime floor ceil
                                        (requestDispatchTime now request)) a
                /\ in_window floor ceil (dispatchTime a)).
  (* one item: at most one record, which answers the item *)
  assert (Hitem : forall request dispatch wbd st st' item,
             allocateRegularItem request dispatch wbd st item = Some st' ->
             snd st' = snd st
             \/ exists a, snd st' = snd st ++ [a]
                          /\ answers request item dispatch a).
  { intros request dispatch wbd [u0 a0] [u1 a1] item Hs.
    destruct (allocateRegularItem_inv request dispatch wbd u0 a0 item)
      as (u2 & a2 & E2 & Hcases).
    rewrite E2 in Hs. injection Hs as <- <-. simpl.
    destruct Hcases
      as [(_ & -> & _)|(w & d & remaining & used & _ & _ & [(_ & ->)|(_ & ->)])];
      try (left; reflexivity).
    right. eexists. split; [reflexivity|]. repeat split. }
  split.
  - change (Forall P (snd (unused, allocs))).
    revert E.
    apply (foldM_invariant_in _ (fun s => Forall P (snd s)));
      [|constructor].
    intros st request st' Hin Hst Hreq. unfold allocateRegularRequest in Hreq.
    destruct (find _ ngoOrgs) as [ngoOrg|];
      [|injection Hreq as <-; exact Hst].
    destruct (find _ ngos) as [ngoNode|];
      [|injection Hreq as <-; exact Hst].
    destruct (warehousesByDistanceFrom _ _ _) as [|wd wbd];
      [injection Hreq as <-; exact Hst|].
    revert Hreq.
    apply (foldM_invariant_in _ (fun s => Forall P (snd s))); [|exact Hst].
    intros s item s' Hitem_in Hs Hstep.
    destruct (Hitem _ _ _ _ _ _ Hstep) as [->|(a & -> & Ha)]; [exact Hs|].
    apply Forall_app. split; [exact Hs|]. constructor; [|constructor].
    exists request, item. split; [exact Hin|]. split; [exact Hitem_in|].
    split; [exact Ha|].
    destruct Ha as (_ & _ & _ & ->). apply clampDispatchTime_in_window.
  - set (R := fun (p : Request * RequestItem) (a : Allocation) =>
                answers (fst p) (snd p)
                        (clampDispatchTime floor ceil
                                           (requestDispatchTime now (fst p))) a
                /\ in_window floor ceil (dispatchTime a)).
    destruct (foldM_blocks
                (allocateRegularRequest haversineDistanceKm ngoOrgs now
                                        floor ceil warehouses ngos)
                (@snd (list Batch) (list Allocation)) items R requests)
      with (s := (batches0, @nil Allocation)) (s' := (unused, allocs))
      as (slots & F & Eo); [|exact E|exists slots; split; [exact F|exact Eo]].
    intros st request st' Hreq. unfold allocateRegularRequest in Hreq.
    assert (Hskip : st' = st ->
                    exists slots,
                      Forall2 (slot_ok (fun y => R (request, y)))
                              (items request) slots
                      /\ snd st' = snd st ++ recordsOf slots).
    { intros ->. exists (map (fun _ => None) (items request)).
      destruct (empty_slots (fun y => R (request, y)) (items request))
        as [F0 E0].
      split; [exact F0|]. rewrite E0, app_nil_r. reflexivity. }
    destruct (find _ ngoOrgs) as [ngoOrg|];
      [|injection Hreq as <-; apply Hskip; reflexivity].
    destruct (find _ ngos) as [ngoNode|];
      [|injection Hreq as <-; apply Hskip; reflexivity].
    destruct (warehousesByDistanceFrom _ _ _) as [|wd wbd];
      [injection Hreq as <-; apply Hskip; reflexivity|].
    revert Hreq. apply foldM_slots.
    intros s item s' Hstep.
    destruct (Hitem _ _ _ _ _ _ Hstep) as [->|(a & -> & Ha)];
      [left; reflexivity|].
    right. exists a. split; [reflexivity|]. split; [exact Ha|].
    destruct Ha as (_ & _ & _ & ->). apply clampDispatchTime_in_window.
Qed.

Lemma allocateRegular_records_witness :
  exists a,
    allocateRegular gridDistanceKm ngo_orgs 0 [scenario2_request]
                    scenario2_batches [warehouseB; warehouseA] [ngo_node]
                    (Some 0%Z) (Some (12 * hour_ms)%Z) = Some [a]
    /\ dispatchTime a = (12 * hour_ms)%Z
    /\ in_window (Some 0%Z) (Some (12 * hour_ms)%Z) (dispatchTime a)
    /\ exists slots,
        Forall2 (slot_ok
                   (fun p a =>
                      answers (fst p) (snd p)
                              (clampDispatchTime
                                 (Some 0%Z) (Some (12 * hour_ms)%Z)
                                 (requestDispatchTime 0 (fst p))) a
                      /\ in_window (Some 0%Z) (Some (12 * hour_ms)%Z)
                                   (dispatchTime a)))
                [(scenario2_request, mkRequestItem "rice" 100)] slots
        /\ [a] = recordsOf slots.
Proof.
  eexists.
  match goal with
  | |- ?L = ?R /\ _ => assert (E : L = R) by (vm_compute; reflexivity)
  end.
  split; [exact E|].
  destruct (allocateRegular_records _ _ _ _ _ _ _ _ _ _ E) as [H H2].
  inversion H as [|? ? (request & item & _ & _ & _ & Hw) _]; subst.
  split; [reflexivity|]. split; [exact Hw|]. exact H2.
Defined.

(** The warehouse of a running best is one of the warehouses evaluated. *)
Lemma evaluateCandidate_warehouse (exp : Q -> Q) (env : Env)
      (unused : list Batch) (item : RequestItem) (dispatch : Time)
      (urgencyBoost : Q) (P : Node -> Prop) (best : Best * Best)
      (wd : Node * Q) :
  (forall w, bestWarehouse (fst best) = Some w -> P w) ->
  (forall w, bestWarehouse (snd best) = Some w -> P w) ->
  P (fst wd) ->
  (forall w, bestWarehouse
               (fst (evaluateCandidate exp env unused item dispatch
                                       urgencyBoost best wd)) = Some w ->
             P w)
  /\ (forall w, bestWarehouse
                  (snd (evaluateCandidate exp env unused item dispatch
                                          urgencyBoost best wd)) = Some w ->
                P w).
Proof.
  destruct best as [bestOverall bestInCap]. destruct wd as [w0 d].
  simpl fst. simpl snd. intros H1 H2 H0. unfold evaluateCandidate.
  destruct (chooseTier _ _ _) as [[avail usingRelaxed] usingFallback].
  destruct avail as [|c avail]; [split; assumption|].
  destruct (weightedLoop _ _ _ _ _) as [wf wp].
  split.
  - simpl fst. destruct (js_gt _ (bestScore bestOverall)); [|exact H1].
    simpl. intros w Hw. injection Hw as <-. exact H0.
  - simpl snd.
    destruct (Qle_bool d (maxPreferredDistanceKm env)
              && js_gt _ (bestScore bestInCap)); [|exact H2].
    simpl. intros w Hw. injection Hw as <-. exact H0.
Qed.

Lemma evaluateCandidates_warehouse (exp : Q -> Q) (env : Env)
      (unused : list Batch) (item : RequestItem) (dispatch : Time)
      (urgencyBoost : Q) (P : Node -> Prop) (wds : list (Node * Q)) :
  Forall (fun wd => P (fst wd)) wds ->
  forall best,
    (forall w, bestWarehouse (fst best) = Some w -> P w) ->
    (forall w, bestWarehouse (snd best) = Some w -> P w) ->
    (forall w, bestWarehouse
                 (fst (evaluateCandidates exp env unused item dispatch
                                          urgencyBoost wds best)) = Some w ->
               P w)
    /\ (forall w, bestWarehouse
                    (snd (evaluateCandidates exp env unused item dispatch
                                             urgencyBoost wds best)) = Some w ->
                  P w).
Proof.
  unfold evaluateCandidates.
  induction 1 as [|wd wds Hwd Hwds IH]; intros best H1 H2; simpl.
  - split; assumption.
  - destruct (evaluateCandidate_warehouse exp env unused item dispatch
                urgencyBoost P best wd H1 H2 Hwd) as [K1 K2].
    apply IH; assumption.
Qed.

(** The winner of an item is a warehouse of the input within the hard
    distance cap. *)
Lemma selectBest_within_cap
      (haversineDistanceKm : Coordinates -> Coordinates -> Q) (exp : Q -> Q)
      (env : Env) (unused : list Batch) (item : RequestItem)
      (dispatch : Time) (urgencyBoost : Q) (ngoNode : Node)
      (warehouses : list Node) (w : Node) :
  bestWarehouse (selectBest haversineDistanceKm exp env unused item dispatch
                            urgencyBoost ngoNode warehouses) = Some w ->
  In w warehouses
  /\ 0 <= haversineDistanceKm (location ngoNode) (location w)
  /\ haversineDistanceKm (location ngoNode) (location w)
     <= hardMaxDistanceKm env.
Proof.
  set (P := fun w : Node =>
              In w warehouses
              /\ 0 <= haversineDistanceKm (location ngoNode) (location w)
              /\ haversineDistanceKm (location ngoNode) (location w)
                 <= hardMaxDistanceKm env).
  assert (Hall : Forall (fun wd : Node * Q => P (fst wd))
                        (allWarehouseCandidatesOf haversineDistanceKm env
                                                  ngoNode warehouses)).
  { apply Forall_forall. intros [w0 d] Hin. unfold allWarehouseCandidatesOf in Hin.
    apply js_sort_In in Hin. apply filter_In in Hin. destruct Hin as [Hin Hp].
    apply in_map_iff in Hin. destruct Hin as (w1 & E & Hw1).
    injection E as <- <-. simpl in Hp. apply andb_prop in Hp.
    destruct Hp as [Hp1 Hp2]. apply Qle_bool_iff in Hp1, Hp2.
    simpl. repeat split; assumption. }
  assert (Hno : forall w0, bestWarehouse noBest = Some w0 -> P w0)
    by (intros w0 H; discriminate H).
  unfold selectBest.
  set (all := allWarehouseCandidatesOf haversineDistanceKm env ngoNode
                                       warehouses) in *.
  set (primary := firstn _ all).
  assert (Hprim : Forall (fun wd : Node * Q => P (fst wd)) primary)
    by (apply firstn_Forall; exact Hall).
  destruct (evaluateCandidates_warehouse exp env unused item dispatch
              urgencyBoost P primary Hprim (noBest, noBest) Hno Hno)
    as [A1 A2].
  set (best1 := evaluateCandidates exp env unused item dispatch urgencyBoost
                                   primary (noBest, noBest)) in *.
  destruct (evaluateCandidates_warehouse exp env unused item dispatch
              urgencyBoost P all Hall best1 A1 A2) as [B1 B2].
  match goal with
  | |- context [if ?c then evaluateCandidates _ _ _ _ _ _ all best1
                else best1] => destruct c
  end.
  - destruct (evaluateCandidates exp env unused item dispatch urgencyBoost
                                 all best1) as [bo bi].
    simpl in B1, B2.
    destruct (match bestWarehouse bi with Some _ => _ | None => false end);
      intro H; [apply B2 | apply B1]; exact H.
  - destruct best1 as [bo bi]. simpl in A1, A2.
    destruct (match bestWarehouse bi with Some _ => _ | None => false end);
      intro H; [apply A2 | apply A1]; exact H.
Qed.

(** X15: every allocation record of the scored allocator answers a line
    item of a request of the input, with the dispatch time of the request
    (or the reference date of a run without a window) clamped to the
    dispatch window, which therefore contains it; it names a warehouse of
    the input, and its distance is not negative and within the hard cap
    ([ML_HARD_MAX_DISTANCE_KM], 450 km by default).  No line item gets more
    than one record: the requests are treated in the order given, or with
    the cron schedule in the order of their dispatch times, and set against
    the line items in that order the records are the records of the line
    items that got one, each answering its own line item. *)
Theorem allocateML_records
        (haversineDistanceKm : Coordinates -> Coordinates -> Q)
        (exp : Q -> Q) (ngoOrgs : list NgoOrg) (now : Time)
        (predict : list Node -> list Request -> list Batch ->
                   CallOutcome (option (list MlResult)))
        (planTransfers : PlannerRequest ->
                         CallOutcome (option (list TransferSuggestion)))
        (options : Options) (env : Env) (requests : list Request)
        (batches0 : list Batch) (warehouses ngos : list Node)
        (allocations : list Allocation) (trace : TransferPlannerDebug) :
  allocateML haversineDistanceKm exp ngoOrgs now predict planTransfers
             options env requests batches0 warehouses ngos
  = Some (allocations, trace) ->
  Forall (fun a =>
            exists request item w,
              In request requests /\ In item (items request)
              /\ answers request item (mlDispatchTime now options request) a
              /\ in_window (dispatchTimeFloor options)
                           (dispatchTimeCeil options) (dispatchTime a)
              /\ In w warehouses
              /\ warehouse a = node_id w
              /\ warehouseName a = node_name w
              /\ 0 <= distance_km a
              /\ distance_km a <= hardMaxDistanceKm env)
         allocations
  /\ exists todo,
      Permutation todo requests
      /\ (useTransferPlannerCron options env = false -> todo = requests)
      /\ (useTransferPlannerCron options env = true ->
          StronglySorted
            (fun r1 r2 => (requestSortTime r1 <= requestSortTime r2)%Z) todo)
      /\ one_record_per_item
           (fun p a =>
              answers (fst p) (snd p)
                      (mlDispatchTime now options (fst p)) a
              /\ in_window (dispatchTimeFloor options)
                           (dispatchTimeCeil options) (dispatchTime a)
              /\ exists w,
                  In w warehouses
                  /\ warehouse a = node_id w
                  /\ warehouseName a = node_name w
                  /\ 0 <= distance_km a
                  /\ distance_km a <= hardMaxDistanceKm env)
           (lineItems todo) allocations.
Proof.
  unfold allocateML. intro H.
  set (P := fun a : Allocation =>
              exists request item w,
                In request requests /\ In item (items request)
                /\ answers request item (mlDispatchTime now options request) a
                /\ in_window (dispatchTimeFloor options)
                             (dispatchTimeCeil options) (dispatchTime a)
                /\ In w warehouses
                /\ warehouse a = node_id w
                /\ warehouseName a = node_name w
                /\ 0 <= distance_km a
                /\ distance_km a <= hardMaxDistanceKm env).
  match type of H with
  | match foldM ?f ?l ?s with _ => _ end = _ =>
      destruct (foldM f l s) as [st|] eqn:E; [|discriminate];
        set (todo := l) in *; set (st1 := s) in *
  end.
  injection H as <- _.
  assert (Hst1 : ml_allocations st1 = []).
  { unfold st1.
    destruct (canUseTransferPlanner options env
              && negb (useTransferPlannerCron options env));
      [|reflexivity].
    destruct (transferPlannerStep_rebalanced planTransfers
                (plannerTuning options env) warehouses options now OneShot
                None (referenceDate options)
                (mkMLState batches0 []
                   (mkTransferPlannerDebug
                      (canUseTransferPlanner options env)
                      (simulationOnly options)
                      (transferPlannerCronHoursOf options env)
                      O O O O None O O [] O None [])
                   O None)) as [Hr _].
    exact Hr. }
  assert (Htodo : Permutation todo requests).
  { unfold todo. destruct (useTransferPlannerCron options env);
      [apply js_sort_perm | apply Permutation_refl]. }
  (* one item: at most one record, which answers the item *)
  assert (Hitem : forall request dispatch boost ngoNode s s' item,
             allocateMLItem haversineDistanceKm exp env request dispatch
                            boost ngoNode warehouses s item = Some s' ->
             ml_allocations s' = ml_allocations s
             \/ exists a w,
                 ml_allocations s' = ml_allocations s ++ [a]
                 /\ answers request item dispatch a
                 /\ In w warehouses
                 /\ warehouse a = node_id w
                 /\ warehouseName a = node_name w
                 /\ 0 <= distance_km a
                 /\ distance_km a <= hardMaxDistanceKm env).
  { intros request dispatch boost ngoNode s s' item Hs.
    destruct (allocateMLItem_inv haversineDistanceKm exp env request dispatch
                boost ngoNode warehouses s item) as (s2 & E2 & Hcases).
    rewrite E2 in Hs. injection Hs as <-.
    destruct Hcases as [(_ & ->)|(w & u' & remaining & used & Hw & _ & ->)];
      [left; reflexivity|].
    right. destruct (selectBest_within_cap _ _ _ _ _ _ _ _ _ _ Hw)
      as (W1 & W2 & W3).
    eexists. exists w. simpl. split; [reflexivity|].
    repeat split; assumption. }
  (* the cron schedule leaves the records alone *)
  assert (Hcron : forall request s,
             ml_allocations
               (match useTransferPlannerCron options env,
                      transferPlannerCronHoursOf options env with
                | true, Some hours =>
                    cronSchedule planTransfers (plannerTuning options env)
                                 warehouses options now (maxCronRuns env)
                                 hours (mlDispatchTime now options request) s
                | _, _ => s
                end)
             = ml_allocations s).
  { intros request s.
    destruct (useTransferPlannerCron options env); [|reflexivity].
    destruct (transferPlannerCronHoursOf options env) as [hours|];
      [|reflexivity].
    apply cronSchedule_rebalanced. }
  split.
  - change (Forall P (ml_allocations st)). revert E.
    apply (foldM_invariant_in _ (fun s => Forall P (ml_allocations s)));
      [|rewrite Hst1; constructor].
    intros s request s' Hin Hs Hreq. unfold allocateMLRequest in Hreq.
    destruct (find _ ngoOrgs) as [ngoOrg|];
      [|injection Hreq as <-; exact Hs].
    destruct (find _ ngos) as [ngoNode|];
      [|injection Hreq as <-; exact Hs].
    revert Hreq.
    apply (foldM_invariant_in _ (fun s => Forall P (ml_allocations s)));
      [|rewrite Hcron; exact Hs].
    intros s0 item s0' Hitem_in Hs0 Hstep.
    destruct (Hitem _ _ _ _ _ _ _ Hstep)
      as [->|(a & w & -> & Ha & W1 & W2 & W3 & W4 & W5)]; [exact Hs0|].
    apply Forall_app. split; [exact Hs0|]. constructor; [|constructor].
    exists request, item, w.
    split; [apply (Permutation_in _ Htodo); exact Hin|].
    split; [exact Hitem_in|]. split; [exact Ha|].
    split; [|repeat split; assumption].
    destruct Ha as (_ & _ & _ & ->). unfold mlDispatchTime.
    apply clampDispatchTime_in_window.
  - exists todo. split; [exact Htodo|].
    split; [intro Hc; unfold todo; rewrite Hc; reflexivity|].
    split.
    { intro Hc. unfold todo. rewrite Hc.
      apply (StronglySorted_impl
               (fun a b => (requestSortTime a <=? requestSortTime b)%Z = true)
               _ (fun _ => True)).
      - intros a b _ _ Hab. apply Z.leb_le. exact Hab.
      - rewrite Forall_forall. auto.
      - apply (js_sort_sorted _ (fun _ => True)).
        + intros a b _ _. rewrite !Z.leb_le. lia.
        + intros a b c _ _ _. rewrite !Z.leb_le. lia.
        + rewrite Forall_forall. auto. }
    set (R := fun (p : Request * RequestItem) (a : Allocation) =>
                answers (fst p) (snd p)
                        (mlDispatchTime now options (fst p)) a
                /\ in_window (dispatchTimeFloor options)
                             (dispatchTimeCeil options) (dispatchTime a)
                /\ exists w,
                    In w warehouses
                    /\ warehouse a = node_id w
                    /\ warehouseName a = node_name w
                    /\ 0 <= distance_km a
                    /\ distance_km a <= hardMaxDistanceKm env).
    match type of E with
    | foldM ?f _ _ = _ =>
        destruct (foldM_blocks f ml_allocations items R todo)
        with (s := st1) (s' := st) as (slots & F & Eo);
          [|exact E
           |exists slots; split; [exact F|]; rewrite Eo, Hst1; reflexivity]
    end.
    intros s request s' Hreq. unfold allocateMLRequest in Hreq.
    assert (Hskip : s' = s ->
                    exists slots,
                      Forall2 (slot_ok (fun y => R (request, y)))
                              (items request) slots
                      /\ ml_allocations s'
                         = ml_allocations s ++ recordsOf slots).
    { intros ->. exists (map (fun _ => None) (items request)).
      destruct (empty_slots (fun y => R (request, y)) (items request))
        as [F0 E0].
      split; [exact F0|]. rewrite E0, app_nil_r. reflexivity. }
    destruct (find _ ngoOrgs) as [ngoOrg|];
      [|injection Hreq as <-; apply Hskip; reflexivity].
    destruct (find _ ngos) as [ngoNode|];
      [|injection Hreq as <-; apply Hskip; reflexivity].
    match type of Hreq with
    | foldM ?f ?l ?s0 = _ =>
        destruct (foldM_slots f ml_allocations
                              (fun y => R (request, y)) l)
        with (s := s0) (s' := s') as (slots & F & Eo); [|exact Hreq|]
    end.
    + intros s0 item s0' Hstep.
      destruct (Hitem _ _ _ _ _ _ _ Hstep)
        as [->|(a & w & -> & Ha & W1 & W2 & W3 & W4 & W5)];
        [left; reflexivity|].
      right. exists a. split; [reflexivity|]. split; [exact Ha|].
      split.
      * destruct Ha as (_ & _ & _ & ->). unfold mlDispatchTime.
        apply clampDispatchTime_in_window.
      * exists w. repeat split; assumption.
    + exists slots. split; [exact F|]. rewrite Eo, Hcron. reflexivity.
Qed.

Lemma allocateML_records_witness :
  exists a trace,
    allocateML gridDistanceKm exampleExp ngo_orgs 0 predictDown plannerDown
               noOptions defaultEnv [scenario2_request] scenario2_batches
               [warehouseB; warehouseA] [ngo_node]
    = Some ([a], trace)
    /\ distance_km a <= 450
    /\ exists todo slots,
        todo = [scenario2_request]
        /\ List.length slots = List.length (lineItems todo)
        /\ [a] = recordsOf slots.
Proof.
  eexists. eexists.
  match goal with
  | |- ?L = ?R /\ _ => assert (E : L = R) by (vm_compute; reflexivity)
  end.
  split; [exact E|].
  destruct (allocateML_records _ _ _ _ _ _ _ _ _ _ _ _ _ _ E)
    as [H1 (todo & _ & H2 & _ & slots & F & Es)].
  inversion H1
    as [|? ? (request & item & w & _ & _ & _ & _ & _ & _ & _ & _ & Hd) _];
    subst.
  split; [exact Hd|].
  exists todo, slots. split; [apply H2; reflexivity|].
  split; [symmetry; apply (Forall2_length F) | exact Es].
Defined.

(* ------------------------------------------------------------------ *)
(** ** The planner inside a run of the scored allocator *)

Lemma foldM_ext {S A : Type} (f g : S -> A -> option S) (l : list A) :
  (forall s x, f s x = g s x) -> forall s, foldM f l s = foldM g l s.
Proof.
  intro H. induction l as [|x l IH]; intro s; simpl; [reflexivity|].
  rewrite H. destruct (g s x); [apply IH | reflexivity].
Qed.

Lemma allocateMLItem_keeps_trace
      (haversineDistanceKm : Coordinates -> Coordinates -> Q) (exp : Q -> Q)
      (env : Env) (request : Request) (dispatch : Time) (boost : Q)
      (ngoNode : Node) (warehouses : list Node) (st st' : MLState)
      (item : RequestItem) :
  allocateMLItem haversineDistanceKm exp env request dispatch boost ngoNode
                 warehouses st item = Some st' ->
  ml_debug st' = ml_debug st /\ cronRuns st' = cronRuns st.
Proof.
  intro H.
  destruct (allocateMLItem_inv haversineDistanceKm exp env request dispatch
              boost ngoNode warehouses st item) as (s2 & E2 & Hcases).
  rewrite E2 in H. injection H as <-.
  destruct Hcases as [(_ & ->)|(w & u' & remaining & used & _ & _ & ->)];
    split; reflexivity.
Qed.

Lemma allocateMLItems_keep_trace
      (haversineDistanceKm : Coordinates -> Coordinates -> Q) (exp : Q -> Q)
      (env : Env) (request : Request) (dispatch : Time) (boost : Q)
      (ngoNode : Node) (warehouses : list Node) (l : list RequestItem) :
  forall st st',
    foldM (allocateMLItem haversineDistanceKm exp env request dispatch boost
                          ngoNode warehouses) l st = Some st' ->
    ml_debug st' = ml_debug st /\ cronRuns st' = cronRuns st.
Proof.
  induction l as [|item l IH]; intros st st' H; simpl in H.
  - injection H as <-. split; reflexivity.
  - destruct (allocateMLItem _ _ _ _ _ _ _ _ st item) as [s1|] eqn:E;
      [|discriminate].
    destruct (allocateMLItem_keeps_trace _ _ _ _ _ _ _ _ _ _ _ E) as [A1 A2].
    destruct (IH s1 st' H) as [B1 B2]. split; congruence.
Qed.

(** X16: a run whose planner is not enabled never consults the planner.
    Its result is the same whatever the planner service would answer, and
    its trace records the planner as disabled, with no attempt, no skipped
    run and an empty timeline. *)
Theorem allocateML_planner_disabled
        (haversineDistanceKm : Coordinates -> Coordinates -> Q)
        (exp : Q -> Q) (ngoOrgs : list NgoOrg) (now : Time)
        (predict : list Node -> list Request -> list Batch ->
                   CallOutcome (option (list MlResult)))
        (planTransfers planTransfers' :
           PlannerRequest -> CallOutcome (option (list TransferSuggestion)))
        (options : Options) (env : Env) (requests : list Request)
        (batches0 : list Batch) (warehouses ngos : list Node) :
  canUseTransferPlanner options env = false ->
  allocateML haversineDistanceKm exp ngoOrgs now predict planTransfers
             options env requests batches0 warehouses ngos
  = allocateML haversineDistanceKm exp ngoOrgs now predict planTransfers'
               options env requests batches0 warehouses ngos
  /\ forall allocations trace,
      allocateML haversineDistanceKm exp ngoOrgs now predict planTransfers
                 options env requests batches0 warehouses ngos
      = Some (allocations, trace) ->
      dbg_enabled trace = false /\ attemptedRuns trace = O
      /\ skippedRuns trace = O /\ timeline trace = [].
Proof.
  intro Hoff.
  assert (Hcron : useTransferPlannerCron options env = false).
  { unfold useTransferPlannerCron. rewrite Hoff. reflexivity. }
  unfold allocateML. rewrite Hoff, Hcron. simpl andb. cbv iota.
  match goal with
  | |- context [allocateMLRequest _ _ _ _ _ _ _ ?sg _ _] =>
      set (signals := sg)
  end.
  split.
  - rewrite (foldM_ext
               (allocateMLRequest haversineDistanceKm exp ngoOrgs now
                                  planTransfers options env signals
                                  warehouses ngos)
               (allocateMLRequest haversineDistanceKm exp ngoOrgs now
                                  planTransfers' options env signals
                                  warehouses ngos)); [reflexivity|].
    intros s request. unfold allocateMLRequest. rewrite Hcron. reflexivity.
  - intros allocations trace H.
    match type of H with
    | match foldM ?f ?l ?s with _ => _ end = _ =>
        destruct (foldM f l s) as [st|] eqn:E; [|discriminate];
          assert (K : ml_debug st = ml_debug s)
    end.
    { revert E.
      apply (foldM_invariant _ (fun s0 => ml_debug s0 = _)); [|reflexivity].
      intros s request s' Hs Hreq. unfold allocateMLRequest in Hreq.
      rewrite Hcron in Hreq.
      destruct (find _ ngoOrgs) as [ngoOrg|];
        [|injection Hreq as <-; exact Hs].
      destruct (find _ ngos) as [ngoNode|];
        [|injection Hreq as <-; exact Hs].
      apply allocateMLItems_keep_trace in Hreq. destruct Hreq as [-> _].
      exact Hs. }
    injection H as _ <-. rewrite K. simpl. auto.
Qed.

Lemma allocateML_planner_disabled_witness :
  allocateML gridDistanceKm exampleExp ngo_orgs 0 predictDown plannerDown
             noOptions defaultEnv [scenario2_request] imbalanced_batches
             [warehouseB; warehouseA] [ngo_node]
  = allocateML gridDistanceKm exampleExp ngo_orgs 0 predictDown plannerMoves
               noOptions defaultEnv [scenario2_request] imbalanced_batches
               [warehouseB; warehouseA] [ngo_node].
Proof.
  apply (allocateML_planner_disabled gridDistanceKm exampleExp ngo_orgs 0
           predictDown plannerDown plannerMoves noOptions defaultEnv
           [scenario2_request] imbalanced_batches [warehouseB; warehouseA]
           [ngo_node]).
  reflexivity.
Defined.

Lemma transferPlannerStep_trace
      (planTransfers : PlannerRequest ->
                       CallOutcome (option (list TransferSuggestion)))
      (tuning : PlannerTuning) (warehouses : list Node) (options : Options)
      (now : Time) (reason : PlannerReason) (runAt skipAt : option Time)
      (st : MLState) :
  let st' := transferPlannerStep planTransfers tuning warehouses options now
                                 reason runAt skipAt st in
  plannerSteps (ml_debug st') = S (plannerSteps (ml_debug st))
  /\ (trace_ok (ml_debug st) -> trace_ok (ml_debug st'))
  /\ cronRuns st' = cronRuns st
  /\ nextCronRunAt st' = nextCronRunAt st.
Proof.
  unfold transferPlannerStep, plannerSteps, trace_ok.
  destruct (shouldRunTransferPlanner tuning warehouses (ml_unusedBatches st))
    as [run stats].
  destruct run.
  - unfold runTransferPlannerOnce.
    destruct (planTransfers _) as [err|transfers].
    + simpl. rewrite length_app. simpl.
      repeat split; try lia; intros [H1 H2]; lia.
    + destruct (applyWarehouseTransfersToBatches _ _ _) as [batches' applied].
      simpl. rewrite length_app. simpl.
      repeat split; try lia; intros [H1 H2]; lia.
  - simpl. rewrite length_app. simpl.
    repeat split; try lia; intros [H1 H2]; lia.
Qed.

Lemma cronTicks_trace
      (planTransfers : PlannerRequest ->
                       CallOutcome (option (list TransferSuggestion)))
      (tuning : PlannerTuning) (warehouses : list Node) (options : Options)
      (now : Time) (hours : Q) (dispatch : Time) (budget : nat) :
  forall st,
    let st' := cronTicks planTransfers tuning warehouses options now budget
                         hours dispatch st in
    (plannerSteps (ml_debug st') + cronRuns st
     = plannerSteps (ml_debug st) + cronRuns st')%nat
    /\ (cronRuns st <= cronRuns st' <= cronRuns st + budget)%nat
    /\ (trace_ok (ml_debug st) -> trace_ok (ml_debug st')).
Proof.
  induction budget as [|budget IH]; intro st; simpl.
  - split; [lia|]. split; [lia|]. auto.
  - destruct (nextCronRunAt st) as [next|];
      [|split; [lia|]; split; [lia|]; auto].
    destruct (Qle_bool _ _); [|split; [lia|]; split; [lia|]; auto].
    match goal with
    | |- context [cronTicks _ _ _ _ _ budget hours dispatch ?s] =>
        set (s1 := s)
    end.
    destruct (IH s1) as (A1 & A2 & A3).
    match type of s1 with
    | _ => destruct (transferPlannerStep_trace planTransfers tuning warehouses
                       options now (CronTick hours)
                       (Some (js_trunc (inject_Z next + hours * 3600 * 1000)))
                       (Some (js_trunc (inject_Z next + hours * 3600 * 1000)))
                       (set_cron st (S (cronRuns st))
                          (Some (js_trunc (inject_Z next
                                           + hours * 3600 * 1000)))))
        as (B1 & B2 & B3 & B4)
    end.
    fold s1 in B1, B2, B3, B4. simpl in B1, B2, B3.
    split; [lia|]. split; [lia|]. intro H. apply A3, B2, H.
Qed.

Lemma cronSchedule_trace
      (planTransfers : PlannerRequest ->
                       CallOutcome (option (list TransferSuggestion)))
      (tuning : PlannerTuning) (warehouses : list Node) (options : Options)
      (now : Time) (maxRuns hours : Q) (dispatch : Time) (st : MLState) :
  let st' := cronSchedule planTransfers tuning warehouses options now maxRuns
                          hours dispatch st in
  (plannerSteps (ml_debug st) = cronRuns st ->
   plannerSteps (ml_debug st') = cronRuns st')
  /\ ((cronRuns st <= Z.to_nat (Qceiling maxRuns))%nat ->
      (cronRuns st' <= Z.to_nat (Qceiling maxRuns))%nat)
  /\ (trace_ok (ml_debug st) -> trace_ok (ml_debug st')).
Proof.
  unfold cronSchedule.
  match goal with
  | |- context [cronTicks _ _ _ _ _ (cronBudget maxRuns ?s) _ _ _] =>
      set (st1 := s)
  end.
  assert (H1 : (plannerSteps (ml_debug st) = cronRuns st ->
                plannerSteps (ml_debug st1) = cronRuns st1)
               /\ ((cronRuns st <= Z.to_nat (Qceiling maxRuns))%nat ->
                   (cronRuns st1 <= Z.to_nat (Qceiling maxRuns))%nat)
               /\ (trace_ok (ml_debug st) -> trace_ok (ml_debug st1))).
  { unfold st1. destruct (nextCronRunAt st) as [next|]; [tauto|].
    destruct (cronBudget maxRuns _) as [|k] eqn:Eb; [simpl; tauto|].
    match goal with
    | |- context [transferPlannerStep _ _ _ _ _ ?r ?a ?b ?s] =>
        destruct (transferPlannerStep_trace planTransfers tuning warehouses
                    options now r a b s) as (B1 & B2 & B3 & B4);
        set (s2 := transferPlannerStep planTransfers tuning warehouses
                                       options now r a b s) in *;
        assert (D1 : ml_debug s = ml_debug st) by reflexivity;
        assert (D2 : cronRuns s = S (cronRuns st)) by reflexivity;
        rewrite D1 in B1, B2; rewrite D2 in B3
    end.
    unfold cronBudget in Eb. cbn [cronRuns set_cron] in Eb.
    split; [intro; lia|]. split; [intro; lia|]. exact B2. }
  destruct H1 as (A1 & A2 & A3).
  destruct (cronTicks_trace planTransfers tuning warehouses options now hours
              dispatch (cronBudget maxRuns st1) st1) as (C1 & C2 & C3).
  cbv zeta in C1, C2, C3. unfold cronBudget in *.
  split; [intro H; specialize (A1 H); lia|].
  split; [intro H; specialize (A2 H); lia|].
  intro H. apply C3, A3, H.
Qed.

(** X17: the trace of the planner is a faithful account.  After any run of
    the scored allocator every attempt is counted as a completed run or as
    an error, and the timeline has one entry per attempt and per skipped
    run.  Without the cron schedule an enabled planner looks at the
    imbalance exactly once; with the cron schedule it looks at it at most
    [ML_TRANSFER_CRON_MAX_RUNS] times (250 by default), whatever the number
    of requests and the span of their dispatch times. *)
Theorem planner_trace_accounts
        (haversineDistanceKm : Coordinates -> Coordinates -> Q)
        (exp : Q -> Q) (ngoOrgs : list NgoOrg) (now : Time)
        (predict : list Node -> list Request -> list Batch ->
                   CallOutcome (option (list MlResult)))
        (planTransfers : PlannerRequest ->
                         CallOutcome (option (list TransferSuggestion)))
        (options : Options) (env : Env) (requests : list Request)
        (batches0 : list Batch) (warehouses ngos : list Node)
        (allocations : list Allocation) (trace : TransferPlannerDebug) :
  allocateML haversineDistanceKm exp ngoOrgs now predict planTransfers
             options env requests batches0 warehouses ngos
  = Some (allocations, trace) ->
  trace_ok trace
  /\ (canUseTransferPlanner options env = true ->
      useTransferPlannerCron options env = false ->
      plannerSteps trace = 1%nat)
  /\ (useTransferPlannerCron options env = true ->
      (plannerSteps trace <= Z.to_nat (Qceiling (maxCronRuns env)))%nat).
Proof.
  unfold allocateML. intro H.
  match type of H with
  | match foldM ?f ?l ?s with _ => _ end = _ =>
      destruct (foldM f l s) as [st|] eqn:E; [|discriminate];
        set (st1 := s) in *
  end.
  injection H as _ <-.
  (* a request: the counters move with the cron schedule only *)
  assert (Hreq : forall signals s request s',
             allocateMLRequest haversineDistanceKm exp ngoOrgs now
                               planTransfers options env signals warehouses
                               ngos s request = Some s' ->
             (trace_ok (ml_debug s) -> trace_ok (ml_debug s'))
             /\ (useTransferPlannerCron options env = false ->
                 ml_debug s' = ml_debug s)
             /\ (plannerSteps (ml_debug s) = cronRuns s ->
                 plannerSteps (ml_debug s') = cronRuns s')
             /\ ((cronRuns s <= Z.to_nat (Qceiling (maxCronRuns env)))%nat ->
                 (cronRuns s' <= Z.to_nat (Qceiling (maxCronRuns env)))%nat)).
  { intros signals s request s' Hs. unfold allocateMLRequest in Hs.
    destruct (find _ ngoOrgs) as [ngoOrg|];
      [|injection Hs as <-; tauto].
    destruct (find _ ngos) as [ngoNode|];
      [|injection Hs as <-; tauto].
    apply allocateMLItems_keep_trace in Hs. destruct Hs as [-> ->].
    destruct (useTransferPlannerCron options env); [|tauto].
    destruct (transferPlannerCronHoursOf options env) as [hours|]; [|tauto].
    destruct (cronSchedule_trace planTransfers (plannerTuning options env)
                warehouses options now (maxCronRuns env) hours
                (mlDispatchTime now options request) s) as (C1 & C2 & C3).
    split; [exact C3|]. split; [discriminate|]. split; assumption. }
  assert (Hrun : forall Inv : MLState -> Prop,
             (forall signals s request s',
                 allocateMLRequest haversineDistanceKm exp ngoOrgs now
                                   planTransfers options env signals
                                   warehouses ngos s request = Some s' ->
                 Inv s -> Inv s') ->
             Inv st1 -> Inv st).
  { intros Inv Hstep H1. revert E.
    apply (foldM_invariant _ Inv); [|exact H1].
    intros s request s' Hs Hr. apply (Hstep _ _ _ _ Hr Hs). }
  split; [|split].
  - apply (Hrun (fun s => trace_ok (ml_debug s))).
    + intros signals s request s' Hr. apply (Hreq _ _ _ _ Hr).
    + unfold st1.
      destruct (canUseTransferPlanner options env
                && negb (useTransferPlannerCron options env)).
      * match goal with
        | |- context [transferPlannerStep _ _ _ _ _ ?r ?a ?b ?s] =>
            destruct (transferPlannerStep_trace planTransfers
                        (plannerTuning options env) warehouses options now
                        r a b s) as (_ & B2 & _)
        end.
        apply B2. split; reflexivity.
      * split; reflexivity.
  - intros Hon Hcron.
    apply (Hrun (fun s => plannerSteps (ml_debug s) = 1%nat)).
    + intros signals s request s' Hr Hs.
      destruct (Hreq _ _ _ _ Hr) as (_ & K & _). rewrite (K Hcron). exact Hs.
    + unfold st1. rewrite Hon, Hcron. simpl andb. cbv iota.
      match goal with
      | |- context [transferPlannerStep _ _ _ _ _ ?r ?a ?b ?s] =>
          destruct (transferPlannerStep_trace planTransfers
                      (plannerTuning options env) warehouses options now
                      r a b s) as (B1 & _)
      end.
      rewrite B1. reflexivity.
  - intro Hcron.
    assert (K : plannerSteps (ml_debug st) = cronRuns st
                /\ (cronRuns st <= Z.to_nat (Qceiling (maxCronRuns env)))%nat).
    { apply (Hrun (fun s =>
                     plannerSteps (ml_debug s) = cronRuns s
                     /\ (cronRuns s
                         <= Z.to_nat (Qceiling (maxCronRuns env)))%nat)).
      - intros signals s request s' Hr [Hs1 Hs2].
        destruct (Hreq _ _ _ _ Hr) as (_ & _ & K1 & K2). auto.
      - unfold st1. rewrite Hcron, andb_false_r. simpl.
        split; [reflexivity | lia]. }
    destruct K as [K1 K2]. rewrite K1. exact K2.
Qed.

Lemma planner_trace_accounts_witness :
  exists allocations trace,
    allocateML gridDistanceKm exampleExp ngo_orgs 0 predictDown plannerMoves
               cronOptions defaultEnv [scenario2_request] imbalanced_batches
               [warehouseB; warehouseA] [ngo_node]
    = Some (allocations, trace)
    /\ trace_ok trace
    /\ (plannerSteps trace <= 250)%nat.
Proof.
  eexists. eexists.
  match goal with
  | |- ?L = ?R /\ _ => assert (E : L = R) by (vm_compute; reflexivity)
  end.
  split; [exact E|].
  destruct (planner_trace_accounts _ _ _ _ _ _ _ _ _ _ _ _ _ _ E)
    as (H1 & _ & H3).
  split; [exact H1|]. apply H3. reflexivity.
Defined.

(* ------------------------------------------------------------------ *)
(** ** The simulation controller: the filter on the baseline *)

Lemma filter_idem {A : Type} (p : A -> bool) (l : list A) :
  filter p (filter p l) = filter p l.
Proof.
  induction l as [|x l IH]; simpl; [reflexivity|].
  destruct (p x) eqn:E; simpl; [rewrite E, IH|]; auto.
Qed.

Lemma Qsum_sum_quantity (l : list UsedBatch) :
  Qsum (map quantity l) == sum_quantity l.
Proof.
  induction l as [|u l IH]; [reflexivity|].
  change (map quantity (u :: l)) with (quantity u :: map quantity l).
  rewrite Qsum_cons, IH. reflexivity.
Qed.

Lemma keptForRegular_true (byId : list (string * Batch)) (dispatch : Time)
      (used : UsedBatch) :
  keptForRegular byId dispatch used = true ->
  0 < quantity used
  /\ exists batch,
      mapGet byId (batchId used) = Some batch
      /\ 0 < calculateFreshnessPct batch dispatch defaultAvgTemp.
Proof.
  unfold keptForRegular, Qltb.
  destruct (Qle_bool (quantity used) 0) eqn:E; [discriminate|].
  apply Qle_bool_false in E.
  destruct (mapGet byId (batchId used)) as [batch|]; [|discriminate].
  intro H. apply negb_true_iff, Qle_bool_false in H.
  split; [exact E|]. exists batch. auto.
Qed.

(** X18: the filter of the simulation on the baseline's records.  Every
    record is kept, with its request, warehouse and dispatch time; its
    entries are those of the input that have a positive quantity, name a lot
    of the snapshot and are not spoiled at the dispatch time of the record;
    its allocated quantity is recomputed from them.  Filtering a second time
    changes nothing. *)
Theorem filterExpiredForRegular_sound
        (byId : list (string * Batch)) (allocations : list Allocation) :
  let kept := filterExpiredForRegular byId allocations in
  Forall2 (fun a a' =>
             requestId a' = requestId a
             /\ a_required_kg a' = a_required_kg a
             /\ warehouse a' = warehouse a
             /\ dispatchTime a' = dispatchTime a
             /\ incl (batches a') (batches a)
             /\ allocated_kg a' == round2 (sum_quantity (batches a'))
             /\ Forall (fun used =>
                          0 < quantity used
                          /\ exists batch,
                              mapGet byId (batchId used) = Some batch
                              /\ 0 < calculateFreshnessPct
                                       batch (dispatchTime a) defaultAvgTemp)
                       (batches a'))
          allocations kept
  /\ filterExpiredForRegular byId kept = kept.
Proof.
  unfold filterExpiredForRegular. split.
  - induction allocations as [|a l IH]; [constructor|].
    cbn [map]. constructor; [|exact IH]. cbn.
    repeat split.
    + intros u Hu. apply filter_In in Hu. apply Hu.
    + apply round2_comp, Qsum_sum_quantity.
    + apply Forall_forall. intros u Hu. apply filter_In in Hu.
      apply keptForRegular_true, Hu.
  - rewrite map_map. apply map_ext. intro a. cbn.
    rewrite filter_idem. reflexivity.
Qed.

(* ------------------------------------------------------------------ *)
(** ** The simulation controller: dispatch times *)

Lemma js_trunc_between (lo hi : Z) (x : Q) :
  inject_Z lo <= x -> x <= inject_Z hi -> (lo <= js_trunc x <= hi)%Z.
Proof.
  intros H1 H2. unfold js_trunc.
  destruct (Qle_bool 0 x).
  - split.
    + rewrite <- (Qfloor_Z lo). apply Qfloor_resp_le, H1.
    + rewrite <- (Qfloor_Z hi). apply Qfloor_resp_le, H2.
  - split.
    + rewrite <- (Qceiling_Z lo). apply Qceiling_resp_le, H1.
    + rewrite <- (Qceiling_Z hi). apply Qceiling_resp_le, H2.
Qed.

Lemma js_trunc_inject_Z (z : Z) : js_trunc (inject_Z z) = z.
Proof.
  unfold js_trunc. destruct (Qle_bool 0 (inject_Z z)).
  - apply Qfloor_Z.
  - apply Qceiling_Z.
Qed.

Lemma latestDispatchCeilMs_in_window (lo hi : Time) (raw : jsnum) :
  (lo <= hi)%Z ->
  inject_Z lo <= latestDispatchCeilMs lo hi raw
  /\ latestDispatchCeilMs lo hi raw <= inject_Z hi.
Proof.
  intro H. rewrite Zle_Qle in H. unfold latestDispatchCeilMs.
  match goal with
  | |- context [Qmax_b _ (_ - ?h * 3600 * 1000)] =>
      assert (Hh : 0 <= h)
  end.
  { destruct raw as [q| | |]; try lra.
    unfold Qltb. destruct (Qle_bool q 0) eqn:E; simpl.
    - lra.
    - apply Qle_bool_false in E.
      destruct (Qmin_b_cases q 48) as [[_ ->]|[_ ->]]; lra. }
  match goal with
  | |- context [Qmax_b ?a ?b] =>
      destruct (Qmax_b_cases a b) as [[K ->]|[K ->]]
  end; lra.
Qed.

Lemma clampMs_in_window (lo hi : Time) (ms : option Time) :
  (lo <= hi)%Z -> (lo <= clampMs lo hi ms <= hi)%Z.
Proof. intro H. destruct ms as [ms|]; simpl; lia. Qed.

Lemma clampDispatchTime_fixed (lo hi d : Time) :
  (lo <= d <= hi)%Z -> clampDispatchTime (Some lo) (Some hi) d = d.
Proof.
  intro H. unfold clampDispatchTime.
  destruct (d <? lo)%Z eqn:E1; [apply Z.ltb_lt in E1; lia|].
  destruct (hi <? d)%Z eqn:E2; [apply Z.ltb_lt in E2; lia|].
  reflexivity.
Qed.

(** X19: the dispatch times the simulation hands to the two allocators.
    With a window that is not empty, every request is planned at a time
    inside the window, whatever its creation date and the head room
    configured, so that the window clamp of the allocators leaves it as it
    is.  In the mode ["createdon"] a request created inside the window and
    not after the latest dispatch time is planned at its creation time; in
    the other mode all requests are planned at one time, the latest
    dispatch time. *)
Theorem requestsForAllocation_in_window
        (dispatchMode : DispatchMode) (lo hi : Time)
        (headroomHoursRaw : jsnum) (now : Time) (requests : list Request) :
  (lo <= hi)%Z ->
  Forall2 (fun r r' =>
             requestID r' = requestID r
             /\ requesterNode r' = requesterNode r
             /\ items r' = items r
             /\ exists d,
                 req_dispatchTime r' = Some d
                 /\ (lo <= d <= hi)%Z
                 /\ clampDispatchTime (Some lo) (Some hi)
                                      (requestDispatchTime now r') = d
                 /\ (dispatchMode = createdon ->
                     forall c, createdOn r = Some c ->
                               (lo <= c)%Z ->
                               inject_Z c
                               <= latestDispatchCeilMs lo hi headroomHoursRaw ->
                               d = c)
                 /\ (dispatchMode = spread ->
                     d = js_trunc
                           (latestDispatchCeilMs lo hi headroomHoursRaw)))
          requests
          (requestsForAllocation dispatchMode lo hi headroomHoursRaw requests).
Proof.
  intro Hw. unfold requestsForAllocation.
  destruct (latestDispatchCeilMs_in_window lo hi headroomHoursRaw Hw)
    as [C1 C2].
  induction requests as [|r l IH]; [constructor|].
  cbn [map]. constructor; [|exact IH].
  destruct dispatchMode.
  - assert (Hms := clampMs_in_window lo hi (createdOn r) Hw).
    assert (Hd : (lo <= js_trunc
                          (Qmin_b (inject_Z (clampMs lo hi (createdOn r)))
                                  (latestDispatchCeilMs lo hi headroomHoursRaw))
                  <= hi)%Z).
    { destruct Hms as [M1 M2]. rewrite Zle_Qle in M1, M2.
      apply js_trunc_between;
        match goal with
        | |- context [Qmin_b ?a ?b] =>
            destruct (Qmin_b_cases a b) as [[K ->]|[K ->]]
        end; lra. }
    cbn. repeat split. eexists. split; [reflexivity|].
    split; [exact Hd|]. split; [apply clampDispatchTime_fixed, Hd|].
    split; [|discriminate].
    intros _ c Hc H1 H2. rewrite Hc. cbn [clampMs].
    assert (H3 : (c <= hi)%Z) by (rewrite Zle_Qle; lra).
    replace (Z.min (Z.max c lo) hi) with c by lia.
    unfold Qmin_b. apply Qle_bool_iff in H2. rewrite H2.
    apply js_trunc_inject_Z.
  - assert (Hd : (lo <= js_trunc (latestDispatchCeilMs lo hi headroomHoursRaw)
                  <= hi)%Z)
      by (apply js_trunc_between; assumption).
    cbn. repeat split. eexists. split; [reflexivity|].
    split; [exact Hd|]. split; [apply clampDispatchTime_fixed, Hd|].
    split; [discriminate|reflexivity].
Qed.

Lemma requestsForAllocation_in_window_witness :
  Forall2 (fun r r' =>
             exists d, req_dispatchTime r' = Some d
                       /\ (window_lo <= d <= window_hi)%Z)
          window_requests
          (requestsForAllocation createdon window_lo window_hi (Fin 2)
                                 window_requests).
Proof.
  eapply Forall2_impl;
    [|apply (requestsForAllocation_in_window createdon window_lo window_hi
               (Fin 2) 0 window_requests);
      unfold window_lo, window_hi, hour_ms; lia].
  intros r r' (_ & _ & _ & d & H1 & H2 & _). exists d. auto.
Defined.

Lemma spreadDispatch_floor (byId : list (string * Batch))
      (l : list UsedBatch) (m0 : Z) :
  let f := fun (minDispatchMs : Z) (used : UsedBatch) =>
             match mapGet byId (batchId used) with
             | None => minDispatchMs
             | Some b =>
                 match availabilityTime b with
                 | Some availMs => Z.max minDispatchMs availMs
                 | None => minDispatchMs
                 end
             end in
  (m0 <= fold_left f l m0)%Z
  /\ forall used b t,
      In used l -> mapGet byId (batchId used) = Some b ->
      availabilityTime b = Some t -> (t <= fold_left f l m0)%Z.
Proof.
  intro f. revert m0.
  induction l as [|u l IH]; intro m0; cbn [fold_left].
  - split; [lia|]. intros used b t [].
  - destruct (IH (f m0 u)) as [A B].
    assert (Hf : (m0 <= f m0 u)%Z).
    { unfold f. destruct (mapGet byId (batchId u)) as [b|]; [|lia].
      destruct (availabilityTime b); lia. }
    split; [lia|].
    intros used b t [<-|Hin] Hb Ht.
    + assert (Hu : (t <= f m0 u)%Z) by (unfold f; rewrite Hb, Ht; lia).
      lia.
    + apply (B used b t Hin Hb Ht).
Qed.

Lemma spreadDispatch_spec (lo hi : Time) (byId : list (string * Batch))
      (span denom : Z) (idx : nat) (alloc : Allocation) :
  (lo <= hi)%Z ->
  let alloc' := spreadDispatch lo hi byId span denom idx alloc in
  (lo <= dispatchTime alloc' <= hi)%Z
  /\ forall used b t,
      In used (batches alloc) -> mapGet byId (batchId used) = Some b ->
      availabilityTime b = Some t -> (Z.min t hi <= dispatchTime alloc')%Z.
Proof.
  intro Hw. unfold spreadDispatch. cbn [dispatchTime set_dispatchTime clampMs].
  match goal with
  | |- context [fold_left ?f (batches alloc) ?m0] =>
      destruct (spreadDispatch_floor byId (batches alloc) m0) as [A B];
        cbv zeta in A, B
  end.
  split; [lia|].
  intros used b t Hin Hb Ht. specialize (B used b t Hin Hb Ht). lia.
Qed.

(** X20: the spreading of the records over the window for the play-back.
    With a window that is not empty, a record with a positive quantity is
    dispatched inside the window, and not before any of its lots is
    available, as far as the window allows (not before the lot's
    availability, or at the end of the window).  Only the dispatch time of
    a record changes, and a record without a positive quantity keeps its
    dispatch time too. *)
Theorem spreadAllocationsAcrossWindow_spec
        (lo hi : Time) (byId : list (string * Batch))
        (allocations : list Allocation) :
  (lo <= hi)%Z ->
  Forall2 (fun a a' =>
             a' = set_dispatchTime a (dispatchTime a')
             /\ (allocated_kg a <= 0 -> a' = a)
             /\ (0 < allocated_kg a ->
                 (lo <= dispatchTime a' <= hi)%Z
                 /\ forall used b t,
                     In used (batches a) ->
                     mapGet byId (batchId used) = Some b ->
                     availabilityTime b = Some t ->
                     (Z.min t hi <= dispatchTime a')%Z))
          allocations (spreadAllocationsAcrossWindow lo hi byId allocations).
Proof.
  intro Hw. unfold spreadAllocationsAcrossWindow.
  generalize (Z.max 0 (hi - lo)) as span.
  generalize (Z.max 1 (Z.of_nat
                         (List.length
                            (filter (fun a => Qltb 0 (allocated_kg a))
                                    allocations)) - 1)) as denom.
  intros denom span. generalize 0%nat as idx.
  induction allocations as [|a l IH]; intro idx; [constructor|].
  cbn [spreadLoop]. unfold Qltb.
  destruct (Qle_bool (allocated_kg a) 0) eqn:E; cbn [negb].
  - constructor; [|apply IH].
    apply Qle_bool_iff in E.
    split; [destruct a; reflexivity|]. split; [reflexivity|].
    intro H. exfalso. apply (Qlt_not_le _ _ H E).
  - constructor; [|apply IH].
    apply Qle_bool_false in E.
    split; [reflexivity|].
    split; [intro H; exfalso; apply (Qlt_not_le _ _ E H)|].
    intros _. apply spreadDispatch_spec, Hw.
Qed.

Lemma spreadAllocationsAcrossWindow_spec_witness :
  Forall2 (fun a a' =>
             0 < allocated_kg a ->
             (window_lo <= dispatchTime a' <= window_hi)%Z)
          playback_allocations
          (spreadAllocationsAcrossWindow window_lo window_hi
             (batchesById scenario2_batches) playback_allocations).
Proof.
  eapply Forall2_impl;
    [|apply (spreadAllocationsAcrossWindow_spec window_lo window_hi
               (batchesById scenario2_batches) playback_allocations);
      unfold window_lo, window_hi, hour_ms; lia].
  intros a a' (_ & _ & H) Hpos. apply (H Hpos).
Defined.

(* ------------------------------------------------------------------ *)
(** ** The simulation controller: the metrics of a run *)

Lemma Qsum_map_le {A : Type} (f g : A -> Q) (l : list A) :
  Forall (fun a => f a <= g a) l -> Qsum (map f l) <= Qsum (map g l).
Proof.
  induction 1 as [|a l Ha Hl IH]; [apply Qle_refl|].
  cbn [map]. rewrite !Qsum_cons. lra.
Qed.

Lemma Qsum_map_nonneg {A : Type} (f : A -> Q) (l : list A) :
  Forall (fun a => 0 <= f a) l -> 0 <= Qsum (map f l).
Proof.
  induction 1 as [|a l Ha Hl IH]; [apply Qle_refl|].
  cbn [map]. rewrite Qsum_cons. lra.
Qed.

Lemma dedupIds_length (seen ids : list Id) :
  (List.length (dedupIds seen ids) <= List.length ids)%nat.
Proof.
  revert seen. induction ids as [|i l IH]; intro seen; cbn [dedupIds].
  - apply Nat.le_refl.
  - destruct (existsb (String.eqb i) seen); cbn [List.length].
    + specialize (IH seen). lia.
    + specialize (IH (i :: seen)). lia.
Qed.

Lemma filter_length_le {A : Type} (p : A -> bool) (l : list A) :
  (List.length (filter p l) <= List.length l)%nat.
Proof.
  induction l as [|x l IH]; cbn [filter List.length]; [lia|].
  destruct (p x); cbn [List.length]; lia.
Qed.

Lemma deliverUsed_ok (byId : list (string * Batch)) (avgTempC : Q)
      (deliveryTime : Time) (acc : Delivered) (used : UsedBatch) :
  delivered_ok acc ->
  delivered_ok (deliverUsed byId avgTempC deliveryTime acc used).
Proof.
  unfold delivered_ok, deliverUsed. intros (H1 & H2 & H3).
  destruct (Qle_bool (quantity used) 0) eqn:E; [auto|].
  apply Qle_bool_false in E.
  destruct (Qle_bool (freshnessAtDeliveryOf _ _ _ _) 0); cbn.
  - repeat split; lra.
  - destruct (Qltb _ 20); repeat split; lra.
Qed.

Lemma deliverAllocations_ok (byId : list (string * Batch)) (avgTempC : Q)
      (allocations : list Allocation) (acc : Delivered) :
  delivered_ok acc ->
  delivered_ok (fold_left (deliverAllocation byId avgTempC) allocations acc).
Proof.
  revert acc. induction allocations as [|a l IH]; intros acc H; [exact H|].
  cbn [fold_left]. apply IH. unfold deliverAllocation.
  generalize (deliveryTimeOf (dispatchTime a)
                             (estimateTravelHours (distance_km a))) as t.
  intro t. revert acc H.
  induction (batches a) as [|u us IHu]; intros acc H; [exact H|].
  cbn [fold_left]. apply IHu, deliverUsed_ok, H.
Qed.

Lemma round2_100 : round2 100 == 100.
Proof. reflexivity. Qed.

(** X21: the metrics of a run.  For records whose allocated quantity lies
    between zero and the required quantity (as the records of both
    allocators do), the fulfilment rate lies between 0 and 100 and the
    allocated total does not exceed the required total.  For any records,
    the spoiled and the endangered quantity at delivery are each between
    zero and the delivered quantity, and the number of fulfilled requests is
    at most the number of records. *)
Theorem calcMetrics_bounds
        (allocations : list Allocation) (requests : list Request)
        (byId : list (string * Batch)) (avgTempC : Q) :
  Forall (fun a => 0 <= allocated_kg a <= a_required_kg a) allocations ->
  let m := calcMetrics allocations requests byId avgTempC in
  0 <= fulfillmentRate m <= 100
  /\ totalAllocated m <= totalRequired m
  /\ 0 <= deliveredSpoiledKg m <= deliveredKg m
  /\ 0 <= deliveredAtRiskKg m <= deliveredKg m
  /\ (fulfilledRequests m <= List.length allocations)%nat.
Proof.
  intro H. unfold calcMetrics.
  destruct allocations as [|a0 l0] eqn:El.
  { cbn. repeat split; try lra; lia. }
  rewrite <- El in *. clear El a0 l0.
  cbn [fulfillmentRate totalAllocated totalRequired deliveredSpoiledKg
       deliveredKg deliveredAtRiskKg fulfilledRequests].
  assert (HA : 0 <= Qsum (map allocated_kg allocations)).
  { apply Qsum_map_nonneg. revert H. apply Forall_impl. intros a Ha; lra. }
  assert (HR : Qsum (map allocated_kg allocations)
               <= Qsum (map a_required_kg allocations)).
  { apply Qsum_map_le. revert H. apply Forall_impl. intros a Ha; lra. }
  assert (HD : delivered_ok
                 (fold_left (deliverAllocation byId avgTempC) allocations
                            (mkDelivered 0 0 0 0))).
  { apply deliverAllocations_ok. unfold delivered_ok. cbn. repeat split; lra. }
  destruct HD as (D1 & D2 & D3).
  set (d := fold_left (deliverAllocation byId avgTempC) allocations
                      (mkDelivered 0 0 0 0)) in *.
  set (A := Qsum (map allocated_kg allocations)) in *.
  set (R := Qsum (map a_required_kg allocations)) in *.
  split.
  { assert (Hrate : 0 <= (if Qltb 0 R then A / R * 100 else 0) <= 100).
    { unfold Qltb. destruct (Qle_bool R 0) eqn:E; cbn [negb]; [lra|].
      apply Qle_bool_false in E.
      assert (H1 : 0 <= A / R) by (apply Qle_shift_div_l; lra).
      assert (H2 : A / R <= 1) by (apply Qle_shift_div_r; lra).
      lra. }
    destruct Hrate as [R1 R2].
    apply round2_mono in R1, R2. rewrite round2_zero in R1.
    rewrite round2_100 in R2. split; assumption. }
  split; [apply round2_mono, HR|].
  split.
  { split; [rewrite <- round2_zero|]; apply round2_mono; lra. }
  split.
  { split; [rewrite <- round2_zero|]; apply round2_mono; lra. }
  unfold fulfilledRequestsOf.
  eapply Nat.le_trans; [apply filter_length_le|].
  eapply Nat.le_trans; [apply dedupIds_length|].
  rewrite length_map. apply Nat.le_refl.
Qed.

Lemma calcMetrics_bounds_witness :
  let m := calcMetrics playback_allocations window_requests
                       (batchesById scenario2_batches) 25 in
  0 <= fulfillmentRate m <= 100
  /\ totalAllocated m <= totalRequired m
  /\ 0 <= deliveredSpoiledKg m <= deliveredKg m
  /\ 0 <= deliveredAtRiskKg m <= deliveredKg m
  /\ (fulfilledRequests m <= List.length playback_allocations)%nat.
Proof.
  apply (calcMetrics_bounds playback_allocations window_requests
                            (batchesById scenario2_batches) 25).
  unfold playback_allocations.
  repeat constructor; cbn; lra.
Defined.

(* ------------------------------------------------------------------ *)
(** ** The history controller: the shipments of a day *)

Lemma statusAtDate_started (dayEnd : Time) (s : Shipment) :
  (start_iso s <= dayEnd)%Z ->
  (arrivedBy dayEnd s = true /\ statusAtDate dayEnd s = ship_arrived)
  \/ (arrivedBy dayEnd s = false /\ statusAtDate dayEnd s = ship_in_transit).
Proof.
  intro H. unfold statusAtDate, arrivedBy.
  apply Z.leb_le in H. rewrite H.
  destruct (arrived_iso s) as [t|]; [|right; auto].
  destruct (t <=? dayEnd)%Z eqn:E; [left; auto|].
  right. split; [reflexivity|].
  apply Z.leb_gt in E. apply Z.ltb_lt in E. rewrite E. reflexivity.
Qed.

Lemma formatShipment_status (nodes : list Node) (dayEnd : Time)
      (s : Shipment) (f : ShipmentFrame) :
  formatShipment nodes dayEnd s = Some f ->
  sf_id f = ship_id s /\ sf_status f = statusAtDate dayEnd s.
Proof.
  unfold formatShipment.
  destruct (findNodeById nodes (fromNode s)); [|discriminate].
  destruct (findNodeById nodes (toNode s)); [|discriminate].
  destruct (extractCoordinates _); [|discriminate].
  destruct (extractCoordinates _); [|discriminate].
  intro H. injection H as <-. split; reflexivity.
Qed.

Lemma formatShipment_total (nodes : list Node) (dayEnd : Time)
      (s : Shipment) :
  findNodeById nodes (fromNode s) <> None ->
  findNodeById nodes (toNode s) <> None ->
  exists f, formatShipment nodes dayEnd s = Some f.
Proof.
  intros H1 H2. unfold formatShipment.
  destruct (findNodeById nodes (fromNode s)); [|congruence].
  destruct (findNodeById nodes (toNode s)); [|congruence].
  cbn. eexists. reflexivity.
Qed.

Lemma formatShipments_spec (nodes : list Node) (dayEnd : Time)
      (shipments : list Shipment) :
  Forall (fun s => (start_iso s <= dayEnd)%Z
                   /\ findNodeById nodes (fromNode s) <> None
                   /\ findNodeById nodes (toNode s) <> None) shipments ->
  exists frames,
    formatShipments nodes dayEnd shipments = Some frames
    /\ Forall2 (fun s f => sf_id f = ship_id s
                           /\ sf_status f = statusAtDate dayEnd s)
               shipments frames
    /\ (List.length shipments
        = List.length
            (filter (fun f => ShipmentStatus_eqb (sf_status f) ship_in_transit)
                    frames)
          + List.length (filter (arrivedBy dayEnd) shipments))%nat.
Proof.
  induction 1 as [|s l (Hs & H1 & H2) Hl IH].
  - exists []. repeat split. constructor.
  - destruct IH as (frames & E & F & N).
    destruct (formatShipment_total nodes dayEnd s H1 H2) as [f Ef].
    exists (f :: frames). cbn [formatShipments]. rewrite Ef, E.
    destruct (formatShipment_status _ _ _ _ Ef) as [I1 I2].
    split; [reflexivity|]. split; [constructor; auto|].
    cbn [filter List.length]. rewrite I2.
    destruct (statusAtDate_started dayEnd s Hs) as [[-> ->]|[-> ->]];
      cbn [ShipmentStatus_eqb List.length]; lia.
Qed.

(** X22: the shipments in the frame of a day.  When the two nodes of every
    shipment exist, the frame is produced, and every shipment that started
    by the end of the day is shown either as arrived, exactly when it had
    arrived by then, or as in transit, whatever status is stored for it
    (pending, delayed or cancelled shipments too); the number of active
    shipments and the number of arrived ones add up to the total. *)
Theorem getHistoryDay_shipment_status (db : Db) (dayEnd : Time) :
  (forall s, In s (db_shipments db) ->
             findNodeById (db_nodes db) (fromNode s) <> None
             /\ findNodeById (db_nodes db) (toNode s) <> None) ->
  exists frames kpis,
    historyShipments db dayEnd = Some (frames, kpis)
    /\ Forall2 (fun s f =>
                  sf_id f = ship_id s
                  /\ (sf_status f = ship_arrived
                      \/ sf_status f = ship_in_transit)
                  /\ (sf_status f = ship_arrived
                      <-> exists t, arrived_iso s = Some t /\ (t <= dayEnd)%Z))
               (shipmentsStartedBy db dayEnd) frames
    /\ (total_shipments kpis
        = active_shipments kpis
          + List.length (filter (arrivedBy dayEnd)
                                (shipmentsStartedBy db dayEnd)))%nat.
Proof.
  intro Hn. unfold historyShipments.
  destruct (formatShipments_spec (db_nodes db) dayEnd
              (shipmentsStartedBy db dayEnd)) as (frames & E & F & N).
  { apply Forall_forall. intros s Hs. unfold shipmentsStartedBy in Hs.
    apply filter_In in Hs. destruct Hs as [Hs1 Hs2].
    apply Z.leb_le in Hs2. destruct (Hn s Hs1). auto. }
  rewrite E. eexists. eexists. split; [reflexivity|].
  split; [|exact N]. clear E N.
  assert (Hs : Forall (fun s => (start_iso s <= dayEnd)%Z)
                      (shipmentsStartedBy db dayEnd)).
  { apply Forall_forall. intros s Hs. unfold shipmentsStartedBy in Hs.
    apply filter_In in Hs. apply Z.leb_le, Hs. }
  revert Hs. induction F as [|s f l l' [I1 I2] F IH]; intro Hs;
    [constructor|].
  inversion Hs as [|? ? Hs1 Hs2]; subst.
  constructor; [|apply IH, Hs2].
  split; [exact I1|]. rewrite I2.
  destruct (statusAtDate_started dayEnd s Hs1) as [[A ->]|[A ->]].
  - split; [left; reflexivity|]. split; [|reflexivity].
    intros _. unfold arrivedBy in A.
    destruct (arrived_iso s) as [t|]; [|discriminate].
    exists t. split; [reflexivity | apply Z.leb_le, A].
  - split; [right; reflexivity|]. split; [discriminate|].
    intros (t & Ht & Hle). unfold arrivedBy in A. rewrite Ht in A.
    apply Z.leb_le in Hle. congruence.
Qed.

Lemma getHistoryDay_shipment_status_witness :
  exists frames kpis,
    historyShipments history_db (24 * hour_ms) = Some (frames, kpis)
    /\ (total_shipments kpis = active_shipments kpis + 1)%nat.
Proof.
  destruct (getHistoryDay_shipment_status history_db (24 * hour_ms))
    as (frames & kpis & E & _ & N).
  { intros s [<-|[<-|[]]]; split; discriminate. }
  exists frames, kpis. split; [exact E | exact N].
Defined.

(* ------------------------------------------------------------------ *)
(** ** The inventory of a snapshot *)

Lemma objSet_Qsum {V : Type} (f : V -> Q) (o : list (string * V))
      (k : string) (v : V) :
  Qsum (map (fun e => f (snd e)) (objSet o k v))
  + match objGet o k with Some old => f old | None => 0 end
  == Qsum (map (fun e => f (snd e)) o) + f v.
Proof.
  unfold objGet. induction o as [|e o IH]; cbn [objSet find map].
  - rewrite Qsum_cons. cbn. lra.
  - destruct (String.eqb (fst e) k); cbn [map snd].
    + rewrite !Qsum_cons. cbn [snd]. lra.
    + rewrite !Qsum_cons. lra.
Qed.

Lemma objSet_list_sum {V : Type} (f : V -> nat) (o : list (string * V))
      (k : string) (v : V) :
  (list_sum (map (fun e => f (snd e)) (objSet o k v))
   + match objGet o k with Some old => f old | None => 0 end
   = list_sum (map (fun e => f (snd e)) o) + f v)%nat.
Proof.
  unfold objGet. induction o as [|e o IH]; cbn [objSet find map list_sum].
  - cbn. lia.
  - destruct (String.eqb (fst e) k); cbn [map snd]; unfold list_sum in *;
      cbn [fold_right]; lia.
Qed.

Lemma objSet_Forall {V : Type} (P : string * V -> Prop)
      (o : list (string * V)) (k : string) (v : V) :
  Forall P o -> P (k, v) -> Forall P (objSet o k v).
Proof.
  intros Ho Hv. induction Ho as [|e o He Ho IH]; cbn [objSet].
  - constructor; [exact Hv | constructor].
  - destruct (String.eqb (fst e) k); constructor; auto.
Qed.

Lemma objSet_keys {V : Type} (o : list (string * V)) (k : string) (v : V) :
  map fst (objSet o k v)
  = match objGet o k with
    | Some _ => map fst o
    | None => map fst o ++ [k]
    end.
Proof.
  unfold objGet. induction o as [|e o IH]; cbn [objSet find map app].
  - reflexivity.
  - destruct (String.eqb (fst e) k) eqn:E; cbn [map fst].
    + apply String.eqb_eq in E. rewrite E. reflexivity.
    + rewrite IH. destruct (find _ o); reflexivity.
Qed.

Lemma objGet_None_keys {V : Type} (o : list (string * V)) (k : string) :
  objGet o k = None -> ~ In k (map fst o).
Proof.
  unfold objGet. induction o as [|e o IH]; cbn [find map]; [tauto|].
  destruct (String.eqb (fst e) k) eqn:E; [discriminate|].
  intros H [K|K].
  - apply String.eqb_neq in E. contradiction.
  - destruct (find _ o); [discriminate|]. apply IH; auto.
Qed.

Lemma objSet_NoDup {V : Type} (o : list (string * V)) (k : string) (v : V) :
  NoDup (map fst o) -> NoDup (map fst (objSet o k v)).
Proof.
  intro H. rewrite objSet_keys.
  destruct (objGet o k) eqn:E; [exact H|].
  apply NoDup_app; [exact H | repeat constructor; intros [] |].
  intros x Hx [<-|[]]. apply (objGet_None_keys o k E Hx).
Qed.

Lemma objGet_Forall {V : Type} (P : string * V -> Prop)
      (o : list (string * V)) (k : string) (v : V) :
  Forall P o -> objGet o k = Some v -> P (k, v).
Proof.
  unfold objGet. intros Ho.
  induction Ho as [|e o He Ho IH]; cbn [find]; [discriminate|].
  destruct (String.eqb (fst e) k) eqn:E.
  - intro H. injection H as <-. apply String.eqb_eq in E. subst k.
    destruct e; exact He.
  - exact IH.
Qed.

Lemma setAdd_length (s : list string) (x : string) :
  (List.length (setAdd s x) <= S (List.length s))%nat.
Proof.
  unfold setAdd. destruct (existsb _ s); [lia|].
  rewrite length_app. cbn. lia.
Qed.

Lemma addToRegion_spec (nodes : list Node)
      (inv : list (string * RegionInventory)) (batch : Batch) :
  NoDup (map fst inv) -> Forall region_entry_ok inv ->
  let inv' := addToRegion nodes inv batch in
  NoDup (map fst inv')
  /\ Forall region_entry_ok inv'
  /\ Qsum (map (fun e => ri_stored_kg (snd e)) inv')
     == Qsum (map (fun e => ri_stored_kg (snd e)) inv)
        + total_kg (filter (counted nodes) [batch])
  /\ (list_sum (map (fun e => ri_batch_count (snd e)) inv')
      = list_sum (map (fun e => ri_batch_count (snd e)) inv)
        + List.length (filter (counted nodes) [batch]))%nat.
Proof.
  intros Hn Hf. unfold addToRegion, counted. cbn [filter].
  destruct (inInventory batch); cbn [andb];
    [|cbn; repeat split; auto; lra].
  destruct (findNodeById nodes (currentNode batch)) as [node|];
    [|cbn; repeat split; auto; lra].
  set (k := (templateOf (node_state node) ++ "-"
             ++ templateOf (node_district node))%string).
  set (entry := match objGet inv k with
                | Some e => e
                | None => mkRegionInventory (node_state node)
                                            (node_district node) 0 0 []
                end).
  assert (He : region_entry_ok
                 (k, mkRegionInventory
                       (ri_state entry) (ri_district entry)
                       (ri_stored_kg entry + quantity_kg batch)
                       (S (ri_batch_count entry))
                       (if String.eqb (foodType batch) ""
                        then ri_food_types entry
                        else setAdd (ri_food_types entry) (foodType batch)))).
  { unfold region_entry_ok. cbn [fst snd ri_state ri_district ri_batch_count
                                 ri_food_types].
    assert (Hentry : k = (templateOf (ri_state entry) ++ "-"
                          ++ templateOf (ri_district entry))%string
                     /\ (List.length (ri_food_types entry)
                         <= ri_batch_count entry)%nat).
    { unfold entry. destruct (objGet inv k) as [e|] eqn:E.
      - destruct (objGet_Forall _ _ _ _ Hf E) as (K1 & _ & K3).
        split; [exact K1 | exact K3].
      - split; [reflexivity | cbn; lia]. }
    destruct Hentry as [K1 K3].
    split; [exact K1|]. split; [lia|].
    destruct (String.eqb (foodType batch) ""); [lia|].
    assert (K := setAdd_length (ri_food_types entry) (foodType batch)). lia. }
  split; [apply objSet_NoDup, Hn|].
  split; [apply objSet_Forall; assumption|].
  split.
  - assert (K := objSet_Qsum ri_stored_kg inv k
                   (mkRegionInventory
                      (ri_state entry) (ri_district entry)
                      (ri_stored_kg entry + quantity_kg batch)
                      (S (ri_batch_count entry))
                      (if String.eqb (foodType batch) ""
                       then ri_food_types entry
                       else setAdd (ri_food_types entry) (foodType batch)))).
    cbn [ri_stored_kg] in K. unfold entry in K |- *.
    cbn [total_kg fold_right].
    destruct (objGet inv k) as [e|]; cbn [ri_stored_kg] in K |- *; lra.
  - assert (K := objSet_list_sum ri_batch_count inv k
                   (mkRegionInventory
                      (ri_state entry) (ri_district entry)
                      (ri_stored_kg entry + quantity_kg batch)
                      (S (ri_batch_count entry))
                      (if String.eqb (foodType batch) ""
                       then ri_food_types entry
                       else setAdd (ri_food_types entry) (foodType batch)))).
    cbn [ri_batch_count] in K. unfold entry in K |- *.
    cbn [List.length].
    destruct (objGet inv k) as [e|]; cbn [ri_batch_count] in K |- *; lia.
Qed.

Lemma inventoryByRegion_spec (nodes : list Node) (batches : list Batch) :
  forall inv,
    NoDup (map fst inv) -> Forall region_entry_ok inv ->
    let inv' := fold_left (addToRegion nodes) batches inv in
    NoDup (map fst inv')
    /\ Forall region_entry_ok inv'
    /\ Qsum (map (fun e => ri_stored_kg (snd e)) inv')
       == Qsum (map (fun e => ri_stored_kg (snd e)) inv)
          + total_kg (filter (counted nodes) batches)
    /\ (list_sum (map (fun e => ri_batch_count (snd e)) inv')
        = list_sum (map (fun e => ri_batch_count (snd e)) inv)
          + List.length (filter (counted nodes) batches))%nat.
Proof.
  induction batches as [|b l IH]; intros inv Hn Hf; cbn [fold_left].
  - cbn. repeat split; auto; lra.
  - destruct (addToRegion_spec nodes inv b Hn Hf) as (A1 & A2 & A3 & A4).
    destruct (IH _ A1 A2) as (B1 & B2 & B3 & B4).
    split; [exact B1|]. split; [exact B2|].
    cbn [filter] in A3, A4 |- *.
    destruct (counted nodes b); cbn [total_kg fold_right List.length] in *.
    + split; [rewrite B3, A3; fold (total_kg l);
              fold (total_kg (filter (counted nodes) l)); lra | lia].
    + split; [rewrite B3, A3; lra | lia].
Qed.

(** X23: the inventory of a snapshot for the demand service.  The stored
    quantities of the regions add up to the quantity of the lots that are
    stored or in transit at one of the nodes of the snapshot, and the batch
    counts to their number: each such lot is counted once, in one region,
    and the other lots are not counted.  A region is listed once, with at
    least one lot, and with no more food types than lots. *)
Theorem inventorySnapshot_accounts (nodes : list Node) (batches : list Batch) :
  let snapshot := inventorySnapshot nodes batches in
  Qsum (map rs_stored_kg snapshot)
  == total_kg (filter (counted nodes) batches)
  /\ list_sum (map rs_batch_count snapshot)
     = List.length (filter (counted nodes) batches)
  /\ NoDup (map (fun r => (rs_state r, rs_district r)) snapshot)
  /\ Forall (fun r => (1 <= rs_batch_count r)%nat
                      /\ (unique_food_types r <= rs_batch_count r)%nat)
            snapshot.
Proof.
  unfold inventorySnapshot, inventoryByRegionOf.
  destruct (inventoryByRegion_spec nodes batches [])
    as (A1 & A2 & A3 & A4); [constructor | constructor |].
  set (inv := fold_left (addToRegion nodes) batches []) in *.
  rewrite !map_map. cbn [rs_stored_kg rs_batch_count rs_state rs_district].
  split; [rewrite A3; cbn; lra|].
  split; [rewrite A4; reflexivity|].
  split.
  - apply (NoDup_map_inv
             (fun p => (templateOf (fst p) ++ "-"
                        ++ templateOf (snd p))%string)).
    rewrite map_map. cbn [fst snd].
    erewrite map_ext_in; [exact A1|].
    intros e He. cbn beta.
    rewrite Forall_forall in A2. destruct (A2 e He) as [K _].
    symmetry. exact K.
  - apply Forall_map. revert A2. apply Forall_impl.
    intros e (_ & K2 & K3). cbn. split; assumption.
Qed.

(* ------------------------------------------------------------------ *)
(** ** The ranking of the suggestions *)

Lemma nth_error_combine_seq {A : Type} (l : list A) (s i : nat) :
  nth_error (combine (seq s (List.length l)) l) i
  = match nth_error l i with
    | Some x => Some ((s + i)%nat, x)
    | None => None
    end.
Proof.
  revert s i. induction l as [|x l IH]; intros s i; cbn [List.length seq combine].
  - destruct i; reflexivity.
  - destruct i as [|i]; cbn [nth_error].
    + rewrite Nat.add_0_r. reflexivity.
    + rewrite IH. rewrite Nat.add_succ_r. reflexivity.
Qed.

Lemma StronglySorted_app_inv {A : Type} (R : A -> A -> Prop)
      (l1 l2 : list A) :
  StronglySorted R (l1 ++ l2) ->
  StronglySorted R l1
  /\ forall a b, In a l1 -> In b l2 -> R a b.
Proof.
  induction l1 as [|x l1 IH]; cbn [app]; intro H.
  - split; [constructor | intros a b []].
  - inversion H as [|? ? Hs Hx]; subst.
    destruct (IH Hs) as [I1 I2].
    split.
    + constructor; [exact I1|].
      rewrite Forall_forall in *. intros y Hy. apply Hx, in_or_app. auto.
    + intros a b [<-|Ha] Hb; [|auto].
      rewrite Forall_forall in Hx. apply Hx, in_or_app. auto.
Qed.

Lemma anomaly_cmp_le_iff (a b : Prediction) :
  anomaly_cmp_le a b = true <-> anomalyOf b <= anomalyOf a.
Proof.
  unfold anomaly_cmp_le. rewrite Qle_bool_iff. split; intro H; lra.
Qed.

(** X24: the suggestions for a batch are the five predictions with a
    cluster that have the highest anomaly scores.  There are at most five,
    one for each of the first predictions in the order of decreasing anomaly
    score; the one at position [i] has the score [100 - 15 i], between 40
    and 100, and a confidence that is not negative; and a prediction with a
    cluster that is left out has an anomaly score that is at most the one
    of every prediction kept. *)
Theorem suggestedAllocations_top5 (predictions : list Prediction) :
  let top := topPredictions predictions in
  let suggestions := suggestedAllocations predictions in
  List.length suggestions = List.length top
  /\ (List.length top <= 5)%nat
  /\ StronglySorted (fun a b => anomalyOf b <= anomalyOf a) top
  /\ (forall p, In p top -> In p predictions /\ cluster_id p <> None)
  /\ (forall p q, In p predictions -> cluster_id p <> None -> In q top ->
                  In p top \/ anomalyOf p <= anomalyOf q)
  /\ (forall i sg, nth_error suggestions i = Some sg ->
                   exists pred,
                     nth_error top i = Some pred
                     /\ sg_state sg = pred_state pred
                     /\ sg_district sg = pred_district pred
                     /\ sg_confidence sg = Qabs (anomalyOf pred)
                     /\ 0 <= sg_confidence sg
                     /\ sg_score sg = (100 - 15 * Z.of_nat i)%Z
                     /\ (40 <= sg_score sg <= 100)%Z).
Proof.
  cbv zeta. unfold suggestedAllocations, topPredictions.
  set (known := filter (fun p => match cluster_id p with
                                 | Some _ => true
                                 | None => false
                                 end) predictions).
  set (sorted := js_sort anomaly_cmp_le known).
  assert (Hs : StronglySorted (fun a b => anomaly_cmp_le a b = true) sorted).
  { apply (js_sort_sorted anomaly_cmp_le (fun _ => True)).
    - intros a b _ _. rewrite !anomaly_cmp_le_iff.
      destruct (Qlt_le_dec (anomalyOf a) (anomalyOf b)); [right|left]; lra.
    - intros a b c _ _ _. rewrite !anomaly_cmp_le_iff. lra.
    - apply Forall_forall. auto. }
  rewrite <- (firstn_skipn 5 sorted) in Hs.
  apply StronglySorted_app_inv in Hs. destruct Hs as [Hs1 Hs2].
  assert (Hlen : (List.length (firstn 5 sorted) <= 5)%nat)
    by apply firstn_le_length.
  assert (Hin : forall p, In p sorted <-> In p predictions /\ cluster_id p <> None).
  { intro p. unfold sorted. rewrite js_sort_In. unfold known.
    rewrite filter_In. destruct (cluster_id p); split; intros [H1 H2];
      split; auto; congruence. }
  split.
  { rewrite length_map. unfold indexed. rewrite length_combine, length_seq.
    apply Nat.min_id. }
  split; [exact Hlen|].
  split.
  { clear - Hs1. induction Hs1 as [|x l Hl IH Hx]; constructor; [exact IH|].
    revert Hx. apply Forall_impl. intro y. apply anomaly_cmp_le_iff. }
  split.
  { intros p Hp. apply Hin. rewrite <- (firstn_skipn 5 sorted).
    apply in_or_app. left. exact Hp. }
  split.
  { intros p q Hp Hc Hq.
    assert (Hp' : In p sorted) by (apply Hin; auto).
    rewrite <- (firstn_skipn 5 sorted) in Hp'.
    apply in_app_or in Hp'. destruct Hp' as [Hp'|Hp']; [left; exact Hp'|].
    right. apply anomaly_cmp_le_iff, Hs2; assumption. }
  intros i sg Hsg.
  rewrite nth_error_map in Hsg. unfold indexed in Hsg.
  rewrite nth_error_combine_seq in Hsg.
  destruct (nth_error (firstn 5 sorted) i) as [pred|] eqn:E;
    [|discriminate].
  cbn in Hsg. injection Hsg as <-.
  exists pred. split; [reflexivity|].
  cbn [sg_state sg_district sg_confidence sg_score suggestionOf].
  split; [reflexivity|]. split; [reflexivity|]. split; [reflexivity|].
  split; [apply Qabs_nonneg|].
  assert (Hi : (i < List.length (firstn 5 sorted))%nat).
  { apply nth_error_Some. congruence. }
  split; lia.
Qed.

(* ------------------------------------------------------------------ *)
(** ** The scored allocator without the planner never allocates twice *)

Lemma allocateMLItem_account
      (haversineDistanceKm : Coordinates -> Coordinates -> Q) (exp : Q -> Q)
      (env : Env) (batches0 : list Batch) (request : Request)
      (dispatch : Time) (boost : Q) (ngoNode : Node) (warehouses : list Node)
      (st st' : MLState) (item : RequestItem) :
  account_ok batches0 (ml_unusedBatches st, ml_allocations st) ->
  allocateMLItem haversineDistanceKm exp env request dispatch boost ngoNode
                 warehouses st item = Some st' ->
  account_ok batches0 (ml_unusedBatches st', ml_allocations st').
Proof.
  intros (I1 & I2 & I3 & I4) H. cbn [fst snd] in I1, I2, I3, I4.
  destruct (allocateMLItem_inv haversineDistanceKm exp env request dispatch
              boost ngoNode warehouses st item) as (s2 & E2 & Hcases).
  rewrite E2 in H. injection H as <-.
  destruct Hcases as [(_ & ->)|(w & u' & remaining & used & Hw & Hc & ->)].
  { repeat split; assumption. }
  destruct (selectBest_ok haversineDistanceKm exp env ngoNode
              (ml_unusedBatches st) item dispatch boost warehouses w Hw)
    as (q & Hperm & _).
  apply consumeBatches_account in Hc;
    [|exact I1
     |apply (Permutation_NoDup
               (Permutation_map _id (Permutation_sym Hperm)));
      apply NoDup_map_filter; exact I1
     |intros c Hc'; apply (Permutation_in _ Hperm) in Hc';
      apply filter_In in Hc'; apply Hc'
     |exact I2].
  destruct Hc as (N1 & N2 & new & U1 & U2 & U3 & U4 & U5).
  cbn [app] in U1. subst used.
  unfold account_ok. cbn [fst snd ml_unusedBatches ml_allocations].
  split; [exact N1|]. split; [exact N2|]. split.
  - intro i. rewrite allocated_from_app. simpl.
    specialize (I3 i). specialize (U4 i). lra.
  - rewrite allocated_total_app. simpl. lra.
Qed.

(** X25: without the transfer planner the scored allocator never allocates
    food twice.  On a snapshot whose batches have distinct identifiers and
    no negative quantity, the quantities that all the allocation records of
    a run take from one batch add up to at most the quantity of that batch,
    and the [allocated_kg] of all the records add up to at most the stock
    of the snapshot. *)
Theorem allocateML_never_oversells
        (haversineDistanceKm : Coordinates -> Coordinates -> Q)
        (exp : Q -> Q) (ngoOrgs : list NgoOrg) (now : Time)
        (predict : list Node -> list Request -> list Batch ->
                   CallOutcome (option (list MlResult)))
        (planTransfers : PlannerRequest ->
                         CallOutcome (option (list TransferSuggestion)))
        (options : Options) (env : Env) (requests : list Request)
        (batches0 : list Batch) (warehouses ngos : list Node)
        (allocations : list Allocation) (trace : TransferPlannerDebug) :
  canUseTransferPlanner options env = false ->
  NoDup (map _id batches0) ->
  Forall (fun b => 0 <= quantity_kg b) batches0 ->
  allocateML haversineDistanceKm exp ngoOrgs now predict planTransfers
             options env requests batches0 warehouses ngos
  = Some (allocations, trace) ->
  (forall b0, In b0 batches0 ->
              allocated_from (_id b0) allocations <= quantity_kg b0)
  /\ allocated_total allocations <= total_kg batches0.
Proof.
  intros Hoff Hnd Hpos H.
  assert (Hcron : useTransferPlannerCron options env = false).
  { unfold useTransferPlannerCron. rewrite Hoff. reflexivity. }
  unfold allocateML in H. rewrite Hoff, Hcron in H.
  simpl andb in H. cbv iota in H.
  match type of H with
  | match foldM ?f ?l ?s with _ => _ end = _ =>
      destruct (foldM f l s) as [st|] eqn:E; [|discriminate]
  end.
  injection H as <- _.
  assert (Hinv : account_ok batches0 (ml_unusedBatches st, ml_allocations st)).
  { revert E.
    apply (foldM_invariant
             _ (fun s => account_ok batches0
                                    (ml_unusedBatches s, ml_allocations s))).
    - intros s request s' Hs Hreq. unfold allocateMLRequest in Hreq.
      rewrite Hcron in Hreq.
      destruct (find _ ngoOrgs) as [ngoOrg|];
        [|injection Hreq as <-; exact Hs].
      destruct (find _ ngos) as [ngoNode|];
        [|injection Hreq as <-; exact Hs].
      revert Hreq.
      apply (foldM_invariant
               _ (fun s => account_ok batches0
                                      (ml_unusedBatches s, ml_allocations s)));
        [|exact Hs].
      intros s1 item s2 Hs1 Hitem.
      apply (allocateMLItem_account _ _ _ _ _ _ _ _ _ _ _ _ Hs1 Hitem).
    - unfold account_ok. simpl.
      split; [exact Hnd|]. split; [exact Hpos|].
      split; [intro i; lra | lra]. }
  destruct Hinv as (I1 & I2 & I3 & I4). cbn [fst snd] in *.
  split.
  - intros b0 Hb0. specialize (I3 (_id b0)).
    rewrite (stock_of_unique batches0 b0 Hnd Hb0) in I3.
    assert (H0 := stock_of_nonneg (_id b0) (ml_unusedBatches st) I2). lra.
  - assert (H0 := total_kg_nonneg' (ml_unusedBatches st) I2). lra.
Qed.

Lemma allocateML_never_oversells_witness :
  exists allocations trace,
    allocateML gridDistanceKm exampleExp ngo_orgs 0 predictDown plannerDown
               noOptions defaultEnv [scenario2_request] scenario2_batches
               [warehouseB; warehouseA] [ngo_node]
    = Some (allocations, trace)
    /\ allocated_from "bA" allocations <= 60
    /\ allocated_total allocations <= total_kg scenario2_batches.
Proof.
  eexists. eexists.
  match goal with
  | |- ?L = ?R /\ _ => assert (E : L = R) by (vm_compute; reflexivity)
  end.
  split; [exact E|].
  assert (Hnd : NoDup (map _id scenario2_batches)).
  { simpl. constructor; [intros [H|[]]; discriminate|].
    constructor; [intros []|constructor]. }
  assert (Hpos : Forall (fun b => 0 <= quantity_kg b) scenario2_batches).
  { repeat constructor; simpl; discriminate. }
  assert (Hoff : canUseTransferPlanner noOptions defaultEnv = false)
    by reflexivity.
  destruct (allocateML_never_oversells _ _ _ _ _ _ _ _ _ _ _ _ _ _
              Hoff Hnd Hpos E) as [H1 H2].
  split; [|exact H2].
  exact (H1 (mk_batch "bA" "rice" "wA" 60 (Some 0%Z) (Some 48))
            (or_introl eq_refl)).
Defined.

(* ------------------------------------------------------------------ *)
(** ** The metrics of a scored run report no spoiled delivery *)

Lemma calculateFreshnessPct_nonneg (b : Batch) (t : Time) (temp : Q) :
  0 <= calculateFreshnessPct b t temp.
Proof.
  unfold calculateFreshnessPct.
  destruct (manufacture_date b) as [m|]; [|lra].
  destruct (shelf_life_hours b) as [life|]; [|lra].
  destruct (Qle_bool life 0); [lra|].
  match goal with
  | |- context [Qmax_b 0 ?x] =>
      assert (K : round2 0 <= round2 (Qmax_b 0 x))
        by (apply round2_mono;
            destruct (Qmax_b_cases 0 x) as [[H ->]|[H ->]]; lra)
  end.
  assert (Z0 := round2_zero). lra.
Qed.

Section ScoredFreshness.
Variable haversineDistanceKm : Coordinates -> Coordinates -> Q.
Variable exp : Q -> Q.
Variable ngoOrgs : list NgoOrg.
Variable now : Time.
Variable predict :
  list Node -> list Request -> list Batch ->
  CallOutcome (option (list MlResult)).
Variable planTransfers :
  PlannerRequest -> CallOutcome (option (list TransferSuggestion)).
Variable options : Options.
Variable env : Env.

(** The freshness entered for a lot of a record is not negative. *)
Lemma allocateML_freshness_nonneg (requests : list Request)
      (batches0 : list Batch) (warehouses ngos : list Node)
      (allocations : list Allocation) (trace : TransferPlannerDebug) :
  allocateML haversineDistanceKm exp ngoOrgs now predict planTransfers
             options env requests batches0 warehouses ngos
  = Some (allocations, trace) ->
  Forall (fun a => Forall (fun u => 0 <= freshness u) (batches a))
         allocations.
Proof.
  set (P := fun a : Allocation =>
              Forall (fun u => 0 <= freshness u) (batches a)).
  set (Inv := fun s : MLState => Forall P (ml_allocations s)).
  unfold allocateML. intro H.
  match type of H with
  | match foldM ?f ?l ?s with _ => _ end = _ =>
      destruct (foldM f l s) as [st|] eqn:E; [|discriminate];
        assert (Hinv : Inv s)
  end.
  { destruct (canUseTransferPlanner options env
              && negb (useTransferPlannerCron options env)).
    - unfold Inv.
      match goal with
      | |- context [transferPlannerStep _ _ _ _ _ ?r ?a ?b ?s] =>
          destruct (transferPlannerStep_rebalanced
                      planTransfers (plannerTuning options env) warehouses
                      options now r a b s) as [K _]
      end.
      rewrite K. constructor.
    - constructor. }
  injection H as <- _.
  revert E. apply (foldM_invariant _ Inv); [|exact Hinv].
  intros s request s' Hs Hreq. unfold allocateMLRequest in Hreq.
  destruct (find _ ngoOrgs) as [ngoOrg|]; [|injection Hreq as <-; exact Hs].
  destruct (find _ ngos) as [ngoNode|]; [|injection Hreq as <-; exact Hs].
  revert Hreq. apply (foldM_invariant _ Inv).
  - intros s1 item s2 Hs1 Hitem.
    match type of Hitem with
    | allocateMLItem _ _ _ ?rq ?d ?b ?n ?w ?s ?i = _ =>
        destruct (allocateMLItem_inv haversineDistanceKm exp env rq d b n w
                                     s i) as (s3 & E3 & Hcases)
    end.
    rewrite E3 in Hitem. injection Hitem as <-.
    destruct Hcases as [(_ & ->)|(w & u' & remaining & used & _ & Hc & ->)];
      [exact Hs1|].
    unfold Inv. cbn [ml_allocations].
    apply Forall_app. split; [exact Hs1|].
    constructor; [|constructor].
    unfold P. cbn [batches].
    destruct (consumeBatches_spec _ _ _ _ _ _ _ _ Hc)
      as (new & Hused & _ & _ & _ & Hall & _).
    cbn [app] in Hused. subst new.
    clear - Hall. induction Hall as [|u b l l' (_ & Hf & _) _ IH];
      constructor; [|exact IH].
    rewrite Hf. apply calculateFreshnessPct_nonneg.
  - destruct (useTransferPlannerCron options env); [|exact Hs].
    destruct (transferPlannerCronHoursOf options env) as [hours|];
      [|exact Hs].
    unfold Inv.
    match goal with
    | |- context [cronSchedule _ _ _ _ _ ?m ?h ?d ?s0] =>
        destruct (cronSchedule_rebalanced
                    planTransfers (plannerTuning options env) warehouses
                    options now m h d s0) as [K _]
    end.
    rewrite K. exact Hs.
Qed.
End ScoredFreshness.

Lemma deliverUsed_fresh (byId : list (string * Batch)) (avgTempC : Q)
      (deliveryTime : Time) (acc : Delivered) (used : UsedBatch) :
  (0 < quantity used ->
   0 < freshnessAtDeliveryOf byId avgTempC deliveryTime used) ->
  acc_deliveredSpoiledKg (deliverUsed byId avgTempC deliveryTime acc used)
  = acc_deliveredSpoiledKg acc.
Proof.
  intro H. unfold deliverUsed.
  destruct (Qle_bool (quantity used) 0) eqn:E; [reflexivity|].
  apply Qle_bool_false in E. specialize (H E).
  apply Qle_bool_false in H. rewrite H. reflexivity.
Qed.

Lemma deliverAllocation_fresh (byId : list (string * Batch)) (avgTempC : Q)
      (acc : Delivered) (alloc : Allocation) :
  Forall (fun used =>
            0 < quantity used ->
            0 < freshnessAtDeliveryOf
                  byId avgTempC
                  (deliveryTimeOf (dispatchTime alloc)
                                  (estimateTravelHours (distance_km alloc)))
                  used)
         (batches alloc) ->
  acc_deliveredSpoiledKg (deliverAllocation byId avgTempC acc alloc)
  = acc_deliveredSpoiledKg acc.
Proof.
  unfold deliverAllocation.
  generalize (deliveryTimeOf (dispatchTime alloc)
                             (estimateTravelHours (distance_km alloc))) as t.
  intros t H. revert acc.
  induction H as [|u l Hu Hl IH]; intro acc; [reflexivity|].
  cbn [fold_left]. rewrite IH. apply deliverUsed_fresh, Hu.
Qed.

(** X26: the metrics of a scored run report no spoiled delivery.  On a
    snapshot whose batches have distinct identifiers, none of them the
    beginning of another (as with the identifiers of the database, which
    all have the same length), the metrics computed at the default
    temperature from the records of the scored allocator, as it returned
    them, count no quantity as spoiled at delivery: whatever the services
    answer and whether the planner moved lots or not. *)
Theorem scored_run_reports_no_spoiled_delivery
        (haversineDistanceKm : Coordinates -> Coordinates -> Q)
        (exp : Q -> Q) (ngoOrgs : list NgoOrg) (now : Time)
        (predict : list Node -> list Request -> list Batch ->
                   CallOutcome (option (list MlResult)))
        (planTransfers : PlannerRequest ->
                         CallOutcome (option (list TransferSuggestion)))
        (options : Options) (env : Env) (requests requested : list Request)
        (batches0 : list Batch) (warehouses ngos : list Node)
        (allocations : list Allocation) (trace : TransferPlannerDebug) :
  NoDup (map _id batches0) ->
  (forall b b', In b batches0 -> In b' batches0 ->
                String.prefix (_id b) (_id b') = true -> _id b = _id b') ->
  allocateML haversineDistanceKm exp ngoOrgs now predict planTransfers
             options env requests batches0 warehouses ngos
  = Some (allocations, trace) ->
  deliveredSpoiledKg
    (calcMetrics allocations requested (batchesById batches0)
                 defaultAvgTemp)
  == 0.
Proof.
  intros Hnd Hpre H.
  assert (Hok := allocateML_ok _ _ _ _ _ _ _ _ _ _ _ _ _ _ H).
  assert (Hfr := allocateML_freshness_nonneg _ _ _ _ _ _ _ _ _ _ _ _ _ _ H).
  clear H. unfold calcMetrics.
  destruct allocations as [|a0 l0] eqn:El; [reflexivity|].
  rewrite <- El in *. clear El a0 l0.
  cbn [deliveredSpoiledKg].
  assert (G : forall acc,
             acc_deliveredSpoiledKg
               (fold_left (deliverAllocation (batchesById batches0)
                                             defaultAvgTemp)
                          allocations acc)
             = acc_deliveredSpoiledKg acc).
  { induction allocations as [|a l IH]; intro acc; [reflexivity|].
    inversion Hok as [|? ? Ha Hl]; subst.
    inversion Hfr as [|? ? Fa Fl]; subst.
    cbn [fold_left]. rewrite (IH Hl Fl).
    apply deliverAllocation_fresh.
    destruct Ha as (_ & _ & _ & Hu).
    rewrite Forall_forall in Hu, Fa |- *.
    intros u Hin _. unfold freshnessAtDeliveryOf.
    destruct (mapGet (batchesById batches0) (batchId u)) as [b'|] eqn:Eb.
    - apply mapGet_In in Eb. unfold batchesById in Eb.
      apply in_map_iff in Eb. destruct Eb as (b1 & Eb1 & Hb1).
      injection Eb1 as Eid <-.
      destruct (Hu u Hin) as (b0 & Hb0 & Hp & _ & _ & Hfresh).
      rewrite <- Eid in Hp.
      assert (b0 = b1) by (apply (NoDup_id_eq batches0); auto).
      subst b1. exact Hfresh.
    - specialize (Fa u Hin).
      destruct (Qeq_bool (freshness u) 0) eqn:Ez; [reflexivity|].
      apply Qeq_bool_neq in Ez.
      destruct (Qle_lt_or_eq _ _ Fa) as [K|K]; [exact K|].
      exfalso. apply Ez. symmetry. exact K. }
  rewrite G. apply round2_zero.
Qed.

Lemma scored_run_reports_no_spoiled_delivery_witness :
  exists allocations trace,
    allocateML gridDistanceKm exampleExp ngo_orgs 0 predictDown plannerMoves
               cronOptions defaultEnv [scenario2_request] imbalanced_batches
               [warehouseB; warehouseA] [ngo_node]
    = Some (allocations, trace)
    /\ deliveredSpoiledKg
         (calcMetrics allocations [scenario2_request]
                      (batchesById imbalanced_batches) defaultAvgTemp)
       == 0.
Proof.
  eexists. eexists.
  match goal with
  | |- ?L = ?R /\ _ => assert (E : L = R) by (vm_compute; reflexivity)
  end.
  split; [exact E|].
  assert (Hnd : NoDup (map _id imbalanced_batches)).
  { simpl. constructor; [intros [H|[]]; discriminate|].
    constructor; [intros []|constructor]. }
  assert (Hpre : forall b b',
             In b imbalanced_batches -> In b' imbalanced_batches ->
             String.prefix (_id b) (_id b') = true -> _id b = _id b').
  { intros b b' [<-|[<-|[]]] [<-|[<-|[]]] H;
      try reflexivity; vm_compute in H; discriminate. }
  apply (scored_run_reports_no_spoiled_delivery
           _ _ _ _ _ _ _ _ _ [scenario2_request] _ _ _ _ _ Hnd Hpre E).
Defined.

(* ------------------------------------------------------------------ *)
(** ** The history controller: spoilage from day to day *)

Lemma filter_map_swap {A B : Type} (f : A -> B) (p : B -> bool)
      (l : list A) :
  filter p (map f l) = map f (filter (fun x => p (f x)) l).
Proof.
  induction l as [|x l IH]; cbn [filter map]; [reflexivity|].
  destruct (p (f x)); cbn [map]; rewrite IH; reflexivity.
Qed.

Lemma filter_length_mono {A : Type} (p q : A -> bool) (l : list A) :
  (forall x, In x l -> p x = true -> q x = true) ->
  (List.length (filter p l) <= List.length (filter q l))%nat.
Proof.
  induction l as [|x l IH]; intro H; cbn [filter]; [lia|].
  assert (IH' := IH (fun y Hy => H y (or_intror Hy))).
  destruct (p x) eqn:E.
  - rewrite (H x (or_introl eq_refl) E). cbn [List.length]. lia.
  - destruct (q x); cbn [List.length]; lia.
Qed.

Lemma filter_Qsum_mono {A : Type} (w : A -> Q) (p q : A -> bool)
      (l : list A) :
  (forall x, In x l -> p x = true -> q x = true) ->
  Forall (fun x => 0 <= w x) l ->
  Qsum (map w (filter p l)) <= Qsum (map w (filter q l)).
Proof.
  induction l as [|x l IH]; intros H Hw; cbn [filter]; [apply Qle_refl|].
  inversion Hw as [|? ? Hx Hl]; subst.
  assert (IH' := IH (fun y Hy => H y (or_intror Hy)) Hl).
  destruct (p x) eqn:E.
  - rewrite (H x (or_introl eq_refl) E). cbn [map]. rewrite !Qsum_cons. lra.
  - destruct (q x); cbn [map]; [rewrite Qsum_cons|]; lra.
Qed.

Lemma spoiledBatches_eq (db : Db) (dayEnd : Time) :
  filter spoiledInFrame (batchesWithFreshness db dayEnd)
  = map (withFreshnessAt dayEnd) (filter (spoiledAt dayEnd) (db_batches db)).
Proof.
  unfold batchesWithFreshness, batchesCreatedBy.
  rewrite filter_map_swap, filter_filter. reflexivity.
Qed.

Lemma withFreshnessAt_quantity (dayEnd : Time) (b : Batch) :
  quantity_kg (withFreshnessAt dayEnd b) = quantity_kg b.
Proof. unfold withFreshnessAt. destruct (hasFreshnessData b); reflexivity. Qed.

Lemma spoiledAt_mono (d1 d2 : Time) (b : Batch) :
  (d1 <= d2)%Z -> spoiledAt d1 b = true -> spoiledAt d2 b = true.
Proof.
  intros Hd H. unfold spoiledAt in *.
  apply andb_true_iff in H. destruct H as [H1 H2].
  apply andb_true_iff. split.
  - destruct (createdAt b) as [t|]; [|discriminate].
    apply Z.leb_le in H1. apply Z.leb_le. lia.
  - unfold spoiledInFrame, withFreshnessAt in *.
    destruct (hasFreshnessData b); [|exact H2].
    cbn [status freshnessPct set_freshnessPct] in *.
    destruct (BatchStatus_eqb (status b) spoiled); [reflexivity|].
    cbn [orb] in *. apply Qle_bool_iff in H2. apply Qle_bool_iff.
    assert (K := calculateFreshnessPct_mono b d1 d2 25 Hd). lra.
Qed.

(** X27: spoilage never recovers in the history.  On the same data, a batch
    listed as spoiled in the frame of a day is listed as spoiled in the
    frame of every later day, so the number of spoiled batches never
    decreases from a day to a later one, and neither does the spoiled
    quantity when no batch has a negative quantity. *)
Theorem spoilage_never_recovers (db : Db) (d1 d2 : Time) :
  (d1 <= d2)%Z ->
  (forall b, In b (db_batches db) ->
             In (withFreshnessAt d1 b)
                (filter spoiledInFrame (batchesWithFreshness db d1)) ->
             In (withFreshnessAt d2 b)
                (filter spoiledInFrame (batchesWithFreshness db d2)))
  /\ (spoiled_batch_count (spoilageKpis db d1)
      <= spoiled_batch_count (spoilageKpis db d2))%nat
  /\ (Forall (fun b => 0 <= quantity_kg b) (db_batches db) ->
      spoiled_kg (spoilageKpis db d1) <= spoiled_kg (spoilageKpis db d2)).
Proof.
  intro Hd. unfold spoilageKpis. cbn [spoiled_batch_count spoiled_kg].
  rewrite !spoiledBatches_eq.
  split; [|split].
  - intros b Hb H. apply in_map_iff in H.
    destruct H as (b' & Eb & Hb'). apply filter_In in Hb'.
    destruct Hb' as [Hin Hs].
    apply in_map_iff. exists b. split; [reflexivity|].
    apply filter_In. split; [exact Hb|].
    apply (spoiledAt_mono d1 d2 b Hd).
    (* the batch itself is spoiled at [d1]: it has the frame entry of [b'] *)
    unfold spoiledAt in Hs |- *.
    apply andb_true_iff in Hs. destruct Hs as [Hs1 Hs2].
    rewrite Eb in Hs2.
    assert (Hc : createdAt b = createdAt b').
    { assert (K : forall x, createdAt (withFreshnessAt d1 x) = createdAt x).
      { intro x. unfold withFreshnessAt.
        destruct (hasFreshnessData x); reflexivity. }
      rewrite <- (K b), <- (K b'), Eb. reflexivity. }
    rewrite Hc, Hs1, Hs2. reflexivity.
  - rewrite !length_map. apply filter_length_mono.
    intros b _. apply spoiledAt_mono, Hd.
  - intro Hq. rewrite !map_map.
    rewrite (map_ext _ quantity_kg (withFreshnessAt_quantity d1)).
    rewrite (map_ext _ quantity_kg (withFreshnessAt_quantity d2)).
    apply filter_Qsum_mono; [|exact Hq].
    intros b _. apply spoiledAt_mono, Hd.
Qed.

Lemma spoilage_never_recovers_witness :
  (spoiled_batch_count (spoilageKpis spoilage_db (24 * hour_ms))
   <= spoiled_batch_count (spoilageKpis spoilage_db (48 * hour_ms)))%nat.
Proof.
  apply (spoilage_never_recovers spoilage_db (24 * hour_ms) (48 * hour_ms)).
  unfold hour_ms. lia.
Defined.
